(** * Health Star Rating engine of ecodish365: a shallow embedding

    The development follows the Python package [hsr_calculator/hsr]:
    [models/category.py], [models/food.py], [models/meal.py],
    [utils/food_group_mapper.py], [utils/meal_categorizer.py],
    [providers/threshold_provider.py] and [calculators/hsr_calculator.py].
    Each class is a module here, each method a definition of the same
    name.

    Numbers.  A Python [float] is modelled as an exact rational, extended
    with the two infinities and NaN; rounding of the binary representation
    is not modelled.  Python [int]s are [Z].  Comparisons between an [int]
    and a [float] are exact in Python, so a threshold list that mixes the
    two is a list of [pyfloat].

    Text.  Food names are ASCII strings; messages built with formatted
    numbers are kept as data, not as text.

    Objects.  A dataclass is a record; an attribute that may not have been
    assigned is an [option].  A raised exception is [None].  The methods of
    the calculator receive the calculator object and return it with their
    result. *)

(** Beside the package, [HSRResult.get_priority_recommendations] of
    [models/hsr_result.py], the mapping of food groups of
    [hsr_calculator/main.py] and the input check and the computation of
    the view [calculate_hsr] of [api/views/hsr_views_consolidated.py] are
    embedded. *)

From stdpp Require Import base gmap strings list sorting.
From Stdlib Require Import ZArith QArith Qround Qabs Lia Lqa Ascii.
From Stdlib Require Import Floats.

Local Open Scope Z_scope.

(** ** Python numbers *)

Module PyNum.

Inductive pyfloat : Type :=
| NaN
| NegInf
| Fin (q : Q)
| PosInf.

Definition Qltb (x y : Q) : bool := negb (Qle_bool y x).

(** [a < b] on floats: false as soon as one side is NaN. *)
Definition flt (a b : pyfloat) : bool :=
  match a, b with
  | NaN, _ | _, NaN => false
  | NegInf, NegInf => false
  | NegInf, _ => true
  | Fin x, Fin y => Qltb x y
  | Fin _, PosInf => true
  | Fin _, NegInf => false
  | PosInf, _ => false
  end.

(** [a <= b]. *)
Definition fle (a b : pyfloat) : bool :=
  match a, b with
  | NaN, _ | _, NaN => false
  | NegInf, _ => true
  | Fin x, Fin y => Qle_bool x y
  | Fin _, PosInf => true
  | Fin _, NegInf => false
  | PosInf, PosInf => true
  | PosInf, _ => false
  end.

(** [a == b]. *)
Definition feq (a b : pyfloat) : bool :=
  match a, b with
  | NegInf, NegInf | PosInf, PosInf => true
  | Fin x, Fin y => Qeq_bool x y
  | _, _ => false
  end.

Definition of_int (z : Z) : pyfloat := Fin (inject_Z z).

(** [int(x)] on a finite float: truncation toward zero. *)
Definition py_int (q : Q) : Z :=
  if Qle_bool 0 q then Qfloor q else Qceiling q.

(** [max(a, b)] and [min(a, b)] on finite floats (Python returns the
    first argument on a tie). *)
Definition Qmax (a b : Q) : Q := if Qltb a b then b else a.
Definition Qmin (a b : Q) : Q := if Qltb b a then b else a.

End PyNum.
Export PyNum.

(** ** Binary64 arithmetic

    The kernel's primitive floats are IEEE 754 binary64 with rounding to
    nearest even, as Python's [float] is.  They are used to check, on the
    finitely many inputs that occur, that a computation on exact rationals
    gives what the floating-point computation gives. *)

Module Binary64.

(** [float(z)] for a small non-negative integer. *)
Definition of_int (z : Z) : float := PrimFloat.of_uint63 (Uint63.of_Z z).

(** [int(x)] on a finite float: truncation toward zero. *)
Definition to_int (x : float) : Z :=
  match Prim2SF x with
  | S754_finite negative m e =>
      let magnitude :=
        if 0 <=? e then Z.pos m * 2 ^ e else Z.pos m / 2 ^ (- e) in
      if negative then - magnitude else magnitude
  | _ => 0
  end.

(** [int(n * 0.7 + a * 1.3)] for integers [n] and [a]; the two literals
    are the binary64 values nearest to 0.7 and 1.3. *)
Definition sugar_blend (n a : Z) : Z :=
  to_int (of_int n * 0x1.6666666666666p-1
          + of_int a * 0x1.4cccccccccccdp+0)%float.

End Binary64.

(** ** [bisect.bisect_left] of the Python standard library

    <<
    while lo < hi:
        mid = (lo + hi) // 2
        if a[mid] < x: lo = mid + 1
        else: hi = mid
    return lo
    >>
    The loop is run on fuel; [bisect_left] supplies [len(a)] units, which
    the interval [hi - lo] never exceeds. *)

Module bisect.

Fixpoint loop (fuel : nat) (a : list pyfloat) (x : pyfloat) (lo hi : nat) : nat :=
  match fuel with
  | O => lo
  | S fuel' =>
      if (lo <? hi)%nat then
        let mid := ((lo + hi) / 2)%nat in
        if flt (nth mid a NaN) x
        then loop fuel' a x (mid + 1)%nat hi
        else loop fuel' a x lo mid
      else lo
  end.

Definition bisect_left (a : list pyfloat) (x : pyfloat) : nat :=
  loop (length a) a x 0%nat (length a).

End bisect.

(** ** Specification vocabulary for threshold lists *)

(** Number of thresholds strictly below [v], and at most [v]. *)
Fixpoint count_lt (v : pyfloat) (t : list pyfloat) : nat :=
  match t with
  | [] => 0%nat
  | x :: t' => ((if flt x v then 1 else 0) + count_lt v t')%nat
  end.

Fixpoint count_le (v : pyfloat) (t : list pyfloat) : nat :=
  match t with
  | [] => 0%nat
  | x :: t' => ((if fle x v then 1 else 0) + count_le v t')%nat
  end.

(** A list is non-decreasing when every earlier element is [<=] every later
    one. *)
Definition nondecreasing (t : list pyfloat) : Prop :=
  forall i j, (i < j)%nat -> (j < length t)%nat ->
              fle (nth i t NaN) (nth j t NaN) = true.

(** Executable check of the same property on adjacent elements. *)
Fixpoint nondecreasingb (t : list pyfloat) : bool :=
  match t with
  | [] => true
  | x :: t' =>
      match t' with
      | [] => true
      | y :: _ => fle x y && nondecreasingb t'
      end
  end.

(** ** [HSRCalculator._get_points_by_thresholds]

    <<
    if not thresholds or thresholds[0] == float('inf'):
        return 0
    idx = bisect.bisect_left(thresholds, value)
    return min(idx, len(thresholds) - 1)
    >> *)

Definition _get_points_by_thresholds (value : pyfloat) (thresholds : list pyfloat) : Z :=
  match thresholds with
  | [] => 0
  | t0 :: _ =>
      if feq t0 PosInf then 0
      else
        let idx := bisect.bisect_left thresholds value in
        Z.min (Z.of_nat idx) (Z.of_nat (length thresholds) - 1)
  end.

(** ** Python strings

    Food names are modelled as ASCII strings.  [lower] is [str.lower],
    [contains sub s] is [sub in s], and [search_word] is
    [re.search(r'\b' + re.escape(keyword) + r'\b', text, re.IGNORECASE)]. *)

Module Text.

Definition is_upper (c : ascii) : bool :=
  let n := nat_of_ascii c in ((65 <=? n) && (n <=? 90))%nat.

Definition is_lower (c : ascii) : bool :=
  let n := nat_of_ascii c in ((97 <=? n) && (n <=? 122))%nat.

Definition is_digit (c : ascii) : bool :=
  let n := nat_of_ascii c in ((48 <=? n) && (n <=? 57))%nat.

Definition lower_char (c : ascii) : ascii :=
  if is_upper c then ascii_of_nat (nat_of_ascii c + 32) else c.

Fixpoint lower (s : string) : string :=
  match s with
  | EmptyString => EmptyString
  | String c s' => String (lower_char c) (lower s')
  end.

Fixpoint starts_with (p s : string) : bool :=
  match p, s with
  | EmptyString, _ => true
  | String a p', String b s' => Ascii.eqb a b && starts_with p' s'
  | String _ _, EmptyString => false
  end.

(** [sub in s]. *)
Fixpoint contains (sub s : string) : bool :=
  starts_with sub s
  || match s with
     | EmptyString => false
     | String _ s' => contains sub s'
     end.

(** [any(term in s for term in terms)]. *)
Definition any_in (terms : list string) (s : string) : bool :=
  existsb (fun term => contains term s) terms.

(** The class [\w] on ASCII text: letters, digits and the underscore. *)
Definition is_word_char (c : ascii) : bool :=
  is_upper c || is_lower c || is_digit c || Ascii.eqb c "_"%char.

Definition is_word (c : option ascii) : bool :=
  match c with
  | Some c => is_word_char c
  | None => false
  end.

(** [\b] between two neighbouring positions; [None] is the outside of the
    text. *)
Definition word_boundary (before after : option ascii) : bool :=
  xorb (is_word before) (is_word after).

Definition head (s : string) : option ascii :=
  match s with
  | EmptyString => None
  | String c _ => Some c
  end.

(** Matches the escaped keyword, ignoring case, at the start of [s], then
    [\b]; [prev] is the character before the current position. *)
Fixpoint match_keyword (kw s : string) (prev : option ascii) : bool :=
  match kw with
  | EmptyString => word_boundary prev (head s)
  | String k kw' =>
      match s with
      | EmptyString => false
      | String c s' =>
          Ascii.eqb (lower_char k) (lower_char c)
          && match_keyword kw' s' (Some c)
      end
  end.

(** [re.search]: the pattern is tried at every position, the end of the
    text included. *)
Fixpoint search_from (kw s : string) (prev : option ascii) : bool :=
  (word_boundary prev (head s) && match_keyword kw s prev)
  || match s with
     | EmptyString => false
     | String c s' => search_from kw s' (Some c)
     end.

Definition search_word (kw text : string) : bool := search_from kw text None.

End Text.

(** ** [models/category.py] *)

Inductive Category : Type :=
| BEVERAGE
| DAIRY_BEVERAGE
| FOOD
| DAIRY_FOOD
| OILS_AND_SPREADS
| CHEESE.

Definition Category_eqb (a b : Category) : bool :=
  match a, b with
  | BEVERAGE, BEVERAGE | DAIRY_BEVERAGE, DAIRY_BEVERAGE | FOOD, FOOD
  | DAIRY_FOOD, DAIRY_FOOD | OILS_AND_SPREADS, OILS_AND_SPREADS
  | CHEESE, CHEESE => true
  | _, _ => false
  end.

(** [Category.value]. *)
Definition Category_value (c : Category) : string :=
  match c with
  | BEVERAGE => "1"
  | DAIRY_BEVERAGE => "1D"
  | FOOD => "2"
  | DAIRY_FOOD => "2D"
  | OILS_AND_SPREADS => "3"
  | CHEESE => "3D"
  end.

(** [d.get(k, default)] on a dictionary with integer keys, kept as the
    list of its items. *)
Fixpoint dict_get {V : Type} (d : list (Z * V)) (k : Z) (default : V) : V :=
  match d with
  | [] => default
  | (k', v) :: d' => if k =? k' then v else dict_get d' k default
  end.

(** ** [utils/food_group_mapper.py] *)

Module FoodGroupMapper.

Definition FOOD_GROUP_MAPPINGS : list (Z * Category) :=
  [ (1, DAIRY_FOOD); (2, FOOD); (3, FOOD); (4, OILS_AND_SPREADS); (5, FOOD);
    (6, FOOD); (7, FOOD); (8, FOOD); (9, FOOD); (10, FOOD); (11, FOOD);
    (12, FOOD); (13, FOOD); (14, BEVERAGE); (15, FOOD); (16, FOOD);
    (17, FOOD); (18, FOOD); (19, FOOD); (20, FOOD); (21, FOOD); (22, FOOD);
    (25, FOOD) ].

Definition CHEESE_KEYWORDS : list string :=
  [ "cheese"; "cheddar"; "mozzarella"; "parmesan"; "brie"; "camembert";
    "gouda"; "swiss"; "blue"; "feta"; "cottage cheese"; "cream cheese";
    "ricotta"; "provolone"; "gruyere" ]%string.

Definition BEVERAGE_KEYWORDS : list string :=
  [ "juice"; "drink"; "beverage"; "soda"; "cola"; "water"; "tea"; "coffee";
    "smoothie"; "shake"; "lemonade"; "cocktail"; "beer"; "wine"; "alcohol"
  ]%string.

Definition DAIRY_BEVERAGE_KEYWORDS : list string :=
  [ "milk"; "yogurt drink"; "kefir"; "buttermilk"; "chocolate milk";
    "flavoured milk"; "milk shake"; "dairy drink" ]%string.

Definition OIL_SPREAD_KEYWORDS : list string :=
  [ "oil"; "butter"; "margarine"; "spread"; "shortening"; "lard"; "ghee";
    "cooking fat"; "vegetable oil"; "olive oil" ]%string.

(** <<
    for keyword in keywords:
        pattern = r'\b' + re.escape(keyword) + r'\b'
        if re.search(pattern, text, re.IGNORECASE): return True
    return False
    >> *)
Definition _contains_keyword (text : string) (keywords : list string) : bool :=
  existsb (fun keyword => Text.search_word keyword text) keywords.

Definition get_category (food_group_id : Z) (food_name : string) : Category :=
  let food_name_lower := Text.lower food_name in
  let base_category := dict_get FOOD_GROUP_MAPPINGS food_group_id FOOD in
  if (food_group_id =? 1) && _contains_keyword food_name_lower CHEESE_KEYWORDS
  then CHEESE
  else if (food_group_id =? 1)
          && _contains_keyword food_name_lower DAIRY_BEVERAGE_KEYWORDS
  then DAIRY_BEVERAGE
  else if (food_group_id =? 9)
          && _contains_keyword food_name_lower BEVERAGE_KEYWORDS
  then BEVERAGE
  else if (food_group_id =? 14)
          && _contains_keyword food_name_lower DAIRY_BEVERAGE_KEYWORDS
  then DAIRY_BEVERAGE
  else if _contains_keyword food_name_lower OIL_SPREAD_KEYWORDS
  then OILS_AND_SPREADS
  else base_category.

(** The dictionary returned by [validate_category_assignment]. *)
Record AssignmentValidation : Type := {
  assignment_confidence : Q;
  assignment_warnings : list string;
  assignment_validated : bool
}.

Definition validate_category_assignment
  (food_group_id : Z) (food_name : string) (calculated_category : Category)
  : AssignmentValidation :=
  let confidence := 1%Q in
  let warnings := @nil string in
  let food_name_lower := Text.lower food_name in
  let '(confidence, warnings) :=
    if (food_group_id =? 1) && Category_eqb calculated_category FOOD
       && negb (Text.any_in ["egg"; "powder"; "substitute"]%string food_name_lower)
    then ((7 # 10)%Q,
          warnings ++ ["Dairy product classified as regular food"%string])
    else (confidence, warnings) in
  let '(confidence, warnings) :=
    if Category_eqb calculated_category BEVERAGE
       && negb (existsb (Z.eqb food_group_id) [9; 14])
    then ((8 # 10)%Q,
          warnings ++ ["Non-beverage group classified as beverage"%string])
    else (confidence, warnings) in
  {| assignment_confidence := confidence;
     assignment_warnings := warnings;
     assignment_validated := Qle_bool (8 # 10) confidence |}.

End FoodGroupMapper.

(** ** Specification vocabulary for keyword matching *)

(** Last character of [s], or [prev] when [s] is empty. *)
Fixpoint last_char (s : string) (prev : option ascii) : option ascii :=
  match s with
  | EmptyString => prev
  | String c s' => last_char s' (Some c)
  end.

(** [kw] occurs in [text] as a whole word, letter case ignored: the
    occurrence is neither preceded nor followed by a word character. *)
Definition whole_word_occurrence (kw text : string) : Prop :=
  exists pre mid post,
    text = String.append pre (String.append mid post) /\
    Text.lower mid = Text.lower kw /\
    Text.is_word (last_char pre None) = false /\
    Text.is_word (Text.head post) = false.

(** A keyword that begins and ends with a word character. *)
Definition wordy (kw : string) : bool :=
  Text.is_word (Text.head kw) && Text.is_word (last_char kw None).

(** The food name has a whole-word occurrence of one of the keywords. *)
Definition has_keyword (food_name : string) (keywords : list string) : Prop :=
  exists kw, In kw keywords /\ whole_word_occurrence kw food_name.

(** ** Python list helpers *)

(** [sum(...)] over floats, accumulated from the left as Python does. *)
Definition Qsum (l : list Q) : Q := fold_left Qplus l 0%Q.

(** [sum(1 for x in l if p(x))]. *)
Definition count_if {A : Type} (p : A -> bool) (l : list A) : Z :=
  Z.of_nat (length (List.filter p l)).

(** [k in [k1, k2, ...]] for an optional integer ([None] is in no list). *)
Definition opt_in (k : option Z) (ks : list Z) : bool :=
  match k with
  | Some k => existsb (Z.eqb k) ks
  | None => false
  end.

(** ** [providers/threshold_provider.py] *)

Module ThresholdProvider.

Record NutritionalContext : Type := {
  is_natural_sugar_dominant : bool;
  has_added_sugars : bool;
  satiety_index : Q;
  processing_level : string;
  liquid_percentage : Q;
  fiber_density : Q;
  protein_quality_score : Q;
  fvnl_naturalness : Q
}.

(** The threshold lists.  The base constants are integer literals and every
    adjustment goes through [int(...)], [max(0, t - 2)] or [t + 50], so the
    lists hold Python ints at run time; only [fiber] can hold the float
    [inf]. *)
Record HSRThresholds : Type := {
  energy_density : list Z;
  sugar_natural : list Z;
  sugar_added : list Z;
  saturated_fat : list Z;
  sodium : list Z;
  fvnl : list Z;
  protein : list Z;
  fiber : list pyfloat;
  star_rating : list Z;
  base_stars : Q
}.

Definition set_energy_density (l : list Z) (t : HSRThresholds) : HSRThresholds :=
  {| energy_density := l; sugar_natural := sugar_natural t;
     sugar_added := sugar_added t; saturated_fat := saturated_fat t;
     sodium := sodium t; fvnl := fvnl t; protein := protein t;
     fiber := fiber t; star_rating := star_rating t;
     base_stars := base_stars t |}.

Definition set_sugar_natural (l : list Z) (t : HSRThresholds) : HSRThresholds :=
  {| energy_density := energy_density t; sugar_natural := l;
     sugar_added := sugar_added t; saturated_fat := saturated_fat t;
     sodium := sodium t; fvnl := fvnl t; protein := protein t;
     fiber := fiber t; star_rating := star_rating t;
     base_stars := base_stars t |}.

Definition set_sugar_added (l : list Z) (t : HSRThresholds) : HSRThresholds :=
  {| energy_density := energy_density t; sugar_natural := sugar_natural t;
     sugar_added := l; saturated_fat := saturated_fat t;
     sodium := sodium t; fvnl := fvnl t; protein := protein t;
     fiber := fiber t; star_rating := star_rating t;
     base_stars := base_stars t |}.

Definition set_protein (l : list Z) (t : HSRThresholds) : HSRThresholds :=
  {| energy_density := energy_density t; sugar_natural := sugar_natural t;
     sugar_added := sugar_added t; saturated_fat := saturated_fat t;
     sodium := sodium t; fvnl := fvnl t; protein := l;
     fiber := fiber t; star_rating := star_rating t;
     base_stars := base_stars t |}.

Definition set_fiber (l : list pyfloat) (t : HSRThresholds) : HSRThresholds :=
  {| energy_density := energy_density t; sugar_natural := sugar_natural t;
     sugar_added := sugar_added t; saturated_fat := saturated_fat t;
     sodium := sodium t; fvnl := fvnl t; protein := protein t;
     fiber := l; star_rating := star_rating t;
     base_stars := base_stars t |}.

Definition ENERGY_DENSITY_THRESHOLDS : list Z :=
  [0; 50; 100; 150; 200; 250; 300; 400; 500; 600; 700].
Definition NATURAL_SUGAR_THRESHOLDS : list Z :=
  [0; 5; 8; 12; 15; 18; 22; 25; 28; 32; 35].
Definition ADDED_SUGAR_THRESHOLDS : list Z :=
  [0; 1; 2; 3; 4; 5; 6; 8; 10; 12; 15].
Definition SATURATED_FAT_THRESHOLDS : list Z :=
  [0; 1; 2; 3; 4; 5; 7; 9; 12; 15; 20].
Definition SODIUM_THRESHOLDS : list Z :=
  [0; 100; 200; 300; 400; 500; 600; 800; 1000; 1200; 1500].
Definition FVNL_THRESHOLDS : list Z :=
  [0; 25; 40; 50; 60; 67; 75; 80; 90; 95; 100].
Definition PROTEIN_THRESHOLDS : list Z :=
  [0; 3; 6; 10; 15; 20; 25; 30; 35; 40; 50].
Definition FIBER_THRESHOLDS : list Z :=
  [0; 1; 2; 3; 4; 5; 6; 8; 10; 12; 15].
Definition STAR_RATING_THRESHOLDS : list Z :=
  [-10; -5; 0; 5; 10; 15; 20; 25; 30; 35; 40].

(** [[int(threshold * factor) for threshold in l]]. *)
Definition scale (factor : Q) (l : list Z) : list Z :=
  List.map (fun threshold => py_int (inject_Z threshold * factor)) l.

(** [[int(threshold / divisor) for threshold in l]]. *)
Definition divide (divisor : Q) (l : list Z) : list Z :=
  List.map (fun threshold => py_int (inject_Z threshold / divisor)) l.

Definition _apply_contextual_adjustments
  (thresholds : HSRThresholds) (context : NutritionalContext) : HSRThresholds :=
  let thresholds :=
    if negb (Qeq_bool (satiety_index context) 1)
    then
      let satiety_factor := satiety_index context in
      set_energy_density (scale satiety_factor (energy_density thresholds))
                         thresholds
    else thresholds in
  let thresholds :=
    if String.eqb (processing_level context) "ultra_processed"
    then set_sugar_added (scale (8 # 10) (sugar_added thresholds)) thresholds
    else thresholds in
  let thresholds :=
    if Qltb (3 # 10) (liquid_percentage context)
    then
      let liquid_factor := (1 - liquid_percentage context * (3 # 10))%Q in
      let thresholds :=
        set_energy_density (scale liquid_factor (energy_density thresholds))
                           thresholds in
      set_sugar_natural (scale liquid_factor (sugar_natural thresholds))
                        thresholds
    else thresholds in
  if Qltb 1 (protein_quality_score context)
  then set_protein (divide (protein_quality_score context) (protein thresholds))
                   thresholds
  else thresholds.

Definition _apply_category_adjustments
  (thresholds : HSRThresholds) (category : Category) : HSRThresholds :=
  match category with
  | CHEESE =>
      set_protein (List.map (fun threshold => Z.max 0 (threshold - 2))
                            (protein thresholds))
                  thresholds
  | BEVERAGE | DAIRY_BEVERAGE =>
      set_fiber (List.repeat PosInf (length (fiber thresholds))) thresholds
  | OILS_AND_SPREADS =>
      set_energy_density (List.map (fun threshold => threshold + 50)
                                   (energy_density thresholds))
                         thresholds
  | FOOD | DAIRY_FOOD => thresholds
  end.

Definition get_thresholds
  (category : Category) (nutritional_context : option NutritionalContext)
  : HSRThresholds :=
  let thresholds :=
    {| energy_density := ENERGY_DENSITY_THRESHOLDS;
       sugar_natural := NATURAL_SUGAR_THRESHOLDS;
       sugar_added := ADDED_SUGAR_THRESHOLDS;
       saturated_fat := SATURATED_FAT_THRESHOLDS;
       sodium := SODIUM_THRESHOLDS;
       fvnl := FVNL_THRESHOLDS;
       protein := PROTEIN_THRESHOLDS;
       fiber := List.map of_int FIBER_THRESHOLDS;
       star_rating := STAR_RATING_THRESHOLDS;
       base_stars := 0 |} in
  let thresholds :=
    match nutritional_context with
    | Some context => _apply_contextual_adjustments thresholds context
    | None => thresholds
    end in
  _apply_category_adjustments thresholds category.

(** One entry of [foods_info], the dictionary built per food by
    [HSRCalculator._analyze_meal_context]. *)
Record FoodInfo : Type := {
  info_food_id : Z;
  info_food_name : string;
  info_serving_size : Q;
  info_food_group_id : option Z;
  info_food_form : string;
  info_processing_level : string;
  info_has_added_sugars : bool;
  info_protein_content : Q
}.

(** The [meal_nutrients] dictionary. *)
Record MealNutrients : Type := {
  mn_energy : Q;
  mn_protein : Q;
  mn_fiber : Q;
  mn_saturated_fat : Q;
  mn_sodium : Q;
  mn_sugars : Q
}.

Definition _count_natural_sugar_foods (foods_info : list FoodInfo) : Z :=
  count_if (fun food => opt_in (info_food_group_id food) [9; 11]) foods_info.

Definition _count_processed_foods (foods_info : list FoodInfo) : Z :=
  count_if (fun food => opt_in (info_food_group_id food) [1; 2; 3; 19]) foods_info.

Definition _calculate_liquid_percentage (foods_info : list FoodInfo) : Q :=
  match foods_info with
  | [] => 0
  | _ :: _ =>
      let total_weight := Qsum (List.map info_serving_size foods_info) in
      if Qeq_bool total_weight 0 then 0
      else
        let liquid_weight :=
          Qsum (List.map info_serving_size
                  (List.filter
                     (fun food =>
                        existsb (String.eqb (info_food_form food))
                                ["liquid"; "beverage"; "juice"])
                     foods_info)) in
        liquid_weight / total_weight
  end%Q.

Definition _calculate_satiety_index
  (meal_nutrients : MealNutrients) (foods_info : list FoodInfo) : Q :=
  let satiety_score := 1%Q in
  let protein := mn_protein meal_nutrients in
  let satiety_score :=
    if Qle_bool 20 protein then (satiety_score * (12 # 10))%Q
    else if Qle_bool 15 protein then (satiety_score * (115 # 100))%Q
    else if Qle_bool 10 protein then (satiety_score * (11 # 10))%Q
    else satiety_score in
  let fiber := mn_fiber meal_nutrients in
  let satiety_score :=
    if Qle_bool 10 fiber then (satiety_score * (12 # 10))%Q
    else if Qle_bool 6 fiber then (satiety_score * (115 # 100))%Q
    else if Qle_bool 3 fiber then (satiety_score * (11 # 10))%Q
    else satiety_score in
  let liquid_percentage := _calculate_liquid_percentage foods_info in
  let satiety_score :=
    if Qltb (5 # 10) liquid_percentage then (satiety_score * (7 # 10))%Q
    else if Qltb (2 # 10) liquid_percentage then (satiety_score * (85 # 100))%Q
    else satiety_score in
  let ultra_processed_count :=
    count_if (fun food => String.eqb (info_processing_level food) "ultra_processed")
             foods_info in
  let satiety_score :=
    if Qltb (inject_Z (Z.of_nat (length foods_info)) / 2)
            (inject_Z ultra_processed_count)
    then (satiety_score * (9 # 10))%Q
    else satiety_score in
  Qmax (5 # 10) (Qmin (15 # 10) satiety_score).

(** [processing_scores.get(level, 1)]. *)
Definition processing_score (level : string) : Z :=
  if String.eqb level "minimally_processed" then 1
  else if String.eqb level "processed" then 2
  else if String.eqb level "ultra_processed" then 3
  else 1.

Definition _determine_processing_level (foods_info : list FoodInfo) : string :=
  match foods_info with
  | [] => "minimally_processed"
  | _ :: _ =>
      let avg_processing :=
        (inject_Z
           (fold_left Z.add
              (List.map (fun food => processing_score (info_processing_level food))
                        foods_info) 0%Z)
         / inject_Z (Z.of_nat (length foods_info)))%Q in
      if Qle_bool (25 # 10) avg_processing then "ultra_processed"
      else if Qle_bool (15 # 10) avg_processing then "processed"
      else "minimally_processed"
  end.

Definition _calculate_protein_quality_score (foods_info : list FoodInfo) : Q :=
  match foods_info with
  | [] => 1
  | _ :: _ =>
      let protein_of food :=
        (info_serving_size food * info_protein_content food / 100)%Q in
      let total_protein_weight := Qsum (List.map protein_of foods_info) in
      if Qeq_bool total_protein_weight 0 then 1
      else
        let high_quality_protein :=
          Qsum (List.map protein_of
                  (List.filter
                     (fun food =>
                        opt_in (info_food_group_id food) [5; 6; 7; 8; 15; 16]%Z)
                     foods_info)) in
        let quality_ratio := high_quality_protein / total_protein_weight in
        1 + quality_ratio * (2 # 10)
  end%Q.

Definition _assess_fvnl_naturalness (foods_info : list FoodInfo) : Q :=
  match foods_info with
  | [] => 1
  | _ :: _ =>
      let whole_fvnl_foods :=
        count_if (fun food =>
                    opt_in (info_food_group_id food) [9; 11; 12; 16]%Z
                    && String.eqb (info_processing_level food) "minimally_processed")
                 foods_info in
      let total_fvnl_foods :=
        count_if (fun food => opt_in (info_food_group_id food) [9; 11; 12; 16]%Z)
                 foods_info in
      if (total_fvnl_foods =? 0)%Z then 1
      else inject_Z whole_fvnl_foods / inject_Z total_fvnl_foods
  end%Q.

Definition analyze_nutritional_context
  (meal_nutrients : MealNutrients) (foods_info : list FoodInfo)
  : NutritionalContext :=
  let natural_sugar_foods := _count_natural_sugar_foods foods_info in
  let processed_foods := _count_processed_foods foods_info in
  {| is_natural_sugar_dominant := processed_foods <? natural_sugar_foods;
     has_added_sugars := existsb info_has_added_sugars foods_info;
     satiety_index := _calculate_satiety_index meal_nutrients foods_info;
     processing_level := _determine_processing_level foods_info;
     liquid_percentage := _calculate_liquid_percentage foods_info;
     fiber_density := mn_fiber meal_nutrients;
     protein_quality_score := _calculate_protein_quality_score foods_info;
     fvnl_naturalness := _assess_fvnl_naturalness foods_info |}.

(** The nine threshold lists of an [HSRThresholds], as the lookup reads
    them. *)
Definition threshold_lists (t : HSRThresholds) : list (list pyfloat) :=
  [ List.map of_int (energy_density t); List.map of_int (sugar_natural t);
    List.map of_int (sugar_added t); List.map of_int (saturated_fat t);
    List.map of_int (sodium t); List.map of_int (fvnl t);
    List.map of_int (protein t); fiber t; List.map of_int (star_rating t) ].

(** [getattr(thresholds, nutrient, [])] for the names of the fields of
    [HSRThresholds]: a list, or the number [base_stars]; any other name
    gives the default [[]].  (Names of the special attributes every
    Python object has are left out.) *)
Inductive ThresholdAttribute : Type :=
| list_attribute (threshold_list : list pyfloat)
| number_attribute (number : Q).

Definition threshold_attribute
  (thresholds : HSRThresholds) (nutrient : string) : ThresholdAttribute :=
  if String.eqb nutrient "energy_density"
  then list_attribute (List.map of_int (energy_density thresholds))
  else if String.eqb nutrient "sugar_natural"
  then list_attribute (List.map of_int (sugar_natural thresholds))
  else if String.eqb nutrient "sugar_added"
  then list_attribute (List.map of_int (sugar_added thresholds))
  else if String.eqb nutrient "saturated_fat"
  then list_attribute (List.map of_int (saturated_fat thresholds))
  else if String.eqb nutrient "sodium"
  then list_attribute (List.map of_int (sodium thresholds))
  else if String.eqb nutrient "fvnl"
  then list_attribute (List.map of_int (fvnl thresholds))
  else if String.eqb nutrient "protein"
  then list_attribute (List.map of_int (protein thresholds))
  else if String.eqb nutrient "fiber"
  then list_attribute (fiber thresholds)
  else if String.eqb nutrient "star_rating"
  then list_attribute (List.map of_int (star_rating thresholds))
  else if String.eqb nutrient "base_stars"
  then number_attribute (base_stars thresholds)
  else list_attribute [].

(** <<
    points = 0
    for i, threshold in enumerate(threshold_list):
        if value >= threshold: points = i
        else: break
    >> *)
Fixpoint explanation_loop
  (value : pyfloat) (threshold_list : list pyfloat) (i points : nat) : nat :=
  match threshold_list with
  | [] => points
  | threshold :: rest =>
      if fle threshold value then explanation_loop value rest (S i) i
      else points
  end.

Definition _get_rationale (nutrient : string) (percentile : Q) : string :=
  let high := Qle_bool 70 percentile in
  let medium := Qle_bool 30 percentile in
  if String.eqb nutrient "energy_density" then
    if high
    then "High energy density requires portion awareness for weight management"
    else if medium
    then "Moderate energy density - balanced nutritional value"
    else "Low energy density foods promote satiety with fewer calories"
  else if String.eqb nutrient "sugar_natural" then
    if high
    then "High natural sugar content - consider portion sizes and pairing with protein/fiber"
    else if medium
    then "Moderate natural sugars from fruits - provides nutrients and fiber"
    else "Low natural sugar content - minimal impact on blood glucose"
  else if String.eqb nutrient "sugar_added" then
    if high
    then "High added sugar exceeds health guidelines - limit consumption"
    else if medium
    then "Moderate added sugar - monitor daily intake"
    else "Low added sugar aligns with WHO recommendations (<10% of energy)"
  else "Standard nutritional guidelines applied".

Definition _get_nutrient_recommendations
  (nutrient : string) (value percentile : Q) : list string :=
  if String.eqb nutrient "energy_density" && Qle_bool 70 percentile then
    [ "Consider smaller portions";
      "Pair with low-energy density foods like vegetables";
      "Increase physical activity if consumed regularly" ]%string
  else if String.eqb nutrient "sugar_added" && Qle_bool 50 percentile then
    [ "Look for unsweetened alternatives";
      "Consider fresh fruits for natural sweetness";
      "Check ingredient lists for hidden sugars" ]%string
  else if String.eqb nutrient "sodium" && Qle_bool 60 percentile then
    [ "Choose low-sodium alternatives when available";
      "Balance with potassium-rich foods";
      "Limit frequency of consumption" ]%string
  else if String.eqb nutrient "fiber" && Qle_bool percentile 30 then
    [ "Add fruits or vegetables to increase fiber";
      "Choose whole grain alternatives";
      "Consider legumes or nuts as additions" ]%string
  else [].

(** The dictionary returned by [get_threshold_explanation] when the
    nutrient has thresholds. *)
Record Explanation : Type := {
  explained_value : Q;
  explained_points : Z;
  explained_percentile : Q;
  threshold_used : pyfloat;
  scientific_rationale : string;
  explained_recommendations : list string
}.

Inductive ThresholdExplanation : Type :=
| no_thresholds_available
| explanation (e : Explanation).

(** [None] is the TypeError of iterating over a number, when [nutrient]
    is ["base_stars"] and the number is not zero. *)
Definition get_threshold_explanation
  (nutrient : string) (value : Q) (thresholds : HSRThresholds)
  : option ThresholdExplanation :=
  match threshold_attribute thresholds nutrient with
  | number_attribute number =>
      if Qeq_bool number 0 then Some no_thresholds_available else None
  | list_attribute [] => Some no_thresholds_available
  | list_attribute threshold_list =>
      let points := explanation_loop (Fin value) threshold_list 0 0 in
      let percentile :=
        (inject_Z (Z.of_nat points)
         / inject_Z (Z.of_nat (length threshold_list)) * 100)%Q in
      Some (explanation
              {| explained_value := value;
                 explained_points := Z.of_nat points;
                 explained_percentile := percentile;
                 threshold_used :=
                   if (points <? length threshold_list)%nat
                   then nth points threshold_list NaN
                   else List.last threshold_list NaN;
                 scientific_rationale := _get_rationale nutrient percentile;
                 explained_recommendations :=
                   _get_nutrient_recommendations nutrient value percentile |})
  end.

End ThresholdProvider.

(** ** [models/food.py] *)

Module FoodModel.

Record Food : Type := {
  food_id : Z;
  food_name : string;
  serving_size : Q;
  nutrients : gmap string Q;
  fvnl_percent : Q;
  category : option Category;
  food_group_id : option Z;
  category_confidence : Q;
  category_source : string
}.

Definition set_category
  (c : option Category) (confidence : Q) (source : string) (f : Food) : Food :=
  {| food_id := food_id f; food_name := food_name f;
     serving_size := serving_size f; nutrients := nutrients f;
     fvnl_percent := fvnl_percent f; category := c;
     food_group_id := food_group_id f; category_confidence := confidence;
     category_source := source |}.

(** [food.nutrients.get(name, 0)]. *)
Definition nutrient (f : Food) (name : string) : Q :=
  default 0%Q (nutrients f !! name).

(** [Food._assign_category]; with a [str] name and an [int] group the call
    to [get_category] raises nothing, so the [except] branch is not
    reached. *)
Definition _assign_category (group : Z) (f : Food) : Food :=
  set_category (Some (FoodGroupMapper.get_category group (food_name f)))
               (9 # 10) "auto_assigned" f.

(** [Food.__post_init__], run on the fields given to the constructor. *)
Definition __post_init__ (f : Food) : Food :=
  match category f, food_group_id f with
  | None, Some group => _assign_category group f
  | _, _ => f
  end.

(** [Food(food_id, food_name, serving_size, nutrients, fvnl_percent,
    category, food_group_id)]. *)
Definition new
  (food_id : Z) (food_name : string) (serving_size : Q)
  (nutrients : gmap string Q) (fvnl_percent : Q)
  (category : option Category) (food_group_id : option Z) : Food :=
  __post_init__
    {| food_id := food_id; food_name := food_name;
       serving_size := serving_size; nutrients := nutrients;
       fvnl_percent := fvnl_percent; category := category;
       food_group_id := food_group_id; category_confidence := 0;
       category_source := "unknown" |}.

(** [food.assign_category_manually(category, confidence)]; the default
    confidence is 1.0. *)
Definition assign_category_manually
  (category : Category) (confidence : Q) (f : Food) : Food :=
  set_category (Some category) confidence "manual" f.

(** The dictionary returned by [validate_category_assignment]; the two
    category entries are present in the mismatch case only. *)
Record CategoryValidation : Type := {
  valid : bool;
  reason : string;
  assigned_category : option string;
  calculated_category : option string;
  confidence : Q;
  recommendations : list string
}.

(** As in [_assign_category], the call to [get_category] raises nothing
    and the [except] branch is not reached. *)
Definition validate_category_assignment (f : Food) : CategoryValidation :=
  match category f with
  | None =>
      {| valid := false; reason := "no_category_assigned";
         assigned_category := None; calculated_category := None;
         confidence := 0;
         recommendations :=
           ["Assign category manually or provide food_group_id"%string] |}
  | Some assigned =>
      match food_group_id f with
      | Some group =>
          let calculated := FoodGroupMapper.get_category group (food_name f) in
          if negb (Category_eqb calculated assigned) then
            {| valid := false; reason := "category_mismatch";
               assigned_category := Some (Category_value assigned);
               calculated_category := Some (Category_value calculated);
               confidence := (category_confidence f * (5 # 10))%Q;
               recommendations :=
                 [String.append "Consider changing category from "
                    (String.append (Category_value assigned)
                       (String.append " to " (Category_value calculated)))] |}
          else
            {| valid := true; reason := "category_matches_calculation";
               assigned_category := None; calculated_category := None;
               confidence := category_confidence f;
               recommendations := [] |}
      | None =>
          {| valid := Qltb (5 # 10) (category_confidence f);
             reason := "no_validation_possible_without_food_group_id";
             assigned_category := None; calculated_category := None;
             confidence := category_confidence f;
             recommendations :=
               ["Provide food_group_id for automatic validation"%string] |}
      end
  end.

End FoodModel.

Abbreviation Food := FoodModel.Food.

(** ** [utils/meal_categorizer.py] *)

Module MealCategorizer.

Import FoodModel.

(** A value of [CATEGORY_NUTRITIONAL_PROFILES]; a profile has either
    [liquid_percentage_min] or [liquid_percentage_max]. *)
Record Profile : Type := {
  expected_energy_range : Q * Q;
  expected_protein_range : Q * Q;
  expected_fat_range : Q * Q;
  liquid_percentage_min : option Q;
  liquid_percentage_max : option Q;
  processing_tolerance : string
}.

(** The dictionary in insertion order, which is the order Python iterates
    it in. *)
Definition CATEGORY_NUTRITIONAL_PROFILES : list (Category * Profile) :=
  [ (BEVERAGE,
     {| expected_energy_range := (0, 200); expected_protein_range := (0, 3);
        expected_fat_range := (0, 1); liquid_percentage_min := Some (8 # 10);
        liquid_percentage_max := None; processing_tolerance := "processed" |});
    (DAIRY_BEVERAGE,
     {| expected_energy_range := (30, 150); expected_protein_range := (2, 8);
        expected_fat_range := (0, 6); liquid_percentage_min := Some (7 # 10);
        liquid_percentage_max := None; processing_tolerance := "processed" |});
    (FOOD,
     {| expected_energy_range := (50, 800); expected_protein_range := (0, 50);
        expected_fat_range := (0, 50); liquid_percentage_min := None;
        liquid_percentage_max := Some (3 # 10); processing_tolerance := "any" |});
    (DAIRY_FOOD,
     {| expected_energy_range := (50, 400); expected_protein_range := (3, 30);
        expected_fat_range := (0, 25); liquid_percentage_min := None;
        liquid_percentage_max := Some (2 # 10);
        processing_tolerance := "processed" |});
    (CHEESE,
     {| expected_energy_range := (200, 450); expected_protein_range := (10, 35);
        expected_fat_range := (15, 35); liquid_percentage_min := None;
        liquid_percentage_max := Some (1 # 10);
        processing_tolerance := "processed" |});
    (OILS_AND_SPREADS,
     {| expected_energy_range := (300, 900); expected_protein_range := (0, 5);
        expected_fat_range := (30, 100); liquid_percentage_min := None;
        liquid_percentage_max := Some (2 # 10); processing_tolerance := "any" |})
  ]%Q.

(** [CATEGORY_NUTRITIONAL_PROFILES[category]]. *)
Definition profile_of (category : Category) : Profile :=
  match List.find (fun p => Category_eqb (fst p) category)
                  CATEGORY_NUTRITIONAL_PROFILES with
  | Some p => snd p
  | None => {| expected_energy_range := (0, 0)%Q;
               expected_protein_range := (0, 0)%Q;
               expected_fat_range := (0, 0)%Q;
               liquid_percentage_min := None; liquid_percentage_max := None;
               processing_tolerance := "any" |}
  end.

(** The nutrition dictionary built by [_analyze_meal_nutrition]. *)
Record Nutrition : Type := {
  energy_kcal : Q;
  protein : Q;
  fat_total : Q;
  saturated_fat : Q;
  carbohydrates : Q;
  sugars : Q;
  fiber : Q;
  sodium : Q;
  total_weight : Q;
  liquid_percentage : Q;
  energy_density_level : string;
  protein_level : string;
  fat_level : string;
  sugar_level : string;
  sodium_level : string;
  fiber_level : string;
  satiety_index : Q;
  processing_level : string;
  natural_content_score : Q;
  nutritional_density : Q
}.

Definition _get_empty_nutrition_analysis : Nutrition :=
  {| energy_kcal := 0; protein := 0; fat_total := 0; saturated_fat := 0;
     carbohydrates := 0; sugars := 0; fiber := 0; sodium := 0;
     total_weight := 0; liquid_percentage := 0;
     energy_density_level := "unknown"; protein_level := "unknown";
     fat_level := "unknown"; sugar_level := "unknown";
     sodium_level := "unknown"; fiber_level := "unknown";
     satiety_index := 1; processing_level := "unknown";
     natural_content_score := 0; nutritional_density := 0 |}.

Definition _categorize_energy_density (energy_kcal : Q) : string :=
  if Qltb energy_kcal 100 then "very_low"
  else if Qltb energy_kcal 200 then "low"
  else if Qltb energy_kcal 400 then "moderate"
  else if Qltb energy_kcal 600 then "high"
  else "very_high".

Definition _categorize_protein_content (protein : Q) : string :=
  if Qltb protein 3 then "very_low"
  else if Qltb protein 8 then "low"
  else if Qltb protein 15 then "moderate"
  else if Qltb protein 25 then "high"
  else "very_high".

Definition _categorize_fat_content (fat : Q) : string :=
  if Qltb fat 3 then "very_low"
  else if Qltb fat 10 then "low"
  else if Qltb fat 20 then "moderate"
  else if Qltb fat 35 then "high"
  else "very_high".

Definition _categorize_sugar_content (sugar : Q) : string :=
  if Qltb sugar 5 then "low"
  else if Qltb sugar 15 then "moderate"
  else if Qltb sugar 25 then "high"
  else "very_high".

Definition _categorize_sodium_content (sodium : Q) : string :=
  if Qltb sodium 200 then "low"
  else if Qltb sodium 600 then "moderate"
  else if Qltb sodium 1000 then "high"
  else "very_high".

Definition _categorize_fiber_content (fiber : Q) : string :=
  if Qltb fiber 2 then "low"
  else if Qltb fiber 6 then "moderate"
  else if Qltb fiber 10 then "high"
  else "very_high".

Definition _calculate_meal_satiety_index (protein fiber liquid_percentage : Q) : Q :=
  let base_satiety := 1%Q in
  let base_satiety :=
    if Qle_bool 20 protein then (base_satiety * (12 # 10))%Q
    else if Qle_bool 15 protein then (base_satiety * (115 # 100))%Q
    else if Qle_bool 10 protein then (base_satiety * (11 # 10))%Q
    else base_satiety in
  let base_satiety :=
    if Qle_bool 10 fiber then (base_satiety * (12 # 10))%Q
    else if Qle_bool 6 fiber then (base_satiety * (115 # 100))%Q
    else if Qle_bool 3 fiber then (base_satiety * (11 # 10))%Q
    else base_satiety in
  let base_satiety :=
    if Qltb (5 # 10) liquid_percentage then (base_satiety * (8 # 10))%Q
    else if Qltb (2 # 10) liquid_percentage then (base_satiety * (9 # 10))%Q
    else base_satiety in
  Qmax (5 # 10) (Qmin (15 # 10) base_satiety).

(** The per-food score of [_assess_overall_processing_level]. *)
Definition processing_score_of_name (food_name : string) : Z :=
  let food_name := Text.lower food_name in
  if Text.any_in ["raw"; "fresh"; "whole"; "natural"] food_name then 1
  else if Text.any_in ["canned"; "frozen"; "dried"; "cooked"] food_name then 2
  else if Text.any_in ["processed"; "enriched"; "flavored"; "instant"] food_name
  then 3
  else 2.

Definition _assess_overall_processing_level (foods : list Food) : string :=
  let processing_scores :=
    List.map (fun food => processing_score_of_name (food_name food)) foods in
  let avg_score :=
    match processing_scores with
    | [] => 2%Q
    | _ :: _ =>
        (inject_Z (fold_left Z.add processing_scores 0%Z)
         / inject_Z (Z.of_nat (length processing_scores)))%Q
    end in
  if Qle_bool avg_score (13 # 10) then "minimally_processed"
  else if Qle_bool avg_score (23 # 10) then "processed"
  else "ultra_processed".

Definition _calculate_liquid_percentage (foods : list Food) : Q :=
  let total_weight := Qsum (List.map serving_size foods) in
  if Qeq_bool total_weight 0 then 0%Q
  else
    let liquid_weight :=
      fold_left
        (fun liquid_weight food =>
           let food_name := Text.lower (food_name food) in
           if Text.any_in ["juice"; "drink"; "beverage"; "milk"; "water"] food_name
           then (liquid_weight + serving_size food)%Q
           else if Text.contains "soup" food_name
           then (liquid_weight + serving_size food * (7 # 10))%Q
           else liquid_weight)
        foods 0%Q in
    (liquid_weight / total_weight)%Q.

Definition natural_score_of_name (food_name : string) : Q :=
  let food_name := Text.lower food_name in
  if Text.any_in ["fresh"; "raw"; "whole"; "natural"; "organic"] food_name then 1
  else if Text.any_in ["fruit"; "vegetable"; "nut"; "seed"] food_name then 8 # 10
  else if Text.any_in ["processed"; "artificial"; "synthetic"] food_name then 2 # 10
  else 5 # 10.

Definition _calculate_natural_content_score (foods : list Food) : Q :=
  match foods with
  | [] => 5 # 10
  | _ :: _ =>
      (Qsum (List.map (fun food => natural_score_of_name (food_name food)) foods)
       / inject_Z (Z.of_nat (length foods)))%Q
  end.

Definition _calculate_nutritional_density (energy_kcal protein fiber sugars : Q) : Q :=
  if Qeq_bool energy_kcal 0 then 0%Q
  else
    let beneficial_score := (protein * 4 + fiber * 8 + Qmin sugars 10 * 2)%Q in
    let density := (beneficial_score / energy_kcal * 100)%Q in
    Qmin 1 (density / 50).

(** [sum(food.nutrients.get(name, 0) * food.serving_size / 100 for food in
    foods) / (total_weight / 100)]. *)
Definition per_100g (foods : list Food) (total_weight : Q) (name : string) : Q :=
  (Qsum (List.map (fun food => nutrient food name * serving_size food / 100) foods)
   / (total_weight / 100))%Q.

Definition _analyze_meal_nutrition (foods : list Food) : Nutrition :=
  let total_weight := Qsum (List.map serving_size foods) in
  if Qeq_bool total_weight 0 then _get_empty_nutrition_analysis
  else
    let energy_kcal := per_100g foods total_weight "ENERGY (KILOCALORIES)" in
    let protein := per_100g foods total_weight "PROTEIN" in
    let fat_total := per_100g foods total_weight "FAT, TOTAL" in
    let saturated_fat :=
      per_100g foods total_weight "FATTY ACIDS, SATURATED, TOTAL" in
    let carbohydrates := per_100g foods total_weight "CARBOHYDRATE, TOTAL" in
    let sugars := per_100g foods total_weight "SUGARS, TOTAL" in
    let fiber := per_100g foods total_weight "FIBRE, TOTAL DIETARY" in
    let sodium := per_100g foods total_weight "SODIUM" in
    let liquid_percentage := _calculate_liquid_percentage foods in
    let processing_level := _assess_overall_processing_level foods in
    let natural_content_score := _calculate_natural_content_score foods in
    {| energy_kcal := energy_kcal; protein := protein; fat_total := fat_total;
       saturated_fat := saturated_fat; carbohydrates := carbohydrates;
       sugars := sugars; fiber := fiber; sodium := sodium;
       total_weight := total_weight; liquid_percentage := liquid_percentage;
       energy_density_level := _categorize_energy_density energy_kcal;
       protein_level := _categorize_protein_content protein;
       fat_level := _categorize_fat_content fat_total;
       sugar_level := _categorize_sugar_content sugars;
       sodium_level := _categorize_sodium_content sodium;
       fiber_level := _categorize_fiber_content fiber;
       satiety_index :=
         _calculate_meal_satiety_index protein fiber liquid_percentage;
       processing_level := processing_level;
       natural_content_score := natural_content_score;
       nutritional_density :=
         _calculate_nutritional_density energy_kcal protein fiber sugars |}.

(** The fitness of one category: the body of the loop of
    [_evaluate_category_fitness]. *)
Definition category_fitness_score
  (category : Category) (profile : Profile) (nutrition : Nutrition) : Q :=
  let score := 0%Q in
  let max_score := 0%Q in
  let '(energy_min, energy_max) := expected_energy_range profile in
  let score :=
    if Qle_bool energy_min (energy_kcal nutrition)
       && Qle_bool (energy_kcal nutrition) energy_max
    then (score + 20)%Q
    else if Qltb (energy_kcal nutrition) energy_min
    then (score + Qmax 0 (20 - (energy_min - energy_kcal nutrition) / 10))%Q
    else (score + Qmax 0 (20 - (energy_kcal nutrition - energy_max) / 20))%Q in
  let max_score := (max_score + 20)%Q in
  let '(protein_min, protein_max) := expected_protein_range profile in
  let score :=
    if Qle_bool protein_min (protein nutrition)
       && Qle_bool (protein nutrition) protein_max
    then (score + 15)%Q
    else if Qltb (protein nutrition) protein_min
    then (score + Qmax 0 (15 - (protein_min - protein nutrition) * 2))%Q
    else (score + Qmax 0 (15 - (protein nutrition - protein_max) / 2))%Q in
  let max_score := (max_score + 15)%Q in
  let '(fat_min, fat_max) := expected_fat_range profile in
  let score :=
    if Qle_bool fat_min (fat_total nutrition)
       && Qle_bool (fat_total nutrition) fat_max
    then (score + 15)%Q
    else if Qltb (fat_total nutrition) fat_min
    then (score + Qmax 0 (15 - (fat_min - fat_total nutrition) * 2))%Q
    else (score + Qmax 0 (15 - (fat_total nutrition - fat_max) / 3))%Q in
  let max_score := (max_score + 15)%Q in
  let score :=
    match liquid_percentage_min profile, liquid_percentage_max profile with
    | Some lmin, _ =>
        if Qle_bool lmin (liquid_percentage nutrition) then (score + 25)%Q
        else (score + liquid_percentage nutrition / lmin * 25)%Q
    | None, Some lmax =>
        if Qle_bool (liquid_percentage nutrition) lmax then (score + 25)%Q
        else
          let excess := (liquid_percentage nutrition - lmax)%Q in
          (score + Qmax 0 (25 - excess * 50))%Q
    | None, None => score
    end in
  let max_score := (max_score + 25)%Q in
  let tolerance := processing_tolerance profile in
  let ultra := String.eqb (processing_level nutrition) "ultra_processed" in
  let score :=
    if String.eqb tolerance "any" then (score + 15)%Q
    else if String.eqb tolerance "processed" && negb ultra then (score + 15)%Q
    else if String.eqb tolerance "minimally_processed"
            && String.eqb (processing_level nutrition) "minimally_processed"
    then (score + 15)%Q
    else if String.eqb tolerance "processed" && ultra then (score + 10)%Q
    else score in
  let max_score := (max_score + 15)%Q in
  let bonus :=
    match category with
    | CHEESE =>
        Qle_bool 15 (protein nutrition) && Qle_bool 15 (fat_total nutrition)
    | BEVERAGE | DAIRY_BEVERAGE => Qltb (8 # 10) (liquid_percentage nutrition)
    | OILS_AND_SPREADS => Qltb 50 (fat_total nutrition)
    | FOOD | DAIRY_FOOD => false
    end in
  let score := if bonus then (score + 10)%Q else score in
  let max_score := if bonus then (max_score + 10)%Q else max_score in
  if Qltb 0 max_score then (score / max_score)%Q else 0%Q.

(** The returned dictionary, as its items in insertion order. *)
Definition _evaluate_category_fitness (nutrition : Nutrition) : list (Category * Q) :=
  List.map (fun '(category, profile) =>
              (category, category_fitness_score category profile nutrition))
           CATEGORY_NUTRITIONAL_PROFILES.

(** [sorted(items, key=lambda x: x[1], reverse=True)]: descending by score
    and stable, items of equal score keeping their order. *)
Fixpoint insert_desc (x : Category * Q) (l : list (Category * Q)) : list (Category * Q) :=
  match l with
  | [] => [x]
  | y :: l' => if Qltb (snd y) (snd x) then x :: l else y :: insert_desc x l'
  end.

Definition sorted_desc (items : list (Category * Q)) : list (Category * Q) :=
  fold_left (fun acc x => insert_desc x acc) items [].

(** The [tie_breaker] dictionary, without its explanatory text. *)
Record TieBreaker : Type := {
  rule_applied : option string;
  winner : Category
}.

(** The first category of [conflicts] that satisfies [p]: the [for ... if
    ... break] loops of the tie-breaking rules. *)
Definition first_conflict
  (p : Category -> bool) (conflicts : list (Category * Q * Q)) : option Category :=
  match List.find (fun c => p (fst (fst c))) conflicts with
  | Some c => Some (fst (fst c))
  | None => None
  end.

Definition is_in (cs : list Category) (c : Category) : bool :=
  existsb (Category_eqb c) cs.

Definition _apply_tie_breaking_rules
  (top_category : Category) (conflicts : list (Category * Q * Q))
  (foods : list Food) : TieBreaker :=
  let tie_breaker := {| rule_applied := None; winner := top_category |} in
  (* Rule 1: liquid dominance *)
  let liquid_percentage := _calculate_liquid_percentage foods in
  let tie_breaker :=
    if Qltb (6 # 10) liquid_percentage then
      match first_conflict (is_in [BEVERAGE; DAIRY_BEVERAGE]) conflicts with
      | Some category =>
          {| rule_applied := Some "liquid_dominance"; winner := category |}
      | None => tie_breaker
      end
    else tie_breaker in
  (* Rule 2: protein-fat profile for cheese/dairy *)
  let nutrition := _analyze_meal_nutrition foods in
  let tie_breaker :=
    if Qle_bool 15 (protein nutrition) && Qle_bool 15 (fat_total nutrition) then
      match first_conflict (is_in [CHEESE; DAIRY_FOOD]) conflicts with
      | Some category =>
          {| rule_applied := Some "protein_fat_profile";
             winner := if Category_eqb category CHEESE then CHEESE else category |}
      | None => tie_breaker
      end
    else tie_breaker in
  (* Rule 3: energy density for oils/spreads *)
  let tie_breaker :=
    if Qltb 500 (energy_kcal nutrition) && Qltb 40 (fat_total nutrition) then
      match first_conflict (Category_eqb OILS_AND_SPREADS) conflicts with
      | Some _ =>
          {| rule_applied := Some "energy_density"; winner := OILS_AND_SPREADS |}
      | None => tie_breaker
      end
    else tie_breaker in
  (* Rule 4: default to the most inclusive category *)
  match rule_applied tie_breaker with
  | None =>
      match first_conflict (Category_eqb FOOD) conflicts with
      | Some _ => {| rule_applied := Some "inclusive_default"; winner := FOOD |}
      | None => tie_breaker
      end
  | Some _ => tie_breaker
  end.

(** The dictionary returned by [_resolve_category_conflicts]. *)
Record ConflictResolution : Type := {
  has_conflicts : bool;
  conflicts : list (Category * Q * Q);
  resolution_strategy : string;
  tie_breaker : option TieBreaker;
  top_category : Category;
  top_score : Q
}.

Definition Qabs_diff (a b : Q) : Q := Qabs (a - b).

(** [category_fitness] always has the six categories; the empty case only
    makes the function total. *)
Definition _resolve_category_conflicts
  (foods : list Food) (category_fitness : list (Category * Q))
  : option ConflictResolution :=
  match sorted_desc category_fitness with
  | [] => None
  | (top_category, top_score) :: rest =>
      let conflicts :=
        List.map (fun '(category, score) =>
                    (category, score, Qabs_diff score top_score))
                 (List.filter
                    (fun '(category, score) =>
                       Qltb (Qabs_diff score top_score) (15 # 100))
                    rest) in
      match conflicts with
      | [] =>
          Some {| has_conflicts := false; conflicts := [];
                  resolution_strategy := "clear_winner"; tie_breaker := None;
                  top_category := top_category; top_score := top_score |}
      | _ :: _ =>
          Some {| has_conflicts := true; conflicts := conflicts;
                  resolution_strategy := "conflict_resolution";
                  tie_breaker :=
                    Some (_apply_tie_breaking_rules top_category conflicts foods);
                  top_category := top_category; top_score := top_score |}
      end
  end.

(** [max(items, key=lambda x: x[1])[0]]: the first item of greatest
    score. *)
Fixpoint max_by_score (best : Category * Q) (items : list (Category * Q)) : Category * Q :=
  match items with
  | [] => best
  | x :: items' =>
      max_by_score (if Qltb (snd best) (snd x) then x else best) items'
  end.

Definition _select_scientifically_optimal_category
  (category_fitness : list (Category * Q))
  (conflict_resolution : ConflictResolution) : option Category :=
  match has_conflicts conflict_resolution, tie_breaker conflict_resolution with
  | true, Some tb => Some (winner tb)
  | _, _ =>
      match category_fitness with
      | [] => None
      | x :: items => Some (fst (max_by_score x items))
      end
  end.

(** [category_fitness[category]]. *)
Definition fitness_of (category_fitness : list (Category * Q)) (category : Category) : Q :=
  match List.find (fun p => Category_eqb (fst p) category) category_fitness with
  | Some p => snd p
  | None => 0%Q
  end.

Definition _calculate_scientific_confidence
  (recommended_category : Category) (category_fitness : list (Category * Q))
  (nutritional_analysis : Nutrition) : Q :=
  let base_confidence := fitness_of category_fitness recommended_category in
  let profile := profile_of recommended_category in
  let consistency_bonus := 0%Q in
  let '(energy_min, energy_max) := expected_energy_range profile in
  let consistency_bonus :=
    if Qle_bool energy_min (energy_kcal nutritional_analysis)
       && Qle_bool (energy_kcal nutritional_analysis) energy_max
    then (consistency_bonus + (1 # 10))%Q else consistency_bonus in
  let consistency_bonus :=
    match liquid_percentage_min profile, liquid_percentage_max profile with
    | Some lmin, _ =>
        if Qle_bool lmin (liquid_percentage nutritional_analysis)
        then (consistency_bonus + (1 # 10))%Q else consistency_bonus
    | None, Some lmax =>
        if Qle_bool (liquid_percentage nutritional_analysis) lmax
        then (consistency_bonus + (1 # 10))%Q else consistency_bonus
    | None, None => consistency_bonus
    end in
  let consistency_bonus :=
    if String.eqb (processing_tolerance profile) "any"
    then (consistency_bonus + (5 # 100))%Q else consistency_bonus in
  let data_quality_penalty := 0%Q in
  let data_quality_penalty :=
    if Qeq_bool (protein nutritional_analysis) 0
    then (data_quality_penalty + (5 # 100))%Q else data_quality_penalty in
  let data_quality_penalty :=
    if Qeq_bool (fiber nutritional_analysis) 0
    then (data_quality_penalty + (3 # 100))%Q else data_quality_penalty in
  let final_confidence :=
    (base_confidence + consistency_bonus - data_quality_penalty)%Q in
  Qmax (1 # 10) (Qmin 1 final_confidence).

(** What [scientific_factors] holds. *)
Inductive ScientificFactors : Type :=
| NutritionFactors (nutrition : Nutrition)
| SingleFoodFactors (food_name : string) (category : string) (serving_size : Q).

(** [ScientificCategorizationResult], without the explanatory texts
    ([reasoning], [nutritional_rationale], [alternative_categories]). *)
Record ScientificCategorizationResult : Type := {
  recommended_category : Category;
  confidence : Q;
  scientific_factors : ScientificFactors
}.

Definition _create_fallback_result (category : Category) : ScientificCategorizationResult :=
  {| recommended_category := category; confidence := 3 # 10;
     scientific_factors := NutritionFactors _get_empty_nutrition_analysis |}.

(** [None] stands for the AttributeError of [food.category.value] on a
    food without a category. *)
Definition _analyze_single_food (food : Food) : option ScientificCategorizationResult :=
  match FoodModel.category food with
  | Some c =>
      Some {| recommended_category := c; confidence := 1;
              scientific_factors :=
                SingleFoodFactors (food_name food) (Category_value c)
                                  (serving_size food) |}
  | None => None
  end.

Definition determine_scientific_category
  (foods : list Food) : option ScientificCategorizationResult :=
  match foods with
  | [] => Some (_create_fallback_result FOOD)
  | [food] => _analyze_single_food food
  | _ :: _ :: _ =>
      let nutritional_analysis := _analyze_meal_nutrition foods in
      let category_fitness := _evaluate_category_fitness nutritional_analysis in
      match _resolve_category_conflicts foods category_fitness with
      | None => None
      | Some conflict_resolution =>
          match _select_scientifically_optimal_category
                  category_fitness conflict_resolution with
          | None => None
          | Some recommended_category =>
              Some {| recommended_category := recommended_category;
                      confidence :=
                        _calculate_scientific_confidence
                          recommended_category category_fitness
                          nutritional_analysis;
                      scientific_factors :=
                        NutritionFactors nutritional_analysis |}
          end
      end
  end.

(** [reasons.get(category, ...)]: every category is a key of [reasons],
    so the default built from [score] is never returned. *)
Definition _get_alternative_reason (category : Category) (score : Q) : string :=
  match category with
  | BEVERAGE => "If considering liquid characteristics primarily"
  | DAIRY_BEVERAGE => "If dairy content is significant"
  | FOOD => "If treating as general food product"
  | DAIRY_FOOD => "If dairy solids are primary component"
  | CHEESE => "If high protein/fat content is emphasized"
  | OILS_AND_SPREADS => "If fat content dominates nutritional profile"
  end.

(** [sorted(alternatives, key=lambda x: x[1], reverse=True)] on the
    triples of [_identify_scientific_alternatives]. *)
Fixpoint insert_alternative
  (x : Category * Q * string) (l : list (Category * Q * string))
  : list (Category * Q * string) :=
  match l with
  | [] => [x]
  | y :: l' =>
      if Qltb (snd (fst y)) (snd (fst x)) then x :: l
      else y :: insert_alternative x l'
  end.

Definition sorted_alternatives
  (items : list (Category * Q * string)) : list (Category * Q * string) :=
  fold_left (fun acc x => insert_alternative x acc) items [].

Definition _identify_scientific_alternatives
  (recommended_category : Category) (category_fitness : list (Category * Q))
  : list (Category * Q * string) :=
  let recommended_score := fitness_of category_fitness recommended_category in
  let alternatives :=
    flat_map
      (fun '(category, score) =>
         if negb (Category_eqb category recommended_category)
            && Qle_bool (5 # 10) score
         then
           let confidence_diff := (recommended_score - score)%Q in
           let strength :=
             if Qltb confidence_diff (2 # 10) then "Strong alternative"
             else if Qltb confidence_diff (4 # 10) then "Viable alternative"
             else "Possible alternative" in
           let reason := _get_alternative_reason category score in
           [(category, score,
             String.append strength (String.append ": " reason))]
         else [])
      category_fitness in
  sorted_alternatives alternatives.

End MealCategorizer.

(** ** [models/meal.py] *)

Module MealModel.

Import FoodModel.

(** The messages appended to [category_warnings], one constructor per
    message template; the arguments are the interpolated values. *)
Inductive Warning : Type :=
| EmptyMeal
| InvalidServingSize (position : nat)
| MissingNutrientData (position : nat)
| MissingCategory (position : nat)
| FoodsMissingCategories (count : nat)
| FoodDefaultedToFood (food_name : string)
| CategorizationError
| ValidationError
| CalculatedCategoryDiffers (calculated assigned : string)
| ConsiderUsingCategory (calculated : string)
| ZeroTotalWeight
| VeryHighEnergy (value : Q)
| ExtremelyHighProtein (value : Q)
| ExtremelyHighFat (value : Q)
| ExtremelyHighSodium (value : Q)
| FvnlExceeds100 (value : Q)
| NegativeValue (name : string) (value : Q)
| UnusualForBeverage
| UnusualForCheese
| UnusualForOils
| HighFvnlContent (value : Q).

(** The literal text of each message; [{}] marks an interpolated value. *)
Definition warning_text (w : Warning) : string :=
  match w with
  | EmptyMeal => "Empty meal - defaulting to FOOD category"
  | InvalidServingSize _ => "Food {}: Invalid serving size"
  | MissingNutrientData _ => "Food {}: Missing nutrient data"
  | MissingCategory _ => "Food {}: Missing category"
  | FoodsMissingCategories _ => "{} foods missing category assignments"
  | FoodDefaultedToFood _ => "Food '{}' defaulted to FOOD category"
  | CategorizationError => "Categorization error: {} - defaulted to FOOD"
  | ValidationError => "Validation error: {}"
  | CalculatedCategoryDiffers _ _ => "Calculated category {} differs from assigned {}"
  | ConsiderUsingCategory _ => "Consider using {} category instead"
  | ZeroTotalWeight => "Meal has zero total weight"
  | VeryHighEnergy _ => "Very high energy content: {} kcal/100g"
  | ExtremelyHighProtein _ => "Extremely high protein: {} g/100g"
  | ExtremelyHighFat _ => "Extremely high fat: {} g/100g"
  | ExtremelyHighSodium _ => "Extremely high sodium: {} mg/100g"
  | FvnlExceeds100 _ => "FVNL percent exceeds 100%: {}%"
  | NegativeValue _ _ => "Negative {} value: {}"
  | UnusualForBeverage => "High protein/fat content unusual for beverage category"
  | UnusualForCheese => "Low protein/fat content unusual for cheese category"
  | UnusualForOils => "Low fat content unusual for oils/spreads category"
  | HighFvnlContent _ =>
      "High FVNL content ({}%) may indicate food category more appropriate"
  end.

(** [category_analysis], by its ["reason"] entry; the initial value is the
    empty dictionary. *)
Inductive CategoryAnalysis : Type :=
| no_analysis
| empty_meal (confidence : Q)
| scientific_categorization (result : MealCategorizer.ScientificCategorizationResult)
| error_fallback
| user_provided (result : MealCategorizer.ScientificCategorizationResult)
                (assigned_category : string).

(** The attributes that [_calculate_nutritional_values] and
    [_set_zero_nutritional_values] assign, all of them or none. *)
Record NutritionalValues : Type := {
  energy_kilocalories : Q;
  energy_kj : Q;
  protein : Q;
  carbohydrate_total : Q;
  fibre_total_dietary : Q;
  sugars_total : Q;
  fat_total : Q;
  fatty_acids_saturated_total : Q;
  sodium : Q;
  calcium : Q;
  fvnl_percent : Q
}.

(** A [Meal] object.  [total_weight] and [values] are [None] while the
    attributes have not been assigned: reading them then raises
    AttributeError. *)
Record Meal : Type := {
  foods : list Food;
  category : option Category;
  category_analysis : CategoryAnalysis;
  category_confidence : Q;
  category_warnings : list Warning;
  nutritional_context : option MealCategorizer.ScientificFactors;
  total_weight : option Q;
  values : option NutritionalValues
}.

Definition add_warnings (ws : list Warning) (m : Meal) : Meal :=
  {| foods := foods m; category := category m;
     category_analysis := category_analysis m;
     category_confidence := category_confidence m;
     category_warnings := category_warnings m ++ ws;
     nutritional_context := nutritional_context m;
     total_weight := total_weight m; values := values m |}.

Definition set_foods (fs : list Food) (m : Meal) : Meal :=
  {| foods := fs; category := category m;
     category_analysis := category_analysis m;
     category_confidence := category_confidence m;
     category_warnings := category_warnings m;
     nutritional_context := nutritional_context m;
     total_weight := total_weight m; values := values m |}.

Definition set_categorization
  (c : option Category) (analysis : CategoryAnalysis) (confidence : Q)
  (context : option MealCategorizer.ScientificFactors) (m : Meal) : Meal :=
  {| foods := foods m; category := c; category_analysis := analysis;
     category_confidence := confidence;
     category_warnings := category_warnings m;
     nutritional_context := context;
     total_weight := total_weight m; values := values m |}.

Definition set_total_weight (w : Q) (m : Meal) : Meal :=
  {| foods := foods m; category := category m;
     category_analysis := category_analysis m;
     category_confidence := category_confidence m;
     category_warnings := category_warnings m;
     nutritional_context := nutritional_context m;
     total_weight := Some w; values := values m |}.

Definition set_values (v : NutritionalValues) (m : Meal) : Meal :=
  {| foods := foods m; category := category m;
     category_analysis := category_analysis m;
     category_confidence := category_confidence m;
     category_warnings := category_warnings m;
     nutritional_context := nutritional_context m;
     total_weight := total_weight m; values := Some v |}.

(** The list of messages for the food at index [i]. *)
Definition food_issues (i : nat) (food : Food) : list Warning :=
  (if Qle_bool (serving_size food) 0 then [InvalidServingSize (i + 1)] else [])
  ++ (if decide (nutrients food = ∅) then [MissingNutrientData (i + 1)] else [])
  ++ (match FoodModel.category food with
      | None => [MissingCategory (i + 1)]
      | Some _ => []
      end).

Definition _validate_foods (m : Meal) : Meal :=
  let invalid_foods := List.concat (imap food_issues (foods m)) in
  add_warnings invalid_foods m.

(** One step of [_assign_missing_food_categories]: the food is updated in
    place, and a message is returned for the default fallback.
    [if food_group_id:] is false for [None] and for 0. *)
Definition assign_missing (food : Food) : Food * list Warning :=
  match FoodModel.category food with
  | Some _ => (food, [])
  | None =>
      match food_group_id food with
      | Some group =>
          if group =? 0
          then (set_category (Some FOOD) (3 # 10) "default_fallback" food,
                [FoodDefaultedToFood (food_name food)])
          else (set_category
                  (Some (FoodGroupMapper.get_category group (food_name food)))
                  (8 # 10) "food_group_mapping" food,
                [])
      | None =>
          (set_category (Some FOOD) (3 # 10) "default_fallback" food,
           [FoodDefaultedToFood (food_name food)])
      end
  end.

Definition _assign_missing_food_categories (m : Meal) : Meal :=
  let assigned := List.map assign_missing (foods m) in
  add_warnings (List.concat (List.map snd assigned))
               (set_foods (List.map fst assigned) m).

Definition _determine_category (m : Meal) : Meal :=
  let foods_without_categories :=
    List.filter (fun food => match FoodModel.category food with
                             | None => true
                             | Some _ => false
                             end) (foods m) in
  let m :=
    match foods_without_categories with
    | [] => m
    | _ :: _ =>
        _assign_missing_food_categories
          (add_warnings
             [FoodsMissingCategories (length foods_without_categories)] m)
    end in
  match MealCategorizer.determine_scientific_category (foods m) with
  | Some result =>
      set_categorization
        (Some (MealCategorizer.recommended_category result))
        (scientific_categorization result)
        (MealCategorizer.confidence result)
        (Some (MealCategorizer.scientific_factors result)) m
  | None =>
      add_warnings [CategorizationError]
        (set_categorization (Some FOOD) error_fallback 0
                            (nutritional_context m) m)
  end.

Definition _validate_provided_category (assigned : Category) (m : Meal) : Meal :=
  match MealCategorizer.determine_scientific_category (foods m) with
  | Some result =>
      let calculated := MealCategorizer.recommended_category result in
      let warnings :=
        if Category_eqb calculated assigned then []
        else [CalculatedCategoryDiffers (Category_value calculated)
                                        (Category_value assigned)] in
      let m :=
        set_categorization
          (Some assigned)
          (user_provided result (Category_value assigned))
          (MealCategorizer.confidence result)
          (Some (MealCategorizer.scientific_factors result))
          (add_warnings warnings m) in
      if Qltb (category_confidence m) (6 # 10)
      then add_warnings [ConsiderUsingCategory (Category_value calculated)] m
      else m
  | None =>
      set_categorization (Some assigned) (category_analysis m) (5 # 10)
                         (nutritional_context m)
                         (add_warnings [ValidationError] m)
  end.

Definition zero_nutritional_values : NutritionalValues :=
  {| energy_kilocalories := 0; energy_kj := 0; protein := 0;
     carbohydrate_total := 0; fibre_total_dietary := 0; sugars_total := 0;
     fat_total := 0; fatty_acids_saturated_total := 0; sodium := 0;
     calcium := 0; fvnl_percent := 0 |}.

(** [total_weight] is not among the attributes set here. *)
Definition _set_zero_nutritional_values (m : Meal) : Meal :=
  set_values zero_nutritional_values m.

Definition _calculate_weighted_sum
  (fs : list Food) (total_weight : Q) (nutrient_name : string) : Q :=
  if Qeq_bool total_weight 0 then 0%Q
  else
    let total_nutrient :=
      fold_left (fun total_nutrient food =>
                   (total_nutrient
                    + nutrient food nutrient_name * serving_size food / 100)%Q)
                fs 0%Q in
    (total_nutrient / (total_weight / 100))%Q.

Definition _calculate_fvnl_percent (fs : list Food) (total_weight : Q) : Q :=
  if Qeq_bool total_weight 0 then 0%Q
  else
    let fvnl_weight :=
      fold_left (fun fvnl_weight food =>
                   (fvnl_weight
                    + serving_size food * (FoodModel.fvnl_percent food / 100))%Q)
                fs 0%Q in
    (fvnl_weight / total_weight * 100)%Q.

Definition _validate_nutritional_values (v : NutritionalValues) (m : Meal) : Meal :=
  let extreme :=
    (if Qltb 2000 (energy_kilocalories v)
     then [VeryHighEnergy (energy_kilocalories v)] else [])
    ++ (if Qltb 100 (protein v) then [ExtremelyHighProtein (protein v)] else [])
    ++ (if Qltb 100 (fat_total v) then [ExtremelyHighFat (fat_total v)] else [])
    ++ (if Qltb 5000 (sodium v) then [ExtremelyHighSodium (sodium v)] else [])
    ++ (if Qltb 100 (fvnl_percent v) then [FvnlExceeds100 (fvnl_percent v)] else []) in
  let nutritional_values :=
    [ ("energy", energy_kilocalories v); ("protein", protein v);
      ("carbohydrates", carbohydrate_total v); ("fiber", fibre_total_dietary v);
      ("sugars", sugars_total v); ("fat", fat_total v);
      ("saturated_fat", fatty_acids_saturated_total v); ("sodium", sodium v);
      ("calcium", calcium v); ("fvnl_percent", fvnl_percent v) ] in
  let negative :=
    List.map (fun '(name, value) => NegativeValue name value)
             (List.filter (fun '(name, value) => Qltb value 0) nutritional_values) in
  add_warnings (extreme ++ negative) m.

Definition _calculate_nutritional_values (m : Meal) : Meal :=
  let w := Qsum (List.map serving_size (foods m)) in
  let m := set_total_weight w m in
  if Qeq_bool w 0 then
    _set_zero_nutritional_values (add_warnings [ZeroTotalWeight] m)
  else
    let energy_kilocalories :=
      _calculate_weighted_sum (foods m) w "ENERGY (KILOCALORIES)" in
    let v :=
      {| energy_kilocalories := energy_kilocalories;
         energy_kj := (energy_kilocalories * (4184 # 1000))%Q;
         protein := _calculate_weighted_sum (foods m) w "PROTEIN";
         carbohydrate_total :=
           _calculate_weighted_sum (foods m) w "CARBOHYDRATE, TOTAL";
         fibre_total_dietary :=
           _calculate_weighted_sum (foods m) w "FIBRE, TOTAL DIETARY";
         sugars_total := _calculate_weighted_sum (foods m) w "SUGARS, TOTAL";
         fat_total := _calculate_weighted_sum (foods m) w "FAT, TOTAL";
         fatty_acids_saturated_total :=
           _calculate_weighted_sum (foods m) w "FATTY ACIDS, SATURATED, TOTAL";
         sodium := _calculate_weighted_sum (foods m) w "SODIUM";
         calcium := _calculate_weighted_sum (foods m) w "CALCIUM";
         fvnl_percent := _calculate_fvnl_percent (foods m) w |} in
    _validate_nutritional_values v (set_values v m).

(** Reads [self.protein], [self.fat_total] and [self.fvnl_percent]; on an
    AttributeError the [except] clause logs and adds nothing. *)
Definition _validate_final_categorization (m : Meal) : Meal :=
  match values m, category m with
  | Some v, Some c =>
      let profile :=
        match c with
        | BEVERAGE =>
            if Qltb 10 (protein v) || Qltb 5 (fat_total v)
            then [UnusualForBeverage] else []
        | CHEESE =>
            if Qltb (protein v) 5 || Qltb (fat_total v) 5
            then [UnusualForCheese] else []
        | OILS_AND_SPREADS =>
            if Qltb (fat_total v) 20 then [UnusualForOils] else []
        | _ => []
        end in
      let fvnl :=
        if Qltb 80 (fvnl_percent v)
           && negb (MealCategorizer.is_in [FOOD; DAIRY_FOOD] c)
        then [HighFvnlContent (fvnl_percent v)] else [] in
      add_warnings (profile ++ fvnl) m
  | _, _ => m
  end.

Definition __post_init__ (m : Meal) : Meal :=
  match foods m with
  | [] =>
      {| foods := foods m; category := Some FOOD;
         category_analysis := empty_meal 0; category_confidence := 0;
         category_warnings := [EmptyMeal];
         nutritional_context := nutritional_context m;
         total_weight := total_weight m; values := values m |}
  | _ :: _ =>
      let m := _validate_foods m in
      let m :=
        match category m with
        | None => _determine_category m
        | Some assigned => _validate_provided_category assigned m
        end in
      let m := _calculate_nutritional_values m in
      _validate_final_categorization m
  end.

(** [Meal(foods, category)]: the dataclass sets the declared fields to
    their defaults and calls [__post_init__]. *)
Definition new (foods : list Food) (category : option Category) : Meal :=
  __post_init__
    {| foods := foods; category := category; category_analysis := no_analysis;
       category_confidence := 0; category_warnings := [];
       nutritional_context := None; total_weight := None; values := None |}.

(** *** Summaries and insights *)

(** On an AttributeError the bare [except] clause returns ['unknown']. *)
Definition _assess_nutritional_consistency (m : Meal) : string :=
  match category m with
  | Some BEVERAGE =>
      match values m with
      | Some v =>
          if Qltb 10 (protein v) || Qltb 5 (fat_total v)
          then "inconsistent" else "consistent"
      | None => "unknown"
      end
  | Some CHEESE =>
      match values m with
      | Some v =>
          if Qltb (protein v) 5 || Qltb (fat_total v) 5
          then "inconsistent" else "consistent"
      | None => "unknown"
      end
  | Some OILS_AND_SPREADS =>
      match values m with
      | Some v =>
          if Qltb (fat_total v) 20 then "inconsistent" else "consistent"
      | None => "unknown"
      end
  | _ => "consistent"
  end.

(** [self.category_analysis.get('reason')]. *)
Definition analysis_reason (a : CategoryAnalysis) : option string :=
  match a with
  | no_analysis => None
  | empty_meal _ => Some "empty_meal"
  | scientific_categorization _ => Some "scientific_categorization"
  | error_fallback => Some "error_fallback"
  | user_provided _ _ => Some "user_provided"
  end%string.

(** A value of the [nutritional_context] dictionary. *)
Inductive ContextValue : Type :=
| number_value (q : Q)
| text_value (s : string).

(** The items of [scientific_factors]: the nutrition dictionary of
    [MealCategorizer._analyze_meal_nutrition], or the three entries of
    [_analyze_single_food]. *)
Definition factors_items
  (f : MealCategorizer.ScientificFactors) : list (string * ContextValue) :=
  match f with
  | MealCategorizer.NutritionFactors n =>
      [ ("energy_kcal", number_value (MealCategorizer.energy_kcal n));
        ("protein", number_value (MealCategorizer.protein n));
        ("fat_total", number_value (MealCategorizer.fat_total n));
        ("saturated_fat", number_value (MealCategorizer.saturated_fat n));
        ("carbohydrates", number_value (MealCategorizer.carbohydrates n));
        ("sugars", number_value (MealCategorizer.sugars n));
        ("fiber", number_value (MealCategorizer.fiber n));
        ("sodium", number_value (MealCategorizer.sodium n));
        ("total_weight", number_value (MealCategorizer.total_weight n));
        ("liquid_percentage",
         number_value (MealCategorizer.liquid_percentage n));
        ("energy_density_level",
         text_value (MealCategorizer.energy_density_level n));
        ("protein_level", text_value (MealCategorizer.protein_level n));
        ("fat_level", text_value (MealCategorizer.fat_level n));
        ("sugar_level", text_value (MealCategorizer.sugar_level n));
        ("sodium_level", text_value (MealCategorizer.sodium_level n));
        ("fiber_level", text_value (MealCategorizer.fiber_level n));
        ("satiety_index", number_value (MealCategorizer.satiety_index n));
        ("processing_level",
         text_value (MealCategorizer.processing_level n));
        ("natural_content_score",
         number_value (MealCategorizer.natural_content_score n));
        ("nutritional_density",
         number_value (MealCategorizer.nutritional_density n)) ]%string
  | MealCategorizer.SingleFoodFactors food_name category serving_size =>
      [ ("food_name", text_value food_name);
        ("category", text_value category);
        ("serving_size", number_value serving_size) ]%string
  end.

Fixpoint items_get (items : list (string * ContextValue)) (key : string)
  : option ContextValue :=
  match items with
  | [] => None
  | (k, v) :: items' => if String.eqb k key then Some v else items_get items' key
  end.

(** [self.nutritional_context.get(key)]; the dictionary is empty until a
    categorization assigns it. *)
Definition context_get (m : Meal) (key : string) : option ContextValue :=
  match nutritional_context m with
  | None => None
  | Some f => items_get (factors_items f) key
  end.

(** The truth value of [d.get(key)]. *)
Definition truthy (v : option ContextValue) : bool :=
  match v with
  | None => false
  | Some (number_value q) => negb (Qeq_bool q 0)
  | Some (text_value s) => negb (String.eqb s "")
  end.

(** [d.get(key, default) > bound]; [None] is the TypeError of comparing a
    text with a number. *)
Definition context_exceeds (m : Meal) (key : string) (default bound : Q)
  : option bool :=
  match context_get m key with
  | None => Some (Qltb bound default)
  | Some (number_value q) => Some (Qltb bound q)
  | Some (text_value _) => None
  end.

(** The entries of [_identify_primary_factors]; the first one is built
    from a formatted number. *)
Inductive PrimaryFactor : Type :=
| single_category_dominates (dominance_percent : Q)
| factor_text (text : string).

(** No [category_analysis] has the key ['dominance_percent'], so the
    default 0 is what would be formatted. *)
Definition _identify_primary_factors (m : Meal) : list PrimaryFactor :=
  let reason := analysis_reason (category_analysis m) in
  let is_reason (r : string) :=
    match reason with
    | Some r' => String.eqb r' r
    | None => false
    end in
  let factors :=
    if is_reason "absolute_dominance" then [single_category_dominates 0]
    else if is_reason "category_specific_significance"
    then [factor_text "Category-specific significance threshold met"]
    else if is_reason "liquid_meal_dominance"
    then [factor_text "Liquid meal characteristics detected"]
    else if is_reason "mixed_meal_analysis"
    then [factor_text "Complex meal analysis applied"]
    else [] in
  let factors :=
    if truthy (context_get m "is_high_protein")
    then factors ++ [factor_text "High protein content"] else factors in
  let factors :=
    if truthy (context_get m "is_high_fat")
    then factors ++ [factor_text "High fat content"] else factors in
  if truthy (context_get m "is_liquid_dominant")
  then factors ++ [factor_text "Liquid-dominant composition"] else factors.

(** An entry of [_suggest_alternative_categories]. *)
Record AlternativeCategory : Type := {
  alternative_category : string;
  alternative_percentage : Q
}.

(** [MealCategorizer] has no attribute [determine_meal_category]: below
    0.7 the call in the [try] block raises AttributeError, the [except]
    clause logs it, and [alternatives] is returned as it was. *)
Definition _suggest_alternative_categories (m : Meal) : list AlternativeCategory :=
  let alternatives := [] in
  if Qltb (category_confidence m) (7 # 10) then alternatives
  else alternatives.

(** [set(food.category for food in self.foods if food.category)], in the
    order of first occurrence. *)
Definition category_set (fs : list Food) : list Category :=
  fold_left
    (fun seen food =>
       match FoodModel.category food with
       | Some c => if MealCategorizer.is_in seen c then seen else seen ++ [c]
       | None => seen
       end)
    fs [].

(** The dictionary returned by [_assess_complexity]. *)
Record Complexity : Type := {
  complexity_score : option ContextValue;
  category_count : Z;
  complexity_level : string;
  is_simple_meal : bool;
  is_complex_meal : bool
}.

(** [complexity_score] is [None] when the key is absent and the default
    0.0 stands for it. *)
Definition _assess_complexity (m : Meal) : option Complexity :=
  let category_count := Z.of_nat (length (category_set (foods m))) in
  match context_exceeds m "complexity_score" 0 (8 # 10),
        context_exceeds m "complexity_score" 0 (5 # 10) with
  | Some high, Some medium =>
      Some {| complexity_score := context_get m "complexity_score";
              category_count := category_count;
              complexity_level :=
                if high then "high" else if medium then "medium" else "low";
              is_simple_meal := category_count <=? 2;
              is_complex_meal := 4 <=? category_count |}
  | _, _ => None
  end.

Definition _generate_categorization_recommendations (m : Meal)
  : option (list string) :=
  let recommendations := @nil string in
  let recommendations :=
    if Qltb (category_confidence m) (6 # 10)
    then recommendations
         ++ ["Consider reviewing food categorizations for accuracy"%string]
    else recommendations in
  let recommendations :=
    if (3 <? length (category_warnings m))%nat
    then recommendations
         ++ ["Multiple validation warnings - verify input data"%string]
    else recommendations in
  match context_exceeds m "complexity_score" 0 (8 # 10) with
  | None => None
  | Some very_complex =>
      let recommendations :=
        if very_complex
        then recommendations
             ++ ["Very complex meal - consider simplifying for more accurate HSR calculation"%string]
        else recommendations in
      Some (if String.eqb (_assess_nutritional_consistency m) "inconsistent"
            then recommendations
                 ++ ["Nutritional profile doesn't align with category - review categorization"%string]
            else recommendations)
  end.

(** The dictionary returned by [get_categorization_insights]. *)
Record CategorizationInsights : Type := {
  categorization_method : string;
  insights_confidence_level : Q;
  primary_factors : list PrimaryFactor;
  potential_alternatives : list AlternativeCategory;
  validation_notes : list Warning;
  nutritional_alignment : string;
  complexity_assessment : Complexity;
  insights_recommendations : list string
}.

Definition get_categorization_insights (m : Meal) : option CategorizationInsights :=
  match _assess_complexity m, _generate_categorization_recommendations m with
  | Some complexity, Some recommendations =>
      Some {| categorization_method :=
                default "unknown"%string (analysis_reason (category_analysis m));
              insights_confidence_level := category_confidence m;
              primary_factors := _identify_primary_factors m;
              potential_alternatives := _suggest_alternative_categories m;
              validation_notes := category_warnings m;
              nutritional_alignment := _assess_nutritional_consistency m;
              complexity_assessment := complexity;
              insights_recommendations := recommendations |}
  | _, _ => None
  end.

(** An entry of the ['foods'] list of a category in
    [get_category_summary]. *)
Record FoodEntry : Type := {
  entry_id : Z;
  entry_name : string;
  entry_weight : Q;
  entry_confidence : Q
}.

(** A value of [food_categories] while the first loop runs. *)
Record CategoryTally : Type := {
  tally_count : Z;
  tally_weight : Q;
  tally_foods : list FoodEntry
}.

(** A value of [food_categories] in the returned dictionary. *)
Record CategoryData : Type := {
  data_count : Z;
  data_weight : Q;
  data_foods : list FoodEntry;
  avg_confidence : Q;
  weight_percent : Q
}.

(** One pass of the first loop of [get_category_summary] on the
    dictionary [d], kept as the list of its items in insertion order. *)
Fixpoint tally_food (cat : string) (food : Food) (d : list (string * CategoryTally))
  : list (string * CategoryTally) :=
  let add t :=
    {| tally_count := tally_count t + 1;
       tally_weight := (tally_weight t + serving_size food)%Q;
       tally_foods :=
         tally_foods t
         ++ [{| entry_id := food_id food; entry_name := food_name food;
                entry_weight := serving_size food;
                entry_confidence := FoodModel.category_confidence food |}] |} in
  match d with
  | [] => [(cat, add {| tally_count := 0; tally_weight := 0; tally_foods := [] |})]
  | (k, t) :: d' =>
      if String.eqb k cat then (k, add t) :: d'
      else (k, t) :: tally_food cat food d'
  end.

Definition food_category_key (food : Food) : string :=
  match FoodModel.category food with
  | Some c => Category_value c
  | None => "unknown"
  end.

Definition tally_foods_by_category (fs : list Food) : list (string * CategoryTally) :=
  fold_left (fun d food => tally_food (food_category_key food) food d) fs [].

(** The second loop of [get_category_summary]. *)
Definition category_data (total_weight : Q) (t : CategoryTally) : CategoryData :=
  {| data_count := tally_count t;
     data_weight := tally_weight t;
     data_foods := tally_foods t;
     avg_confidence :=
       match tally_foods t with
       | [] => 0%Q
       | _ :: _ =>
           (Qsum (List.map entry_confidence (tally_foods t))
            / inject_Z (Z.of_nat (length (tally_foods t))))%Q
       end;
     weight_percent :=
       if Qltb 0 total_weight then (tally_weight t / total_weight * 100)%Q
       else 0%Q |}.

(** The dictionary returned by [get_category_summary]. *)
Record CategorySummary : Type := {
  meal_category : string;
  summary_confidence : Q;
  summary_analysis : CategoryAnalysis;
  summary_warnings : list Warning;
  summary_context : option MealCategorizer.ScientificFactors;
  food_categories : list (string * CategoryData);
  total_foods : Z;
  summary_total_weight : Q;
  summary_complexity_score : option ContextValue;
  is_mixed_meal : bool;
  has_warnings : bool;
  confidence_level : string;
  nutritional_consistency : string
}.

(** [None] is the AttributeError of reading [self.total_weight] on a meal
    whose nutritional values were never calculated. *)
Definition get_category_summary (m : Meal) : option CategorySummary :=
  match total_weight m with
  | None => None
  | Some w =>
      let food_categories :=
        List.map (fun '(cat, t) => (cat, category_data w t))
                 (tally_foods_by_category (foods m)) in
      Some {| meal_category :=
                match category m with
                | Some c => Category_value c
                | None => "unknown"
                end;
              summary_confidence := category_confidence m;
              summary_analysis := category_analysis m;
              summary_warnings := category_warnings m;
              summary_context := nutritional_context m;
              food_categories := food_categories;
              total_foods := Z.of_nat (length (foods m));
              summary_total_weight := w;
              summary_complexity_score := context_get m "complexity_score";
              is_mixed_meal := (1 <? length food_categories)%nat;
              has_warnings := (0 <? length (category_warnings m))%nat;
              confidence_level :=
                if Qle_bool (8 # 10) (category_confidence m) then "high"
                else if Qle_bool (6 # 10) (category_confidence m) then "medium"
                else "low";
              nutritional_consistency := _assess_nutritional_consistency m |}
  end.

End MealModel.

Abbreviation Meal := MealModel.Meal.

(** ** [calculators/hsr_calculator.py] *)

Module HSRCalculator.

Import ThresholdProvider.

Record HSRConfig : Type := {
  use_scientific_thresholds : bool;
  differentiate_sugar_sources : bool;
  apply_satiety_adjustments : bool;
  use_unified_energy_approach : bool;
  consider_processing_level : bool;
  include_confidence_metrics : bool;
  detailed_explanations : bool
}.

(** [HSRConfig()]. *)
Definition default_config : HSRConfig :=
  {| use_scientific_thresholds := true; differentiate_sugar_sources := true;
     apply_satiety_adjustments := true; use_unified_energy_approach := true;
     consider_processing_level := true; include_confidence_metrics := true;
     detailed_explanations := true |}.

Record SugarAnalysis : Type := {
  total_sugars : Q;
  natural_sugars : Q;
  added_sugars : Q;
  natural_percentage : Q;
  sources : list string
}.

Record HSRComponentScore : Type := {
  baseline_points : Z;
  energy_points : Z;
  saturated_fat_points : Z;
  sugar_points : Z;
  sodium_points : Z;
  modifying_points : Z;
  protein_points : Z;
  fiber_points : Z;
  fvnl_points : Z;
  final_score : Z;
  star_rating : Q;
  sugar_natural_points : Z;
  sugar_added_points : Z;
  satiety_adjustment : Q;
  processing_penalty : Q;
  naturalness_bonus : Q;
  scientific_confidence : Q
}.

Inductive HSRLevel : Type :=
| POOR
| BELOW_AVERAGE
| AVERAGE
| GOOD
| EXCELLENT.

(** [models/hsr_result.py]. *)
Inductive NutrientImpact : Type :=
| NEGATIVE_HIGH
| NEGATIVE_MEDIUM
| NEGATIVE_LOW
| NEUTRAL
| POSITIVE_LOW
| POSITIVE_MEDIUM
| POSITIVE_HIGH.

(** [NutrientAnalysis], without [threshold_position], a formatted text. *)
Record NutrientAnalysis : Type := {
  nutrient_name : string;
  value : Q;
  unit : string;
  points : Z;
  impact : NutrientImpact;
  recommendation : string
}.

(** [MealHSRResult], without the insights, recommendations and methodology
    texts. *)
Record MealHSRResult : Type := {
  result_star_rating : Q;
  result_level : HSRLevel;
  result_category : option Category;
  result_component_score : HSRComponentScore;
  result_total_weight : Q;
  result_total_energy_kj : Q;
  result_total_energy_kcal : Q;
  result_nutrient_analyses : list NutrientAnalysis;
  result_confidence_score : Q
}.

(** The calculator object: the attributes set by [__init__]. *)
Record Self : Type := {
  meal : Meal;
  config : HSRConfig;
  nutritional_context : NutritionalContext;
  thresholds : HSRThresholds;
  sugar_analysis : SugarAnalysis;
  _scores : option HSRComponentScore
}.

(** *** Per-food helpers *)

Definition _determine_food_form (food : Food) : string :=
  let name := Text.lower (FoodModel.food_name food) in
  if opt_in (FoodModel.food_group_id food) [14; 20] then "liquid"
  else if Text.contains "juice" name || Text.contains "drink" name then "liquid"
  else if Text.contains "soup" name || Text.contains "smoothie" name
  then "semi_liquid"
  else "solid".

Definition _determine_processing_level (food : Food) : string :=
  let food_name := Text.lower (FoodModel.food_name food) in
  let ultra_processed_indicators :=
    [ "flavoured"; "flavored"; "artificial"; "enriched"; "fortified";
      "instant"; "ready-to-eat"; "frozen meal"; "snack"; "candy";
      "soft drink"; "energy drink" ] in
  if Text.any_in ultra_processed_indicators food_name then "ultra_processed"
  else
    let processed_indicators :=
      [ "canned"; "packaged"; "preserved"; "smoked"; "cured"; "bread";
        "cheese"; "yogurt" ] in
    if Text.any_in processed_indicators food_name then "processed"
    else "minimally_processed".

Definition _has_added_sugars (food : Food) : bool :=
  Text.any_in [ "sweetened"; "sugar"; "syrup"; "honey"; "flavoured";
                "dessert"; "candy"; "chocolate"; "cake"; "cookie" ]
              (Text.lower (FoodModel.food_name food)).

Definition _is_natural_sugar_source (food : Food) : bool :=
  if opt_in (FoodModel.food_group_id food) [9; 11] then true
  else
    let food_name := Text.lower (FoodModel.food_name food) in
    Text.any_in ["apple"; "banana"; "orange"; "grape"; "berry"; "peach"; "pear"]
                food_name
    && negb (Text.contains "juice" food_name).

Definition _estimate_natural_sugar_ratio (food : Food) : Q :=
  let food_group_id := FoodModel.food_group_id food in
  let food_name := Text.lower (FoodModel.food_name food) in
  if opt_in food_group_id [9; 11] then 9 # 10
  else if Text.contains "fruit" food_name && negb (Text.contains "juice" food_name)
  then 8 # 10
  else if opt_in food_group_id [1] then 7 # 10
  else if Text.contains "whole" food_name || Text.contains "raw" food_name
  then 8 # 10
  else if Text.any_in ["candy"; "dessert"; "cake"; "cookie"] food_name
  then 1 # 10
  else if Text.contains "sweetened" food_name then 3 # 10
  else 5 # 10.

(** *** What [__init__] computes

    These read [self.meal] only.  [None] is the AttributeError raised when
    the meal's nutritional attributes were never assigned. *)

Definition _analyze_meal_context (meal : Meal) : option NutritionalContext :=
  match MealModel.values meal with
  | None => None
  | Some v =>
      let meal_nutrients :=
        {| mn_energy := MealModel.energy_kilocalories v;
           mn_protein := MealModel.protein v;
           mn_fiber := MealModel.fibre_total_dietary v;
           mn_saturated_fat := MealModel.fatty_acids_saturated_total v;
           mn_sodium := MealModel.sodium v;
           mn_sugars := MealModel.sugars_total v |} in
      let foods_info :=
        List.map
          (fun food =>
             {| info_food_id := FoodModel.food_id food;
                info_food_name := FoodModel.food_name food;
                info_serving_size := FoodModel.serving_size food;
                info_food_group_id := FoodModel.food_group_id food;
                info_food_form := _determine_food_form food;
                info_processing_level := _determine_processing_level food;
                info_has_added_sugars := _has_added_sugars food;
                info_protein_content := FoodModel.nutrient food "PROTEIN" |})
          (MealModel.foods meal) in
      Some (analyze_nutritional_context meal_nutrients foods_info)
  end.

(** The accumulators of the loop of [_analyze_sugar_sources]. *)
Definition sugar_step (acc : Q * Q * list string) (food : Food) : Q * Q * list string :=
  let '(natural_sugars, added_sugars, sources) := acc in
  let food_sugars :=
    (FoodModel.nutrient food "SUGARS, TOTAL" * FoodModel.serving_size food / 100)%Q in
  if _is_natural_sugar_source food then
    ((natural_sugars + food_sugars)%Q, added_sugars,
     sources ++ [String.append (FoodModel.food_name food) " (natural)"])
  else
    let natural_ratio := _estimate_natural_sugar_ratio food in
    let food_natural := (food_sugars * natural_ratio)%Q in
    let food_added := (food_sugars * (1 - natural_ratio))%Q in
    ((natural_sugars + food_natural)%Q, (added_sugars + food_added)%Q,
     sources ++ [String.append (FoodModel.food_name food)
                   (if Qltb (5 # 10) natural_ratio
                    then " (mostly natural)" else " (mostly added)")]).

Definition _analyze_sugar_sources (meal : Meal) : option SugarAnalysis :=
  match MealModel.values meal, MealModel.total_weight meal with
  | Some v, Some total_weight =>
      let total_sugars := MealModel.sugars_total v in
      let '(natural_sugars, added_sugars, sources) :=
        fold_left sugar_step (MealModel.foods meal) (0%Q, 0%Q, []) in
      let weight_factor :=
        if Qltb 0 total_weight then (total_weight / 100)%Q else 1%Q in
      Some {| total_sugars := total_sugars;
              natural_sugars := (natural_sugars / weight_factor)%Q;
              added_sugars := (added_sugars / weight_factor)%Q;
              natural_percentage :=
                if Qltb 0 (natural_sugars + added_sugars)
                then (natural_sugars / (natural_sugars + added_sugars) * 100)%Q
                else 0%Q;
              sources := sources |}
  | _, _ => None
  end.

(** [ThresholdProvider.get_thresholds(meal.category, context)]; a meal
    always has a category once constructed, and with [None] no category
    test of [_apply_category_adjustments] would succeed. *)
Definition thresholds_for
  (category : option Category) (context : NutritionalContext) : HSRThresholds :=
  match category with
  | Some c => get_thresholds c (Some context)
  | None => get_thresholds FOOD (Some context)
  end.

(** [HSRCalculator(meal, config)]. *)
Definition __init__ (meal : Meal) (config : option HSRConfig) : option Self :=
  match _analyze_meal_context meal with
  | None => None
  | Some context =>
      match _analyze_sugar_sources meal with
      | None => None
      | Some sugar =>
          Some {| meal := meal;
                  config := default default_config config;
                  nutritional_context := context;
                  thresholds := thresholds_for (MealModel.category meal) context;
                  sugar_analysis := sugar;
                  _scores := None |}
      end
  end.

(** *** Methods

    A method receives the calculator object and hands it back with its
    result; [None] is a raised exception. *)

Definition Method (A : Type) : Type := Self -> option (A * Self).

Definition ret {A : Type} (a : A) : Method A := fun self => Some (a, self).

Definition bind {A B : Type} (m : Method A) (k : A -> Method B) : Method B :=
  fun self =>
    match m self with
    | Some (a, self') => k a self'
    | None => None
    end.

Definition raise {A : Type} : Method A := fun _ => None.

(** Reads an attribute of [self]. *)
Definition gets {A : Type} (f : Self -> A) : Method A :=
  fun self => Some (f self, self).

(** Reads a nutritional attribute of [self.meal]. *)
Definition meal_value (f : MealModel.NutritionalValues -> Q) : Method Q :=
  fun self =>
    match MealModel.values (meal self) with
    | Some v => Some (f v, self)
    | None => None
    end.

Definition meal_total_weight : Method Q :=
  fun self =>
    match MealModel.total_weight (meal self) with
    | Some w => Some (w, self)
    | None => None
    end.

Notation "'let*' x ':=' m 'in' k" := (bind m (fun x => k))
  (at level 10, x name, m at level 100, k at level 200).

Definition _get_energy_points : Method Z :=
  let* energy_density_kcal := meal_value MealModel.energy_kilocalories in
  let* satiety := gets (fun self => satiety_index (nutritional_context self)) in
  if Qeq_bool satiety 0 then raise
  else
    let adjusted_energy := (energy_density_kcal / satiety)%Q in
    let* t := gets (fun self => energy_density (thresholds self)) in
    ret (_get_points_by_thresholds (Fin adjusted_energy) (List.map of_int t)).

Definition _get_saturated_fat_points : Method Z :=
  let* value := meal_value MealModel.fatty_acids_saturated_total in
  let* t := gets (fun self => saturated_fat (thresholds self)) in
  ret (_get_points_by_thresholds (Fin value) (List.map of_int t)).

Definition _get_sugar_points (sugar_amount : Q) (thresholds : list Z) : Method Z :=
  ret (_get_points_by_thresholds (Fin sugar_amount) (List.map of_int thresholds)).

Definition _get_sodium_points : Method Z :=
  let* value := meal_value MealModel.sodium in
  let* t := gets (fun self => sodium (thresholds self)) in
  ret (_get_points_by_thresholds (Fin value) (List.map of_int t)).

Definition _get_protein_points : Method Z :=
  let* protein := meal_value MealModel.protein in
  let* quality :=
    gets (fun self => protein_quality_score (nutritional_context self)) in
  let protein_amount := (protein * quality)%Q in
  let* t := gets (fun self => ThresholdProvider.protein (thresholds self)) in
  ret (_get_points_by_thresholds (Fin protein_amount) (List.map of_int t)).

Definition _get_fiber_points : Method Z :=
  let* category := gets (fun self => MealModel.category (meal self)) in
  match category with
  | Some BEVERAGE | Some DAIRY_BEVERAGE => ret 0
  | _ =>
      let* value := meal_value MealModel.fibre_total_dietary in
      let* t := gets (fun self => fiber (thresholds self)) in
      ret (_get_points_by_thresholds (Fin value) t)
  end.

Definition _get_fvnl_points : Method Z :=
  let* fvnl_percent := meal_value MealModel.fvnl_percent in
  let* naturalness :=
    gets (fun self => fvnl_naturalness (nutritional_context self)) in
  let adjusted_fvnl := (fvnl_percent * naturalness)%Q in
  let* t := gets (fun self => fvnl (thresholds self)) in
  ret (_get_points_by_thresholds (Fin adjusted_fvnl) (List.map of_int t)).

Definition _calculate_satiety_adjustment : Method Q :=
  let* enabled := gets (fun self => apply_satiety_adjustments (config self)) in
  if negb enabled then ret 0%Q
  else
    let* satiety := gets (fun self => satiety_index (nutritional_context self)) in
    let satiety_bonus := ((satiety - 1) * 2)%Q in
    ret (Qmax (-3) (Qmin 3 satiety_bonus)).

(** [penalties.get(level, 0.0)]. *)
Definition processing_penalty_of (level : string) : Q :=
  if String.eqb level "minimally_processed" then 0
  else if String.eqb level "processed" then 1
  else if String.eqb level "ultra_processed" then 25 # 10
  else 0.

Definition _calculate_processing_penalty : Method Q :=
  let* enabled := gets (fun self => consider_processing_level (config self)) in
  if negb enabled then ret 0%Q
  else
    let* level := gets (fun self => processing_level (nutritional_context self)) in
    ret (processing_penalty_of level).

Definition _calculate_naturalness_bonus : Method Q :=
  let naturalness_bonus := 0%Q in
  let* naturalness :=
    gets (fun self => fvnl_naturalness (nutritional_context self)) in
  let naturalness_bonus :=
    if Qltb (8 # 10) naturalness then (naturalness_bonus + 1)%Q
    else if Qltb (6 # 10) naturalness then (naturalness_bonus + (5 # 10))%Q
    else naturalness_bonus in
  let* natural_percentage :=
    gets (fun self => natural_percentage (sugar_analysis self)) in
  let naturalness_bonus :=
    if Qltb 80 natural_percentage then (naturalness_bonus + (5 # 10))%Q
    else naturalness_bonus in
  ret (- naturalness_bonus)%Q.

Definition _calculate_confidence : Method Q :=
  let confidence := 1%Q in
  let* protein := meal_value MealModel.protein in
  let confidence :=
    if Qeq_bool protein 0 then (confidence - (1 # 10))%Q else confidence in
  let* fibre := meal_value MealModel.fibre_total_dietary in
  let confidence :=
    if Qeq_bool fibre 0 then (confidence - (1 # 10))%Q else confidence in
  let* sodium := meal_value MealModel.sodium in
  let confidence :=
    if Qeq_bool sodium 0 then (confidence - (5 # 100))%Q else confidence in
  let* context := gets nutritional_context in
  let complexity_indicator :=
    ((if String.eqb (processing_level context) "ultra_processed" then 1 else 0)
     + (if Qltb (5 # 10) (liquid_percentage context) then 1 else 0))%Z in
  let confidence :=
    if 2 <=? complexity_indicator then (confidence - (1 # 10))%Q
    else confidence in
  let* category := gets (fun self => MealModel.category (meal self)) in
  let confidence :=
    match category with
    | Some BEVERAGE =>
        if Qltb 10 protein then (confidence - (15 # 100))%Q else confidence
    | _ => confidence
    end in
  ret (Qmax (5 # 10) confidence).

Definition _convert_to_star_rating (score : Z) : Q :=
  if score <=? 0 then 5
  else if score <=? 5 then 45 # 10
  else if score <=? 10 then 4
  else if score <=? 15 then 35 # 10
  else if score <=? 20 then 3
  else if score <=? 25 then 25 # 10
  else if score <=? 30 then 2
  else if score <=? 35 then 15 # 10
  else 1.

Definition _determine_level (star_rating : Q) : HSRLevel :=
  if Qle_bool (45 # 10) star_rating then EXCELLENT
  else if Qle_bool (35 # 10) star_rating then GOOD
  else if Qle_bool (25 # 10) star_rating then AVERAGE
  else if Qle_bool (15 # 10) star_rating then BELOW_AVERAGE
  else POOR.

Definition _calculate_components : Method HSRComponentScore :=
  let* energy_points := _get_energy_points in
  let* saturated_fat_points := _get_saturated_fat_points in
  let* sugar := gets sugar_analysis in
  let* t := gets thresholds in
  let* sugar_natural_points :=
    _get_sugar_points (natural_sugars sugar) (sugar_natural t) in
  let* sugar_added_points :=
    _get_sugar_points (added_sugars sugar) (sugar_added t) in
  let sugar_points :=
    py_int (inject_Z sugar_natural_points * (7 # 10)
            + inject_Z sugar_added_points * (13 # 10)) in
  let* sodium_points := _get_sodium_points in
  let baseline_points :=
    energy_points + saturated_fat_points + sugar_points + sodium_points in
  let* protein_points := _get_protein_points in
  let* fiber_points := _get_fiber_points in
  let* fvnl_points := _get_fvnl_points in
  let modifying_points := protein_points + fiber_points + fvnl_points in
  let* satiety_adjustment := _calculate_satiety_adjustment in
  let* processing_penalty := _calculate_processing_penalty in
  let* naturalness_bonus := _calculate_naturalness_bonus in
  let base_final_score := Z.max 0 (baseline_points - modifying_points) in
  let adjusted_score :=
    (inject_Z base_final_score + satiety_adjustment + processing_penalty
     + naturalness_bonus)%Q in
  let final_score := Z.max 0 (py_int adjusted_score) in
  let star_rating := _convert_to_star_rating final_score in
  let* scientific_confidence := _calculate_confidence in
  ret {| baseline_points := baseline_points;
         energy_points := energy_points;
         saturated_fat_points := saturated_fat_points;
         sugar_points := sugar_points;
         sodium_points := sodium_points;
         modifying_points := modifying_points;
         protein_points := protein_points;
         fiber_points := fiber_points;
         fvnl_points := fvnl_points;
         final_score := final_score;
         star_rating := star_rating;
         sugar_natural_points := sugar_natural_points;
         sugar_added_points := sugar_added_points;
         satiety_adjustment := satiety_adjustment;
         processing_penalty := processing_penalty;
         naturalness_bonus := naturalness_bonus;
         scientific_confidence := scientific_confidence |}.

Definition _apply_scientific_adjustments (component_score : HSRComponentScore) : Method Z :=
  ret (final_score component_score).

Definition _determine_sugar_impact : Method NutrientImpact :=
  let* sugar := gets sugar_analysis in
  ret (if Qltb 10 (added_sugars sugar) then NEGATIVE_HIGH
       else if Qltb 5 (added_sugars sugar) then NEGATIVE_MEDIUM
       else if Qltb 70 (natural_percentage sugar) then NEUTRAL
       else NEGATIVE_LOW).

Definition _get_sugar_recommendation : Method string :=
  let* sugar := gets sugar_analysis in
  ret (if Qltb 10 (added_sugars sugar)
       then "Significantly reduce added sugar intake"
       else if Qltb 5 (added_sugars sugar)
       then "Consider reducing added sugars"
       else if Qltb 80 (natural_percentage sugar)
       then "Good choice - mostly natural sugars"
       else "Balance natural and added sugar sources").

Definition _determine_nutrient_impact (nutrient : string) (points : Z) : NutrientImpact :=
  if existsb (String.eqb nutrient) ["Energy Density"; "Saturated Fat"; "Sodium"]
  then
    if 8 <=? points then NEGATIVE_HIGH
    else if 5 <=? points then NEGATIVE_MEDIUM
    else if 2 <=? points then NEGATIVE_LOW
    else NEUTRAL
  else
    if 6 <=? points then POSITIVE_HIGH
    else if 4 <=? points then POSITIVE_MEDIUM
    else if 2 <=? points then POSITIVE_LOW
    else NEUTRAL.

Definition _get_nutrient_recommendation (nutrient : string) (value : Q) : string :=
  let high := Qltb 15 value in
  let medium := Qltb 5 value in
  if String.eqb nutrient "Energy Density" then
    if high then "Consider portion control and pairing with low-energy foods"
    else if medium
    then "Moderate energy content - suitable as part of balanced diet"
    else "Excellent for weight management and satiety"
  else if String.eqb nutrient "Protein" then
    if high then "Excellent protein source for muscle health"
    else if medium then "Good protein contribution"
    else "Consider adding protein sources"
  else if String.eqb nutrient "Fiber" then
    if high then "Excellent for digestive health and satiety"
    else if medium then "Good fiber contribution"
    else "Add fruits, vegetables, or whole grains"
  else "Standard nutritional guidelines apply".

(** One pass of the loop of [_add_nutrient_analysis]: the raw value of the
    nutrient is looked up in its threshold list. *)
Definition nutrient_analysis
  (name : string) (value : Q) (unit : string) (thresholds : list pyfloat)
  : NutrientAnalysis :=
  let points := _get_points_by_thresholds (Fin value) thresholds in
  {| nutrient_name := name; value := value; unit := unit; points := points;
     impact := _determine_nutrient_impact name points;
     recommendation := _get_nutrient_recommendation name value |}.

(** The list assigned to [result.nutrient_analyses]. *)
Definition _add_nutrient_analysis (component_score : HSRComponentScore)
  : Method (list NutrientAnalysis) :=
  let* sugars_total := meal_value MealModel.sugars_total in
  let* sugar_impact := _determine_sugar_impact in
  let* sugar_recommendation := _get_sugar_recommendation in
  let sugar :=
    {| nutrient_name := "Sugars (Total)"; value := sugars_total; unit := "g";
       points := sugar_points component_score; impact := sugar_impact;
       recommendation := sugar_recommendation |} in
  let* energy := meal_value MealModel.energy_kilocalories in
  let* saturated := meal_value MealModel.fatty_acids_saturated_total in
  let* sodium_value := meal_value MealModel.sodium in
  let* protein_value := meal_value MealModel.protein in
  let* fibre := meal_value MealModel.fibre_total_dietary in
  let* fvnl_value := meal_value MealModel.fvnl_percent in
  let* t := gets thresholds in
  ret [ sugar;
        nutrient_analysis "Energy Density" energy "kcal/100g"
          (List.map of_int (energy_density t));
        nutrient_analysis "Saturated Fat" saturated "g"
          (List.map of_int (saturated_fat t));
        nutrient_analysis "Sodium" sodium_value "mg"
          (List.map of_int (sodium t));
        nutrient_analysis "Protein" protein_value "g"
          (List.map of_int (ThresholdProvider.protein t));
        nutrient_analysis "Fiber" fibre "g" (ThresholdProvider.fiber t);
        nutrient_analysis "FVNL" fvnl_value "%" (List.map of_int (fvnl t)) ].

Definition calculate_hsr : Method MealHSRResult :=
  let* component_score := _calculate_components in
  let* adjusted_score := _apply_scientific_adjustments component_score in
  let star_rating := _convert_to_star_rating adjusted_score in
  let* category := gets (fun self => MealModel.category (meal self)) in
  let* total_weight := meal_total_weight in
  let* total_energy_kj := meal_value MealModel.energy_kj in
  let* total_energy_kcal := meal_value MealModel.energy_kilocalories in
  let* nutrient_analyses := _add_nutrient_analysis component_score in
  let* confidence_score := _calculate_confidence in
  ret {| result_star_rating := star_rating;
         result_level := _determine_level star_rating;
         result_category := category;
         result_component_score := component_score;
         result_total_weight := total_weight;
         result_total_energy_kj := total_energy_kj;
         result_total_energy_kcal := total_energy_kcal;
         result_nutrient_analyses := nutrient_analyses;
         result_confidence_score := confidence_score |}.

(** *** Insights and recommendations *)

(** The description of a [HealthInsight] of [models/hsr_result.py]: a
    text, or the text built from the formatted share of natural sugars. *)
Inductive InsightDescription : Type :=
| description (text : string)
| natural_sugar_share (natural_percentage : Q).

(** [HealthInsight]. *)
Record HealthInsight : Type := {
  insight_category : string;
  title : string;
  insight_description : InsightDescription;
  priority : string;
  actionable : bool;
  action_text : option string
}.

(** The lists assigned to [result.strengths] and [result.concerns]. *)
Definition _add_scientific_insights
  : Method (list HealthInsight * list HealthInsight) :=
  let insights := @nil HealthInsight in
  let* sugar := gets sugar_analysis in
  let insights :=
    if Qltb 70 (natural_percentage sugar)
    then insights
         ++ [{| insight_category := "strength";
                title := "Predominantly Natural Sugars";
                insight_description :=
                  natural_sugar_share (natural_percentage sugar);
                priority := "medium"; actionable := false;
                action_text := None |}]
    else insights in
  let* context := gets nutritional_context in
  let insights :=
    if Qltb (11 # 10) (satiety_index context)
    then insights
         ++ [{| insight_category := "strength";
                title := "High Satiety Potential";
                insight_description :=
                  description "This food combination is likely to be more filling and satisfying";
                priority := "high"; actionable := false;
                action_text := None |}]
    else insights in
  let insights :=
    if String.eqb (processing_level context) "minimally_processed"
    then insights
         ++ [{| insight_category := "strength";
                title := "Minimally Processed";
                insight_description :=
                  description "Foods are in their natural or lightly processed state";
                priority := "medium"; actionable := false;
                action_text := None |}]
    else if String.eqb (processing_level context) "ultra_processed"
    then insights
         ++ [{| insight_category := "concern";
                title := "Ultra-Processed Foods";
                insight_description :=
                  description "Contains highly processed foods which may be less nutritious";
                priority := "high"; actionable := false;
                action_text := None |}]
    else insights in
  ret (List.filter (fun i => String.eqb (insight_category i) "strength") insights,
       List.filter (fun i => String.eqb (insight_category i) "concern") insights).

(** The list assigned to [result.recommendations]. *)
Definition _add_improvement_recommendations : Method (list HealthInsight) :=
  let recommendations := @nil HealthInsight in
  let* sugar := gets sugar_analysis in
  let recommendations :=
    if Qltb 5 (added_sugars sugar)
    then recommendations
         ++ [{| insight_category := "recommendation";
                title := "Reduce Added Sugars";
                insight_description :=
                  description "Consider alternatives with less added sugar";
                priority := "high"; actionable := true;
                action_text :=
                  Some "Look for unsweetened versions or add natural sweetness with fruits"%string |}]
    else recommendations in
  let* context := gets nutritional_context in
  let recommendations :=
    if Qltb (satiety_index context) (9 # 10)
    then recommendations
         ++ [{| insight_category := "recommendation";
                title := "Improve Satiety";
                insight_description :=
                  description "Add protein or fiber to make this meal more filling";
                priority := "medium"; actionable := true;
                action_text :=
                  Some "Consider adding nuts, seeds, or high-fiber vegetables"%string |}]
    else recommendations in
  let recommendations :=
    if String.eqb (processing_level context) "ultra_processed"
    then recommendations
         ++ [{| insight_category := "recommendation";
                title := "Choose Less Processed Options";
                insight_description :=
                  description "Opt for minimally processed alternatives when possible";
                priority := "medium"; actionable := true;
                action_text :=
                  Some "Look for whole food alternatives or prepare from scratch"%string |}]
    else recommendations in
  ret recommendations.

(** What [_get_threshold_position] returns: a fixed text, or the text
    built from the formatted percentile. *)
Inductive ThresholdPosition : Type :=
| no_thresholds
| percentile_position (percentile : Q).

Definition _get_threshold_position (value : Q) (thresholds : list pyfloat)
  : ThresholdPosition :=
  match thresholds with
  | [] => no_thresholds
  | _ :: _ =>
      let points := _get_points_by_thresholds (Fin value) thresholds in
      let percentile :=
        (inject_Z points / inject_Z (Z.of_nat (length thresholds)) * 100)%Q in
      percentile_position percentile
  end.

(** *** [HSRResult] of [models/hsr_result.py] *)

(** The slice [l[:n]]: a negative [n] counts from the end. *)
Definition py_prefix {A : Type} (n : Z) (l : list A) : list A :=
  if 0 <=? n then take (Z.to_nat n) l
  else take (length l - Z.to_nat (- n)) l.

(** [result.get_priority_recommendations(max_items)], on the list
    [result.recommendations]; the default of [max_items] is 3. *)
Definition get_priority_recommendations
  (recommendations : list HealthInsight) (max_items : Z) : list HealthInsight :=
  let high_priority :=
    List.filter (fun r => String.eqb (priority r) "high") recommendations in
  let medium_priority :=
    List.filter (fun r => String.eqb (priority r) "medium") recommendations in
  let result := py_prefix max_items high_priority in
  if Z.of_nat (length result) <? max_items
  then result ++ py_prefix (max_items - Z.of_nat (length result)) medium_priority
  else result.

End HSRCalculator.

(** ** [hsr_calculator/main.py] *)

Module Main.

Definition map_food_group_to_category (food_group_id : Z) : Category :=
  let beverage_groups := [14] in
  let dairy_groups := [1] in
  let oils_groups := [4] in
  let cheese_groups := [1] in
  if existsb (Z.eqb food_group_id) beverage_groups then BEVERAGE
  else if existsb (Z.eqb food_group_id) dairy_groups then DAIRY_FOOD
  else if existsb (Z.eqb food_group_id) oils_groups then OILS_AND_SPREADS
  else if existsb (Z.eqb food_group_id) cheese_groups then CHEESE
  else FOOD.

End Main.

(** ** [api/views/hsr_views_consolidated.py] *)

Module Views.

(** The messages of the [HSRAPIError]s raised by [_validate_hsr_input];
    the last two carry the position [i + 1] of the serving size. *)
Inductive HSRAPIError : Type :=
| both_required
| count_mismatch
| too_many_foods
| not_positive (position : nat)
| too_large (position : nat).

Definition error_text (e : HSRAPIError) : string :=
  match e with
  | both_required => "Both food_ids and serving_sizes are required"
  | count_mismatch => "Number of food IDs must match number of serving sizes"
  | too_many_foods => "Maximum 20 foods can be analyzed at once"
  | not_positive _ => "Serving size {} must be a positive number"
  | too_large _ => "Serving size {} is too large (max 2000g)"
  end.

(** The loop over [enumerate(serving_sizes)], from index [i] on. *)
Fixpoint check_serving_sizes (i : nat) (serving_sizes : list Q) : option HSRAPIError :=
  match serving_sizes with
  | [] => None
  | serving_size :: rest =>
      if Qle_bool serving_size 0 then Some (not_positive (i + 1))
      else if Qltb 2000 serving_size then Some (too_large (i + 1))
      else check_serving_sizes (S i) rest
  end.

(** [None] when the input is accepted, else the error raised.  The
    serving sizes are finite numbers, so the [isinstance] test holds. *)
Definition _validate_hsr_input (food_ids : list Z) (serving_sizes : list Q)
  : option HSRAPIError :=
  match food_ids, serving_sizes with
  | [], _ | _, [] => Some both_required
  | _ :: _, _ :: _ =>
      if negb (length food_ids =? length serving_sizes)%nat
      then Some count_mismatch
      else if (20 <? length food_ids)%nat then Some too_many_foods
      else check_serving_sizes 0 serving_sizes
  end.

(** [meal.category = category]. *)
Definition set_meal_category (c : Category) (m : Meal) : Meal :=
  {| MealModel.foods := MealModel.foods m;
     MealModel.category := Some c;
     MealModel.category_analysis := MealModel.category_analysis m;
     MealModel.category_confidence := MealModel.category_confidence m;
     MealModel.category_warnings := MealModel.category_warnings m;
     MealModel.nutritional_context := MealModel.nutritional_context m;
     MealModel.total_weight := MealModel.total_weight m;
     MealModel.values := MealModel.values m |}.

(** What the view [calculate_hsr] computes from the loaded foods up to
    the call of [calculator.calculate_hsr()], which both analysis levels
    make: the categorization, the meal with the category assigned to it,
    and the result.  [None] is an exception, which the decorator of the
    view turns into an error response. *)
Definition calculate_hsr (foods : list Food) (analysis_level : string)
  : option (MealCategorizer.ScientificCategorizationResult * Meal
            * HSRCalculator.MealHSRResult) :=
  match MealCategorizer.determine_scientific_category foods with
  | None => None
  | Some categorization_result =>
      let meal := MealModel.new foods None in
      let meal :=
        set_meal_category
          (MealCategorizer.recommended_category categorization_result) meal in
      let config :=
        {| HSRCalculator.use_scientific_thresholds := true;
           HSRCalculator.differentiate_sugar_sources := true;
           HSRCalculator.apply_satiety_adjustments := true;
           HSRCalculator.use_unified_energy_approach := true;
           HSRCalculator.consider_processing_level := true;
           HSRCalculator.include_confidence_metrics := true;
           HSRCalculator.detailed_explanations :=
             String.eqb analysis_level "detailed" |} in
      match HSRCalculator.__init__ meal (Some config) with
      | None => None
      | Some calculator =>
          match HSRCalculator.calculate_hsr calculator with
          | None => None
          | Some (result, _) => Some (categorization_result, meal, result)
          end
      end
  end.

End Views.

(** ** Specification vocabulary for the processing level *)

(** The rule as the specification words it: a per-food keyword score
    (raw, fresh, whole, natural: 1; canned, frozen, dried, cooked: 2;
    processed, enriched, flavored, instant: 3; otherwise 2), averaged and
    mapped to minimally_processed up to 1.3, processed up to 2.3 and
    ultra_processed above. *)
Definition spec_food_score (food_name : string) : Z :=
  let name := Text.lower food_name in
  if Text.any_in ["raw"; "fresh"; "whole"; "natural"] name then 1
  else if Text.any_in ["canned"; "frozen"; "dried"; "cooked"] name then 2
  else if Text.any_in ["processed"; "enriched"; "flavored"; "instant"] name then 3
  else 2.

(** The mean of a non-empty list of scores. *)
Definition average_score (scores : list Z) : Q :=
  (inject_Z (fold_left Z.add scores 0%Z) / inject_Z (Z.of_nat (length scores)))%Q.

Definition spec_processing_level (food_names : list string) : string :=
  let avg := average_score (List.map spec_food_score food_names) in
  if Qle_bool avg (13 # 10) then "minimally_processed"
  else if Qle_bool avg (23 # 10) then "processed"
  else "ultra_processed".

(** The per-food score the scoring pipeline uses: 3 when the name has an
    ultra-processed indicator, else 2 when it has a processed indicator,
    else 1. *)
Definition indicator_score (food_name : string) : Z :=
  let name := Text.lower food_name in
  if Text.any_in [ "flavoured"; "flavored"; "artificial"; "enriched";
                   "fortified"; "instant"; "ready-to-eat"; "frozen meal";
                   "snack"; "candy"; "soft drink"; "energy drink" ] name
  then 3
  else if Text.any_in [ "canned"; "packaged"; "preserved"; "smoked"; "cured";
                        "bread"; "cheese"; "yogurt" ] name
  then 2
  else 1.

(** ** Specification vocabulary for tie-breaking *)

Module TieRules.

Import MealCategorizer.

(** Rule (a) applies and prefers [c]: the liquid percentage is above 0.6
    and [c] is the first liquid category among the conflicts. *)
Definition liquid_rule (conflicts : list (Category * Q * Q)) (foods : list Food)
  (c : Category) : Prop :=
  (6 # 10 < _calculate_liquid_percentage foods)%Q /\
  first_conflict (is_in [BEVERAGE; DAIRY_BEVERAGE]) conflicts = Some c.

(** Rule (b) applies and prefers [c]. *)
Definition protein_fat_rule (conflicts : list (Category * Q * Q)) (foods : list Food)
  (c : Category) : Prop :=
  (15 <= protein (_analyze_meal_nutrition foods))%Q /\
  (15 <= fat_total (_analyze_meal_nutrition foods))%Q /\
  first_conflict (is_in [CHEESE; DAIRY_FOOD]) conflicts = Some c.

(** Rule (c) applies. *)
Definition energy_density_rule (conflicts : list (Category * Q * Q)) (foods : list Food)
  : Prop :=
  (500 < energy_kcal (_analyze_meal_nutrition foods))%Q /\
  (40 < fat_total (_analyze_meal_nutrition foods))%Q /\
  first_conflict (Category_eqb OILS_AND_SPREADS) conflicts = Some OILS_AND_SPREADS.

End TieRules.

(** ** Specification vocabulary for the calculator *)

Module Vocabulary.

Import ThresholdProvider HSRCalculator.

(** The invariant carried through the adjustments. *)
Definition all_sorted (t : HSRThresholds) : Prop :=
  StronglySorted Z.le (energy_density t) /\
  StronglySorted Z.le (sugar_natural t) /\
  StronglySorted Z.le (sugar_added t) /\
  StronglySorted Z.le (saturated_fat t) /\
  StronglySorted Z.le (sodium t) /\
  StronglySorted Z.le (fvnl t) /\
  StronglySorted Z.le (ThresholdProvider.protein t) /\
  nondecreasing (ThresholdProvider.fiber t) /\
  StronglySorted Z.le (ThresholdProvider.star_rating t).

(** A method is read-only when it hands the calculator object back as it
    received it. *)
Definition read_only {A : Type} (m : Method A) : Prop :=
  forall self a self', m self = Some (a, self') -> self' = self.

(** A method succeeds on [self] when it returns a value and leaves [self]
    as it is. *)
Definition succeeds {A : Type} (m : Method A) (self : Self) : Prop :=
  exists a, m self = Some (a, self).

(** The calculator object a constructor call leaves behind. *)
Definition well_formed (self : Self) : Prop :=
  is_Some (MealModel.values (meal self)) /\
  is_Some (MealModel.total_weight (meal self)) /\
  Qeq_bool (satiety_index (nutritional_context self)) 0 = false.

(** A one-food meal used in the examples: 150 g of chicken breast. *)
Definition chicken_breast : Food :=
  FoodModel.new 1 "Chicken breast" 150
    (<["ENERGY (KILOCALORIES)" := 165%Q]>
       (<["PROTEIN" := 31%Q]> (<["FAT, TOTAL" := (36 # 10)%Q]> ∅)))
    0 None (Some 5).

(** A two-food meal used in the examples: two protein drinks, all liquid,
    with 20 g protein and 20 g fat per 100 g. *)
Definition protein_drink (name : string) (grams : Q) : Food :=
  FoodModel.new 2 name grams
    (<["ENERGY (KILOCALORIES)" := 260%Q]>
       (<["PROTEIN" := 20%Q]> (<["FAT, TOTAL" := 20%Q]> ∅)))
    0 None (Some 14).

Definition protein_drinks : list Food :=
  [protein_drink "Protein drink" 200; protein_drink "Milk drink" 100].

(** A nutritional context used in the examples: a half-liquid,
    ultra-processed meal with satiety index 1.2. *)
Definition example_context : NutritionalContext :=
  {| is_natural_sugar_dominant := false; has_added_sugars := true;
     satiety_index := 12 # 10; processing_level := "ultra_processed";
     liquid_percentage := 1 # 2; fiber_density := 3;
     protein_quality_score := 11 # 10; fvnl_naturalness := 1 |}.

(** What a food is made of, apart from its category assignment. *)
Definition food_data (food : Food)
  : Z * string * Q * gmap string Q * Q * option Z :=
  (FoodModel.food_id food, FoodModel.food_name food,
   FoodModel.serving_size food, FoodModel.nutrients food,
   FoodModel.fvnl_percent food, FoodModel.food_group_id food).

(** The nutritional values of foods of total weight [w], as
    [Meal._calculate_nutritional_values] assigns them when [w] is not
    zero. *)
Definition weighted_values (fs : list Food) (w : Q) : MealModel.NutritionalValues :=
  {| MealModel.energy_kilocalories :=
       MealModel._calculate_weighted_sum fs w "ENERGY (KILOCALORIES)";
     MealModel.energy_kj :=
       (MealModel._calculate_weighted_sum fs w "ENERGY (KILOCALORIES)"
        * (4184 # 1000))%Q;
     MealModel.protein := MealModel._calculate_weighted_sum fs w "PROTEIN";
     MealModel.carbohydrate_total :=
       MealModel._calculate_weighted_sum fs w "CARBOHYDRATE, TOTAL";
     MealModel.fibre_total_dietary :=
       MealModel._calculate_weighted_sum fs w "FIBRE, TOTAL DIETARY";
     MealModel.sugars_total :=
       MealModel._calculate_weighted_sum fs w "SUGARS, TOTAL";
     MealModel.fat_total := MealModel._calculate_weighted_sum fs w "FAT, TOTAL";
     MealModel.fatty_acids_saturated_total :=
       MealModel._calculate_weighted_sum fs w "FATTY ACIDS, SATURATED, TOTAL";
     MealModel.sodium := MealModel._calculate_weighted_sum fs w "SODIUM";
     MealModel.calcium := MealModel._calculate_weighted_sum fs w "CALCIUM";
     MealModel.fvnl_percent := MealModel._calculate_fvnl_percent fs w |}.

(** One of the insights has the title [t]. *)
Definition has_title (t : string) (insights : list HealthInsight) : bool :=
  existsb (fun i => String.eqb (title i) t) insights.

(** Every insight is of the category [c]. *)
Definition all_of_category (c : string) (insights : list HealthInsight) : bool :=
  forallb (fun i => String.eqb (insight_category i) c) insights.

(** The total weight of a list of foods. *)
Definition total_serving (fs : list Food) : Q :=
  Qsum (List.map FoodModel.serving_size fs).

(** The calculator [self] on a meal with the nutritional values [v], all
    else being as it is: the same context, thresholds, sugar analysis and
    configuration. *)
Definition with_values (v : MealModel.NutritionalValues) (self : Self) : Self :=
  {| meal := MealModel.set_values v (meal self);
     config := config self;
     nutritional_context := nutritional_context self;
     thresholds := thresholds self;
     sugar_analysis := sugar_analysis self;
     _scores := _scores self |}.

(** A calculator used in the examples: the chicken breast meal with the
    example context and the thresholds of that context. *)
Definition example_calculator : Self :=
  {| meal := MealModel.new [chicken_breast] None;
     config := default_config;
     nutritional_context := example_context;
     thresholds := get_thresholds FOOD (Some example_context);
     sugar_analysis :=
       {| total_sugars := 0; natural_sugars := 0; added_sugars := 0;
          natural_percentage := 0; sources := [] |};
     _scores := None |}.

(** Nutritional values used in the examples: those of the chicken breast
    with the given amount of sodium. *)
Definition example_values (sodium : Q) : MealModel.NutritionalValues :=
  {| MealModel.energy_kilocalories := 165;
     MealModel.energy_kj := 165 * (4184 # 1000);
     MealModel.protein := 31;
     MealModel.carbohydrate_total := 0;
     MealModel.fibre_total_dietary := 0;
     MealModel.sugars_total := 0;
     MealModel.fat_total := 36 # 10;
     MealModel.fatty_acids_saturated_total := 1;
     MealModel.sodium := sodium;
     MealModel.calcium := 0;
     MealModel.fvnl_percent := 0 |}.

(** The warnings of [Meal._validate_final_categorization] about a
    nutritional profile that is unusual for the category of the meal. *)
Definition unusual_profile (w : MealModel.Warning) : bool :=
  match w with
  | MealModel.UnusualForBeverage | MealModel.UnusualForCheese
  | MealModel.UnusualForOils => true
  | _ => false
  end.

End Vocabulary.

Export Vocabulary.

(** * Properties *)

(** ** Order facts on [pyfloat] *)

Lemma Qltb_lt (x y : Q) : Qltb x y = true <-> (x < y)%Q.
Proof.
  unfold Qltb. rewrite negb_true_iff.
  split; intros H.
  - apply Qnot_le_lt. intros Hle. apply Qle_bool_iff in Hle. congruence.
  - destruct (Qle_bool y x) eqn:E; [|reflexivity].
    apply Qle_bool_iff in E. lra.
Qed.

Lemma Qltb_ge (x y : Q) : Qltb x y = false <-> (y <= x)%Q.
Proof.
  unfold Qltb. rewrite negb_false_iff. apply Qle_bool_iff.
Qed.

(** [a < v1] and [v1 <= v2] give [a < v2]; NaN makes either hypothesis
    false. *)
Lemma flt_fle_trans (a v1 v2 : pyfloat) :
  flt a v1 = true -> fle v1 v2 = true -> flt a v2 = true.
Proof.
  destruct a, v1, v2; simpl; try congruence.
  rewrite !Qltb_lt, Qle_bool_iff. lra.
Qed.

Lemma fle_flt_trans (a b v : pyfloat) :
  fle a b = true -> flt b v = true -> flt a v = true.
Proof.
  destruct a, b, v; simpl; try congruence.
  rewrite !Qltb_lt, Qle_bool_iff. lra.
Qed.

Lemma fle_trans (a b c : pyfloat) :
  fle a b = true -> fle b c = true -> fle a c = true.
Proof.
  destruct a, b, c; simpl; try congruence.
  rewrite !Qle_bool_iff. lra.
Qed.

(** ** The binary search *)

Section BisectLoop.

Variable a : list pyfloat.
Variable x : pyfloat.

(** The loop never leaves the interval it is given. *)
Lemma loop_range (fuel lo hi : nat) :
  (lo <= hi)%nat ->
  (lo <= bisect.loop fuel a x lo hi <= hi)%nat.
Proof.
  revert lo hi. induction fuel as [|fuel IH]; intros lo hi Hle; cbn [bisect.loop].
  - lia.
  - destruct (Nat.ltb_spec lo hi) as [Hlt|Hge]; [|lia].
    assert (Hmid : (lo <= (lo + hi) / 2 < hi)%nat).
    { split.
      - apply Nat.div_le_lower_bound; lia.
      - apply Nat.Div0.div_lt_upper_bound; lia. }
    destruct (flt (nth ((lo + hi) / 2) a NaN) x).
    + specialize (IH ((lo + hi) / 2 + 1)%nat hi). lia.
    + specialize (IH lo ((lo + hi) / 2)%nat). lia.
Qed.

(** With enough fuel the loop stops at a point that separates the indices
    whose element is below [x] from the others, provided the interval it
    started from did. *)
Lemma loop_partition (fuel lo hi : nat) :
  (hi - lo <= fuel)%nat -> (lo <= hi)%nat -> (hi <= length a)%nat ->
  (forall i j, (i <= j)%nat -> (j < length a)%nat ->
               flt (nth j a NaN) x = true -> flt (nth i a NaN) x = true) ->
  (forall i, (i < lo)%nat -> flt (nth i a NaN) x = true) ->
  (forall i, (hi <= i)%nat -> (i < length a)%nat -> flt (nth i a NaN) x = false) ->
  let k := bisect.loop fuel a x lo hi in
  (forall i, (i < k)%nat -> flt (nth i a NaN) x = true) /\
  (forall i, (k <= i)%nat -> (i < length a)%nat -> flt (nth i a NaN) x = false).
Proof.
  intros Hfuel Hle Hlen Hdown. revert lo hi Hfuel Hle Hlen.
  induction fuel as [|fuel IH]; intros lo hi Hfuel Hle Hlen Hlo Hhi; cbn [bisect.loop].
  - split; [exact Hlo|]. intros i Hi. apply Hhi. lia.
  - destruct (Nat.ltb_spec lo hi) as [Hlt|Hge].
    2:{ split; [exact Hlo|]. intros i Hi. apply Hhi. lia. }
    assert (Hmid : (lo <= (lo + hi) / 2 < hi)%nat).
    { split.
      - apply Nat.div_le_lower_bound; lia.
      - apply Nat.Div0.div_lt_upper_bound; lia. }
    destruct (flt (nth ((lo + hi) / 2) a NaN) x) eqn:E.
    + apply IH; try lia; [|exact Hhi].
      intros i Hi. apply (Hdown i ((lo + hi) / 2)%nat); [lia|lia|exact E].
    + apply IH; try lia; [exact Hlo|].
      intros i Hi Hi'.
      destruct (flt (nth i a NaN) x) eqn:E'; [|reflexivity].
      rewrite (Hdown ((lo + hi) / 2)%nat i) in E; [discriminate|lia|lia|exact E'].
Qed.

End BisectLoop.

(** Two searches for [v1 <= v2] in the same list, sorted or not: the first
    never ends to the right of the second. *)
Lemma loop_mono (a : list pyfloat) (v1 v2 : pyfloat) (fuel lo hi : nat) :
  fle v1 v2 = true -> (lo <= hi)%nat ->
  (bisect.loop fuel a v1 lo hi <= bisect.loop fuel a v2 lo hi)%nat.
Proof.
  intros Hv. revert lo hi.
  induction fuel as [|fuel IH]; intros lo hi Hle; cbn [bisect.loop]; [lia|].
  destruct (Nat.ltb_spec lo hi) as [Hlt|Hge]; [|lia].
  assert (Hmid : (lo <= (lo + hi) / 2 < hi)%nat).
  { split.
    - apply Nat.div_le_lower_bound; lia.
    - apply Nat.Div0.div_lt_upper_bound; lia. }
  destruct (flt (nth ((lo + hi) / 2) a NaN) v1) eqn:E1.
  - rewrite (flt_fle_trans _ _ _ E1 Hv). apply IH. lia.
  - destruct (flt (nth ((lo + hi) / 2) a NaN) v2) eqn:E2.
    + pose proof (loop_range a v1 fuel lo ((lo + hi) / 2)%nat ltac:(lia)).
      pose proof (loop_range a v2 fuel ((lo + hi) / 2 + 1)%nat hi ltac:(lia)).
      lia.
    + apply IH. lia.
Qed.

(** A split point of the predicate "below [v]" is the number of elements
    below [v]. *)
Lemma count_lt_split (v : pyfloat) (t : list pyfloat) (k : nat) :
  (k <= length t)%nat ->
  (forall i, (i < k)%nat -> flt (nth i t NaN) v = true) ->
  (forall i, (k <= i)%nat -> (i < length t)%nat -> flt (nth i t NaN) v = false) ->
  count_lt v t = k.
Proof.
  revert k. induction t as [|y t IH]; intros k Hk Hlo Hhi; simpl in *.
  - lia.
  - destruct k as [|k].
    + rewrite (Hhi 0%nat) by lia.
      rewrite (IH 0%nat); [reflexivity|lia|intros; lia|].
      intros i _ Hi. apply (Hhi (S i)); lia.
    + rewrite (Hlo 0%nat) by lia.
      rewrite (IH k); [reflexivity|lia| |].
      * intros i Hi. apply (Hlo (S i)). lia.
      * intros i Hi Hi'. apply (Hhi (S i)); lia.
Qed.

(** On a non-decreasing list, [bisect_left] is the number of elements
    strictly below the value. *)
Lemma bisect_left_count_lt (t : list pyfloat) (v : pyfloat) :
  nondecreasing t -> bisect.bisect_left t v = count_lt v t.
Proof.
  intros Hs. symmetry. unfold bisect.bisect_left.
  pose proof (loop_range t v (length t) 0%nat (length t) ltac:(lia)) as Hr.
  destruct (loop_partition t v (length t) 0%nat (length t)) as [H1 H2];
    try lia.
  - intros i j Hij Hj Hlt.
    destruct (Nat.eq_dec i j) as [->|Hne]; [exact Hlt|].
    apply (fle_flt_trans _ (nth j t NaN)); [apply Hs; [lia|exact Hj]|exact Hlt].
  - apply count_lt_split; [lia|exact H1|exact H2].
Qed.

(** The adjacent-pairs check implies the index-wise property. *)
Lemma nondecreasingb_spec (t : list pyfloat) :
  nondecreasingb t = true -> nondecreasing t.
Proof.
  induction t as [|x t IH]; intros Hb i j Hij Hj; simpl in Hj; [lia|].
  destruct t as [|y t]; [simpl in Hj; lia|].
  cbn [nondecreasingb] in Hb. apply andb_true_iff in Hb as [Hxy Hb].
  specialize (IH Hb).
  assert (Hx : forall k, (k < length (y :: t))%nat ->
                         fle x (nth k (y :: t) NaN) = true).
  { intros [|k] Hk; [exact Hxy|].
    eapply fle_trans; [exact Hxy|]. apply (IH 0%nat (S k)); [lia|exact Hk]. }
  destruct j as [|j]; [lia|].
  destruct i as [|i].
  - apply Hx. simpl in *. lia.
  - apply (IH i j); simpl in *; lia.
Qed.

(** ** The point lookup *)

Lemma points_bounds (v : pyfloat) (t : list pyfloat) :
  t <> [] -> 0 <= _get_points_by_thresholds v t <= Z.of_nat (length t) - 1.
Proof.
  intros Hne. destruct t as [|t0 t]; [congruence|].
  unfold _get_points_by_thresholds.
  destruct (feq t0 PosInf); cbn [length]; lia.
Qed.

(** C8.  For a non-empty threshold list and values [v1 <= v2], the lookup
    gives [v1] no more points than [v2], and the points of any value lie
    between 0 and [len(t) - 1]. *)
Theorem points_monotone_and_bounded (t : list pyfloat) (v1 v2 : pyfloat) :
  t <> [] -> fle v1 v2 = true ->
  _get_points_by_thresholds v1 t <= _get_points_by_thresholds v2 t /\
  (forall v, 0 <= _get_points_by_thresholds v t <= Z.of_nat (length t) - 1).
Proof.
  intros Hne Hv. split; [|intros v; apply points_bounds; exact Hne].
  destruct t as [|t0 t]; [congruence|].
  unfold _get_points_by_thresholds.
  destruct (feq t0 PosInf); [lia|].
  unfold bisect.bisect_left.
  pose proof (loop_mono (t0 :: t) v1 v2 (length (t0 :: t)) 0%nat
                (length (t0 :: t)) Hv ltac:(lia)).
  lia.
Qed.

Lemma points_monotone_and_bounded_witness :
  _get_points_by_thresholds (of_int 60) (map of_int [0; 50; 100])
  <= _get_points_by_thresholds (of_int 120) (map of_int [0; 50; 100]) /\
  (forall v, 0 <= _get_points_by_thresholds v (map of_int [0; 50; 100])
             <= Z.of_nat (length (map of_int [0; 50; 100])) - 1).
Proof.
  apply (points_monotone_and_bounded (map of_int [0; 50; 100])
           (of_int 60) (of_int 120)).
  - discriminate.
  - reflexivity.
Defined.

(** On a non-decreasing list the lookup is the capped count of the
    thresholds strictly below the value. *)
Lemma points_on_sorted (v : pyfloat) (t : list pyfloat) :
  nondecreasing t ->
  _get_points_by_thresholds v t =
    match t with
    | [] => 0
    | _ :: _ => Z.min (Z.of_nat (count_lt v t)) (Z.of_nat (length t) - 1)
    end.
Proof.
  intros Hs. destruct t as [|t0 t]; [reflexivity|].
  unfold _get_points_by_thresholds.
  rewrite (bisect_left_count_lt _ v Hs).
  destruct (feq t0 PosInf) eqn:E; [|reflexivity].
  destruct t0; try discriminate.
  assert (Hz : forall l, (forall i, (i < length l)%nat ->
                                     fle PosInf (nth i l NaN) = true) ->
                         count_lt v l = 0%nat).
  { induction l as [|y l IHl]; intros Hl; [reflexivity|].
    cbn [count_lt].
    pose proof (Hl 0%nat ltac:(simpl; lia)) as H0. cbn [nth] in H0.
    destruct y; try discriminate.
    rewrite IHl.
    - destruct v; reflexivity.
    - intros i Hi. apply (Hl (S i)). simpl. lia. }
  cbn [count_lt]. rewrite Hz.
  - destruct v; cbn [flt length]; lia.
  - intros i Hi. apply (Hs 0%nat (S i)); simpl; lia.
Qed.

(** C1, as the code has it.  On a non-decreasing threshold list the lookup
    awards the number of thresholds strictly below the value, capped at
    [len(t) - 1]: [bisect_left] puts a value that equals a threshold to the
    left of it, so the threshold it equals is not counted.  An empty list,
    and a list whose first element is [+inf], give 0 whatever the value. *)
Theorem points_by_thresholds_spec (v : pyfloat) (t : list pyfloat) :
  nondecreasing t ->
  _get_points_by_thresholds v t =
    match t with
    | [] => 0
    | _ :: _ => Z.min (Z.of_nat (count_lt v t)) (Z.of_nat (length t) - 1)
    end
  /\ _get_points_by_thresholds v [] = 0
  /\ (forall t', _get_points_by_thresholds v (PosInf :: t') = 0).
Proof.
  intros Hs. split; [apply points_on_sorted; exact Hs|].
  split; [reflexivity|intros t'; reflexivity].
Qed.

Lemma points_by_thresholds_spec_witness :
  _get_points_by_thresholds (of_int 60) (map of_int [0; 50; 100]) =
    Z.min (Z.of_nat (count_lt (of_int 60) (map of_int [0; 50; 100])))
          (Z.of_nat (length (map of_int [0; 50; 100])) - 1)
  /\ _get_points_by_thresholds (of_int 60) [] = 0
  /\ (forall t', _get_points_by_thresholds (of_int 60) (PosInf :: t') = 0).
Proof.
  apply (points_by_thresholds_spec (of_int 60) (map of_int [0; 50; 100])).
  apply nondecreasingb_spec. reflexivity.
Defined.

(** C1, as the specification words it, fails at a tie: with thresholds
    0, 50, 100 the value 50 has two thresholds at or below it, yet the
    lookup awards one point. *)
Lemma points_count_le_counterexample :
  _get_points_by_thresholds (of_int 50) (map of_int [0; 50; 100]) = 1 /\
  Z.min (Z.of_nat (count_le (of_int 50) (map of_int [0; 50; 100])))
        (Z.of_nat (length (map of_int [0; 50; 100])) - 1) = 2.
Proof. split; reflexivity. Qed.

(** The count needs the order: in the unsorted list 0, 100, 50 two elements
    are below 60, and the search stops at index 1. *)
Example unsorted_lookup :
  _get_points_by_thresholds (of_int 60) (List.map of_int [0; 100; 50]) = 1 /\
  count_lt (of_int 60) (List.map of_int [0; 100; 50]) = 2%nat.
Proof. split; reflexivity. Qed.

(** ** Whole-word search *)

Import FoodGroupMapper.

Lemma is_word_lower_char (c : ascii) :
  Text.is_word_char (Text.lower_char c) = Text.is_word_char c.
Proof. destruct c as [[] [] [] [] [] [] [] []]; reflexivity. Qed.

Lemma lower_char_idem (c : ascii) :
  Text.lower_char (Text.lower_char c) = Text.lower_char c.
Proof. destruct c as [[] [] [] [] [] [] [] []]; reflexivity. Qed.

Lemma lower_idem (s : string) : Text.lower (Text.lower s) = Text.lower s.
Proof.
  induction s as [|c s IH]; [reflexivity|].
  cbn [Text.lower]. rewrite lower_char_idem, IH. reflexivity.
Qed.

Lemma is_word_last_lower (s : string) (prev : option ascii) :
  Text.is_word (last_char (Text.lower s) prev) = Text.is_word (last_char s prev).
Proof.
  revert prev. induction s as [|c s IH]; intros prev; [reflexivity|].
  cbn [Text.lower last_char].
  destruct s as [|d s]; [cbn; apply is_word_lower_char|].
  cbn [Text.lower last_char] in *. apply (IH (Some c)).
Qed.

Lemma is_word_head_lower (s : string) :
  Text.is_word (Text.head (Text.lower s)) = Text.is_word (Text.head s).
Proof. destruct s as [|c s]; [reflexivity|]. cbn. apply is_word_lower_char. Qed.

(** What a successful match consumes. *)
Lemma match_keyword_spec (kw s : string) (prev : option ascii) :
  Text.match_keyword kw s prev = true <->
  exists mid post,
    s = String.append mid post /\ Text.lower mid = Text.lower kw /\
    Text.word_boundary (last_char mid prev) (Text.head post) = true.
Proof.
  revert s prev. induction kw as [|k kw IH]; intros s prev; cbn [Text.match_keyword].
  - split.
    + intros H. exists EmptyString, s. auto.
    + intros (mid & post & -> & Hm & Hb).
      destruct mid; [exact Hb|discriminate].
  - destruct s as [|c s].
    + split; [discriminate|].
      intros (mid & post & Hs & Hm & _).
      destruct mid; [discriminate Hm|discriminate Hs].
    + rewrite andb_true_iff, IH. split.
      * intros [Hc (mid & post & -> & Hm & Hb)].
        apply Ascii.eqb_eq in Hc.
        exists (String c mid), post. cbn [String.append Text.lower last_char].
        rewrite Hm, Hc. auto.
      * intros (mid & post & Hs & Hm & Hb).
        destruct mid as [|c' mid]; [discriminate Hm|].
        cbn [String.append Text.lower last_char] in *.
        injection Hs as -> ->. injection Hm as Hc Hm.
        split; [apply Ascii.eqb_eq; congruence|].
        exists mid, post. auto.
Qed.

(** A text that equals a wordy keyword up to case begins and ends with a
    word character. *)
Lemma wordy_match (kw mid : string) (prev : option ascii) :
  wordy kw = true -> Text.lower mid = Text.lower kw ->
  Text.is_word (Text.head mid) = true /\
  Text.is_word (last_char mid prev) = true.
Proof.
  unfold wordy. rewrite andb_true_iff. intros [Hh Hl] Hm.
  rewrite <- is_word_head_lower, <- Hm, is_word_head_lower in Hh.
  rewrite <- is_word_last_lower, <- Hm, is_word_last_lower in Hl.
  split; [exact Hh|].
  destruct mid as [|c mid]; [discriminate Hh|exact Hl].
Qed.

Lemma search_from_spec (kw s : string) (prev : option ascii) :
  wordy kw = true ->
  Text.search_from kw s prev = true <->
  exists pre mid post,
    s = String.append pre (String.append mid post) /\
    Text.lower mid = Text.lower kw /\
    Text.is_word (last_char pre prev) = false /\
    Text.is_word (Text.head post) = false.
Proof.
  intros Hw. revert prev.
  induction s as [|c s IH]; intros prev.
  - cbn [Text.search_from]. rewrite orb_false_r, andb_true_iff, match_keyword_spec.
    split.
    + intros [Hb (mid & post & Hs & Hm & Hb')].
      destruct (wordy_match kw mid prev Hw Hm) as [Hh Hl].
      destruct mid; [discriminate Hh|discriminate Hs].
    + intros (pre & mid & post & Hs & Hm & _).
      destruct (wordy_match kw mid prev Hw Hm) as [Hh _].
      destruct pre; [|discriminate Hs].
      destruct mid; [discriminate Hh|discriminate Hs].
  - cbn [Text.search_from]. rewrite orb_true_iff, andb_true_iff, match_keyword_spec, IH.
    split.
    + intros [[Hb (mid & post & Hs & Hm & Hb')]|(pre & mid & post & Hs & Hm & Hp & Hq)].
      * destruct (wordy_match kw mid prev Hw Hm) as [Hh Hl].
        exists EmptyString, mid, post. cbn [String.append last_char].
        unfold Text.word_boundary in *.
        destruct mid as [|c' mid]; [discriminate Hh|].
        cbn [String.append] in Hs. injection Hs as <- ->.
        cbn [Text.head] in Hb, Hh. rewrite Hh in Hb. rewrite Hl in Hb'.
        repeat split; try assumption.
        -- destruct (Text.is_word prev); [discriminate Hb|reflexivity].
        -- destruct (Text.is_word (Text.head post)); [discriminate Hb'|reflexivity].
      * exists (String c pre), mid, post. cbn [String.append last_char].
        rewrite Hs. auto.
    + intros (pre & mid & post & Hs & Hm & Hp & Hq).
      destruct (wordy_match kw mid prev Hw Hm) as [Hh Hl].
      destruct pre as [|c' pre].
      * left. cbn [String.append last_char] in *.
        unfold Text.word_boundary.
        split.
        -- destruct mid as [|d mid]; [discriminate Hh|].
           cbn [String.append Text.head] in *. injection Hs as -> _.
           rewrite Hp, Hh. reflexivity.
        -- exists mid, post. rewrite Hl, Hq. auto.
      * right. cbn [String.append last_char] in *. injection Hs as <- ->.
        exists pre, mid, post. auto.
Qed.

(** The regular-expression search finds exactly the whole-word
    occurrences. *)
Lemma search_word_spec (kw text : string) :
  wordy kw = true ->
  Text.search_word kw text = true <-> whole_word_occurrence kw text.
Proof. intros Hw. apply (search_from_spec kw text None Hw). Qed.

Lemma lower_append (a b : string) :
  Text.lower (String.append a b) = String.append (Text.lower a) (Text.lower b).
Proof.
  induction a as [|c a IH]; [reflexivity|].
  simpl. rewrite IH. reflexivity.
Qed.

Lemma lower_split (s a b : string) :
  Text.lower s = String.append a b ->
  exists a' b', s = String.append a' b' /\ Text.lower a' = a /\ Text.lower b' = b.
Proof.
  revert s. induction a as [|c a IH]; intros s Hs.
  - exists EmptyString, s. auto.
  - destruct s as [|d s]; [discriminate Hs|].
    cbn [Text.lower String.append] in Hs. injection Hs as Hc Hs.
    destruct (IH s Hs) as (a' & b' & -> & Ha & Hb).
    exists (String d a'), b'. cbn [String.append Text.lower].
    rewrite Hc, Ha. auto.
Qed.

(** Lower-casing the text first, as [get_category] does, changes nothing. *)
Lemma whole_word_occurrence_lower (kw text : string) :
  whole_word_occurrence kw (Text.lower text) <-> whole_word_occurrence kw text.
Proof.
  split.
  - intros (pre & mid & post & Hs & Hm & Hp & Hq).
    destruct (lower_split _ _ _ Hs) as (pre' & rest & -> & Hpre & Hrest).
    destruct (lower_split _ _ _ Hrest) as (mid' & post' & -> & Hmid & Hpost).
    exists pre', mid', post'. subst pre mid post.
    rewrite lower_idem in Hm. rewrite is_word_last_lower in Hp.
    rewrite is_word_head_lower in Hq. auto.
  - intros (pre & mid & post & -> & Hm & Hp & Hq).
    exists (Text.lower pre), (Text.lower mid), (Text.lower post).
    rewrite !lower_append, lower_idem, is_word_last_lower, is_word_head_lower.
    auto.
Qed.

(** [_contains_keyword] on a list of wordy keywords. *)
Lemma contains_keyword_spec (text : string) (keywords : list string) :
  forallb wordy keywords = true ->
  _contains_keyword text keywords = true <->
  exists kw, In kw keywords /\ whole_word_occurrence kw text.
Proof.
  intros Hw. unfold _contains_keyword. rewrite existsb_exists.
  rewrite forallb_forall in Hw.
  split; intros (kw & Hin & H); exists kw; (split; [exact Hin|]);
    apply (search_word_spec kw text (Hw kw Hin)); exact H.
Qed.

(** ** Per-food classification *)

Example rice_boiled_is_food :
  FoodGroupMapper.get_category 20 "Rice, boiled" = FOOD.
Proof. reflexivity. Qed.

Example olive_oil_is_oil :
  FoodGroupMapper.get_category 9 "Olives in Olive Oil, canned" = OILS_AND_SPREADS.
Proof. reflexivity. Qed.

Example boiled_contains_oil : Text.contains "oil" "rice, boiled" = true.
Proof. reflexivity. Qed.

(** Only food group 4 has OILS_AND_SPREADS as its base category. *)
Lemma base_category_oils (food_group_id : Z) :
  dict_get FOOD_GROUP_MAPPINGS food_group_id FOOD = OILS_AND_SPREADS ->
  food_group_id = 4.
Proof.
  unfold FOOD_GROUP_MAPPINGS. cbn [dict_get].
  repeat match goal with
         | |- context [food_group_id =? ?k] =>
             destruct (Z.eqb_spec food_group_id k) as [->|?];
             [intros H; try discriminate H; reflexivity|]
         end.
  discriminate.
Qed.

(** What [get_category] tests, in the vocabulary of the specification. *)
Lemma contains_keyword_lower (food_name : string) (keywords : list string) :
  forallb wordy keywords = true ->
  _contains_keyword (Text.lower food_name) keywords = true <->
  has_keyword food_name keywords.
Proof.
  intros Hw. rewrite (contains_keyword_spec _ _ Hw). unfold has_keyword.
  split; intros (kw & Hin & H); exists kw; (split; [exact Hin|]);
    apply whole_word_occurrence_lower; exact H.
Qed.

Lemma contains_keyword_lower_false (food_name : string) (keywords : list string) :
  forallb wordy keywords = true ->
  _contains_keyword (Text.lower food_name) keywords = false <->
  ~ has_keyword food_name keywords.
Proof.
  intros Hw. rewrite <- (contains_keyword_lower _ _ Hw).
  destruct (_contains_keyword (Text.lower food_name) keywords).
  - split; [discriminate|]. intros H. exfalso. apply H. reflexivity.
  - split; [|reflexivity]. intros _ H. discriminate H.
Qed.






(** ** Threshold lists stay ordered *)

Import ThresholdProvider.

(** [int(...)] is monotone. *)
Lemma py_int_mono (p q : Q) : (p <= q)%Q -> py_int p <= py_int q.
Proof.
  intros Hpq. unfold py_int.
  destruct (Qle_bool 0 p) eqn:Ep; destruct (Qle_bool 0 q) eqn:Eq.
  - apply Qfloor_resp_le. exact Hpq.
  - apply Qle_bool_iff in Ep.
    assert (Qle_bool 0 q = true) by (apply Qle_bool_iff; lra). congruence.
  - assert (Hp : (p <= 0)%Q).
    { destruct (Qlt_le_dec p 0) as [H|H]; [lra|].
      apply Qle_bool_iff in H. congruence. }
    apply Qle_bool_iff in Eq.
    pose proof (Qceiling_resp_le _ _ Hp) as H1.
    pose proof (Qfloor_resp_le _ _ Eq) as H2.
    change (Qceiling 0) with 0 in H1. change (Qfloor 0) with 0 in H2. lia.
  - apply Qceiling_resp_le. exact Hpq.
Qed.

Lemma sorted_map (f : Z -> Z) (l : list Z) :
  (forall a b, a <= b -> f a <= f b) ->
  StronglySorted Z.le l -> StronglySorted Z.le (List.map f l).
Proof.
  intros Hf Hl. induction Hl as [|a l Hl IH Ha]; cbn [List.map]; constructor.
  - exact IH.
  - apply Forall_forall. intros y Hy.
    apply list_elem_of_In, in_map_iff in Hy as (x & <- & Hx).
    apply Hf. apply (proj1 (Forall_forall _ _) Ha). apply list_elem_of_In. exact Hx.
Qed.

Lemma scale_sorted (factor : Q) (l : list Z) :
  (0 <= factor)%Q -> StronglySorted Z.le l -> StronglySorted Z.le (scale factor l).
Proof.
  intros Hf. apply sorted_map. intros a b Hab. apply py_int_mono.
  apply Qmult_le_compat_r; [|exact Hf]. rewrite <- Zle_Qle. exact Hab.
Qed.

Lemma divide_sorted (divisor : Q) (l : list Z) :
  (0 < divisor)%Q -> StronglySorted Z.le l -> StronglySorted Z.le (divide divisor l).
Proof.
  intros Hd. apply sorted_map. intros a b Hab. apply py_int_mono.
  unfold Qdiv. apply Qmult_le_compat_r.
  - rewrite <- Zle_Qle. exact Hab.
  - apply Qinv_le_0_compat. lra.
Qed.

Lemma fle_of_int (a b : Z) : a <= b -> fle (of_int a) (of_int b) = true.
Proof. intros H. cbn. apply Qle_bool_iff. rewrite <- Zle_Qle. exact H. Qed.

Lemma sorted_nondecreasing (l : list Z) :
  StronglySorted Z.le l -> nondecreasing (List.map of_int l).
Proof.
  intros Hl. induction Hl as [|a l Hl IH Ha]; intros i j Hij Hj.
  - cbn in Hj. lia.
  - cbn [List.map length] in Hj. destruct j as [|j]; [lia|].
    destruct i as [|i].
    + cbn [List.map nth].
      rewrite (nth_indep _ NaN (of_int 0)) by lia. rewrite map_nth.
      apply fle_of_int. apply (proj1 (Forall_forall _ _) Ha).
      apply list_elem_of_In, nth_In. rewrite length_map in Hj. lia.
    + cbn [List.map nth]. apply IH; lia.
Qed.

Lemma repeat_inf_nondecreasing (n : nat) : nondecreasing (List.repeat PosInf n).
Proof.
  intros i j Hij Hj. rewrite repeat_length in Hj.
  rewrite !nth_repeat_lt by lia. reflexivity.
Qed.

Lemma all_sorted_lists (t : HSRThresholds) :
  all_sorted t -> Forall nondecreasing (threshold_lists t).
Proof.
  intros (H1 & H2 & H3 & H4 & H5 & H6 & H7 & H8 & H9).
  unfold threshold_lists.
  repeat (apply Forall_cons; split); try (apply sorted_nondecreasing; assumption);
    [exact H8|apply Forall_nil_2].
Qed.

Ltac sorted_literal :=
  repeat first [ apply SSorted_nil | apply SSorted_cons
               | apply Forall_nil_2 | apply Forall_cons_2 | lia ].

Lemma base_sorted :
  all_sorted
    {| energy_density := ENERGY_DENSITY_THRESHOLDS;
       sugar_natural := NATURAL_SUGAR_THRESHOLDS;
       sugar_added := ADDED_SUGAR_THRESHOLDS;
       saturated_fat := SATURATED_FAT_THRESHOLDS;
       sodium := SODIUM_THRESHOLDS;
       fvnl := FVNL_THRESHOLDS;
       protein := PROTEIN_THRESHOLDS;
       fiber := List.map of_int FIBER_THRESHOLDS;
       star_rating := STAR_RATING_THRESHOLDS;
       base_stars := 0 |}.
Proof.
  unfold all_sorted; cbn -[nondecreasing].
  repeat split; try (unfold ENERGY_DENSITY_THRESHOLDS, NATURAL_SUGAR_THRESHOLDS,
    ADDED_SUGAR_THRESHOLDS, SATURATED_FAT_THRESHOLDS, SODIUM_THRESHOLDS,
    FVNL_THRESHOLDS, PROTEIN_THRESHOLDS, STAR_RATING_THRESHOLDS; sorted_literal).
  apply nondecreasingb_spec. reflexivity.
Qed.

Lemma contextual_adjustments_sorted (t : HSRThresholds) (context : NutritionalContext) :
  (0 <= satiety_index context)%Q ->
  (liquid_percentage context <= 10 # 3)%Q ->
  all_sorted t -> all_sorted (_apply_contextual_adjustments t context).
Proof.
  intros Hs Hl (H1 & H2 & H3 & H4 & H5 & H6 & H7 & H8 & H9).
  unfold _apply_contextual_adjustments.
  assert (Hf : (0 <= 1 - liquid_percentage context * (3 # 10))%Q) by lra.
  destruct (negb (Qeq_bool (satiety_index context) 1));
    destruct (String.eqb (processing_level context) "ultra_processed");
    destruct (Qltb (3 # 10) (liquid_percentage context));
    destruct (Qltb 1 (protein_quality_score context)) eqn:Ep;
    try (apply Qltb_lt in Ep);
    unfold all_sorted; cbn -[nondecreasing scale divide];
    repeat split; try assumption;
    repeat first [ assumption
                 | apply scale_sorted; [first [assumption|lra]|]
                 | apply divide_sorted; [lra|] ].
Qed.

Lemma category_adjustments_sorted (t : HSRThresholds) (category : Category) :
  all_sorted t -> all_sorted (_apply_category_adjustments t category).
Proof.
  intros (H1 & H2 & H3 & H4 & H5 & H6 & H7 & H8 & H9).
  destruct category; unfold all_sorted; cbn -[nondecreasing];
    repeat split; try assumption.
  - apply repeat_inf_nondecreasing.
  - apply repeat_inf_nondecreasing.
  - apply sorted_map; [intros; lia|assumption].
  - apply sorted_map; [intros; lia|assumption].
Qed.

Lemma get_thresholds_sorted
  (category : Category) (nutritional_context : option NutritionalContext) :
  (forall context, nutritional_context = Some context ->
     (0 <= satiety_index context)%Q /\ (liquid_percentage context <= 10 # 3)%Q) ->
  all_sorted (get_thresholds category nutritional_context).
Proof.
  intros Hc. unfold get_thresholds. apply category_adjustments_sorted.
  destruct nutritional_context as [context|]; [|apply base_sorted].
  destruct (Hc context eq_refl) as [Hs Hl].
  apply contextual_adjustments_sorted; [exact Hs|exact Hl|apply base_sorted].
Qed.

(** ** Methods of the calculator *)

Import HSRCalculator.

Lemma bind_Some {A B : Type} (m : Method A) (k : A -> Method B)
      (self self' : Self) (b : B) :
  bind m k self = Some (b, self') ->
  exists a self1, m self = Some (a, self1) /\ k a self1 = Some (b, self').
Proof.
  unfold bind. destruct (m self) as [[a self1]|]; [|discriminate].
  intros H. exists a, self1. auto.
Qed.

Lemma read_only_ret {A : Type} (a : A) : read_only (ret a).
Proof. intros self a' self' H. injection H as _ <-. reflexivity. Qed.

Lemma read_only_raise {A : Type} : read_only (@raise A).
Proof. intros self a self' H. discriminate H. Qed.

Lemma read_only_gets {A : Type} (f : Self -> A) : read_only (gets f).
Proof. intros self a self' H. injection H as _ <-. reflexivity. Qed.

Lemma read_only_meal_value (f : MealModel.NutritionalValues -> Q) :
  read_only (meal_value f).
Proof.
  intros self a self' H. unfold meal_value in H.
  destruct (MealModel.values (meal self)); [|discriminate].
  injection H as _ <-. reflexivity.
Qed.

Lemma read_only_meal_total_weight : read_only meal_total_weight.
Proof.
  intros self a self' H. unfold meal_total_weight in H.
  destruct (MealModel.total_weight (meal self)); [|discriminate].
  injection H as _ <-. reflexivity.
Qed.

Lemma read_only_bind {A B : Type} (m : Method A) (k : A -> Method B) :
  read_only m -> (forall a, read_only (k a)) -> read_only (bind m k).
Proof.
  intros Hm Hk self b self' H.
  apply bind_Some in H as (a & self1 & H1 & H2).
  apply Hm in H1. subst self1. exact (Hk a _ _ _ H2).
Qed.

Ltac read_only_step :=
  first [ apply read_only_ret | apply read_only_raise | apply read_only_gets
        | apply read_only_meal_value | apply read_only_meal_total_weight
        | apply read_only_bind; [|intros ?]
        | match goal with
          | |- read_only (if ?b then _ else _) => destruct b
          | |- read_only (match ?x with _ => _ end) => destruct x
          end ].

Ltac read_only_tac := repeat read_only_step.

Lemma read_only_energy : read_only _get_energy_points.
Proof. unfold _get_energy_points. read_only_tac. Qed.

Lemma read_only_saturated_fat : read_only _get_saturated_fat_points.
Proof. unfold _get_saturated_fat_points. read_only_tac. Qed.

Lemma read_only_sugar (amount : Q) (t : list Z) : read_only (_get_sugar_points amount t).
Proof. unfold _get_sugar_points. read_only_tac. Qed.

Lemma read_only_sodium : read_only _get_sodium_points.
Proof. unfold _get_sodium_points. read_only_tac. Qed.

Lemma read_only_protein : read_only _get_protein_points.
Proof. unfold _get_protein_points. read_only_tac. Qed.

Lemma read_only_fiber : read_only _get_fiber_points.
Proof. unfold _get_fiber_points. read_only_tac. Qed.

Lemma read_only_fvnl : read_only _get_fvnl_points.
Proof. unfold _get_fvnl_points. read_only_tac. Qed.

Lemma read_only_satiety_adjustment : read_only _calculate_satiety_adjustment.
Proof. unfold _calculate_satiety_adjustment. read_only_tac. Qed.

Lemma read_only_processing_penalty : read_only _calculate_processing_penalty.
Proof. unfold _calculate_processing_penalty. read_only_tac. Qed.

Lemma read_only_naturalness_bonus : read_only _calculate_naturalness_bonus.
Proof. unfold _calculate_naturalness_bonus. read_only_tac. Qed.

Lemma read_only_confidence : read_only _calculate_confidence.
Proof. unfold _calculate_confidence. read_only_tac. Qed.

Create HintDb read_only.

#[local] Hint Resolve read_only_energy read_only_saturated_fat read_only_sugar
  read_only_sodium read_only_protein read_only_fiber read_only_fvnl
  read_only_satiety_adjustment read_only_processing_penalty
  read_only_naturalness_bonus read_only_confidence : read_only.

Lemma read_only_components : read_only _calculate_components.
Proof.
  unfold _calculate_components.
  repeat first [ solve [auto with read_only] | read_only_step ].
Qed.

Lemma read_only_nutrient_analysis (cs : HSRComponentScore) :
  read_only (_add_nutrient_analysis cs).
Proof.
  unfold _add_nutrient_analysis, _determine_sugar_impact,
    _get_sugar_recommendation.
  read_only_tac.
Qed.

Lemma read_only_calculate_hsr : read_only calculate_hsr.
Proof.
  unfold calculate_hsr, _apply_scientific_adjustments.
  repeat first [ apply read_only_components | apply read_only_nutrient_analysis
               | solve [auto with read_only] | read_only_step ].
Qed.



(** The lists of that example. *)
Example adjusted_thresholds_example :
  energy_density (get_thresholds CHEESE (Some example_context))
  = [0; 51; 102; 153; 204; 255; 306; 408; 510; 612; 714] /\
  ThresholdProvider.protein (get_thresholds CHEESE (Some example_context))
  = [0; 0; 3; 7; 11; 16; 20; 25; 29; 34; 43] /\
  ThresholdProvider.fiber (get_thresholds BEVERAGE (Some example_context))
  = List.repeat PosInf 11.
Proof. repeat split; reflexivity. Qed.

(** ** The contexts of the pipeline are within the data model *)

Lemma fold_left_Qplus_acc (l : list Q) (a : Q) :
  (fold_left Qplus l a == a + Qsum l)%Q.
Proof.
  unfold Qsum. revert a. induction l as [|x l IH]; intros a; cbn [fold_left].
  - lra.
  - rewrite (IH (a + x)%Q), (IH (0 + x)%Q). lra.
Qed.

Lemma Qsum_cons (x : Q) (l : list Q) : (Qsum (x :: l) == x + Qsum l)%Q.
Proof.
  unfold Qsum at 1. cbn [fold_left]. rewrite fold_left_Qplus_acc. lra.
Qed.

Lemma Qsum_filter_range {A : Type} (size : A -> Q) (p : A -> bool) (l : list A) :
  Forall (fun x => (0 <= size x)%Q) l ->
  (0 <= Qsum (List.map size (List.filter p l)) <= Qsum (List.map size l))%Q.
Proof.
  induction 1 as [|x l Hx _ IH]; cbn [List.filter List.map].
  - unfold Qsum. cbn. lra.
  - destruct (p x); cbn [List.map]; rewrite ?Qsum_cons; lra.
Qed.

Lemma Qdiv_unit_range (a b : Q) :
  (0 <= a <= b)%Q -> ~ (b == 0)%Q -> (0 <= a / b <= 1)%Q.
Proof.
  intros [Ha Hab] Hb. assert (Hpos : (0 < b)%Q) by lra. split.
  - apply Qle_shift_div_l; [exact Hpos|lra].
  - apply Qle_shift_div_r; [exact Hpos|lra].
Qed.

Lemma liquid_percentage_range (foods_info : list FoodInfo) :
  Forall (fun food => (0 <= info_serving_size food)%Q) foods_info ->
  (0 <= ThresholdProvider._calculate_liquid_percentage foods_info <= 1)%Q.
Proof.
  intros Hsize. unfold ThresholdProvider._calculate_liquid_percentage.
  destruct foods_info as [|food foods_info]; [lra|].
  destruct (Qeq_bool _ 0) eqn:E; [lra|].
  apply Qdiv_unit_range.
  - apply Qsum_filter_range. exact Hsize.
  - intros H. apply Qeq_bool_iff in H. congruence.
Qed.

Lemma Qclamp_range (lo hi x : Q) :
  (lo <= hi)%Q -> (lo <= Qmax lo (Qmin hi x) <= hi)%Q.
Proof.
  intros H. unfold Qmax, Qmin.
  destruct (Qltb x hi) eqn:E1.
  - apply Qltb_lt in E1. destruct (Qltb lo x) eqn:E2; [apply Qltb_lt in E2|]; lra.
  - destruct (Qltb lo hi) eqn:E2; lra.
Qed.

Lemma satiety_index_range (meal_nutrients : MealNutrients) (foods_info : list FoodInfo) :
  (1 # 2 <= _calculate_satiety_index meal_nutrients foods_info <= 3 # 2)%Q.
Proof.
  unfold _calculate_satiety_index.
  match goal with
  | |- (_ <= Qmax ?a (Qmin ?b ?x) <= _)%Q =>
      pose proof (Qclamp_range a b x ltac:(lra)) as H
  end.
  lra.
Qed.

(** Every context the calculator computes for a meal without negative
    serving sizes satisfies the hypotheses of the threshold theorems. *)
Lemma analyzed_context_range (m : Meal) (context : NutritionalContext) :
  Forall (fun food => (0 <= FoodModel.serving_size food)%Q) (MealModel.foods m) ->
  _analyze_meal_context m = Some context ->
  (1 # 2 <= ThresholdProvider.satiety_index context <= 3 # 2)%Q /\
  (0 <= ThresholdProvider.liquid_percentage context <= 1)%Q.
Proof.
  intros Hsize H. unfold _analyze_meal_context in H.
  destruct (MealModel.values m) as [v|]; [|discriminate].
  injection H as <-.
  cbn [analyze_nutritional_context ThresholdProvider.satiety_index
       ThresholdProvider.liquid_percentage].
  split; [apply satiety_index_range|].
  apply liquid_percentage_range.
  apply Forall_map. cbn [info_serving_size]. exact Hsize.
Qed.

(** The thresholds a calculator holds are non-decreasing lists. *)
Corollary calculator_thresholds_nondecreasing
  (m : Meal) (cfg : option HSRConfig) (self : Self) :
  Forall (fun food => (0 <= FoodModel.serving_size food)%Q) (MealModel.foods m) ->
  __init__ m cfg = Some self ->
  Forall nondecreasing (threshold_lists (thresholds self)).
Proof.
  intros Hsize H. unfold __init__ in H.
  destruct (_analyze_meal_context m) as [context|] eqn:Hc; [|discriminate].
  destruct (_analyze_sugar_sources m) as [sugar|]; [|discriminate].
  injection H as <-. cbn [thresholds].
  destruct (analyzed_context_range m context Hsize Hc) as [Hs Hl].
  unfold thresholds_for.
  destruct (MealModel.category m);
    apply all_sorted_lists, get_thresholds_sorted;
    intros ctx Heq; injection Heq as <-; split; lra.
Qed.

(** ** The component score *)

Lemma bind_gets {A B : Type} (f : Self -> A) (k : A -> Method B) (self : Self) :
  bind (gets f) k self = k (f self) self.
Proof. reflexivity. Qed.

Lemma bind_ret {A B : Type} (a : A) (k : A -> Method B) (self : Self) :
  bind (ret a) k self = k a self.
Proof. reflexivity. Qed.

Lemma bind_read_only {A B : Type} (m : Method A) (k : A -> Method B)
      (self self' : Self) (b : B) :
  read_only m ->
  bind m k self = Some (b, self') ->
  exists a, m self = Some (a, self) /\ k a self = Some (b, self').
Proof.
  intros Hm H. apply bind_Some in H as (a & self1 & H1 & H2).
  pose proof (Hm _ _ _ H1). subst self1. exists a. auto.
Qed.

(** [max(0, int(x))] is [max(0, floor(x))]: the two roundings differ only
    below zero, where the maximum hides them. *)
Lemma max_int_floor (q : Q) : Z.max 0 (py_int q) = Z.max 0 (Qfloor q).
Proof.
  unfold py_int. destruct (Qle_bool 0 q) eqn:E; [reflexivity|].
  assert (Hq : (q <= 0)%Q).
  { destruct (Qlt_le_dec q 0) as [H|H]; [lra|].
    apply Qle_bool_iff in H. congruence. }
  pose proof (Qceiling_resp_le _ _ Hq) as H1.
  pose proof (Qfloor_resp_le _ _ Hq) as H2.
  change (Qceiling 0) with 0 in H1. change (Qfloor 0) with 0 in H2. lia.
Qed.

(** What [_calculate_components] returns, field by field. *)
Lemma components_inv (self self' : Self) (cs : HSRComponentScore) :
  _calculate_components self = Some (cs, self') ->
  sugar_natural_points cs =
    _get_points_by_thresholds (Fin (natural_sugars (sugar_analysis self)))
      (List.map of_int (sugar_natural (thresholds self)))
  /\ sugar_added_points cs =
       _get_points_by_thresholds (Fin (added_sugars (sugar_analysis self)))
         (List.map of_int (sugar_added (thresholds self)))
  /\ sugar_points cs =
       py_int (inject_Z (sugar_natural_points cs) * (7 # 10)
               + inject_Z (sugar_added_points cs) * (13 # 10))
  /\ baseline_points cs =
       energy_points cs + saturated_fat_points cs + sugar_points cs
       + sodium_points cs
  /\ modifying_points cs = protein_points cs + fiber_points cs + fvnl_points cs
  /\ final_score cs =
       Z.max 0 (py_int (inject_Z (Z.max 0 (baseline_points cs - modifying_points cs))
                        + satiety_adjustment cs + processing_penalty cs
                        + naturalness_bonus cs))
  /\ star_rating cs = _convert_to_star_rating (final_score cs).
Proof.
  unfold _calculate_components, _get_sugar_points. intros H.
  apply bind_read_only in H as (energy & _ & H); [|auto with read_only].
  apply bind_read_only in H as (satfat & _ & H); [|auto with read_only].
  rewrite !bind_gets, !bind_ret in H.
  apply bind_read_only in H as (sodium & _ & H); [|auto with read_only].
  apply bind_read_only in H as (protein & _ & H); [|auto with read_only].
  apply bind_read_only in H as (fiber & _ & H); [|auto with read_only].
  apply bind_read_only in H as (fvnl & _ & H); [|auto with read_only].
  apply bind_read_only in H as (sat & _ & H); [|auto with read_only].
  apply bind_read_only in H as (pen & _ & H); [|auto with read_only].
  apply bind_read_only in H as (bonus & _ & H); [|auto with read_only].
  apply bind_read_only in H as (conf & _ & H); [|auto with read_only].
  injection H as <- _. cbn. repeat split; reflexivity.
Qed.

Lemma succeeds_ret {A : Type} (a : A) (self : Self) : succeeds (ret a) self.
Proof. exists a. reflexivity. Qed.

Lemma succeeds_gets {A : Type} (f : Self -> A) (self : Self) : succeeds (gets f) self.
Proof. exists (f self). reflexivity. Qed.

Lemma succeeds_meal_value (f : MealModel.NutritionalValues -> Q) (self : Self) :
  is_Some (MealModel.values (meal self)) -> succeeds (meal_value f) self.
Proof.
  intros [v Hv]. exists (f v). unfold meal_value. rewrite Hv. reflexivity.
Qed.

Lemma succeeds_meal_total_weight (self : Self) :
  is_Some (MealModel.total_weight (meal self)) -> succeeds meal_total_weight self.
Proof.
  intros [w Hw]. exists w. unfold meal_total_weight. rewrite Hw. reflexivity.
Qed.

Lemma succeeds_bind {A B : Type} (m : Method A) (k : A -> Method B) (self : Self) :
  succeeds m self -> (forall a, succeeds (k a) self) -> succeeds (bind m k) self.
Proof.
  intros [a Ha] Hk. destruct (Hk a) as [b Hb]. exists b.
  unfold bind. rewrite Ha. exact Hb.
Qed.

Lemma succeeds_bind_gets {A B : Type} (f : Self -> A) (k : A -> Method B)
      (self : Self) :
  succeeds (k (f self)) self -> succeeds (bind (gets f) k) self.
Proof. intros H. exact H. Qed.

Ltac succeeds_step :=
  first [ apply succeeds_ret | apply succeeds_gets
        | apply succeeds_bind_gets
        | apply succeeds_meal_value; assumption
        | apply succeeds_meal_total_weight; assumption
        | apply succeeds_bind; [|intros ?]
        | match goal with
          | |- succeeds (if negb ?b then _ else _) _ => destruct b; cbn [negb]
          | |- succeeds (match ?x with _ => _ end) _ => destruct x
          end ].

Lemma succeeds_components (self : Self) :
  well_formed self -> succeeds _calculate_components self.
Proof.
  intros (Hv & Hw & Hs).
  unfold _calculate_components, _get_energy_points, _get_saturated_fat_points,
    _get_sugar_points, _get_sodium_points, _get_protein_points,
    _get_fiber_points, _get_fvnl_points, _calculate_satiety_adjustment,
    _calculate_processing_penalty, _calculate_naturalness_bonus,
    _calculate_confidence.
  repeat first [ rewrite Hs | succeeds_step ].
Qed.

Lemma succeeds_calculate_hsr (self : Self) :
  well_formed self -> succeeds calculate_hsr self.
Proof.
  intros Hwf. pose proof Hwf as (Hv & Hw & Hs).
  unfold calculate_hsr, _apply_scientific_adjustments.
  apply succeeds_bind; [apply succeeds_components; exact Hwf|intros cs].
  unfold _calculate_confidence, _add_nutrient_analysis,
    _determine_sugar_impact, _get_sugar_recommendation.
  repeat succeeds_step.
Qed.

Lemma Qmax_ge_l (a b : Q) : (a <= Qmax a b)%Q.
Proof.
  unfold Qmax. destruct (Qltb a b) eqn:E; [|lra].
  apply Qltb_lt in E. lra.
Qed.

(** The satiety index of an analysed context is at least one half, so the
    division by it is defined. *)
Lemma satiety_index_ge_half
  (meal_nutrients : MealNutrients) (foods_info : list FoodInfo) :
  (1 # 2 <= _calculate_satiety_index meal_nutrients foods_info)%Q.
Proof.
  unfold _calculate_satiety_index.
  match goal with |- (_ <= Qmax ?a ?b)%Q => pose proof (Qmax_ge_l a b) as H end.
  lra.
Qed.

Lemma init_well_formed (m : Meal) (cfg : option HSRConfig) (self : Self) :
  __init__ m cfg = Some self -> well_formed self /\ meal self = m.
Proof.
  unfold __init__, _analyze_meal_context, _analyze_sugar_sources.
  destruct (MealModel.values m) as [v|] eqn:Hv; [|discriminate].
  destruct (MealModel.total_weight m) as [w|] eqn:Hw; [|discriminate].
  destruct (fold_left sugar_step (MealModel.foods m) (0%Q, 0%Q, []))
    as [[natural added] sources].
  intros H. injection H as <-. cbn [meal nutritional_context].
  split; [|reflexivity]. unfold well_formed. cbn [meal nutritional_context].
  rewrite Hv, Hw. repeat split; try (eexists; reflexivity).
  cbn [analyze_nutritional_context satiety_index].
  match goal with
  | |- Qeq_bool ?s 0 = false =>
      pose proof (satiety_index_ge_half
                    {| mn_energy := MealModel.energy_kilocalories v;
                       mn_protein := MealModel.protein v;
                       mn_fiber := MealModel.fibre_total_dietary v;
                       mn_saturated_fat := MealModel.fatty_acids_saturated_total v;
                       mn_sodium := MealModel.sodium v;
                       mn_sugars := MealModel.sugars_total v |}
                    (List.map
                       (fun food =>
                          {| info_food_id := FoodModel.food_id food;
                             info_food_name := FoodModel.food_name food;
                             info_serving_size := FoodModel.serving_size food;
                             info_food_group_id := FoodModel.food_group_id food;
                             info_food_form := _determine_food_form food;
                             info_processing_level := _determine_processing_level food;
                             info_has_added_sugars := _has_added_sugars food;
                             info_protein_content := FoodModel.nutrient food "PROTEIN" |})
                       (MealModel.foods m))) as Hhalf;
      destruct (Qeq_bool s 0) eqn:E; [|reflexivity];
      apply Qeq_bool_iff in E; rewrite E in Hhalf; lra
  end.
Qed.

Lemma init_succeeds (m : Meal) (cfg : option HSRConfig) :
  is_Some (MealModel.values m) -> is_Some (MealModel.total_weight m) ->
  is_Some (__init__ m cfg).
Proof.
  intros [v Hv] [w Hw].
  unfold __init__, _analyze_meal_context, _analyze_sugar_sources.
  rewrite Hv, Hw.
  destruct (fold_left sugar_step (MealModel.foods m) (0%Q, 0%Q, []))
    as [[natural added] sources].
  eexists; reflexivity.
Qed.

(** ** Meal construction *)

Lemma post_init_nonempty_attributes (m : Meal) :
  MealModel.foods m <> [] ->
  is_Some (MealModel.values (MealModel.__post_init__ m)) /\
  is_Some (MealModel.total_weight (MealModel.__post_init__ m)).
Proof.
  intros Hne. unfold MealModel.__post_init__.
  destruct (MealModel.foods m) as [|food fs] eqn:Hf; [congruence|].
  unfold MealModel._validate_final_categorization.
  set (m1 := match MealModel.category (MealModel._validate_foods m) with
             | Some assigned =>
                 MealModel._validate_provided_category assigned
                   (MealModel._validate_foods m)
             | None => MealModel._determine_category (MealModel._validate_foods m)
             end).
  assert (H : is_Some (MealModel.values (MealModel._calculate_nutritional_values m1))
              /\ is_Some (MealModel.total_weight
                            (MealModel._calculate_nutritional_values m1))).
  { unfold MealModel._calculate_nutritional_values.
    destruct (Qeq_bool _ 0); cbn; split; eexists; reflexivity. }
  destruct H as [[v Hv] [w Hw]]. rewrite Hv.
  destruct (MealModel.category (MealModel._calculate_nutritional_values m1));
    cbn; rewrite ?Hv, ?Hw; split; eexists; reflexivity.
Qed.

Lemma new_nonempty_attributes (fs : list Food) (c : option Category) :
  fs <> [] ->
  is_Some (MealModel.values (MealModel.new fs c)) /\
  is_Some (MealModel.total_weight (MealModel.new fs c)).
Proof. intros Hne. apply post_init_nonempty_attributes. exact Hne. Qed.

Lemma final_categorization_category (m : Meal) :
  MealModel.category (MealModel._validate_final_categorization m)
  = MealModel.category m.
Proof.
  unfold MealModel._validate_final_categorization.
  destruct (MealModel.values m); [|reflexivity].
  destruct (MealModel.category m) eqn:E; [|exact E].
  cbn. exact E.
Qed.

Lemma nutritional_values_category (m : Meal) :
  MealModel.category (MealModel._calculate_nutritional_values m)
  = MealModel.category m.
Proof.
  unfold MealModel._calculate_nutritional_values.
  destruct (Qeq_bool _ 0); reflexivity.
Qed.

(** A constructed meal always has a category. *)
Lemma new_has_category (fs : list Food) (c : option Category) :
  is_Some (MealModel.category (MealModel.new fs c)).
Proof.
  unfold MealModel.new, MealModel.__post_init__. cbn [MealModel.foods].
  destruct fs as [|food fs]; [eexists; reflexivity|].
  rewrite final_categorization_category, nutritional_values_category.
  cbn [MealModel.category MealModel._validate_foods MealModel.add_warnings].
  destruct c as [assigned|].
  - unfold MealModel._validate_provided_category.
    destruct (MealCategorizer.determine_scientific_category _); [|eexists; reflexivity].
    destruct (Qltb _ _); eexists; reflexivity.
  - unfold MealModel._determine_category.
    destruct (MealCategorizer.determine_scientific_category _); eexists; reflexivity.
Qed.

(** ** Final score and stars *)

(** The star rating as a step function of the score. *)
Lemma star_rating_steps (score : Z) :
  (score <= 0 -> _convert_to_star_rating score = 5%Q) /\
  (0 < score <= 5 -> _convert_to_star_rating score = (45 # 10)%Q) /\
  (5 < score <= 10 -> _convert_to_star_rating score = 4%Q) /\
  (10 < score <= 15 -> _convert_to_star_rating score = (35 # 10)%Q) /\
  (15 < score <= 20 -> _convert_to_star_rating score = 3%Q) /\
  (20 < score <= 25 -> _convert_to_star_rating score = (25 # 10)%Q) /\
  (25 < score <= 30 -> _convert_to_star_rating score = 2%Q) /\
  (30 < score <= 35 -> _convert_to_star_rating score = (15 # 10)%Q) /\
  (35 < score -> _convert_to_star_rating score = 1%Q).
Proof.
  unfold _convert_to_star_rating.
  repeat match goal with
         | |- context [?a <=? ?b] => destruct (Z.leb_spec a b)
         end; repeat split; intros; try lia; reflexivity.
Qed.



(** The chicken-breast meal: one food, so its category FOOD is kept with
    confidence 1; 3 energy points against 10 protein points give the score
    0 and five stars. *)
Example chicken_breast_rating :
  MealModel.category (MealModel.new [chicken_breast] None) = Some FOOD /\
  MealModel.category_confidence (MealModel.new [chicken_breast] None) = 1%Q /\
  match __init__ (MealModel.new [chicken_breast] None) None with
  | Some self =>
      match calculate_hsr self with
      | Some (result, _) =>
          energy_points (result_component_score result) = 3 /\
          protein_points (result_component_score result) = 10 /\
          final_score (result_component_score result) = 0 /\
          result_star_rating result = 5%Q
      | None => False
      end
  | None => False
  end.
Proof. vm_compute. repeat split; reflexivity. Qed.

(** The scenario of the specification: 40 baseline points, 5 modifying
    points and no adjustment give the score 35 and 1.5 stars. *)
Example score_35_scenario :
  Z.max 0 (py_int (inject_Z (Z.max 0 (40 - 5)) + 0 + 0 + - 0)) = 35 /\
  _convert_to_star_rating 35 = (15 # 10)%Q.
Proof. split; reflexivity. Qed.

(** ** Sugar points *)

Lemma count_lt_pointwise (v : pyfloat) (low high : list Z) :
  Forall2 Z.le low high ->
  (count_lt v (List.map of_int high) <= count_lt v (List.map of_int low))%nat.
Proof.
  induction 1 as [|a b low high Hab _ IH]; cbn [List.map count_lt]; [lia|].
  destruct (flt (of_int b) v) eqn:Eb.
  - rewrite (fle_flt_trans _ _ _ (fle_of_int a b Hab) Eb). lia.
  - destruct (flt (of_int a) v); lia.
Qed.

Lemma scale_pointwise (f g : Q) (l : list Z) :
  (f <= g)%Q -> Forall (Z.le 0) l -> Forall2 Z.le (scale f l) (scale g l).
Proof.
  intros Hfg Hl. unfold scale.
  induction Hl as [|a l Ha _ IH]; cbn [List.map]; constructor; [|exact IH].
  apply py_int_mono. rewrite !(Qmult_comm (inject_Z a)).
  apply Qmult_le_compat_r; [exact Hfg|].
  change (inject_Z 0 <= inject_Z a)%Q. rewrite <- Zle_Qle. exact Ha.
Qed.

Lemma Forall2_le_trans (a b c : list Z) :
  Forall2 Z.le a b -> Forall2 Z.le b c -> Forall2 Z.le a c.
Proof.
  intros Hab. revert c. induction Hab as [|x y a b Hxy _ IH]; intros c Hbc.
  - apply Forall2_nil_inv_l in Hbc. subst c. constructor.
  - apply Forall2_cons_inv_l in Hbc as (z & c' & Hyz & Hbc & ->).
    constructor; [lia|apply IH; exact Hbc].
Qed.

Ltac pointwise_literal :=
  repeat first [ apply Forall2_nil_2 | apply Forall2_cons_2
               | apply Forall_nil_2 | apply Forall_cons_2 | lia ].

(** The two sugar lists that [get_thresholds] returns. *)
Lemma get_thresholds_sugar
  (category : Category) (nutritional_context : option NutritionalContext) :
  let t := get_thresholds category nutritional_context in
  sugar_added t =
    match nutritional_context with
    | Some context =>
        if String.eqb (processing_level context) "ultra_processed"
        then scale (8 # 10) ADDED_SUGAR_THRESHOLDS else ADDED_SUGAR_THRESHOLDS
    | None => ADDED_SUGAR_THRESHOLDS
    end /\
  sugar_natural t =
    match nutritional_context with
    | Some context =>
        if Qltb (3 # 10) (liquid_percentage context)
        then scale (1 - liquid_percentage context * (3 # 10))
                   NATURAL_SUGAR_THRESHOLDS
        else NATURAL_SUGAR_THRESHOLDS
    | None => NATURAL_SUGAR_THRESHOLDS
    end.
Proof.
  unfold get_thresholds, _apply_contextual_adjustments.
  destruct nutritional_context as [context|]; [|destruct category; split; reflexivity].
  destruct (negb (Qeq_bool (satiety_index context) 1));
    destruct (String.eqb (processing_level context) "ultra_processed");
    destruct (Qltb (3 # 10) (liquid_percentage context));
    destruct (Qltb 1 (protein_quality_score context));
    destruct category; split; reflexivity.
Qed.

(** With a liquid percentage of at most 1, every added-sugar threshold is
    at or below the natural-sugar threshold of the same rank. *)
Lemma added_below_natural
  (category : Category) (nutritional_context : option NutritionalContext) :
  (forall context, nutritional_context = Some context ->
                   (liquid_percentage context <= 1)%Q) ->
  Forall2 Z.le (sugar_added (get_thresholds category nutritional_context))
               (sugar_natural (get_thresholds category nutritional_context)).
Proof.
  intros Hc.
  destruct (get_thresholds_sugar category nutritional_context) as [-> ->].
  assert (H0 : Forall2 Z.le ADDED_SUGAR_THRESHOLDS NATURAL_SUGAR_THRESHOLDS).
  { unfold ADDED_SUGAR_THRESHOLDS, NATURAL_SUGAR_THRESHOLDS. pointwise_literal. }
  assert (H1 : Forall2 Z.le (scale (8 # 10) ADDED_SUGAR_THRESHOLDS)
                       ADDED_SUGAR_THRESHOLDS).
  { replace (scale (8 # 10) ADDED_SUGAR_THRESHOLDS)
      with [0; 0; 1; 2; 3; 4; 4; 6; 8; 9; 12] by reflexivity.
    unfold ADDED_SUGAR_THRESHOLDS. pointwise_literal. }
  assert (H2 : Forall2 Z.le ADDED_SUGAR_THRESHOLDS
                       (scale (7 # 10) NATURAL_SUGAR_THRESHOLDS)).
  { replace (scale (7 # 10) NATURAL_SUGAR_THRESHOLDS)
      with [0; 3; 5; 8; 10; 12; 15; 17; 19; 22; 24] by reflexivity.
    unfold ADDED_SUGAR_THRESHOLDS. pointwise_literal. }
  assert (Hpos : Forall (Z.le 0) NATURAL_SUGAR_THRESHOLDS).
  { unfold NATURAL_SUGAR_THRESHOLDS. pointwise_literal. }
  destruct nutritional_context as [context|]; [|exact H0].
  specialize (Hc context eq_refl).
  assert (H3 : Forall2 Z.le (scale (7 # 10) NATURAL_SUGAR_THRESHOLDS)
                       (scale (1 - liquid_percentage context * (3 # 10))
                              NATURAL_SUGAR_THRESHOLDS)).
  { apply scale_pointwise; [lra|exact Hpos]. }
  destruct (String.eqb (processing_level context) "ultra_processed");
    destruct (Qltb (3 # 10) (liquid_percentage context));
    eauto using Forall2_le_trans.
Qed.

(** Equal gram amounts: the added-sugar lookup gives at least as many
    points as the natural-sugar lookup. *)
Lemma added_points_ge_natural
  (category : Category) (nutritional_context : option NutritionalContext) (g : pyfloat) :
  (forall context, nutritional_context = Some context ->
     (1 # 2 <= satiety_index context <= 3 # 2)%Q /\
     (0 <= liquid_percentage context <= 1)%Q) ->
  let t := get_thresholds category nutritional_context in
  0 <= _get_points_by_thresholds g (List.map of_int (sugar_natural t))
    <= _get_points_by_thresholds g (List.map of_int (sugar_added t)).
Proof.
  intros Hc t.
  assert (Hs : all_sorted t).
  { apply get_thresholds_sorted. intros c Hcc.
    destruct (Hc c Hcc) as [? ?]. split; lra. }
  destruct Hs as (_ & Hn & Ha & _).
  assert (Hle : Forall2 Z.le (sugar_added t) (sugar_natural t)).
  { apply added_below_natural. intros c Hcc. destruct (Hc c Hcc) as [_ ?]. lra. }
  pose proof (Forall2_length _ _ _ Hle) as Hlen.
  pose proof (count_lt_pointwise g _ _ Hle) as Hcount.
  pose proof (points_on_sorted g _ (sorted_nondecreasing _ Hn)) as Pn.
  pose proof (points_on_sorted g _ (sorted_nondecreasing _ Ha)) as Pa.
  rewrite Pn, Pa.
  destruct (sugar_natural t) as [|n ns]; destruct (sugar_added t) as [|a al];
    cbn [length] in Hlen; try discriminate; cbn [List.map]; [lia|].
  cbn [List.map] in Hcount. cbn [length]. rewrite !length_map.
  injection Hlen as Hlen. lia.
Qed.

(** On the point values that occur (0 to 10 for the eleven-element lists)
    the truncated blend on exact rationals is the one binary64 arithmetic
    computes. *)
Lemma sugar_blend_binary64 (n a : Z) :
  0 <= n <= 10 -> 0 <= a <= 10 ->
  Binary64.sugar_blend n a
  = py_int (inject_Z n * (7 # 10) + inject_Z a * (13 # 10)).
Proof.
  intros Hn Ha.
  assert (H : forallb
                (fun n => forallb
                            (fun a => Binary64.sugar_blend n a
                                      =? py_int (inject_Z n * (7 # 10)
                                                 + inject_Z a * (13 # 10)))
                            [0; 1; 2; 3; 4; 5; 6; 7; 8; 9; 10])
                [0; 1; 2; 3; 4; 5; 6; 7; 8; 9; 10] = true)
    by (vm_compute; reflexivity).
  rewrite forallb_forall in H.
  assert (Hin : forall k, 0 <= k <= 10 -> In k [0; 1; 2; 3; 4; 5; 6; 7; 8; 9; 10]).
  { intros k Hk. cbn.
    assert (k = 0 \/ k = 1 \/ k = 2 \/ k = 3 \/ k = 4 \/ k = 5 \/ k = 6
            \/ k = 7 \/ k = 8 \/ k = 9 \/ k = 10) by lia.
    intuition auto 20. }
  specialize (H n (Hin n Hn)). rewrite forallb_forall in H.
  apply Z.eqb_eq. apply H. apply Hin. exact Ha.
Qed.



(** At 10 g the natural-sugar lookup gives 3 points and the added-sugar
    lookup 8 on the base lists, and 3 against 10 for a half-liquid
    ultra-processed meal. *)
Example sugar_points_at_10g :
  _get_points_by_thresholds (Fin 10)
    (List.map of_int (sugar_natural (get_thresholds FOOD None))) = 3 /\
  _get_points_by_thresholds (Fin 10)
    (List.map of_int (sugar_added (get_thresholds FOOD None))) = 8 /\
  _get_points_by_thresholds (Fin 10)
    (List.map of_int (sugar_natural (get_thresholds FOOD (Some example_context)))) = 3 /\
  _get_points_by_thresholds (Fin 10)
    (List.map of_int (sugar_added (get_thresholds FOOD (Some example_context)))) = 10.
Proof. repeat split; reflexivity. Qed.

(** ** Processing level *)

(** The rule worded in the specification is the one the meal categorizer
    uses for category fitness. *)
Lemma spec_processing_level_is_categorizer (foods : list Food) :
  foods <> [] ->
  MealCategorizer._assess_overall_processing_level foods =
  spec_processing_level (List.map FoodModel.food_name foods).
Proof.
  intros Hne. unfold MealCategorizer._assess_overall_processing_level,
    spec_processing_level, average_score.
  rewrite List.map_map.
  destruct foods as [|food foods]; [congruence|]. reflexivity.
Qed.

Lemma processing_score_of_level (food : Food) :
  processing_score (HSRCalculator._determine_processing_level food) =
  indicator_score (FoodModel.food_name food).
Proof.
  unfold HSRCalculator._determine_processing_level, indicator_score.
  repeat match goal with
         | |- context [Text.any_in ?l ?s] => destruct (Text.any_in l s)
         end; reflexivity.
Qed.

Lemma determine_processing_level_avg (foods_info : list FoodInfo) :
  foods_info <> [] ->
  ThresholdProvider._determine_processing_level foods_info =
  let avg :=
    average_score
      (List.map (fun food => processing_score (info_processing_level food))
                foods_info) in
  if Qle_bool (25 # 10) avg then "ultra_processed"
  else if Qle_bool (15 # 10) avg then "processed"
  else "minimally_processed".
Proof.
  intros Hne. destruct foods_info as [|food foods_info]; [congruence|].
  unfold ThresholdProvider._determine_processing_level, average_score.
  rewrite length_map. reflexivity.
Qed.

(** C3, as the code has it.  The processing level of the nutritional
    context of a meal with at least one food is decided by the average of
    the per-food indicator score (3 for an ultra-processed indicator in the
    name, else 2 for a processed indicator, else 1): ultra_processed from
    2.5 up, processed from 1.5 up, minimally_processed below. *)
Theorem context_processing_level (m : Meal) :
  MealModel.foods m <> [] ->
  is_Some (MealModel.values m) ->
  let avg :=
    average_score
      (List.map (fun food => indicator_score (FoodModel.food_name food))
                (MealModel.foods m)) in
  let level := option_map processing_level (_analyze_meal_context m) in
  ((25 # 10 <= avg)%Q -> level = Some "ultra_processed") /\
  ((15 # 10 <= avg)%Q /\ (avg < 25 # 10)%Q -> level = Some "processed") /\
  ((avg < 15 # 10)%Q -> level = Some "minimally_processed").
Proof.
  intros Hne [v Hv] avg level. subst level. unfold _analyze_meal_context.
  rewrite Hv. cbn [option_map analyze_nutritional_context processing_level].
  rewrite determine_processing_level_avg
    by (destruct (MealModel.foods m); [congruence|discriminate]).
  rewrite List.map_map. cbn [info_processing_level].
  rewrite (map_ext _ (fun food => indicator_score (FoodModel.food_name food)))
    by (intros; apply processing_score_of_level).
  fold avg. cbv zeta.
  destruct (Qle_bool (25 # 10) avg) eqn:E1.
  - apply Qle_bool_iff in E1. repeat split; intros; try reflexivity; lra.
  - assert (H1 : (avg < 25 # 10)%Q).
    { apply Qnot_le_lt. intros H. apply Qle_bool_iff in H. congruence. }
    destruct (Qle_bool (15 # 10) avg) eqn:E2.
    + apply Qle_bool_iff in E2. repeat split; intros; try reflexivity; lra.
    + assert (H2 : (avg < 15 # 10)%Q).
      { apply Qnot_le_lt. intros H. apply Qle_bool_iff in H. congruence. }
      repeat split; intros; try reflexivity; lra.
Qed.

Lemma context_processing_level_witness :
  let m := MealModel.new [chicken_breast] None in
  let avg :=
    average_score
      (List.map (fun food => indicator_score (FoodModel.food_name food))
                (MealModel.foods m)) in
  let level := option_map processing_level (_analyze_meal_context m) in
  ((25 # 10 <= avg)%Q -> level = Some "ultra_processed") /\
  ((15 # 10 <= avg)%Q /\ (avg < 25 # 10)%Q -> level = Some "processed") /\
  ((avg < 15 # 10)%Q -> level = Some "minimally_processed").
Proof.
  apply (context_processing_level (MealModel.new [chicken_breast] None)).
  - discriminate.
  - eexists. reflexivity.
Defined.

(** C3, as the specification words it, fails: a meal of plain chicken
    breast has no keyword in its name, so the worded rule scores it 2 and
    calls it processed, while the context of the scoring pipeline says
    minimally_processed. *)
Lemma processing_level_counterexample :
  spec_processing_level ["Chicken breast"] = "processed" /\
  option_map processing_level
    (_analyze_meal_context (MealModel.new [chicken_breast] None))
  = Some "minimally_processed".
Proof. split; reflexivity. Qed.

(** ** Tie-breaking *)

Import MealCategorizer.

Lemma Category_eqb_eq (a b : Category) : Category_eqb a b = true <-> a = b.
Proof. destruct a, b; cbn; split; intros H; try reflexivity; discriminate H. Qed.

Lemma first_conflict_sat (p : Category -> bool) (cs : list (Category * Q * Q))
      (c : Category) :
  first_conflict p cs = Some c -> p c = true.
Proof.
  unfold first_conflict.
  destruct (List.find (fun c => p (fst (fst c))) cs) as [x|] eqn:E; [|discriminate].
  intros H. injection H as <-. apply find_some in E as [_ E]. exact E.
Qed.

Lemma protein_fat_rule_iff (cs : list (Category * Q * Q)) (foods : list Food)
      (d : Category) :
  TieRules.protein_fat_rule cs foods d <->
  Qle_bool 15 (protein (_analyze_meal_nutrition foods))
  && Qle_bool 15 (fat_total (_analyze_meal_nutrition foods)) = true
  /\ first_conflict (is_in [CHEESE; DAIRY_FOOD]) cs = Some d.
Proof.
  unfold TieRules.protein_fat_rule.
  rewrite andb_true_iff, !Qle_bool_iff. tauto.
Qed.

Lemma energy_density_rule_iff (cs : list (Category * Q * Q)) (foods : list Food) :
  TieRules.energy_density_rule cs foods <->
  Qltb 500 (energy_kcal (_analyze_meal_nutrition foods))
  && Qltb 40 (fat_total (_analyze_meal_nutrition foods)) = true
  /\ is_Some (first_conflict (Category_eqb OILS_AND_SPREADS) cs).
Proof.
  unfold TieRules.energy_density_rule.
  rewrite andb_true_iff, !Qltb_lt. split.
  - intros (H1 & H2 & H3). rewrite H3. repeat split; try assumption. eexists; reflexivity.
  - intros ((H1 & H2) & [o Ho]). repeat split; try assumption.
    pose proof (first_conflict_sat _ _ _ Ho) as Hp.
    apply Category_eqb_eq in Hp. congruence.
Qed.

(** C4, as the code has it.  When rule (a) applies with liquid category
    [c], the winner is decided by the last of the rules (a), (b), (c) that
    applies: OILS_AND_SPREADS when (c) applies, else the cheese or dairy
    category of (b) when (b) applies, else [c]; the FOOD default of rule
    (d) is never used. *)
Theorem tie_breaking_after_liquid_rule
  (top : Category) (cs : list (Category * Q * Q)) (foods : list Food)
  (c : Category) :
  TieRules.liquid_rule cs foods c ->
  let tb := _apply_tie_breaking_rules top cs foods in
  (TieRules.energy_density_rule cs foods ->
   winner tb = OILS_AND_SPREADS /\ rule_applied tb = Some "energy_density") /\
  (~ TieRules.energy_density_rule cs foods ->
   forall d, TieRules.protein_fat_rule cs foods d ->
             winner tb = d /\ rule_applied tb = Some "protein_fat_profile") /\
  (~ TieRules.energy_density_rule cs foods ->
   (forall d, ~ TieRules.protein_fat_rule cs foods d) ->
   winner tb = c /\ rule_applied tb = Some "liquid_dominance") /\
  rule_applied tb <> Some "inclusive_default".
Proof.
  intros [Hliq Hfc] tb. subst tb.
  setoid_rewrite protein_fat_rule_iff. rewrite energy_density_rule_iff.
  unfold _apply_tie_breaking_rules.
  rewrite (proj2 (Qltb_lt _ _) Hliq), Hfc.
  destruct (Qle_bool 15 (protein (_analyze_meal_nutrition foods))
            && Qle_bool 15 (fat_total (_analyze_meal_nutrition foods)));
    destruct (first_conflict (is_in [CHEESE; DAIRY_FOOD]) cs) as [d|] eqn:F2;
    destruct (Qltb 500 (energy_kcal (_analyze_meal_nutrition foods))
              && Qltb 40 (fat_total (_analyze_meal_nutrition foods)));
    destruct (first_conflict (Category_eqb OILS_AND_SPREADS) cs) as [o|] eqn:F3;
    cbn [rule_applied winner];
    try (destruct (Category_eqb d CHEESE) eqn:Ed;
         [apply Category_eqb_eq in Ed; subst d|]);
    (split; [|split; [|split]]);
    try discriminate;
    try (intros [H1 H2]; first [discriminate H1 | destruct H2 as [? H2]; discriminate H2]);
    try (intros _; split; reflexivity);
    try (intros _ d' [H1 H2]; first [discriminate H1 | discriminate H2
                                    | injection H2 as <-; split; reflexivity]);
    try (intros Hn; exfalso; apply Hn; split; [reflexivity|eexists; reflexivity]);
    try (intros _ Hn; exfalso; eapply Hn; split; reflexivity);
    try (intros _ _; split; reflexivity).
Qed.

Lemma tie_breaking_after_liquid_rule_witness :
  let cs := [(BEVERAGE, 8 # 10, 1 # 100); (FOOD, 75 # 100, 6 # 100)]%Q in
  let tb := _apply_tie_breaking_rules DAIRY_BEVERAGE cs
              [protein_drink "Orange juice" 200; protein_drink "Water" 100] in
  (TieRules.energy_density_rule cs
     [protein_drink "Orange juice" 200; protein_drink "Water" 100] ->
   winner tb = OILS_AND_SPREADS /\ rule_applied tb = Some "energy_density") /\
  (~ TieRules.energy_density_rule cs
       [protein_drink "Orange juice" 200; protein_drink "Water" 100] ->
   forall d, TieRules.protein_fat_rule cs
               [protein_drink "Orange juice" 200; protein_drink "Water" 100] d ->
             winner tb = d /\ rule_applied tb = Some "protein_fat_profile") /\
  (~ TieRules.energy_density_rule cs
       [protein_drink "Orange juice" 200; protein_drink "Water" 100] ->
   (forall d, ~ TieRules.protein_fat_rule cs
                  [protein_drink "Orange juice" 200; protein_drink "Water" 100] d) ->
   winner tb = BEVERAGE /\ rule_applied tb = Some "liquid_dominance") /\
  rule_applied tb <> Some "inclusive_default".
Proof.
  apply (tie_breaking_after_liquid_rule DAIRY_BEVERAGE
           [(BEVERAGE, 8 # 10, 1 # 100); (FOOD, 75 # 100, 6 # 100)]%Q
           [protein_drink "Orange juice" 200; protein_drink "Water" 100]
           BEVERAGE).
  split; reflexivity.
Defined.

(** C4, as the specification words it, fails.  For a meal of two protein
    drinks the liquid percentage is 1 and BEVERAGE is among the conflicts,
    so rule (a) applies; rule (b) applies as well and overwrites the
    winner, and the meal is categorized CHEESE. *)
Lemma tie_breaking_counterexample :
  match _resolve_category_conflicts protein_drinks
          (_evaluate_category_fitness (_analyze_meal_nutrition protein_drinks)) with
  | Some resolution =>
      TieRules.liquid_rule (conflicts resolution) protein_drinks BEVERAGE /\
      option_map winner (tie_breaker resolution) = Some CHEESE
  | None => False
  end /\
  option_map recommended_category (determine_scientific_category protein_drinks)
  = Some CHEESE.
Proof. vm_compute. repeat split; reflexivity. Qed.

(** ** The empty meal *)

(** C2.  What the constructor leaves behind for an empty food list: the
    category is FOOD, the confidence 0 and the only warning the empty-meal
    message, but [__post_init__] returns before any nutritional attribute
    is assigned, so [total_weight] and the aggregated nutrients are unset
    rather than 0, and constructing a calculator on the meal raises. *)
Theorem empty_meal_attributes_unset (c : option Category) :
  MealModel.category (MealModel.new [] c) = Some FOOD /\
  MealModel.category_confidence (MealModel.new [] c) = 0%Q /\
  MealModel.category_warnings (MealModel.new [] c) = [MealModel.EmptyMeal] /\
  MealModel.warning_text MealModel.EmptyMeal
  = "Empty meal - defaulting to FOOD category" /\
  MealModel.values (MealModel.new [] c) = None /\
  MealModel.total_weight (MealModel.new [] c) = None /\
  (forall cfg, __init__ (MealModel.new [] c) cfg = None).
Proof. repeat split; reflexivity. Qed.

(** The sibling path: two foods of serving size 0 give a meal whose
    nutritional attributes are all assigned 0, with a warning. *)
Example zero_weight_meal_values :
  let m := MealModel.new [protein_drink "Protein drink" 0;
                          protein_drink "Milk drink" 0] None in
  MealModel.values m = Some MealModel.zero_nutritional_values /\
  MealModel.total_weight m = Some (0 + 0 + 0)%Q /\
  In MealModel.ZeroTotalWeight (MealModel.category_warnings m).
Proof. vm_compute. repeat split; auto 10. Qed.

(** * Further properties of the code *)

(** ** Shared facts about the calculator *)

Import ThresholdProvider HSRCalculator.

(** Comparisons between closed rational numbers. *)
Ltac Qclosed :=
  repeat match goal with
         | |- _ /\ _ => split
         end;
  first [ apply Qle_bool_iff; vm_compute; reflexivity
        | apply Qltb_lt; vm_compute; reflexivity
        | apply Qeq_bool_iff; vm_compute; reflexivity ].

#[local] Hint Resolve read_only_components read_only_nutrient_analysis
  read_only_meal_value read_only_meal_total_weight read_only_gets
  read_only_ret : read_only.

Lemma bind_meal_value {B : Type} (f : MealModel.NutritionalValues -> Q)
      (k : Q -> Method B) (self : Self) (v : MealModel.NutritionalValues) :
  MealModel.values (meal self) = Some v ->
  bind (meal_value f) k self = k (f v) self.
Proof. intros Hv. unfold bind, meal_value. rewrite Hv. reflexivity. Qed.

Lemma bind_meal_value_None {B : Type} (f : MealModel.NutritionalValues -> Q)
      (k : Q -> Method B) (self : Self) :
  MealModel.values (meal self) = None ->
  bind (meal_value f) k self = None.
Proof. intros Hv. unfold bind, meal_value. rewrite Hv. reflexivity. Qed.

Lemma bind_bind {A B C : Type} (m : Method A) (k1 : A -> Method B)
      (k2 : B -> Method C) (self : Self) :
  bind (bind m k1) k2 self = bind m (fun a => bind (k1 a) k2) self.
Proof. unfold bind. destruct (m self) as [[a self1]|]; reflexivity. Qed.

(** Runs a method on a calculator whose meal has the values [Hv]. *)
Ltac run_method Hv :=
  repeat (first [ rewrite (bind_meal_value _ _ _ _ Hv)
                | rewrite bind_gets
                | rewrite bind_ret
                | rewrite bind_bind ];
          cbv beta zeta);
  unfold ret.

(** Every step of [_calculate_components], read off its result. *)
Lemma components_parts (self self' : Self) (cs : HSRComponentScore) :
  _calculate_components self = Some (cs, self') ->
  self' = self /\
  _get_energy_points self = Some (energy_points cs, self) /\
  _get_saturated_fat_points self = Some (saturated_fat_points cs, self) /\
  _get_sodium_points self = Some (sodium_points cs, self) /\
  _get_protein_points self = Some (protein_points cs, self) /\
  _get_fiber_points self = Some (fiber_points cs, self) /\
  _get_fvnl_points self = Some (fvnl_points cs, self) /\
  _calculate_satiety_adjustment self = Some (satiety_adjustment cs, self) /\
  _calculate_processing_penalty self = Some (processing_penalty cs, self) /\
  _calculate_naturalness_bonus self = Some (naturalness_bonus cs, self) /\
  _calculate_confidence self = Some (scientific_confidence cs, self).
Proof.
  intros H. pose proof (read_only_components _ _ _ H) as ->.
  revert H. unfold _calculate_components, _get_sugar_points. intros H.
  apply bind_read_only in H as (energy & He & H); [|solve [auto with read_only]].
  apply bind_read_only in H as (satfat & Hs & H); [|solve [auto with read_only]].
  rewrite !bind_gets, !bind_ret in H.
  apply bind_read_only in H as (sodium & Hna & H); [|solve [auto with read_only]].
  apply bind_read_only in H as (protein & Hp & H); [|solve [auto with read_only]].
  apply bind_read_only in H as (fiber & Hf & H); [|solve [auto with read_only]].
  apply bind_read_only in H as (fvnl & Hv & H); [|solve [auto with read_only]].
  apply bind_read_only in H as (sat & Hsat & H); [|solve [auto with read_only]].
  apply bind_read_only in H as (pen & Hpen & H); [|solve [auto with read_only]].
  apply bind_read_only in H as (bonus & Hb & H); [|solve [auto with read_only]].
  apply bind_read_only in H as (conf & Hc & H); [|solve [auto with read_only]].
  injection H as <-. cbn. repeat split; assumption.
Qed.

(** Every step of [calculate_hsr], read off its result. *)
Lemma calculate_hsr_parts (self self' : Self) (result : MealHSRResult) :
  calculate_hsr self = Some (result, self') ->
  self' = self /\
  _calculate_components self = Some (result_component_score result, self) /\
  result_star_rating result
  = _convert_to_star_rating (final_score (result_component_score result)) /\
  result_level result = _determine_level (result_star_rating result) /\
  result_category result = MealModel.category (meal self) /\
  _add_nutrient_analysis (result_component_score result) self
  = Some (result_nutrient_analyses result, self) /\
  _calculate_confidence self = Some (result_confidence_score result, self).
Proof.
  intros H. pose proof (read_only_calculate_hsr _ _ _ H) as ->.
  revert H. unfold calculate_hsr, _apply_scientific_adjustments. intros H.
  apply bind_read_only in H as (cs & Hcs & H); [|solve [auto with read_only]].
  rewrite !bind_ret, !bind_gets in H.
  apply bind_read_only in H as (w & _ & H); [|solve [auto with read_only]].
  apply bind_read_only in H as (kj & _ & H); [|solve [auto with read_only]].
  apply bind_read_only in H as (kcal & _ & H); [|solve [auto with read_only]].
  apply bind_read_only in H as (na & Hna & H); [|solve [auto with read_only]].
  apply bind_read_only in H as (conf & Hconf & H); [|solve [auto with read_only]].
  injection H as <-. cbn. repeat split; first [assumption | reflexivity].
Qed.

(** A calculator can be built on every non-empty meal, and it computes
    the components and the result. *)
Lemma calculator_exists (fs : list Food) (c : option Category) (cfg : option HSRConfig) :
  fs <> [] ->
  exists self cs result,
    __init__ (MealModel.new fs c) cfg = Some self /\
    _calculate_components self = Some (cs, self) /\
    calculate_hsr self = Some (result, self).
Proof.
  intros Hfs.
  destruct (new_nonempty_attributes fs c Hfs) as [Hv Hw].
  destruct (init_succeeds (MealModel.new fs c) cfg Hv Hw) as [self Hs].
  destruct (init_well_formed _ _ _ Hs) as [Hwf _].
  destruct (succeeds_components self Hwf) as [cs Hcs].
  destruct (succeeds_calculate_hsr self Hwf) as [result Hr].
  exists self, cs, result. auto.
Qed.

(** ** Stars and levels *)

(** X1.  A higher score never earns more stars, and every rating is one
    of the nine half-star values from 1.0 to 5.0. *)
Theorem star_rating_antitone (score1 score2 : Z) :
  score1 <= score2 ->
  (_convert_to_star_rating score2 <= _convert_to_star_rating score1)%Q /\
  In (_convert_to_star_rating score1)
     [5; 45 # 10; 4; 35 # 10; 3; 25 # 10; 2; 15 # 10; 1]%Q.
Proof.
  intros H. unfold _convert_to_star_rating.
  repeat match goal with
         | |- context [?a <=? ?b] => destruct (Z.leb_spec a b)
         end;
    try lia; (split; [Qclosed | cbn; tauto]).
Qed.

Lemma star_rating_antitone_witness :
  (_convert_to_star_rating 12 <= _convert_to_star_rating 3)%Q /\
  In (_convert_to_star_rating 3)
     [5; 45 # 10; 4; 35 # 10; 3; 25 # 10; 2; 15 # 10; 1]%Q.
Proof. apply (star_rating_antitone 3 12). lia. Defined.

(** X2.  The level reported with a result is fixed by the final score of
    its components: excellent up to 5, good up to 15, average up to 25,
    below average up to 35 and poor above; the star rating of the result
    is the one of the components. *)
Theorem level_of_final_score (self self' : Self) (result : MealHSRResult) :
  calculate_hsr self = Some (result, self') ->
  result_star_rating result = star_rating (result_component_score result) /\
  result_level result =
    (let score := final_score (result_component_score result) in
     if score <=? 5 then EXCELLENT
     else if score <=? 15 then GOOD
     else if score <=? 25 then AVERAGE
     else if score <=? 35 then BELOW_AVERAGE
     else POOR).
Proof.
  intros H. apply calculate_hsr_parts in H as (_ & Hcs & Hstar & Hlevel & _).
  apply components_inv in Hcs as (_ & _ & _ & _ & _ & _ & Hs).
  split; [congruence|].
  rewrite Hlevel, Hstar. cbv zeta. unfold _convert_to_star_rating.
  repeat match goal with
         | |- context [?a <=? ?b] => destruct (Z.leb_spec a b)
         end;
    try lia; reflexivity.
Qed.

Lemma level_of_final_score_witness :
  exists self result,
    __init__ (MealModel.new [chicken_breast] None) None = Some self /\
    calculate_hsr self = Some (result, self) /\
    result_star_rating result = star_rating (result_component_score result) /\
    result_level result =
      (let score := final_score (result_component_score result) in
       if score <=? 5 then EXCELLENT
       else if score <=? 15 then GOOD
       else if score <=? 25 then AVERAGE
       else if score <=? 35 then BELOW_AVERAGE
       else POOR).
Proof.
  destruct (calculator_exists [chicken_breast] None None)
    as (self & cs & result & Hi & _ & Hr); [discriminate|].
  exists self, result. split; [exact Hi|]. split; [exact Hr|].
  exact (level_of_final_score self self result Hr).
Defined.

(** The deductions of [_calculate_confidence] add up to 0.4 at most: the
    two that depend on the protein value exclude each other. *)
Lemma confidence_range (self self' : Self) (c : Q) :
  _calculate_confidence self = Some (c, self') -> (6 # 10 <= c <= 1)%Q.
Proof.
  unfold _calculate_confidence.
  destruct (MealModel.values (meal self)) as [v|] eqn:Hv;
    [|rewrite (bind_meal_value_None _ _ _ Hv); discriminate].
  run_method Hv. intros H. injection H as <- _.
  destruct (Qeq_bool (MealModel.protein v) 0) eqn:Ep;
    destruct (Qeq_bool (MealModel.fibre_total_dietary v) 0);
    destruct (Qeq_bool (MealModel.sodium v) 0);
    destruct (String.eqb (processing_level (nutritional_context self))
                         "ultra_processed");
    destruct (Qltb (5 # 10) (liquid_percentage (nutritional_context self)));
    destruct (MealModel.category (meal self)) as [[]|];
    try destruct (Qltb 10 (MealModel.protein v)) eqn:E10;
    try (apply Qeq_bool_iff in Ep; apply Qltb_lt in E10; exfalso; lra);
    cbn; Qclosed.
Qed.

(** X3.  The confidence reported with a result, and the one kept in its
    components, lie between 0.6 and 1.0: the floor of 0.5 in
    [_calculate_confidence] is never reached. *)
Theorem confidence_score_range (self self' : Self) (result : MealHSRResult) :
  calculate_hsr self = Some (result, self') ->
  (6 # 10 <= result_confidence_score result <= 1)%Q /\
  (6 # 10 <= scientific_confidence (result_component_score result) <= 1)%Q.
Proof.
  intros H.
  apply calculate_hsr_parts in H as (_ & Hcs & _ & _ & _ & _ & Hconf).
  apply components_parts in Hcs.
  destruct Hcs as (_ & _ & _ & _ & _ & _ & _ & _ & _ & _ & Hc).
  split; eapply confidence_range; eassumption.
Qed.

Lemma confidence_score_range_witness :
  exists self result,
    __init__ (MealModel.new [chicken_breast] None) None = Some self /\
    calculate_hsr self = Some (result, self) /\
    (6 # 10 <= result_confidence_score result <= 1)%Q /\
    (6 # 10 <= scientific_confidence (result_component_score result) <= 1)%Q.
Proof.
  destruct (calculator_exists [chicken_breast] None None)
    as (self & cs & result & Hi & _ & Hr); [discriminate|].
  exists self, result. split; [exact Hi|]. split; [exact Hr|].
  exact (confidence_score_range self self result Hr).
Defined.

(** ** The number of thresholds *)

Lemma get_thresholds_lengths
  (category : Category) (nutritional_context : option NutritionalContext) :
  let t := get_thresholds category nutritional_context in
  length (energy_density t) = 11%nat /\
  length (sugar_natural t) = 11%nat /\
  length (sugar_added t) = 11%nat /\
  length (saturated_fat t) = 11%nat /\
  length (sodium t) = 11%nat /\
  length (fvnl t) = 11%nat /\
  length (ThresholdProvider.protein t) = 11%nat /\
  length (ThresholdProvider.fiber t) = 11%nat /\
  length (ThresholdProvider.star_rating t) = 11%nat.
Proof.
  unfold get_thresholds, _apply_contextual_adjustments.
  destruct nutritional_context as [context|];
    repeat match goal with
           | |- context [if ?b then _ else _] => destruct b
           end;
    destruct category; cbn;
    unfold scale, divide;
    rewrite ?List.length_map, ?List.repeat_length;
    repeat split; reflexivity.
Qed.

Lemma points_at_most_10 (v : pyfloat) (l : list pyfloat) :
  length l = 11%nat -> 0 <= _get_points_by_thresholds v l <= 10.
Proof.
  intros Hl. destruct l as [|x l]; [discriminate|].
  pose proof (points_bounds v (x :: l)) as H. rewrite Hl in H.
  apply H. discriminate.
Qed.

(** X4.  No adjustment of [get_thresholds] adds or removes a threshold:
    with or without a nutritional context, and for every category, each
    of the nine lists has 11 entries, so that a lookup in any of them
    awards between 0 and 10 points. *)
Theorem thresholds_keep_their_length
  (category : Category) (nutritional_context : option NutritionalContext) :
  Forall (fun l => length l = 11%nat)
         (threshold_lists (get_thresholds category nutritional_context)) /\
  forall v,
    Forall (fun l => 0 <= _get_points_by_thresholds v l <= 10)
           (threshold_lists (get_thresholds category nutritional_context)).
Proof.
  pose proof (get_thresholds_lengths category nutritional_context) as H.
  cbv zeta in H.
  destruct H as (H1 & H2 & H3 & H4 & H5 & H6 & H7 & H8 & H9).
  assert (Hl : Forall (fun l => length l = 11%nat)
                 (threshold_lists (get_thresholds category nutritional_context))).
  { unfold threshold_lists.
    repeat constructor; rewrite ?List.length_map; assumption. }
  split; [exact Hl|].
  intros v. eapply Forall_impl; [exact Hl|].
  intros l. apply points_at_most_10.
Qed.

(** ** Bounds on the components *)

(** What the constructor stores in the calculator. *)
Lemma init_inv (m : Meal) (cfg : option HSRConfig) (self : Self) :
  __init__ m cfg = Some self ->
  exists context sugar,
    _analyze_meal_context m = Some context /\
    _analyze_sugar_sources m = Some sugar /\
    meal self = m /\
    config self = default default_config cfg /\
    nutritional_context self = context /\
    thresholds self = thresholds_for (MealModel.category m) context /\
    sugar_analysis self = sugar.
Proof.
  unfold __init__.
  destruct (_analyze_meal_context m) as [context|]; [|discriminate].
  destruct (_analyze_sugar_sources m) as [sugar|]; [|discriminate].
  intros H. injection H as <-. exists context, sugar. repeat split.
Qed.

Lemma init_thresholds_lengths (m : Meal) (cfg : option HSRConfig) (self : Self) :
  __init__ m cfg = Some self ->
  length (energy_density (thresholds self)) = 11%nat /\
  length (sugar_natural (thresholds self)) = 11%nat /\
  length (sugar_added (thresholds self)) = 11%nat /\
  length (saturated_fat (thresholds self)) = 11%nat /\
  length (sodium (thresholds self)) = 11%nat /\
  length (fvnl (thresholds self)) = 11%nat /\
  length (ThresholdProvider.protein (thresholds self)) = 11%nat /\
  length (ThresholdProvider.fiber (thresholds self)) = 11%nat /\
  length (ThresholdProvider.star_rating (thresholds self)) = 11%nat.
Proof.
  intros H. apply init_inv in H as (context & sugar & _ & _ & _ & _ & _ & Ht & _).
  rewrite Ht. unfold thresholds_for.
  destruct (MealModel.category m); apply get_thresholds_lengths.
Qed.

(** A lookup method on a calculator whose lists have 11 entries. *)
Ltac getter_bounds :=
  intros Hl H;
  match type of H with
  | ?getter ?self = _ =>
      unfold getter in H;
      let v := fresh "v" in
      let Hv := fresh "Hv" in
      destruct (MealModel.values (meal self)) as [v|] eqn:Hv;
      [ revert H; run_method Hv; intros H
      | rewrite (bind_meal_value_None _ _ _ Hv) in H; discriminate ]
  end;
  repeat match type of H with
         | context [if ?b then _ else _] => destruct b
         end;
  try discriminate;
  injection H as <- _;
  apply points_at_most_10; rewrite ?List.length_map; exact Hl.

Lemma energy_points_bounds (self self' : Self) (p : Z) :
  length (energy_density (thresholds self)) = 11%nat ->
  _get_energy_points self = Some (p, self') -> 0 <= p <= 10.
Proof. getter_bounds. Qed.

Lemma saturated_fat_points_bounds (self self' : Self) (p : Z) :
  length (saturated_fat (thresholds self)) = 11%nat ->
  _get_saturated_fat_points self = Some (p, self') -> 0 <= p <= 10.
Proof. getter_bounds. Qed.

Lemma sodium_points_bounds (self self' : Self) (p : Z) :
  length (sodium (thresholds self)) = 11%nat ->
  _get_sodium_points self = Some (p, self') -> 0 <= p <= 10.
Proof. getter_bounds. Qed.

Lemma protein_points_bounds (self self' : Self) (p : Z) :
  length (ThresholdProvider.protein (thresholds self)) = 11%nat ->
  _get_protein_points self = Some (p, self') -> 0 <= p <= 10.
Proof. getter_bounds. Qed.

Lemma fvnl_points_bounds (self self' : Self) (p : Z) :
  length (fvnl (thresholds self)) = 11%nat ->
  _get_fvnl_points self = Some (p, self') -> 0 <= p <= 10.
Proof. getter_bounds. Qed.

Lemma fiber_points_bounds (self self' : Self) (p : Z) :
  length (ThresholdProvider.fiber (thresholds self)) = 11%nat ->
  _get_fiber_points self = Some (p, self') -> 0 <= p <= 10.
Proof.
  intros Hl H. unfold _get_fiber_points in H. rewrite bind_gets in H.
  destruct (MealModel.category (meal self)) as [[]|];
    try (injection H as <- _; lia);
    (destruct (MealModel.values (meal self)) as [v|] eqn:Hv;
     [ revert H; run_method Hv; intros H; injection H as <- _;
       apply points_at_most_10; exact Hl
     | rewrite (bind_meal_value_None _ _ _ Hv) in H; discriminate ]).
Qed.

Lemma Qfloor_bounds (q : Q) (lo hi : Z) :
  (inject_Z lo <= q)%Q -> (q < inject_Z (hi + 1))%Q -> lo <= Qfloor q <= hi.
Proof.
  intros Hlo Hhi. split.
  - rewrite <- (Qfloor_Z lo). apply Qfloor_resp_le. exact Hlo.
  - pose proof (Qfloor_le q) as H.
    assert (Hlt : (inject_Z (Qfloor q) < inject_Z (hi + 1))%Q) by lra.
    rewrite <- Zlt_Qlt in Hlt. lia.
Qed.

Lemma inject_Z_range (z lo hi : Z) :
  lo <= z <= hi -> (inject_Z lo <= inject_Z z <= inject_Z hi)%Q.
Proof. intros [H1 H2]. split; rewrite <- Zle_Qle; assumption. Qed.

(** [int(n * 0.7 + a * 1.3)] for point values between 0 and 10. *)
Lemma sugar_blend_range (n a : Z) :
  0 <= n <= 10 -> 0 <= a <= 10 ->
  0 <= py_int (inject_Z n * (7 # 10) + inject_Z a * (13 # 10)) <= 20.
Proof.
  intros Hn Ha.
  apply inject_Z_range in Hn. apply inject_Z_range in Ha.
  change (inject_Z 0) with 0%Q in *. change (inject_Z 10) with 10%Q in *.
  unfold py_int.
  destruct (Qle_bool 0 (inject_Z n * (7 # 10) + inject_Z a * (13 # 10))) eqn:E.
  - apply Qfloor_bounds.
    + change (inject_Z 0) with 0%Q. lra.
    + change (inject_Z (20 + 1)) with 21%Q. lra.
  - apply not_true_iff_false in E. exfalso. apply E.
    apply Qle_bool_iff. lra.
Qed.

(** A value already within the clamp is kept by it. *)
Lemma Qclamp_inner (lo hi x a b : Q) :
  (lo <= a)%Q -> (b <= hi)%Q -> (a <= x <= b)%Q ->
  (a <= Qmax lo (Qmin hi x) <= b)%Q.
Proof.
  intros Hlo Hhi Hx. unfold Qmin.
  destruct (Qltb x hi) eqn:E1; [apply Qltb_lt in E1 | apply Qltb_ge in E1];
    unfold Qmax;
    match goal with
    | |- context [Qltb ?u ?v] =>
        destruct (Qltb u v) eqn:E2;
        [apply Qltb_lt in E2 | apply Qltb_ge in E2]
    end; lra.
Qed.

Lemma satiety_adjustment_range (self self' : Self) (a : Q) :
  (1 # 2 <= satiety_index (nutritional_context self) <= 3 # 2)%Q ->
  _calculate_satiety_adjustment self = Some (a, self') -> (-1 <= a <= 1)%Q.
Proof.
  intros Hs. unfold _calculate_satiety_adjustment.
  rewrite bind_gets.
  destruct (apply_satiety_adjustments (config self)); cbn [negb].
  - rewrite bind_gets. unfold ret. intros H. injection H as <- _.
    apply Qclamp_inner; lra.
  - unfold ret. intros H. injection H as <- _. lra.
Qed.

Lemma processing_penalty_range (self self' : Self) (p : Q) :
  _calculate_processing_penalty self = Some (p, self') -> (0 <= p <= 25 # 10)%Q.
Proof.
  unfold _calculate_processing_penalty. rewrite bind_gets.
  destruct (consider_processing_level (config self)); cbn [negb].
  - rewrite bind_gets. unfold ret, processing_penalty_of.
    intros H. injection H as <- _.
    repeat match goal with
           | |- context [if ?b then _ else _] => destruct b
           end; lra.
  - unfold ret. intros H. injection H as <- _. lra.
Qed.

Lemma naturalness_bonus_range (self self' : Self) (b : Q) :
  _calculate_naturalness_bonus self = Some (b, self') ->
  (- (15 # 10) <= b <= 0)%Q.
Proof.
  unfold _calculate_naturalness_bonus.
  rewrite bind_gets. cbv beta zeta. rewrite bind_gets. unfold ret.
  intros H. injection H as <- _.
  repeat match goal with
         | |- context [if ?b then _ else _] => destruct b
         end; lra.
Qed.

Lemma py_int_comp (p q : Q) : (p == q)%Q -> py_int p = py_int q.
Proof.
  intros E. unfold py_int.
  rewrite (Qfloor_comp _ _ E), (Qceiling_comp _ _ E).
  replace (Qle_bool 0 p) with (Qle_bool 0 q); [reflexivity|].
  apply eq_true_iff_eq. rewrite !Qle_bool_iff, E. tauto.
Qed.

(** The final score stays within 3 points of the base score when the
    three adjustments add up to a value between -2.5 and 3.5. *)
Lemma final_score_near_base (base : Z) (adjustment : Q) :
  0 <= base -> (- (25 # 10) <= adjustment <= 35 # 10)%Q ->
  base - 3 <= Z.max 0 (py_int (inject_Z base + adjustment)) <= base + 3.
Proof.
  intros Hb Ha. rewrite max_int_floor.
  assert (H : base - 3 <= Qfloor (inject_Z base + adjustment) <= base + 3).
  { apply Qfloor_bounds.
    - replace (base - 3) with (base + -3) by lia.
      rewrite inject_Z_plus. change (inject_Z (-3)) with (-3)%Q. lra.
    - replace (base + 3 + 1) with (base + 4) by lia.
      rewrite inject_Z_plus. change (inject_Z 4) with 4%Q. lra. }
  lia.
Qed.

(** The satiety index of a calculator built by the constructor. *)
Lemma init_satiety_range (m : Meal) (cfg : option HSRConfig) (self : Self) :
  __init__ m cfg = Some self ->
  (1 # 2 <= satiety_index (nutritional_context self) <= 3 # 2)%Q.
Proof.
  intros H. apply init_inv in H as (context & sugar & Hc & _ & _ & _ & -> & _).
  unfold _analyze_meal_context in Hc.
  destruct (MealModel.values m); [|discriminate].
  injection Hc as <-. apply satiety_index_range.
Qed.

(** X5.  For a calculator built by the constructor, the satiety
    adjustment lies between -1 and 1, the processing penalty between 0
    and 2.5 and the naturalness bonus between -1.5 and 0, so that the
    final score is within 3 points of the base score
    [max(0, baseline - modifying)]. *)
Theorem adjustments_within_3_points
  (m : Meal) (cfg : option HSRConfig) (self self' : Self) (cs : HSRComponentScore) :
  __init__ m cfg = Some self ->
  _calculate_components self = Some (cs, self') ->
  (-1 <= satiety_adjustment cs <= 1)%Q /\
  (0 <= processing_penalty cs <= 25 # 10)%Q /\
  (- (15 # 10) <= naturalness_bonus cs <= 0)%Q /\
  Z.max 0 (baseline_points cs - modifying_points cs) - 3
  <= final_score cs
  <= Z.max 0 (baseline_points cs - modifying_points cs) + 3.
Proof.
  intros Hi Hc.
  pose proof (init_satiety_range _ _ _ Hi) as Hs.
  pose proof (components_inv _ _ _ Hc) as (_ & _ & _ & _ & _ & Hf & _).
  apply components_parts in Hc.
  destruct Hc as (_ & _ & _ & _ & _ & _ & _ & Hsa & Hpp & Hnb & _).
  pose proof (satiety_adjustment_range _ _ _ Hs Hsa) as H1.
  pose proof (processing_penalty_range _ _ _ Hpp) as H2.
  pose proof (naturalness_bonus_range _ _ _ Hnb) as H3.
  split; [exact H1|]. split; [exact H2|]. split; [exact H3|].
  rewrite Hf.
  rewrite (py_int_comp
             (inject_Z (Z.max 0 (baseline_points cs - modifying_points cs))
              + satiety_adjustment cs + processing_penalty cs
              + naturalness_bonus cs)
             (inject_Z (Z.max 0 (baseline_points cs - modifying_points cs))
              + (satiety_adjustment cs + processing_penalty cs
                 + naturalness_bonus cs))) by ring.
  apply final_score_near_base; [lia | lra].
Qed.

Lemma adjustments_within_3_points_witness :
  exists self cs,
    __init__ (MealModel.new [chicken_breast] None) None = Some self /\
    _calculate_components self = Some (cs, self) /\
    (-1 <= satiety_adjustment cs <= 1)%Q /\
    (0 <= processing_penalty cs <= 25 # 10)%Q /\
    (- (15 # 10) <= naturalness_bonus cs <= 0)%Q /\
    Z.max 0 (baseline_points cs - modifying_points cs) - 3
    <= final_score cs
    <= Z.max 0 (baseline_points cs - modifying_points cs) + 3.
Proof.
  destruct (calculator_exists [chicken_breast] None None)
    as (self & cs & result & Hi & Hc & _); [discriminate|].
  exists self, cs. split; [exact Hi|]. split; [exact Hc|].
  exact (adjustments_within_3_points _ None self self cs Hi Hc).
Defined.


(** X6.  For a calculator built by the constructor, every point value of
    the component score lies between 0 and 10, the blended sugar points
    between 0 and 20, the baseline points between 0 and 50, the
    modifying points between 0 and 30 and the final score between 0 and
    53. *)
Theorem component_points_bounds
  (m : Meal) (cfg : option HSRConfig) (self self' : Self) (cs : HSRComponentScore) :
  __init__ m cfg = Some self ->
  _calculate_components self = Some (cs, self') ->
  0 <= energy_points cs <= 10 /\
  0 <= saturated_fat_points cs <= 10 /\
  0 <= sugar_natural_points cs <= 10 /\
  0 <= sugar_added_points cs <= 10 /\
  0 <= sugar_points cs <= 20 /\
  0 <= sodium_points cs <= 10 /\
  0 <= protein_points cs <= 10 /\
  0 <= fiber_points cs <= 10 /\
  0 <= fvnl_points cs <= 10 /\
  0 <= baseline_points cs <= 50 /\
  0 <= modifying_points cs <= 30 /\
  0 <= final_score cs <= 53.
Proof.
  intros Hi Hc.
  pose proof (init_satiety_range _ _ _ Hi) as Hs.
  pose proof (init_thresholds_lengths _ _ _ Hi)
    as (L1 & L2 & L3 & L4 & L5 & L6 & L7 & L8 & _).
  pose proof (components_inv _ _ _ Hc) as (Hn & Ha & Hsp & Hb & Hm & Hf & _).
  apply components_parts in Hc.
  destruct Hc as (_ & He & Hsf & Hna & Hp & Hfi & Hv & Hsa & Hpp & Hnb & _).
  pose proof (energy_points_bounds _ _ _ L1 He) as B1.
  pose proof (saturated_fat_points_bounds _ _ _ L4 Hsf) as B2.
  assert (B3 : 0 <= sugar_natural_points cs <= 10).
  { rewrite Hn. apply points_at_most_10. rewrite List.length_map. exact L2. }
  assert (B4 : 0 <= sugar_added_points cs <= 10).
  { rewrite Ha. apply points_at_most_10. rewrite List.length_map. exact L3. }
  assert (B5 : 0 <= sugar_points cs <= 20).
  { rewrite Hsp. apply sugar_blend_range; assumption. }
  pose proof (sodium_points_bounds _ _ _ L5 Hna) as B6.
  pose proof (protein_points_bounds _ _ _ L7 Hp) as B7.
  pose proof (fiber_points_bounds _ _ _ L8 Hfi) as B8.
  pose proof (fvnl_points_bounds _ _ _ L6 Hv) as B9.
  pose proof (satiety_adjustment_range _ _ _ Hs Hsa) as R1.
  pose proof (processing_penalty_range _ _ _ Hpp) as R2.
  pose proof (naturalness_bonus_range _ _ _ Hnb) as R3.
  assert (Hnear :
            Z.max 0 (baseline_points cs - modifying_points cs) - 3
            <= final_score cs
            <= Z.max 0 (baseline_points cs - modifying_points cs) + 3).
  { rewrite Hf.
    rewrite (py_int_comp
               (inject_Z (Z.max 0 (baseline_points cs - modifying_points cs))
                + satiety_adjustment cs + processing_penalty cs
                + naturalness_bonus cs)
               (inject_Z (Z.max 0 (baseline_points cs - modifying_points cs))
                + (satiety_adjustment cs + processing_penalty cs
                   + naturalness_bonus cs))) by ring.
    apply final_score_near_base; [lia | lra]. }
  assert (0 <= final_score cs) by (rewrite Hf; lia).
  repeat split; lia.
Qed.

Lemma component_points_bounds_witness :
  exists self cs,
    __init__ (MealModel.new [chicken_breast] None) None = Some self /\
    _calculate_components self = Some (cs, self) /\
    0 <= energy_points cs <= 10 /\
    0 <= saturated_fat_points cs <= 10 /\
    0 <= sugar_natural_points cs <= 10 /\
    0 <= sugar_added_points cs <= 10 /\
    0 <= sugar_points cs <= 20 /\
    0 <= sodium_points cs <= 10 /\
    0 <= protein_points cs <= 10 /\
    0 <= fiber_points cs <= 10 /\
    0 <= fvnl_points cs <= 10 /\
    0 <= baseline_points cs <= 50 /\
    0 <= modifying_points cs <= 30 /\
    0 <= final_score cs <= 53.
Proof.
  destruct (calculator_exists [chicken_breast] None None)
    as (self & cs & result & Hi & Hc & _); [discriminate|].
  exists self, cs. split; [exact Hi|]. split; [exact Hc|].
  exact (component_points_bounds _ None self self cs Hi Hc).
Defined.

(** ** Fiber of beverages *)

Lemma beverage_fiber_thresholds
  (category : Category) (nutritional_context : option NutritionalContext) :
  category = BEVERAGE \/ category = DAIRY_BEVERAGE ->
  ThresholdProvider.fiber (get_thresholds category nutritional_context)
  = List.repeat PosInf 11.
Proof.
  intros [-> | ->];
    unfold get_thresholds, _apply_contextual_adjustments;
    destruct nutritional_context as [context|];
    repeat match goal with
           | |- context [if ?b then _ else _] => destruct b
           end;
    reflexivity.
Qed.

(** X7.  A meal categorized as a beverage or a dairy beverage earns no
    fiber points: the component score has none, and the fiber entry of
    the nutrient analyses, which looks the fiber value up in the disabled
    threshold list, has 0 points and a neutral impact. *)
Theorem beverages_earn_no_fiber_points
  (m : Meal) (cfg : option HSRConfig) (self self' : Self) (result : MealHSRResult) :
  MealModel.category m = Some BEVERAGE \/
  MealModel.category m = Some DAIRY_BEVERAGE ->
  __init__ m cfg = Some self ->
  calculate_hsr self = Some (result, self') ->
  fiber_points (result_component_score result) = 0 /\
  forall a, In a (result_nutrient_analyses result) ->
            nutrient_name a = "Fiber"%string ->
            points a = 0 /\ impact a = NEUTRAL.
Proof.
  intros Hcat Hi Hr.
  apply init_inv in Hi as (context & sugar & _ & _ & Hm & _ & _ & Ht & _).
  assert (Hfiber : ThresholdProvider.fiber (thresholds self) = List.repeat PosInf 11).
  { rewrite Ht. unfold thresholds_for.
    destruct Hcat as [-> | ->]; apply beverage_fiber_thresholds; auto. }
  apply calculate_hsr_parts in Hr as (_ & Hcs & _ & _ & _ & Hna & _).
  apply components_parts in Hcs.
  destruct Hcs as (_ & _ & _ & _ & _ & Hf & _).
  split.
  - unfold _get_fiber_points in Hf. rewrite bind_gets, Hm in Hf.
    destruct Hcat as [E | E]; rewrite E in Hf; injection Hf as <-; reflexivity.
  - unfold _add_nutrient_analysis, _determine_sugar_impact,
      _get_sugar_recommendation in Hna.
    destruct (MealModel.values (meal self)) as [v|] eqn:Hv;
      [|rewrite (bind_meal_value_None _ _ _ Hv) in Hna; discriminate].
    revert Hna. run_method Hv. intros Hna. injection Hna as <-.
    intros a Ha Hname. rewrite Hfiber in Ha.
    cbn [In] in Ha.
    destruct Ha as [<-|[<-|[<-|[<-|[<-|[<-|[<-|[]]]]]]]];
      try discriminate Hname.
    split; reflexivity.
Qed.

Lemma beverages_earn_no_fiber_points_witness :
  exists self result,
    __init__ (MealModel.new [protein_drink "Orange juice" 200] None) None
    = Some self /\
    calculate_hsr self = Some (result, self) /\
    fiber_points (result_component_score result) = 0 /\
    forall a, In a (result_nutrient_analyses result) ->
              nutrient_name a = "Fiber"%string ->
              points a = 0 /\ impact a = NEUTRAL.
Proof.
  destruct (calculator_exists [protein_drink "Orange juice" 200] None None)
    as (self & cs & result & Hi & _ & Hr); [discriminate|].
  exists self, result. split; [exact Hi|]. split; [exact Hr|].
  apply (beverages_earn_no_fiber_points
           (MealModel.new [protein_drink "Orange juice" 200] None)
           None self self result); [left; reflexivity | exact Hi | exact Hr].
Defined.

(** ** What the constructor of a meal computes *)

Lemma validate_final_fields (m : Meal) :
  let m' := MealModel._validate_final_categorization m in
  MealModel.foods m' = MealModel.foods m /\
  MealModel.category m' = MealModel.category m /\
  MealModel.category_analysis m' = MealModel.category_analysis m /\
  MealModel.category_confidence m' = MealModel.category_confidence m /\
  MealModel.nutritional_context m' = MealModel.nutritional_context m /\
  MealModel.total_weight m' = MealModel.total_weight m /\
  MealModel.values m' = MealModel.values m.
Proof.
  cbv zeta. unfold MealModel._validate_final_categorization.
  destruct (MealModel.values m) eqn:Ev; [|repeat split; auto].
  destruct (MealModel.category m) eqn:Ec; repeat split; auto.
Qed.

Lemma calculate_values_fields (m : Meal) :
  let m' := MealModel._calculate_nutritional_values m in
  let w := total_serving (MealModel.foods m) in
  MealModel.foods m' = MealModel.foods m /\
  MealModel.category m' = MealModel.category m /\
  MealModel.category_analysis m' = MealModel.category_analysis m /\
  MealModel.category_confidence m' = MealModel.category_confidence m /\
  MealModel.nutritional_context m' = MealModel.nutritional_context m /\
  MealModel.total_weight m' = Some w /\
  MealModel.values m'
  = Some (if Qeq_bool w 0 then MealModel.zero_nutritional_values
          else weighted_values (MealModel.foods m) w).
Proof.
  cbv zeta. unfold MealModel._calculate_nutritional_values, total_serving.
  destruct (Qeq_bool _ 0); repeat split.
Qed.

Lemma assign_missing_data (food : Food) :
  food_data (fst (MealModel.assign_missing food)) = food_data food.
Proof.
  unfold MealModel.assign_missing.
  destruct (FoodModel.category food); [reflexivity|].
  destruct (FoodModel.food_group_id food) as [group|]; [|reflexivity].
  destruct (group =? 0); reflexivity.
Qed.

Lemma determine_category_data (m : Meal) :
  List.map food_data (MealModel.foods (MealModel._determine_category m))
  = List.map food_data (MealModel.foods m).
Proof.
  unfold MealModel._determine_category.
  set (missing := List.filter _ (MealModel.foods m)).
  assert (H : forall m1,
             List.map food_data (MealModel.foods m1)
             = List.map food_data (MealModel.foods m) ->
             List.map food_data
               (MealModel.foods
                  match MealCategorizer.determine_scientific_category
                          (MealModel.foods m1) with
                  | Some result =>
                      MealModel.set_categorization
                        (Some (MealCategorizer.recommended_category result))
                        (MealModel.scientific_categorization result)
                        (MealCategorizer.confidence result)
                        (Some (MealCategorizer.scientific_factors result)) m1
                  | None =>
                      MealModel.add_warnings [MealModel.CategorizationError]
                        (MealModel.set_categorization
                           (Some FOOD) MealModel.error_fallback 0
                           (MealModel.nutritional_context m1) m1)
                  end)
             = List.map food_data (MealModel.foods m)).
  { intros m1 H1.
    destruct (MealCategorizer.determine_scientific_category _); exact H1. }
  apply H. destruct missing; [reflexivity|].
  unfold MealModel._assign_missing_food_categories.
  cbn [MealModel.foods MealModel.add_warnings MealModel.set_foods].
  rewrite !List.map_map. apply List.map_ext. intros food.
  apply assign_missing_data.
Qed.

Lemma validate_provided_foods (assigned : Category) (m : Meal) :
  MealModel.foods (MealModel._validate_provided_category assigned m)
  = MealModel.foods m.
Proof.
  unfold MealModel._validate_provided_category.
  destruct (MealCategorizer.determine_scientific_category _); [|reflexivity].
  destruct (Qltb _ _); reflexivity.
Qed.

(** The steps of [__post_init__] on a meal with foods. *)
Lemma post_init_steps (m : Meal) :
  MealModel.foods m <> [] ->
  MealModel.__post_init__ m
  = MealModel._validate_final_categorization
      (MealModel._calculate_nutritional_values
         match MealModel.category (MealModel._validate_foods m) with
         | Some assigned =>
             MealModel._validate_provided_category assigned
               (MealModel._validate_foods m)
         | None => MealModel._determine_category (MealModel._validate_foods m)
         end).
Proof.
  intros Hne. unfold MealModel.__post_init__.
  destruct (MealModel.foods m); [congruence|reflexivity].
Qed.

(** The foods of a constructed meal are the foods given to the
    constructor, up to the categories assigned to them on the way. *)
Lemma new_foods_data (fs : list Food) (c : option Category) :
  List.map food_data (MealModel.foods (MealModel.new fs c))
  = List.map food_data fs.
Proof.
  destruct fs as [|food fs]; [reflexivity|].
  unfold MealModel.new. rewrite post_init_steps by discriminate.
  match goal with
  | |- context [MealModel._validate_final_categorization ?x] =>
      pose proof (validate_final_fields x) as H; cbv zeta in H;
      destruct H as (-> & _)
  end.
  match goal with
  | |- context [MealModel._calculate_nutritional_values ?x] =>
      pose proof (calculate_values_fields x) as H; cbv zeta in H;
      destruct H as (-> & _)
  end.
  cbn [MealModel.category MealModel._validate_foods MealModel.add_warnings].
  destruct c as [assigned|].
  - rewrite validate_provided_foods. reflexivity.
  - rewrite determine_category_data. reflexivity.
Qed.

Lemma fold_data {A : Type} (step : A -> Food -> A) (l1 l2 : list Food) :
  (forall acc f f', food_data f = food_data f' -> step acc f = step acc f') ->
  List.map food_data l1 = List.map food_data l2 ->
  forall a, fold_left step l1 a = fold_left step l2 a.
Proof.
  intros Hstep. revert l2.
  induction l1 as [|f l1 IH]; intros [|f' l2] H a; try discriminate; [reflexivity|].
  cbn [List.map] in H.
  assert (Hf : food_data f = food_data f') by congruence.
  assert (Hl : List.map food_data l1 = List.map food_data l2) by congruence.
  cbn [fold_left].
  rewrite (Hstep a f f' Hf). apply IH. exact Hl.
Qed.

Lemma food_data_inv (f f' : Food) :
  food_data f = food_data f' ->
  FoodModel.food_id f = FoodModel.food_id f' /\
  FoodModel.food_name f = FoodModel.food_name f' /\
  FoodModel.serving_size f = FoodModel.serving_size f' /\
  FoodModel.nutrients f = FoodModel.nutrients f' /\
  FoodModel.fvnl_percent f = FoodModel.fvnl_percent f' /\
  FoodModel.food_group_id f = FoodModel.food_group_id f'.
Proof. unfold food_data. intros H. injection H as -> -> -> -> -> ->. repeat split. Qed.

Lemma map_data {A : Type} (g : Food -> A) (l1 l2 : list Food) :
  (forall f f', food_data f = food_data f' -> g f = g f') ->
  List.map food_data l1 = List.map food_data l2 ->
  List.map g l1 = List.map g l2.
Proof.
  intros Hg. revert l2.
  induction l1 as [|f l1 IH]; intros [|f' l2] H; try discriminate; [reflexivity|].
  cbn [List.map] in H.
  assert (Hf : food_data f = food_data f') by congruence.
  assert (Hl : List.map food_data l1 = List.map food_data l2) by congruence.
  cbn [List.map].
  rewrite (Hg f f' Hf). f_equal. apply IH. exact Hl.
Qed.

Lemma total_serving_data (l1 l2 : list Food) :
  List.map food_data l1 = List.map food_data l2 ->
  total_serving l1 = total_serving l2.
Proof.
  intros H. unfold total_serving. f_equal. apply map_data; [|exact H].
  intros f f' Hf. apply food_data_inv in Hf. tauto.
Qed.

Lemma weighted_sum_data (l1 l2 : list Food) (w : Q) (name : string) :
  List.map food_data l1 = List.map food_data l2 ->
  MealModel._calculate_weighted_sum l1 w name
  = MealModel._calculate_weighted_sum l2 w name.
Proof.
  intros H. unfold MealModel._calculate_weighted_sum.
  destruct (Qeq_bool w 0); [reflexivity|].
  f_equal. apply fold_data; [|exact H].
  intros acc f f' Hf. apply food_data_inv in Hf.
  destruct Hf as (_ & _ & Hs & Hn & _).
  unfold FoodModel.nutrient. rewrite Hs, Hn. reflexivity.
Qed.

Lemma fvnl_percent_data (l1 l2 : list Food) (w : Q) :
  List.map food_data l1 = List.map food_data l2 ->
  MealModel._calculate_fvnl_percent l1 w = MealModel._calculate_fvnl_percent l2 w.
Proof.
  intros H. unfold MealModel._calculate_fvnl_percent.
  destruct (Qeq_bool w 0); [reflexivity|].
  do 2 f_equal. apply fold_data; [|exact H].
  intros acc f f' Hf. apply food_data_inv in Hf.
  destruct Hf as (_ & _ & Hs & _ & Hv & _).
  rewrite Hs, Hv. reflexivity.
Qed.

Lemma weighted_values_data (l1 l2 : list Food) (w : Q) :
  List.map food_data l1 = List.map food_data l2 ->
  weighted_values l1 w = weighted_values l2 w.
Proof.
  intros H. unfold weighted_values.
  rewrite !(weighted_sum_data l1 l2 w _ H), (fvnl_percent_data l1 l2 w H).
  reflexivity.
Qed.

(** The total weight and the nutritional values of a constructed meal,
    in terms of the foods given to the constructor. *)
Lemma new_values (fs : list Food) (c : option Category) :
  fs <> [] ->
  MealModel.total_weight (MealModel.new fs c) = Some (total_serving fs) /\
  MealModel.values (MealModel.new fs c)
  = Some (if Qeq_bool (total_serving fs) 0
          then MealModel.zero_nutritional_values
          else weighted_values fs (total_serving fs)).
Proof.
  intros Hne.
  pose proof (new_foods_data fs c) as Hdata.
  revert Hdata. unfold MealModel.new.
  rewrite post_init_steps by exact Hne.
  match goal with
  | |- context [MealModel._validate_final_categorization ?x] =>
      pose proof (validate_final_fields x) as H; cbv zeta in H;
      destruct H as (-> & _ & _ & _ & _ & -> & ->)
  end.
  match goal with
  | |- context [MealModel._calculate_nutritional_values ?x] =>
      pose proof (calculate_values_fields x) as H; cbv zeta in H;
      destruct H as (-> & _ & _ & _ & _ & -> & ->)
  end.
  intros Hdata.
  rewrite (total_serving_data _ _ Hdata), (weighted_values_data _ _ _ Hdata).
  split; reflexivity.
Qed.

(** ** Sums over the foods *)

Lemma fold_left_sum {A : Type} (g : A -> Q) (l : list A) (a : Q) :
  (fold_left (fun acc x => acc + g x) l a == a + Qsum (List.map g l))%Q.
Proof.
  revert a. induction l as [|x l IH]; intros a.
  - cbn. unfold Qsum. cbn. ring.
  - cbn [fold_left List.map]. rewrite IH, Qsum_cons. ring.
Qed.

Lemma Qsum_nonneg (l : list Q) : Forall (fun x => (0 <= x)%Q) l -> (0 <= Qsum l)%Q.
Proof.
  induction 1 as [|x l Hx _ IH].
  - unfold Qsum. cbn. lra.
  - rewrite Qsum_cons. lra.
Qed.

Lemma Qsum_pos (l : list Q) :
  l <> [] -> Forall (fun x => (0 < x)%Q) l -> (0 < Qsum l)%Q.
Proof.
  intros Hne H. destruct H as [|x l Hx Hl]; [congruence|].
  rewrite Qsum_cons.
  assert (0 <= Qsum l)%Q.
  { apply Qsum_nonneg. eapply Forall_impl; [exact Hl|]. intros y Hy. cbv beta in Hy. lra. }
  lra.
Qed.

Lemma total_serving_pos (fs : list Food) :
  fs <> [] ->
  Forall (fun food => (0 < FoodModel.serving_size food)%Q) fs ->
  (0 < total_serving fs)%Q.
Proof.
  intros Hne H. unfold total_serving. apply Qsum_pos.
  - destruct fs; [congruence|discriminate].
  - apply Forall_map. exact H.
Qed.

Lemma Qeq_bool_false_pos (q : Q) : (0 < q)%Q -> Qeq_bool q 0 = false.
Proof.
  intros H. apply not_true_iff_false. intros E.
  apply Qeq_bool_iff in E. lra.
Qed.

Lemma Qltb_true (x y : Q) : (x < y)%Q -> Qltb x y = true.
Proof. apply Qltb_lt. Qed.

(** ** Sugar sources *)

(** Linear arithmetic with divisions by 100 written as products. *)
Ltac lra100 :=
  unfold Qdiv in *; change (/ 100)%Q with (1 # 100)%Q in *; lra.

Lemma natural_sugar_ratio_range (food : Food) :
  (0 <= _estimate_natural_sugar_ratio food <= 1)%Q.
Proof.
  unfold _estimate_natural_sugar_ratio.
  repeat match goal with
         | |- context [if ?b then _ else _] => destruct b
         end; Qclosed.
Qed.

(** The loop of [_analyze_sugar_sources]: the two accumulators share out
    the sugar of each food, and one source is recorded per food. *)
Lemma sugar_fold (fs : list Food) (n a : Q) (src : list string) :
  let r := fold_left sugar_step fs (n, a, src) in
  (fst (fst r) + snd (fst r)
   == n + a
      + Qsum (List.map
                (fun food =>
                   FoodModel.nutrient food "SUGARS, TOTAL"
                   * FoodModel.serving_size food / 100) fs))%Q /\
  length (snd r) = (length src + length fs)%nat /\
  ((0 <= n)%Q -> (0 <= a)%Q ->
   Forall (fun food =>
             (0 <= FoodModel.nutrient food "SUGARS, TOTAL")%Q /\
             (0 <= FoodModel.serving_size food)%Q) fs ->
   (0 <= fst (fst r))%Q /\ (0 <= snd (fst r))%Q).
Proof.
  cbv zeta. revert n a src.
  induction fs as [|food fs IH]; intros n a src.
  - cbn. unfold Qsum. cbn. repeat split; try lia; try tauto. ring.
  - cbn [fold_left List.map length].
    pose proof (natural_sugar_ratio_range food) as Hr.
    unfold sugar_step at 2 4 6 8 10.
    destruct (_is_natural_sugar_source food).
    + specialize (IH (n + FoodModel.nutrient food "SUGARS, TOTAL"
                          * FoodModel.serving_size food / 100)%Q a
                     (src ++ [String.append (FoodModel.food_name food) " (natural)"])).
      destruct IH as (IH1 & IH2 & IH3).
      split; [rewrite IH1, Qsum_cons; ring|].
      split; [rewrite IH2, length_app; cbn; lia|].
      intros Hn Ha Hf. apply Forall_cons in Hf as [[Hs Hw] Hf].
      apply IH3; try assumption.
      assert (Hp : (0 <= FoodModel.nutrient food "SUGARS, TOTAL"
                         * FoodModel.serving_size food)%Q) by nra.
      set (p := (FoodModel.nutrient food "SUGARS, TOTAL"
                 * FoodModel.serving_size food)%Q) in *.
      clearbody p. lra100.
    + match goal with
      | |- context [fold_left sugar_step fs (?n', ?a', ?s')] =>
          specialize (IH n' a' s')
      end.
      destruct IH as (IH1 & IH2 & IH3).
      split; [rewrite IH1, Qsum_cons; ring|].
      split; [rewrite IH2, length_app; cbn; lia|].
      intros Hn Ha Hf. apply Forall_cons in Hf as [[Hs Hw] Hf].
      assert (Hp : (0 <= FoodModel.nutrient food "SUGARS, TOTAL"
                         * FoodModel.serving_size food)%Q) by nra.
      set (p := (FoodModel.nutrient food "SUGARS, TOTAL"
                 * FoodModel.serving_size food)%Q) in *.
      set (ratio := _estimate_natural_sugar_ratio food) in *.
      clearbody p ratio.
      apply IH3; try assumption.
      * assert (0 <= p * ratio)%Q by nra. lra100.
      * assert (0 <= p * (1 - ratio))%Q by nra. lra100.
Qed.



(** ** Nutrient analyses, insights and recommendations *)

(** X9.  The nutrient analyses of a result are seven entries, for the
    sugars, the energy density, the saturated fat, the sodium, the
    protein, the fiber and the FVNL content, in this order.  The entries
    of the four risk nutrients never have a positive impact and those of
    the three beneficial ones never a negative impact; the points of the
    sugar, saturated fat, sodium and fiber entries are those of the
    component score. *)
Theorem nutrient_analyses_shape
  (m : Meal) (cfg : option HSRConfig) (self self' : Self) (result : MealHSRResult) :
  __init__ m cfg = Some self ->
  calculate_hsr self = Some (result, self') ->
  exists sugar energy saturated sodium protein fiber fvnl,
    result_nutrient_analyses result
    = [sugar; energy; saturated; sodium; protein; fiber; fvnl] /\
    List.map nutrient_name (result_nutrient_analyses result)
    = [ "Sugars (Total)"; "Energy Density"; "Saturated Fat"; "Sodium";
        "Protein"; "Fiber"; "FVNL" ]%string /\
    Forall (fun a => In (impact a)
                        [NEGATIVE_HIGH; NEGATIVE_MEDIUM; NEGATIVE_LOW; NEUTRAL])
           [sugar; energy; saturated; sodium] /\
    Forall (fun a => In (impact a)
                        [POSITIVE_HIGH; POSITIVE_MEDIUM; POSITIVE_LOW; NEUTRAL])
           [protein; fiber; fvnl] /\
    points sugar = sugar_points (result_component_score result) /\
    points saturated = saturated_fat_points (result_component_score result) /\
    points sodium = sodium_points (result_component_score result) /\
    points fiber = fiber_points (result_component_score result).
Proof.
  intros Hi Hr.
  pose proof (beverage_fiber_thresholds) as Hbev.
  apply init_inv in Hi as (context & sug & _ & _ & Hm & _ & _ & Ht & _).
  apply calculate_hsr_parts in Hr as (_ & Hcs & _ & _ & _ & Hna & _).
  apply components_parts in Hcs.
  destruct Hcs as (_ & _ & Hsf & Hso & _ & Hfi & _).
  unfold _add_nutrient_analysis, _determine_sugar_impact,
    _get_sugar_recommendation in Hna.
  destruct (MealModel.values (meal self)) as [v|] eqn:Hv;
    [|rewrite (bind_meal_value_None _ _ _ Hv) in Hna; discriminate].
  revert Hna. run_method Hv. intros Hna. injection Hna as <-.
  unfold _get_saturated_fat_points in Hsf. revert Hsf. run_method Hv.
  intros Hsf. injection Hsf as Hsf.
  unfold _get_sodium_points in Hso. revert Hso. run_method Hv.
  intros Hso. injection Hso as Hso.
  assert (Hfiber :
            fiber_points (result_component_score result)
            = _get_points_by_thresholds
                (Fin (MealModel.fibre_total_dietary v))
                (ThresholdProvider.fiber (thresholds self))).
  { unfold _get_fiber_points in Hfi. rewrite bind_gets in Hfi.
    rewrite Ht. unfold thresholds_for. rewrite Hm in Hfi.
    destruct (MealModel.category m) as [[]|];
      try (revert Hfi; run_method Hv; rewrite Ht; unfold thresholds_for;
           intros Hfi; injection Hfi as <-; reflexivity);
      injection Hfi as <-; rewrite Hbev by auto; reflexivity. }
  do 7 eexists. split; [reflexivity|]. split; [reflexivity|].
  split; [|split; [|split; [|split; [|split]]]].
  - repeat (apply List.Forall_cons; [|]); try apply List.Forall_nil;
      cbn [impact nutrient_analysis];
      unfold _determine_nutrient_impact;
      cbn [existsb String.eqb Ascii.eqb Bool.eqb orb];
      repeat match goal with
             | |- context [if ?b then _ else _] => destruct b
             end; cbn; auto.
  - repeat (apply List.Forall_cons; [|]); try apply List.Forall_nil;
      cbn [impact nutrient_analysis];
      unfold _determine_nutrient_impact;
      cbn [existsb String.eqb Ascii.eqb Bool.eqb orb];
      repeat match goal with
             | |- context [if ?b then _ else _] => destruct b
             end; cbn; auto.
  - reflexivity.
  - cbn [points nutrient_analysis]. exact Hsf.
  - cbn [points nutrient_analysis]. exact Hso.
  - cbn [points nutrient_analysis]. symmetry. exact Hfiber.
Qed.

Lemma nutrient_analyses_shape_witness :
  exists self result,
    __init__ (MealModel.new [chicken_breast] None) None = Some self /\
    calculate_hsr self = Some (result, self) /\
    exists sugar energy saturated sodium protein fiber fvnl,
      result_nutrient_analyses result
      = [sugar; energy; saturated; sodium; protein; fiber; fvnl] /\
      List.map nutrient_name (result_nutrient_analyses result)
      = [ "Sugars (Total)"; "Energy Density"; "Saturated Fat"; "Sodium";
          "Protein"; "Fiber"; "FVNL" ]%string /\
      Forall (fun a => In (impact a)
                          [NEGATIVE_HIGH; NEGATIVE_MEDIUM; NEGATIVE_LOW; NEUTRAL])
             [sugar; energy; saturated; sodium] /\
      Forall (fun a => In (impact a)
                          [POSITIVE_HIGH; POSITIVE_MEDIUM; POSITIVE_LOW; NEUTRAL])
             [protein; fiber; fvnl] /\
      points sugar = sugar_points (result_component_score result) /\
      points saturated = saturated_fat_points (result_component_score result) /\
      points sodium = sodium_points (result_component_score result) /\
      points fiber = fiber_points (result_component_score result).
Proof.
  destruct (calculator_exists [chicken_breast] None None)
    as (self & cs & result & Hi & _ & Hr); [discriminate|].
  exists self, result. split; [exact Hi|]. split; [exact Hr|].
  exact (nutrient_analyses_shape _ None self self result Hi Hr).
Defined.

(** X10.  The insights and the recommendations of a calculator never
    contradict each other.  Both methods return on every calculator;
    there are at most three strengths, one concern and three
    recommendations, each list holding insights of its own category
    only; the concern about ultra-processed foods is raised exactly when
    less processed options are recommended, and never together with the
    strength of being minimally processed; and a high satiety potential
    is never praised while an improvement of satiety is recommended. *)
Theorem insights_are_consistent (self : Self) :
  exists strengths concerns recommendations,
    _add_scientific_insights self = Some ((strengths, concerns), self) /\
    _add_improvement_recommendations self = Some (recommendations, self) /\
    (length strengths <= 3)%nat /\ (length concerns <= 1)%nat /\
    (length recommendations <= 3)%nat /\
    all_of_category "strength" strengths = true /\
    all_of_category "concern" concerns = true /\
    all_of_category "recommendation" recommendations = true /\
    forallb actionable recommendations = true /\
    has_title "Ultra-Processed Foods" concerns
    = has_title "Choose Less Processed Options" recommendations /\
    has_title "Minimally Processed" strengths
    && has_title "Ultra-Processed Foods" concerns = false /\
    has_title "High Satiety Potential" strengths
    && has_title "Improve Satiety" recommendations = false.
Proof.
  unfold _add_scientific_insights, _add_improvement_recommendations.
  cbv zeta. rewrite !bind_gets. unfold ret.
  do 3 eexists. split; [reflexivity|]. split; [reflexivity|].
  destruct (Qltb 70 (natural_percentage (sugar_analysis self)));
    destruct (Qltb 5 (added_sugars (sugar_analysis self)));
    destruct (Qltb (11 # 10) (satiety_index (nutritional_context self))) eqn:E1;
    destruct (Qltb (satiety_index (nutritional_context self)) (9 # 10)) eqn:E2;
    try (apply Qltb_lt in E1; apply Qltb_lt in E2; exfalso; lra);
    destruct (String.eqb_spec (processing_level (nutritional_context self))
                              "minimally_processed") as [->|_];
    try destruct (String.eqb (processing_level (nutritional_context self))
                             "ultra_processed");
    cbn; repeat split; try lia; reflexivity.
Qed.

(** X11.  The threshold position of a value is missing exactly for the
    empty list; otherwise its percentile is [points / len * 100] for the
    points of the lookup, which is at least 0 and never reaches 100: on a
    list of [len] thresholds it is at most [100 * (len - 1) / len]. *)
Theorem threshold_position_below_100 (value : Q) (thresholds : list pyfloat) :
  (_get_threshold_position value thresholds = no_thresholds <-> thresholds = []) /\
  forall percentile,
    _get_threshold_position value thresholds = percentile_position percentile ->
    (percentile
     == inject_Z (_get_points_by_thresholds (Fin value) thresholds)
        / inject_Z (Z.of_nat (length thresholds)) * 100)%Q /\
    (0 <= percentile)%Q /\
    (percentile * inject_Z (Z.of_nat (length thresholds))
     <= 100 * (inject_Z (Z.of_nat (length thresholds)) - 1))%Q /\
    (percentile < 100)%Q.
Proof.
  unfold _get_threshold_position.
  destruct thresholds as [|t0 rest]; [split; [tauto|discriminate]|].
  split; [split; discriminate|].
  intros percentile H.
  assert (E : percentile
              = (inject_Z (_get_points_by_thresholds (Fin value) (t0 :: rest))
                 / inject_Z (Z.of_nat (length (t0 :: rest))) * 100)%Q)
    by (injection H as <-; reflexivity).
  rewrite E. clear E H.
  pose proof (points_bounds (Fin value) (t0 :: rest)) as Hb.
  specialize (Hb ltac:(discriminate)).
  set (p := _get_points_by_thresholds (Fin value) (t0 :: rest)) in *.
  set (n := Z.of_nat (length (t0 :: rest))) in *.
  assert (Hn : 0 < n) by (subst n; cbn [length]; lia).
  assert (Hp : (0 <= inject_Z p <= inject_Z n - 1)%Q).
  { split.
    - change 0%Q with (inject_Z 0). rewrite <- Zle_Qle. lia.
    - change 1%Q with (inject_Z 1). unfold Qminus.
      rewrite <- inject_Z_opp, <- inject_Z_plus, <- Zle_Qle. lia. }
  assert (Hn' : (0 < inject_Z n)%Q).
  { change 0%Q with (inject_Z 0). rewrite <- Zlt_Qlt. exact Hn. }
  clearbody p n.
  assert (Hinv : (0 < / inject_Z n)%Q) by (apply Qinv_lt_0_compat; exact Hn').
  assert (Hone : (inject_Z n * / inject_Z n == 1)%Q)
    by (apply Qmult_inv_r; lra).
  unfold Qdiv.
  set (i := (/ inject_Z n)%Q) in *. clearbody i.
  split; [reflexivity|]. split; [nra|]. split; nra.
Qed.

(** ** The nutritional context of a meal *)

Lemma count_if_range {A : Type} (p q : A -> bool) (l : list A) :
  0 <= count_if (fun x => q x && p x) l <= count_if q l.
Proof.
  unfold count_if. split; [lia|]. apply inj_le.
  induction l as [|x l IH]; cbn [List.filter]; [lia|].
  destruct (q x); cbn [andb]; [destruct (p x)|]; cbn [length]; lia.
Qed.

Lemma protein_quality_range (foods_info : list FoodInfo) :
  Forall (fun food => (0 <= info_serving_size food)%Q
                      /\ (0 <= info_protein_content food)%Q) foods_info ->
  (1 <= _calculate_protein_quality_score foods_info <= 12 # 10)%Q.
Proof.
  intros Hf. unfold _calculate_protein_quality_score.
  destruct foods_info as [|food foods_info]; [lra|].
  destruct (Qeq_bool _ 0) eqn:E; [lra|].
  match goal with
  | |- (_ <= 1 + ?a / ?b * _ <= _)%Q =>
      assert (H : (0 <= a / b <= 1)%Q)
  end.
  { apply Qdiv_unit_range.
    - apply Qsum_filter_range.
      eapply Forall_impl; [exact Hf|].
      intros x [Hs Hp]. cbv beta.
      assert (0 <= info_serving_size x * info_protein_content x)%Q
        by (apply Qmult_le_0_compat; assumption).
      lra100.
    - intros H. apply Qeq_bool_iff in H. congruence. }
  lra.
Qed.

(** X12.  The context the provider computes for a meal: the satiety index
    is between 0.63 and 1.44 (so its clamp to [0.5, 1.5] never acts), the
    naturalness of the fruit and vegetable foods is in [0, 1], the
    processing level is one of three names; without negative serving sizes
    the liquid share is in [0, 1], and without negative protein contents
    either the protein quality score is in [1, 1.2]. *)
Theorem nutritional_context_ranges
  (meal_nutrients : MealNutrients) (foods_info : list FoodInfo) :
  (63 # 100 <= satiety_index (analyze_nutritional_context meal_nutrients foods_info)
   <= 144 # 100)%Q /\
  (0 <= fvnl_naturalness (analyze_nutritional_context meal_nutrients foods_info)
   <= 1)%Q /\
  In (processing_level (analyze_nutritional_context meal_nutrients foods_info))
     ["minimally_processed"; "processed"; "ultra_processed"] /\
  (Forall (fun food => (0 <= info_serving_size food)%Q) foods_info ->
   (0 <= liquid_percentage (analyze_nutritional_context meal_nutrients foods_info)
    <= 1)%Q) /\
  (Forall (fun food => (0 <= info_serving_size food)%Q
                       /\ (0 <= info_protein_content food)%Q) foods_info ->
   (1 <= protein_quality_score
           (analyze_nutritional_context meal_nutrients foods_info)
    <= 12 # 10)%Q).
Proof.
  cbn [analyze_nutritional_context satiety_index fvnl_naturalness
       processing_level liquid_percentage protein_quality_score].
  split; [|split; [|split; [|split]]].
  - unfold _calculate_satiety_index. cbv zeta.
    repeat match goal with
           | |- context [if ?b then _ else _] => destruct b
           end;
      vm_compute; split; discriminate.
  - unfold _assess_fvnl_naturalness.
    destruct foods_info as [|food foods_info]; [lra|]. cbv zeta.
    destruct (Z.eqb_spec (count_if (fun food0 =>
                opt_in (info_food_group_id food0) [9; 11; 12; 16]%Z)
                (food :: foods_info)) 0) as [_|Hne]; [lra|].
    pose proof (count_if_range
                  (fun food0 => String.eqb (info_processing_level food0)
                                           "minimally_processed")
                  (fun food0 => opt_in (info_food_group_id food0) [9; 11; 12; 16]%Z)
                  (food :: foods_info)) as [H0 H1].
    apply Qdiv_unit_range.
    + split; [change 0%Q with (inject_Z 0)|]; rewrite <- Zle_Qle; assumption.
    + change 0%Q with (inject_Z 0). rewrite inject_Z_injective. exact Hne.
  - unfold ThresholdProvider._determine_processing_level.
    destruct foods_info as [|food foods_info]; [left; reflexivity|]. cbv zeta.
    repeat match goal with
           | |- context [if ?b then _ else _] => destruct b
           end;
      first [left; reflexivity | right; left; reflexivity
            | right; right; left; reflexivity].
  - apply liquid_percentage_range.
  - apply protein_quality_range.
Qed.

(** ** Direction of the threshold adjustments *)

Lemma py_int_inject_Z (a : Z) : py_int (inject_Z a) = a.
Proof.
  unfold py_int. rewrite Qfloor_Z, Qceiling_Z.
  destruct (Qle_bool 0 (inject_Z a)); reflexivity.
Qed.

Lemma Forall2_le_refl (l : list Z) : Forall2 Z.le l l.
Proof. induction l; constructor; [lia|assumption]. Qed.

Lemma Forall2_le_map (f g : Z -> Z) (l : list Z) :
  Forall (fun a => f a <= g a) l -> Forall2 Z.le (List.map f l) (List.map g l).
Proof. induction 1; cbn [List.map]; constructor; assumption. Qed.

Lemma divide_pointwise (q : Q) (l : list Z) :
  (1 < q)%Q -> Forall (Z.le 0) l ->
  Forall (Z.le 0) (divide q l) /\ Forall2 Z.le (divide q l) l.
Proof.
  intros Hq Hl. unfold divide.
  assert (Hi : (0 < / q)%Q) by (apply Qinv_lt_0_compat; lra).
  assert (Hone : (q * / q == 1)%Q) by (apply Qmult_inv_r; lra).
  induction Hl as [|a l Ha _ [IH1 IH2]]; cbn [List.map];
    [split; constructor|].
  assert (Ha' : (0 <= inject_Z a)%Q)
    by (change 0%Q with (inject_Z 0); rewrite <- Zle_Qle; exact Ha).
  unfold Qdiv. set (x := inject_Z a) in *. set (i := (/ q)%Q) in *.
  split; constructor; try assumption.
  - change 0 with (py_int 0). apply py_int_mono. clearbody x i. nra.
  - rewrite <- (py_int_inject_Z a). apply py_int_mono.
    fold x. clearbody x i. nra.
Qed.

(** Pointwise lower thresholds never give fewer points. *)
Lemma points_pointwise (v : pyfloat) (low high : list Z) :
  StronglySorted Z.le low -> StronglySorted Z.le high ->
  Forall2 Z.le low high ->
  _get_points_by_thresholds v (List.map of_int high)
  <= _get_points_by_thresholds v (List.map of_int low).
Proof.
  intros Hl Hh Hle.
  pose proof (Forall2_length _ _ _ Hle) as Hlen.
  pose proof (count_lt_pointwise v _ _ Hle) as Hcount.
  rewrite (points_on_sorted v _ (sorted_nondecreasing _ Hl)).
  rewrite (points_on_sorted v _ (sorted_nondecreasing _ Hh)).
  destruct low as [|a low]; destruct high as [|b high];
    cbn [length] in Hlen; try discriminate; cbn [List.map]; try lia.
  cbn [List.map] in Hcount. cbn [length]. rewrite !length_map.
  injection Hlen as Hlen. lia.
Qed.

Lemma protein_thresholds_nonneg : Forall (Z.le 0) PROTEIN_THRESHOLDS.
Proof. unfold PROTEIN_THRESHOLDS. pointwise_literal. Qed.

(** The protein and energy lists of [get_thresholds], category by category. *)
Lemma get_thresholds_protein_energy
  (category : Category) (nutritional_context : option NutritionalContext) :
  protein (get_thresholds category nutritional_context)
  = (if Category_eqb category CHEESE
     then List.map (fun threshold => Z.max 0 (threshold - 2))
     else fun l => l)
      (protein (get_thresholds FOOD nutritional_context)) /\
  energy_density (get_thresholds category nutritional_context)
  = (if Category_eqb category OILS_AND_SPREADS
     then List.map (fun threshold => threshold + 50)
     else fun l => l)
      (energy_density (get_thresholds FOOD nutritional_context)) /\
  protein (get_thresholds FOOD nutritional_context)
  = match nutritional_context with
    | Some context =>
        if Qltb 1 (protein_quality_score context)
        then divide (protein_quality_score context) PROTEIN_THRESHOLDS
        else PROTEIN_THRESHOLDS
    | None => PROTEIN_THRESHOLDS
    end.
Proof.
  unfold get_thresholds, _apply_contextual_adjustments.
  destruct nutritional_context as [context|];
    [|destruct category; repeat split; reflexivity].
  destruct (negb (Qeq_bool (satiety_index context) 1));
    destruct (String.eqb (processing_level context) "ultra_processed");
    destruct (Qltb (3 # 10) (liquid_percentage context));
    destruct (Qltb 1 (protein_quality_score context));
    destruct category; repeat split; reflexivity.
Qed.

(** X13.  The adjustments move the points the way they are meant to.  For
    a context with a non-negative satiety index and a liquid share of at
    most 10/3 (every computed context has them) and any amount: the
    context never lowers the natural-sugar, added-sugar or protein points
    of a category; cheese never gets fewer protein points than a general
    food, and oils and spreads never get more energy points than one. *)
Theorem adjustments_direction
  (category : Category) (context : NutritionalContext) (amount : pyfloat)
  (Hsatiety : (0 <= satiety_index context)%Q)
  (Hliquid : (liquid_percentage context <= 10 # 3)%Q) :
  _get_points_by_thresholds amount
    (List.map of_int (sugar_natural (get_thresholds category None)))
  <= _get_points_by_thresholds amount
       (List.map of_int (sugar_natural (get_thresholds category (Some context)))) /\
  _get_points_by_thresholds amount
    (List.map of_int (sugar_added (get_thresholds category None)))
  <= _get_points_by_thresholds amount
       (List.map of_int (sugar_added (get_thresholds category (Some context)))) /\
  _get_points_by_thresholds amount
    (List.map of_int (protein (get_thresholds category None)))
  <= _get_points_by_thresholds amount
       (List.map of_int (protein (get_thresholds category (Some context)))) /\
  _get_points_by_thresholds amount
    (List.map of_int (protein (get_thresholds FOOD (Some context))))
  <= _get_points_by_thresholds amount
       (List.map of_int (protein (get_thresholds CHEESE (Some context)))) /\
  _get_points_by_thresholds amount
    (List.map of_int (energy_density (get_thresholds OILS_AND_SPREADS (Some context))))
  <= _get_points_by_thresholds amount
       (List.map of_int (energy_density (get_thresholds FOOD (Some context)))).
Proof.
  assert (Hsorted : forall c, all_sorted (get_thresholds c (Some context))).
  { intros c. apply get_thresholds_sorted.
    intros context' E. injection E as <-. split; assumption. }
  assert (Hbase : forall c, all_sorted (get_thresholds c None)).
  { intros c. apply get_thresholds_sorted. discriminate. }
  pose proof (Hsorted category) as (_ & Hn & Ha & _ & _ & _ & Hp & _).
  pose proof (Hbase category) as (_ & Hn0 & Ha0 & _ & _ & _ & Hp0 & _).
  pose proof (Hsorted FOOD) as (Hef & _ & _ & _ & _ & _ & Hpf & _).
  pose proof (Hsorted CHEESE) as (_ & _ & _ & _ & _ & _ & Hpc & _).
  pose proof (Hsorted OILS_AND_SPREADS) as (Heo & _).
  pose proof protein_thresholds_nonneg as Hpos.
  assert (Hfood : Forall (Z.le 0) (protein (get_thresholds FOOD (Some context)))
                  /\ Forall2 Z.le (protein (get_thresholds FOOD (Some context)))
                                  PROTEIN_THRESHOLDS).
  { destruct (get_thresholds_protein_energy FOOD (Some context)) as (_ & _ & ->).
    destruct (Qltb 1 (protein_quality_score context)) eqn:E.
    - apply divide_pointwise; [apply Qltb_lt; exact E|exact Hpos].
    - split; [exact Hpos|apply Forall2_le_refl]. }
  destruct Hfood as [Hfood0 Hfood1].
  split; [|split; [|split; [|split]]]; apply points_pointwise; try assumption.
  - destruct (get_thresholds_sugar category (Some context)) as [_ ->].
    destruct (get_thresholds_sugar category None) as [_ ->].
    destruct (Qltb (3 # 10) (liquid_percentage context)) eqn:E;
      [|apply Forall2_le_refl].
    apply Qltb_lt in E.
    replace NATURAL_SUGAR_THRESHOLDS with (scale 1 NATURAL_SUGAR_THRESHOLDS)
      at 2 by reflexivity.
    apply scale_pointwise; [lra|].
    unfold NATURAL_SUGAR_THRESHOLDS. pointwise_literal.
  - destruct (get_thresholds_sugar category (Some context)) as [-> _].
    destruct (get_thresholds_sugar category None) as [-> _].
    destruct (String.eqb (processing_level context) "ultra_processed");
      [|apply Forall2_le_refl].
    replace (scale (8 # 10) ADDED_SUGAR_THRESHOLDS)
      with [0; 0; 1; 2; 3; 4; 4; 6; 8; 9; 12] by reflexivity.
    unfold ADDED_SUGAR_THRESHOLDS. pointwise_literal.
  - destruct (get_thresholds_protein_energy category (Some context)) as (-> & _).
    destruct (get_thresholds_protein_energy category None) as (-> & _ & ->).
    destruct (Category_eqb category CHEESE); [|exact Hfood1].
    clear - Hfood1. induction Hfood1; cbn [List.map]; constructor;
      [lia|assumption].
  - destruct (get_thresholds_protein_energy CHEESE (Some context)) as (-> & _).
    cbn [Category_eqb].
    rewrite <- (List.map_id (protein (get_thresholds FOOD (Some context)))) at 2.
    apply Forall2_le_map.
    eapply Forall_impl; [exact Hfood0|]. intros a Ha'. cbv beta. lia.
  - destruct (get_thresholds_protein_energy OILS_AND_SPREADS (Some context))
      as (_ & -> & _).
    cbn [Category_eqb].
    rewrite <- (List.map_id (energy_density (get_thresholds FOOD (Some context))))
      at 1.
    apply Forall2_le_map.
    apply List.Forall_forall. intros a _. lia.
Qed.

Lemma adjustments_direction_witness :
  _get_points_by_thresholds (Fin 12)
    (List.map of_int (sugar_natural (get_thresholds CHEESE None)))
  <= _get_points_by_thresholds (Fin 12)
       (List.map of_int (sugar_natural (get_thresholds CHEESE (Some example_context)))) /\
  _get_points_by_thresholds (Fin 12)
    (List.map of_int (sugar_added (get_thresholds CHEESE None)))
  <= _get_points_by_thresholds (Fin 12)
       (List.map of_int (sugar_added (get_thresholds CHEESE (Some example_context)))) /\
  _get_points_by_thresholds (Fin 12)
    (List.map of_int (protein (get_thresholds CHEESE None)))
  <= _get_points_by_thresholds (Fin 12)
       (List.map of_int (protein (get_thresholds CHEESE (Some example_context)))) /\
  _get_points_by_thresholds (Fin 12)
    (List.map of_int (protein (get_thresholds FOOD (Some example_context))))
  <= _get_points_by_thresholds (Fin 12)
       (List.map of_int (protein (get_thresholds CHEESE (Some example_context)))) /\
  _get_points_by_thresholds (Fin 12)
    (List.map of_int
       (energy_density (get_thresholds OILS_AND_SPREADS (Some example_context))))
  <= _get_points_by_thresholds (Fin 12)
       (List.map of_int (energy_density (get_thresholds FOOD (Some example_context)))).
Proof.
  apply (adjustments_direction CHEESE example_context (Fin 12)); cbn; lra.
Defined.

(** ** The explanation of a threshold lookup *)

Lemma nondecreasing_cons (x : pyfloat) (l : list pyfloat) :
  nondecreasing (x :: l) ->
  nondecreasing l /\ Forall (fun y => fle x y = true) l.
Proof.
  intros H. split.
  - intros i j Hij Hj. apply (H (S i) (S j)); cbn [length]; lia.
  - apply List.Forall_forall. intros y Hy.
    destruct (In_nth _ _ NaN Hy) as (n & Hn & <-).
    apply (H 0%nat (S n)); cbn [length]; lia.
Qed.

Lemma flt_fle (a b : pyfloat) : flt a b = true -> fle a b = true.
Proof.
  destruct a, b; simpl; try congruence.
  rewrite Qltb_lt, Qle_bool_iff. lra.
Qed.

Lemma count_lt_le_length (v : pyfloat) (l : list pyfloat) :
  (count_lt v l <= count_le v l <= length l)%nat.
Proof.
  induction l as [|x l IH]; cbn [count_lt count_le length]; [lia|].
  destruct (flt x v) eqn:E; [rewrite (flt_fle _ _ E); lia|].
  destruct (fle x v); lia.
Qed.

Lemma count_le_above (v x : pyfloat) (l : list pyfloat) :
  fle x v = false -> Forall (fun y => fle x y = true) l -> count_le v l = 0%nat.
Proof.
  intros Hx. induction 1 as [|y l Hy _ IH]; cbn [count_le]; [reflexivity|].
  destruct (fle y v) eqn:E; [|exact IH].
  rewrite (fle_trans _ _ _ Hy E) in Hx. discriminate.
Qed.

(** On a non-decreasing list the loop of the explanation stops after the
    thresholds that are at most the value. *)
Lemma explanation_loop_count (v : pyfloat) (l : list pyfloat) (i points : nat) :
  nondecreasing l ->
  explanation_loop v l i points
  = if (count_le v l =? 0)%nat then points else (i + count_le v l - 1)%nat.
Proof.
  revert i points. induction l as [|x l IH]; intros i points Hs;
    cbn [explanation_loop count_le]; [reflexivity|].
  destruct (nondecreasing_cons _ _ Hs) as [Hl Hx].
  destruct (fle x v) eqn:E.
  - rewrite (IH _ _ Hl). cbn [Nat.add Nat.eqb].
    destruct (Nat.eqb_spec (count_le v l) 0) as [->|Hne]; lia.
  - rewrite (count_le_above _ _ _ E Hx). reflexivity.
Qed.

Lemma count_le_prefix (v : pyfloat) (l : list pyfloat) (i : nat) :
  nondecreasing l -> (i < count_le v l)%nat -> fle (nth i l NaN) v = true.
Proof.
  revert i. induction l as [|x l IH]; intros i Hs Hi; cbn [count_le] in Hi; [lia|].
  destruct (nondecreasing_cons _ _ Hs) as [Hl Hx].
  destruct (fle x v) eqn:E.
  - destruct i as [|i]; [exact E|]. cbn [nth]. apply IH; [exact Hl|lia].
  - rewrite (count_le_above _ _ _ E Hx) in Hi. lia.
Qed.

Lemma count_le_without (value : Q) (zl : list Z) :
  Forall (fun z => ~ (inject_Z z == value)%Q) zl ->
  (count_le (Fin value) (List.map of_int zl)
   <= count_lt (Fin value) (List.map of_int zl))%nat.
Proof.
  induction 1 as [|z zl Hz _ IH]; cbn [List.map count_le count_lt]; [lia|].
  unfold of_int at 1 3. cbn [fle flt].
  destruct (Qle_bool (inject_Z z) value) eqn:E1; [|lia].
  apply Qle_bool_iff in E1.
  destruct (Qltb (inject_Z z) value) eqn:E2; [lia|].
  apply Qltb_ge in E2. exfalso. apply Hz. lra.
Qed.

Lemma count_le_nodup (value : Q) (zl : list Z) :
  NoDup zl ->
  (count_le (Fin value) (List.map of_int zl)
   <= count_lt (Fin value) (List.map of_int zl) + 1)%nat.
Proof.
  induction 1 as [|z zl Hz Hnd IH]; cbn [List.map count_le count_lt]; [lia|].
  unfold of_int at 1 3. cbn [fle flt].
  destruct (Qle_bool (inject_Z z) value) eqn:E1; [|lia].
  destruct (Qltb (inject_Z z) value) eqn:E2; [lia|].
  apply Qle_bool_iff in E1. apply Qltb_ge in E2.
  assert (Hw : Forall (fun z' => ~ (inject_Z z' == value)%Q) zl).
  { apply List.Forall_forall. intros z' Hin Heq.
    assert (inject_Z z' == inject_Z z)%Q as Hzz by lra.
    rewrite inject_Z_injective in Hzz. subst z'. rewrite list_elem_of_In in Hz.
    contradiction. }
  pose proof (count_le_without value zl Hw). lia.
Qed.

(** X14.  The explanation of a lookup in a non-empty, non-decreasing
    threshold list reports as points the number of thresholds that are at
    most the value, less one (0 when there is none), and as threshold used
    the threshold of that rank, which is at most the value whenever the
    first threshold is.  The calculator awards the number of thresholds
    strictly below the value instead: the awarded points are at most one
    more than the explained ones, and on a list of distinct integers they
    are never fewer. *)
Theorem explanation_counts_thresholds_up_to_value
  (nutrient : string) (value : Q) (thresholds : HSRThresholds)
  (threshold_list : list pyfloat)
  (Hattribute : threshold_attribute thresholds nutrient = list_attribute threshold_list)
  (Hnonempty : threshold_list <> [])
  (Hsorted : nondecreasing threshold_list) :
  exists e,
    get_threshold_explanation nutrient value thresholds = Some (explanation e) /\
    explained_points e
    = Z.max 0 (Z.of_nat (count_le (Fin value) threshold_list) - 1) /\
    0 <= explained_points e < Z.of_nat (length threshold_list) /\
    threshold_used e = nth (Z.to_nat (explained_points e)) threshold_list NaN /\
    (fle (nth 0 threshold_list NaN) (Fin value) = true ->
     fle (threshold_used e) (Fin value) = true) /\
    _get_points_by_thresholds (Fin value) threshold_list <= explained_points e + 1 /\
    (forall integers,
       threshold_list = List.map of_int integers -> NoDup integers ->
       explained_points e <= _get_points_by_thresholds (Fin value) threshold_list).
Proof.
  unfold get_threshold_explanation. rewrite Hattribute.
  destruct threshold_list as [|t0 rest] eqn:El; [congruence|]. rewrite <- El in *.
  cbv zeta. eexists. split; [reflexivity|].
  cbn [explained_points threshold_used].
  rewrite (explanation_loop_count _ _ _ _ Hsorted).
  rewrite (points_on_sorted _ _ Hsorted).
  pose proof (count_lt_le_length (Fin value) threshold_list) as Hc.
  assert (Hlen : (0 < length threshold_list)%nat) by (rewrite El; cbn [length]; lia).
  set (k := count_le (Fin value) threshold_list) in *.
  set (points := if (k =? 0)%nat then 0%nat else (0 + k - 1)%nat).
  assert (Hp : Z.of_nat points = Z.max 0 (Z.of_nat k - 1)).
  { subst points. destruct (Nat.eqb_spec k 0); lia. }
  assert (Hlt : (points < length threshold_list)%nat) by lia.
  assert (Hrank : Z.to_nat (Z.of_nat points) = points) by lia.
  destruct (Nat.ltb_spec points (length threshold_list)) as [_|]; [|lia].
  rewrite Hrank.
  split; [exact Hp|]. split; [lia|]. split; [reflexivity|].
  split; [|split].
  - intros Hfirst. subst points.
    destruct (Nat.eqb_spec k 0) as [_|Hk]; [exact Hfirst|].
    apply count_le_prefix; [exact Hsorted|fold k; lia].
  - rewrite El. cbv beta iota. rewrite <- El. lia.
  - intros integers Hint Hnd.
    pose proof (count_le_nodup value integers Hnd) as Hd.
    rewrite <- Hint in Hd. fold k in Hd.
    rewrite El. cbv beta iota. rewrite <- El. lia.
Qed.

Lemma explanation_counts_thresholds_up_to_value_witness :
  exists e,
    get_threshold_explanation "sodium" 250 (get_thresholds FOOD None)
    = Some (explanation e) /\
    explained_points e
    = Z.max 0 (Z.of_nat (count_le (Fin 250) (List.map of_int SODIUM_THRESHOLDS)) - 1) /\
    0 <= explained_points e
      < Z.of_nat (length (List.map of_int SODIUM_THRESHOLDS)) /\
    threshold_used e
    = nth (Z.to_nat (explained_points e)) (List.map of_int SODIUM_THRESHOLDS) NaN /\
    (fle (nth 0 (List.map of_int SODIUM_THRESHOLDS) NaN) (Fin 250) = true ->
     fle (threshold_used e) (Fin 250) = true) /\
    _get_points_by_thresholds (Fin 250) (List.map of_int SODIUM_THRESHOLDS)
    <= explained_points e + 1 /\
    (forall integers,
       List.map of_int SODIUM_THRESHOLDS = List.map of_int integers ->
       NoDup integers ->
       explained_points e
       <= _get_points_by_thresholds (Fin 250) (List.map of_int SODIUM_THRESHOLDS)).
Proof.
  apply (explanation_counts_thresholds_up_to_value
           "sodium" 250 (get_thresholds FOOD None)
           (List.map of_int SODIUM_THRESHOLDS)).
  - reflexivity.
  - discriminate.
  - apply nondecreasingb_spec. reflexivity.
Defined.

(** ** The food group mapper *)

Lemma base_category_groups (food_group_id : Z) :
  match dict_get FoodGroupMapper.FOOD_GROUP_MAPPINGS food_group_id FOOD with
  | DAIRY_FOOD => food_group_id = 1
  | OILS_AND_SPREADS => food_group_id = 4
  | BEVERAGE => food_group_id = 14
  | FOOD => food_group_id <> 1 /\ food_group_id <> 4 /\ food_group_id <> 14
  | CHEESE | DAIRY_BEVERAGE => False
  end.
Proof.
  unfold FoodGroupMapper.FOOD_GROUP_MAPPINGS. cbn [dict_get].
  repeat match goal with
         | |- context [if ?k =? ?n then _ else _] =>
             destruct (Z.eqb_spec k n)
         end; lia.
Qed.

Lemma mapper_category_groups_aux (food_group_id : Z) (food_name : string) :
  match FoodGroupMapper.get_category food_group_id food_name with
  | CHEESE | DAIRY_FOOD => food_group_id = 1
  | DAIRY_BEVERAGE => food_group_id = 1 \/ food_group_id = 14
  | BEVERAGE => food_group_id = 9 \/ food_group_id = 14
  | OILS_AND_SPREADS =>
      food_group_id = 4
      \/ FoodGroupMapper._contains_keyword
           (Text.lower food_name) FoodGroupMapper.OIL_SPREAD_KEYWORDS = true
  | FOOD => food_group_id <> 1
  end.
Proof.
  unfold FoodGroupMapper.get_category. cbv zeta.
  pose proof (base_category_groups food_group_id) as Hbase.
  destruct (Z.eqb_spec food_group_id 1) as [E1|N1]; cbn [andb].
  - destruct (FoodGroupMapper._contains_keyword _ FoodGroupMapper.CHEESE_KEYWORDS);
      [exact E1|].
    destruct (FoodGroupMapper._contains_keyword
                _ FoodGroupMapper.DAIRY_BEVERAGE_KEYWORDS); [left; exact E1|].
    destruct (Z.eqb_spec food_group_id 9) as [E9|_]; [lia|].
    destruct (Z.eqb_spec food_group_id 14) as [E14|_]; [lia|]. cbn [andb].
    destruct (FoodGroupMapper._contains_keyword
                _ FoodGroupMapper.OIL_SPREAD_KEYWORDS); [right; reflexivity|].
    destruct (dict_get _ _ _); tauto.
  - destruct (Z.eqb_spec food_group_id 9) as [E9|N9]; cbn [andb].
    + destruct (FoodGroupMapper._contains_keyword
                  _ FoodGroupMapper.BEVERAGE_KEYWORDS); [left; exact E9|].
      destruct (Z.eqb_spec food_group_id 14) as [E14|_]; [lia|]. cbn [andb].
      destruct (FoodGroupMapper._contains_keyword
                  _ FoodGroupMapper.OIL_SPREAD_KEYWORDS); [right; reflexivity|].
      destruct (dict_get _ _ _); try tauto; lia.
    + destruct (Z.eqb_spec food_group_id 14) as [E14|N14]; cbn [andb].
      * destruct (FoodGroupMapper._contains_keyword
                    _ FoodGroupMapper.DAIRY_BEVERAGE_KEYWORDS); [right; exact E14|].
        destruct (FoodGroupMapper._contains_keyword
                    _ FoodGroupMapper.OIL_SPREAD_KEYWORDS); [right; reflexivity|].
        destruct (dict_get _ _ _); try tauto; lia.
      * destruct (FoodGroupMapper._contains_keyword
                    _ FoodGroupMapper.OIL_SPREAD_KEYWORDS); [right; reflexivity|].
        destruct (dict_get _ _ _); try tauto; lia.
Qed.

(** X15.  Which food groups a category of the mapper can come from: cheese
    and dairy food only from group 1, a dairy beverage only from groups 1
    and 14, a beverage only from groups 9 and 14; oils and spreads from
    group 4 or from a name with an oil or spread keyword; and a food of
    group 1 is never a general food. *)
Theorem mapper_category_groups (food_group_id : Z) (food_name : string) :
  match FoodGroupMapper.get_category food_group_id food_name with
  | CHEESE | DAIRY_FOOD => food_group_id = 1
  | DAIRY_BEVERAGE => food_group_id = 1 \/ food_group_id = 14
  | BEVERAGE => food_group_id = 9 \/ food_group_id = 14
  | OILS_AND_SPREADS =>
      food_group_id = 4
      \/ FoodGroupMapper._contains_keyword
           (Text.lower food_name) FoodGroupMapper.OIL_SPREAD_KEYWORDS = true
  | FOOD => food_group_id <> 1
  end.
Proof. exact (mapper_category_groups_aux food_group_id food_name). Qed.

(** X16.  Validating an assignment: the confidence is 1.0, 0.7 or 0.8 and
    at most one warning is given.  The assignment fails validation exactly
    when a food of group 1 is a general food and its name has none of
    egg, powder and substitute; a beverage outside groups 9 and 14 is
    warned about but validated.  The category the mapper itself assigns is
    always validated with confidence 1.0 and without warnings. *)
Theorem mapper_validation
  (food_group_id : Z) (food_name : string) (calculated_category : Category) :
  In (FoodGroupMapper.assignment_confidence
        (FoodGroupMapper.validate_category_assignment
           food_group_id food_name calculated_category))
     [1; 7 # 10; 8 # 10]%Q /\
  (length (FoodGroupMapper.assignment_warnings
             (FoodGroupMapper.validate_category_assignment
                food_group_id food_name calculated_category)) <= 1)%nat /\
  (FoodGroupMapper.assignment_validated
     (FoodGroupMapper.validate_category_assignment
        food_group_id food_name calculated_category) = false
   <-> food_group_id = 1 /\ calculated_category = FOOD
       /\ Text.any_in ["egg"; "powder"; "substitute"]%string
            (Text.lower food_name) = false) /\
  (calculated_category = BEVERAGE -> food_group_id <> 9 -> food_group_id <> 14 ->
   FoodGroupMapper.validate_category_assignment
     food_group_id food_name calculated_category
   = {| FoodGroupMapper.assignment_confidence := 8 # 10;
        FoodGroupMapper.assignment_warnings :=
          ["Non-beverage group classified as beverage"%string];
        FoodGroupMapper.assignment_validated := true |}) /\
  FoodGroupMapper.validate_category_assignment
    food_group_id food_name (FoodGroupMapper.get_category food_group_id food_name)
  = {| FoodGroupMapper.assignment_confidence := 1;
       FoodGroupMapper.assignment_warnings := [];
       FoodGroupMapper.assignment_validated := true |}.
Proof.
  pose proof (mapper_category_groups_aux food_group_id food_name) as Hown.
  unfold FoodGroupMapper.validate_category_assignment. cbv zeta.
  split; [|split; [|split; [|split]]].
  - destruct (Z.eqb_spec food_group_id 1); destruct calculated_category;
      destruct (Text.any_in _ _);
      cbn [andb negb Category_eqb existsb orb];
      repeat match goal with
             | |- context [?a =? ?b] => destruct (Z.eqb_spec a b)
             end; cbn; auto.
  - destruct (Z.eqb_spec food_group_id 1); destruct calculated_category;
      destruct (Text.any_in _ _);
      cbn [andb negb Category_eqb existsb orb];
      repeat match goal with
             | |- context [?a =? ?b] => destruct (Z.eqb_spec a b)
             end; cbn; lia.
  - destruct (Z.eqb_spec food_group_id 1); destruct calculated_category;
      destruct (Text.any_in _ _);
      cbn [andb negb Category_eqb existsb orb];
      repeat match goal with
             | |- context [?a =? ?b] => destruct (Z.eqb_spec a b)
             end; cbn; split; try discriminate; try tauto;
      intros (? & ? & ?); try discriminate; try lia.
  - intros -> N9 N14.
    destruct (Z.eqb_spec food_group_id 1);
      cbn [andb negb Category_eqb existsb orb];
      destruct (Z.eqb_spec food_group_id 9); [lia| |lia|];
      destruct (Z.eqb_spec food_group_id 14); try lia; reflexivity.
  - destruct (FoodGroupMapper.get_category food_group_id food_name);
      destruct (Z.eqb_spec food_group_id 1);
      cbn [andb negb Category_eqb existsb orb];
      repeat match goal with
             | |- context [?a =? ?b] => destruct (Z.eqb_spec a b)
             end; cbn [andb negb orb]; try reflexivity; try lia; try tauto.
Qed.

(** ** Foods and their category *)

Lemma Category_eqb_refl (c : Category) : Category_eqb c c = true.
Proof. destruct c; reflexivity. Qed.

(** X17.  Validation of the category of a food.  A food constructed
    without a category but with a food group is assigned the category of
    the mapper and validates with confidence 0.9.  A food constructed with
    a category keeps confidence 0.0: without a food group it is reported
    as not valid, with one it is valid exactly when the mapper computes
    the same category.  After a manual assignment a food without a group
    is valid exactly when the given confidence exceeds 0.5, and a food
    with a group is valid exactly when the mapper agrees, the confidence
    being halved otherwise. *)
Theorem food_category_validation
  (food_id : Z) (food_name : string) (serving_size : Q)
  (nutrients : gmap string Q) (fvnl_percent : Q)
  (given manual : Category) (group : Z) (manual_confidence : Q) :
  FoodModel.validate_category_assignment
    (FoodModel.new food_id food_name serving_size nutrients fvnl_percent
                   None (Some group))
  = {| FoodModel.valid := true;
       FoodModel.reason := "category_matches_calculation";
       FoodModel.assigned_category := None;
       FoodModel.calculated_category := None;
       FoodModel.confidence := 9 # 10;
       FoodModel.recommendations := [] |} /\
  FoodModel.category
    (FoodModel.new food_id food_name serving_size nutrients fvnl_percent
                   None (Some group))
  = Some (FoodGroupMapper.get_category group food_name) /\
  FoodModel.valid
    (FoodModel.validate_category_assignment
       (FoodModel.new food_id food_name serving_size nutrients fvnl_percent
                      None None)) = false /\
  FoodModel.validate_category_assignment
    (FoodModel.new food_id food_name serving_size nutrients fvnl_percent
                   (Some given) None)
  = {| FoodModel.valid := false;
       FoodModel.reason := "no_validation_possible_without_food_group_id";
       FoodModel.assigned_category := None;
       FoodModel.calculated_category := None;
       FoodModel.confidence := 0;
       FoodModel.recommendations :=
         ["Provide food_group_id for automatic validation"%string] |} /\
  (FoodModel.valid
     (FoodModel.validate_category_assignment
        (FoodModel.new food_id food_name serving_size nutrients fvnl_percent
                       (Some given) (Some group))) = true
   <-> FoodGroupMapper.get_category group food_name = given) /\
  (FoodModel.confidence
     (FoodModel.validate_category_assignment
        (FoodModel.new food_id food_name serving_size nutrients fvnl_percent
                       (Some given) (Some group))) == 0)%Q /\
  FoodModel.valid
    (FoodModel.validate_category_assignment
       (FoodModel.assign_category_manually manual manual_confidence
          (FoodModel.new food_id food_name serving_size nutrients fvnl_percent
                         (Some given) None)))
  = Qltb (5 # 10) manual_confidence /\
  (FoodModel.valid
     (FoodModel.validate_category_assignment
        (FoodModel.assign_category_manually manual manual_confidence
           (FoodModel.new food_id food_name serving_size nutrients fvnl_percent
                          None (Some group)))) = true
   <-> FoodGroupMapper.get_category group food_name = manual) /\
  (FoodModel.confidence
     (FoodModel.validate_category_assignment
        (FoodModel.assign_category_manually manual manual_confidence
           (FoodModel.new food_id food_name serving_size nutrients fvnl_percent
                          None (Some group))))
   == if Category_eqb (FoodGroupMapper.get_category group food_name) manual
      then manual_confidence else manual_confidence * (5 # 10))%Q.
Proof.
  unfold FoodModel.validate_category_assignment, FoodModel.new,
    FoodModel.__post_init__, FoodModel._assign_category,
    FoodModel.assign_category_manually, FoodModel.set_category.
  cbn [FoodModel.category FoodModel.food_group_id FoodModel.food_name
       FoodModel.category_confidence].
  rewrite Category_eqb_refl. cbn [negb].
  repeat split; try reflexivity.
  - destruct (Category_eqb _ given) eqn:E; cbn [negb FoodModel.valid];
      [intros _; apply Category_eqb_eq; exact E|discriminate].
  - intros <-. rewrite Category_eqb_refl. reflexivity.
  - destruct (Category_eqb _ given); cbn [negb FoodModel.confidence]; lra.
  - destruct (Category_eqb _ manual) eqn:E; cbn [negb FoodModel.valid];
      [intros _; apply Category_eqb_eq; exact E|discriminate].
  - intros <-. rewrite Category_eqb_refl. reflexivity.
  - destruct (Category_eqb _ manual); cbn [negb FoodModel.confidence]; lra.
Qed.

(** ** The nutritional values of a meal *)

Lemma weighted_bounds {A : Type} (g s : A -> Q) (lo hi : Q) (l : list A) :
  Forall (fun x => (0 <= s x)%Q /\ (lo <= g x <= hi)%Q) l ->
  (lo * Qsum (List.map s l)
   <= Qsum (List.map (fun x => g x * s x) l)
   <= hi * Qsum (List.map s l))%Q.
Proof.
  induction 1 as [|x l [Hs Hg] _ IH]; cbn [List.map].
  - unfold Qsum. cbn. lra.
  - rewrite !Qsum_cons.
    set (a := Qsum (List.map s l)) in *.
    set (b := Qsum (List.map (fun x0 => (g x0 * s x0)%Q) l)) in *.
    clearbody a b. nra.
Qed.

Lemma Qsum_ext {A : Type} (f g : A -> Q) (l : list A) :
  (forall x, (f x == g x)%Q) -> (Qsum (List.map f l) == Qsum (List.map g l))%Q.
Proof.
  intros H. induction l as [|x l IH]; cbn [List.map]; [reflexivity|].
  rewrite !Qsum_cons, IH, H. reflexivity.
Qed.

Lemma Qsum_scale {A : Type} (f : A -> Q) (k : Q) (l : list A) :
  (Qsum (List.map (fun x => f x * k) l) == Qsum (List.map f l) * k)%Q.
Proof.
  induction l as [|x l IH]; cbn [List.map].
  - unfold Qsum. cbn. ring.
  - rewrite !Qsum_cons, IH. ring.
Qed.

Lemma weighted_sum_average (fs : list Food) (name : string) (lo hi : Q) :
  (0 < total_serving fs)%Q ->
  Forall (fun food => (0 <= FoodModel.serving_size food)%Q
                      /\ (lo <= FoodModel.nutrient food name <= hi)%Q) fs ->
  (lo <= MealModel._calculate_weighted_sum fs (total_serving fs) name <= hi)%Q.
Proof.
  intros Hw Hf. unfold MealModel._calculate_weighted_sum.
  rewrite (Qeq_bool_false_pos _ Hw). cbv zeta.
  rewrite fold_left_sum.
  pose proof (weighted_bounds (fun food => FoodModel.nutrient food name)
                              FoodModel.serving_size lo hi fs Hf) as Hb.
  assert (E : (Qsum (List.map (fun x => FoodModel.nutrient x name
                                        * FoodModel.serving_size x / 100) fs)
               == Qsum (List.map (fun x => FoodModel.nutrient x name
                                           * FoodModel.serving_size x) fs)
                  * (1 # 100))%Q).
  { rewrite <- Qsum_scale. apply Qsum_ext. intros x. unfold Qdiv.
    change (/ 100)%Q with (1 # 100)%Q. reflexivity. }
  rewrite E. unfold total_serving in *.
  set (w := Qsum (List.map FoodModel.serving_size fs)) in *.
  set (n := Qsum (List.map _ fs)) in *. clearbody w n.
  assert (Hpos : (0 < w / 100)%Q) by lra100.
  split.
  - apply Qle_shift_div_l; [exact Hpos|]. unfold Qdiv.
    change (/ 100)%Q with (1 # 100)%Q. nra.
  - apply Qle_shift_div_r; [exact Hpos|]. unfold Qdiv.
    change (/ 100)%Q with (1 # 100)%Q. nra.
Qed.

Lemma fvnl_percent_average (fs : list Food) (lo hi : Q) :
  (0 < total_serving fs)%Q ->
  Forall (fun food => (0 <= FoodModel.serving_size food)%Q
                      /\ (lo <= FoodModel.fvnl_percent food <= hi)%Q) fs ->
  (lo <= MealModel._calculate_fvnl_percent fs (total_serving fs) <= hi)%Q.
Proof.
  intros Hw Hf. unfold MealModel._calculate_fvnl_percent.
  rewrite (Qeq_bool_false_pos _ Hw). cbv zeta.
  rewrite fold_left_sum.
  pose proof (weighted_bounds FoodModel.fvnl_percent
                              FoodModel.serving_size lo hi fs Hf) as Hb.
  assert (E : (Qsum (List.map (fun x => FoodModel.serving_size x
                                        * (FoodModel.fvnl_percent x / 100)) fs)
               == Qsum (List.map (fun x => FoodModel.fvnl_percent x
                                           * FoodModel.serving_size x) fs)
                  * (1 # 100))%Q).
  { rewrite <- Qsum_scale. apply Qsum_ext. intros x. unfold Qdiv.
    change (/ 100)%Q with (1 # 100)%Q. ring. }
  rewrite E. unfold total_serving in *.
  set (w := Qsum (List.map FoodModel.serving_size fs)) in *.
  set (n := Qsum (List.map (fun x => (FoodModel.fvnl_percent x
                                        * FoodModel.serving_size x)%Q) fs)) in *.
  clear E. clearbody w n.
  assert (Hi : (0 < / w)%Q) by (apply Qinv_lt_0_compat; exact Hw).
  assert (Hone : (w * / w == 1)%Q) by (apply Qmult_inv_r; lra).
  unfold Qdiv. set (i := (/ w)%Q) in *. clearbody i.
  assert (H1 : (lo * w * i <= n * i)%Q) by (apply Qmult_le_compat_r; lra).
  assert (H2 : (n * i <= hi * w * i)%Q) by (apply Qmult_le_compat_r; lra).
  assert (E1 : (lo * w * i == lo)%Q) by (rewrite <- Qmult_assoc, Hone; ring).
  assert (E2 : (hi * w * i == hi)%Q) by (rewrite <- Qmult_assoc, Hone; ring).
  rewrite E1 in H1. rewrite E2 in H2. lra.
Qed.



(** ** The scientific categorizer *)

Lemma insert_desc_In (x y : Category * Q) (l : list (Category * Q)) :
  In y (MealCategorizer.insert_desc x l) <-> y = x \/ In y l.
Proof.
  induction l as [|z l IH]; cbn [MealCategorizer.insert_desc In].
  - intuition congruence.
  - destruct (Qltb (snd z) (snd x)); cbn [In]; [intuition congruence|].
    rewrite IH. intuition congruence.
Qed.

Lemma fold_insert_desc_In (y : Category * Q) (items acc : list (Category * Q)) :
  In y (fold_left (fun acc x => MealCategorizer.insert_desc x acc) items acc)
  <-> In y items \/ In y acc.
Proof.
  revert acc. induction items as [|x items IH]; intros acc; cbn [fold_left In].
  - tauto.
  - rewrite IH, insert_desc_In. intuition congruence.
Qed.

Lemma insert_desc_sorted (x : Category * Q) (l : list (Category * Q)) :
  StronglySorted (fun a b => (snd b <= snd a)%Q) l ->
  StronglySorted (fun a b => (snd b <= snd a)%Q) (MealCategorizer.insert_desc x l).
Proof.
  induction 1 as [|z l Hl IH Hz]; cbn [MealCategorizer.insert_desc].
  - constructor; constructor.
  - destruct (Qltb (snd z) (snd x)) eqn:E.
    + apply Qltb_lt in E. constructor; [constructor; assumption|].
      constructor; [lra|].
      eapply Forall_impl; [exact Hz|]. intros b Hb. cbv beta in *. lra.
    + apply Qltb_ge in E. constructor; [exact IH|].
      apply List.Forall_forall. intros b Hb. apply insert_desc_In in Hb.
      destruct Hb as [->|Hb]; [exact E|].
      rewrite List.Forall_forall in Hz. apply Hz. exact Hb.
Qed.

Lemma sorted_desc_sorted (items : list (Category * Q)) :
  StronglySorted (fun a b => (snd b <= snd a)%Q) (MealCategorizer.sorted_desc items).
Proof.
  unfold MealCategorizer.sorted_desc.
  assert (H : forall acc,
             StronglySorted (fun a b => (snd b <= snd a)%Q) acc ->
             StronglySorted (fun a b => (snd b <= snd a)%Q)
               (fold_left (fun acc x => MealCategorizer.insert_desc x acc) items acc)).
  { induction items as [|x items IH]; intros acc Hacc; cbn [fold_left];
      [exact Hacc|]. apply IH, insert_desc_sorted, Hacc. }
  apply H. constructor.
Qed.

(** The head of the sorted items has the greatest score. *)
Lemma sorted_desc_head
  (items rest : list (Category * Q)) (top : Category * Q) :
  MealCategorizer.sorted_desc items = top :: rest ->
  In top items /\
  (forall y, In y rest -> In y items) /\
  (forall y, In y items -> (snd y <= snd top)%Q).
Proof.
  intros E.
  assert (Hin : forall y, In y (top :: rest) <-> In y items).
  { intros y. rewrite <- E. unfold MealCategorizer.sorted_desc.
    rewrite fold_insert_desc_In. cbn [In]. tauto. }
  pose proof (sorted_desc_sorted items) as Hs. rewrite E in Hs.
  apply StronglySorted_inv in Hs as [_ Hs]. rewrite List.Forall_forall in Hs.
  split; [apply Hin; left; reflexivity|].
  split; [intros y Hy; apply Hin; right; exact Hy|].
  intros y Hy. apply Hin in Hy. destruct Hy as [<-|Hy]; [lra|apply Hs, Hy].
Qed.

Lemma first_conflict_In
  (p : Category -> bool) (cs : list (Category * Q * Q)) (c : Category) :
  MealCategorizer.first_conflict p cs = Some c ->
  exists x, In x cs /\ fst (fst x) = c.
Proof.
  unfold MealCategorizer.first_conflict.
  destruct (List.find _ cs) as [x|] eqn:E; [|discriminate].
  intros H. injection H as <-. apply List.find_some in E as [Hin _].
  exists x. split; [exact Hin|reflexivity].
Qed.

(** The winner of the tie-breaking rules is the top category or one of
    the conflicting categories. *)
Lemma tie_breaking_winner
  (top : Category) (cs : list (Category * Q * Q)) (foods : list Food) :
  MealCategorizer.winner (MealCategorizer._apply_tie_breaking_rules top cs foods) = top
  \/ exists x, In x cs
               /\ fst (fst x)
                  = MealCategorizer.winner
                      (MealCategorizer._apply_tie_breaking_rules top cs foods).
Proof.
  unfold MealCategorizer._apply_tie_breaking_rules. cbv zeta.
  destruct (MealCategorizer.first_conflict
              (MealCategorizer.is_in [BEVERAGE; DAIRY_BEVERAGE]) cs)
    as [c1|] eqn:E1;
    destruct (MealCategorizer.first_conflict
                (MealCategorizer.is_in [CHEESE; DAIRY_FOOD]) cs)
      as [c2|] eqn:E2;
    destruct (MealCategorizer.first_conflict
                (Category_eqb OILS_AND_SPREADS) cs) as [c3|] eqn:E3;
    destruct (MealCategorizer.first_conflict (Category_eqb FOOD) cs)
      as [c4|] eqn:E4;
    try (pose proof (first_conflict_sat _ _ _ E3) as S3;
         apply Category_eqb_eq in S3; subst c3);
    try (pose proof (first_conflict_sat _ _ _ E4) as S4;
         apply Category_eqb_eq in S4; subst c4);
    try apply first_conflict_In in E1;
    try apply first_conflict_In in E2;
    try apply first_conflict_In in E3;
    try apply first_conflict_In in E4;
    destruct (Qltb (6 # 10) _); destruct (Qle_bool 15 _ && Qle_bool 15 _);
    destruct (Qltb 500 _ && Qltb 40 _);
    cbn [MealCategorizer.rule_applied MealCategorizer.winner];
    try (left; reflexivity);
    try (right; assumption);
    right; destruct (Category_eqb c2 CHEESE) eqn:Ec;
    try (apply Category_eqb_eq in Ec; subst c2); assumption.
Qed.

Lemma max_by_score_spec (best : Category * Q) (items : list (Category * Q)) :
  In (MealCategorizer.max_by_score best items) (best :: items) /\
  forall y, In y (best :: items) ->
            (snd y <= snd (MealCategorizer.max_by_score best items))%Q.
Proof.
  revert best. induction items as [|x items IH]; intros best;
    cbn [MealCategorizer.max_by_score].
  - split; [left; reflexivity|]. intros y [<-|[]]. lra.
  - destruct (IH (if Qltb (snd best) (snd x) then x else best)) as [Hin Hmax].
    split.
    + destruct Hin as [Hin|Hin]; [|right; right; exact Hin].
      rewrite <- Hin. destruct (Qltb (snd best) (snd x)); cbn [In]; auto.
    + intros y Hy.
      assert (Hb : (snd best <= snd (MealCategorizer.max_by_score
                      (if Qltb (snd best) (snd x) then x else best) items))%Q
                   /\ (snd x <= snd (MealCategorizer.max_by_score
                         (if Qltb (snd best) (snd x) then x else best) items))%Q).
      { pose proof (Hmax _ (or_introl eq_refl)) as H0.
        destruct (Qltb (snd best) (snd x)) eqn:E;
          [apply Qltb_lt in E|apply Qltb_ge in E]; split; lra. }
      destruct Hy as [<-|[<-|Hy]]; [tauto|tauto|].
      apply Hmax. right. exact Hy.
Qed.

(** Every category has one entry in the fitness dictionary. *)
Lemma fitness_of_In (nutrition : MealCategorizer.Nutrition) (c : Category) (s : Q) :
  In (c, s) (MealCategorizer._evaluate_category_fitness nutrition) ->
  MealCategorizer.fitness_of (MealCategorizer._evaluate_category_fitness nutrition) c = s.
Proof.
  unfold MealCategorizer._evaluate_category_fitness,
    MealCategorizer.CATEGORY_NUTRITIONAL_PROFILES, MealCategorizer.fitness_of.
  cbn [List.map In].
  intros [H|[H|[H|[H|[H|[H|[]]]]]]]; injection H as <- <-;
    cbn [List.find Category_eqb fst snd]; reflexivity.
Qed.

Lemma fitness_of_present (nutrition : MealCategorizer.Nutrition) (c : Category) :
  In (c, MealCategorizer.fitness_of
           (MealCategorizer._evaluate_category_fitness nutrition) c)
     (MealCategorizer._evaluate_category_fitness nutrition).
Proof.
  unfold MealCategorizer._evaluate_category_fitness,
    MealCategorizer.CATEGORY_NUTRITIONAL_PROFILES, MealCategorizer.fitness_of.
  cbn [List.map].
  destruct c; cbn [List.find Category_eqb fst snd In]; tauto.
Qed.

(** The category selected after conflict resolution has an entry in the
    fitness dictionary whose score is less than 0.15 behind every score. *)
Lemma selection_near_top (foods : list Food) (nutrition : MealCategorizer.Nutrition) :
  exists recommended s,
    (match MealCategorizer._resolve_category_conflicts
             foods (MealCategorizer._evaluate_category_fitness nutrition) with
     | Some resolution =>
         MealCategorizer._select_scientifically_optimal_category
           (MealCategorizer._evaluate_category_fitness nutrition) resolution
     | None => None
     end) = Some recommended
    /\ In (recommended, s) (MealCategorizer._evaluate_category_fitness nutrition)
    /\ forall y, In y (MealCategorizer._evaluate_category_fitness nutrition) ->
                 (snd y - (15 # 100) < s)%Q.
Proof.
  set (cf := MealCategorizer._evaluate_category_fitness nutrition).
  unfold MealCategorizer._resolve_category_conflicts.
  destruct (MealCategorizer.sorted_desc cf) as [|[top_category top_score] rest] eqn:Es.
  { exfalso. pose proof (fitness_of_present nutrition FOOD) as Hin.
    fold cf in Hin.
    assert (Hs : In (FOOD, MealCategorizer.fitness_of cf FOOD)
                    (MealCategorizer.sorted_desc cf)).
    { unfold MealCategorizer.sorted_desc. apply fold_insert_desc_In.
      left. exact Hin. }
    rewrite Es in Hs. exact Hs. }
  destruct (sorted_desc_head _ _ _ Es) as (Htop & Hrest & Hmax).
  cbn [snd] in Hmax.
  set (conflicts := List.map _ (List.filter _ rest)).
  assert (Hconf : forall x, In x conflicts ->
             In (fst (fst x), snd (fst x)) cf
             /\ (top_score - (15 # 100) < snd (fst x))%Q).
  { intros x Hx. subst conflicts. apply List.in_map_iff in Hx.
    destruct Hx as ([c s] & <- & Hx). apply List.filter_In in Hx.
    destruct Hx as [Hx Hlt]. cbn [fst snd]. split; [apply Hrest, Hx|].
    apply Qltb_lt in Hlt. unfold MealCategorizer.Qabs_diff in Hlt.
    apply Qabs_Qlt_condition in Hlt. lra. }
  destruct conflicts as [|conflict conflicts'] eqn:Ec.
  - cbn [MealCategorizer._select_scientifically_optimal_category
           MealCategorizer.has_conflicts].
    destruct cf as [|x items] eqn:Ecf; [destruct Htop|].
    destruct (max_by_score_spec x items) as [Hin Hm].
    exists (fst (MealCategorizer.max_by_score x items)),
           (snd (MealCategorizer.max_by_score x items)).
    split; [reflexivity|]. split; [rewrite <- surjective_pairing; exact Hin|].
    intros y Hy. specialize (Hm y Hy). lra.
  - cbn [MealCategorizer._select_scientifically_optimal_category
           MealCategorizer.has_conflicts MealCategorizer.tie_breaker].
    destruct (tie_breaking_winner top_category (conflict :: conflicts') foods)
      as [Hw|(x & Hx & Hw)].
    + exists (MealCategorizer.winner
                (MealCategorizer._apply_tie_breaking_rules
                   top_category (conflict :: conflicts') foods)), top_score.
      split; [reflexivity|]. rewrite Hw. split; [exact Htop|].
      intros y Hy. specialize (Hmax y Hy). lra.
    + destruct (Hconf x Hx) as [Hin Hlt].
      exists (MealCategorizer.winner
                (MealCategorizer._apply_tie_breaking_rules
                   top_category (conflict :: conflicts') foods)),
             (snd (fst x)).
      split; [reflexivity|]. rewrite <- Hw. split; [exact Hin|].
      intros y Hy. specialize (Hmax y Hy). lra.
Qed.

Lemma scientific_confidence_range
  (recommended : Category) (category_fitness : list (Category * Q))
  (nutrition : MealCategorizer.Nutrition) :
  (1 # 10 <= MealCategorizer._calculate_scientific_confidence
               recommended category_fitness nutrition <= 1)%Q.
Proof.
  unfold MealCategorizer._calculate_scientific_confidence.
  destruct (MealCategorizer.expected_energy_range _) as [energy_min energy_max].
  cbv zeta. apply Qclamp_range. lra.
Qed.

(** The categorizer returns a result on every list of foods that have a
    category. *)
Lemma determine_succeeds (foods : list Food) :
  Forall (fun food => is_Some (FoodModel.category food)) foods ->
  exists result,
    MealCategorizer.determine_scientific_category foods = Some result /\
    (1 # 10 <= MealCategorizer.confidence result <= 1)%Q.
Proof.
  intros Hc. unfold MealCategorizer.determine_scientific_category.
  destruct foods as [|first [|second others]].
  - eexists. split; [reflexivity|]. cbn. lra.
  - apply List.Forall_inv in Hc. destruct Hc as [c Hc].
    unfold MealCategorizer._analyze_single_food. rewrite Hc.
    eexists. split; [reflexivity|]. cbn. lra.
  - cbv zeta.
    destruct (selection_near_top
                (first :: second :: others)
                (MealCategorizer._analyze_meal_nutrition (first :: second :: others)))
      as (recommended & s & Hsel & _).
    destruct (MealCategorizer._resolve_category_conflicts _ _)
      as [resolution|]; [|discriminate].
    rewrite Hsel. eexists. split; [reflexivity|].
    cbn [MealCategorizer.confidence]. apply scientific_confidence_range.
Qed.

(** X19.  For a meal of two or more foods the categorizer always returns
    a result.  The category it recommends is never more than 0.15 of
    fitness behind any other category, whatever tie-breaking rule was
    applied, and its confidence lies between 0.1 and 1. *)
Theorem recommended_category_fits (first second : Food) (others : list Food) :
  exists result,
    MealCategorizer.determine_scientific_category (first :: second :: others)
    = Some result /\
    (forall c,
       (MealCategorizer.fitness_of
          (MealCategorizer._evaluate_category_fitness
             (MealCategorizer._analyze_meal_nutrition (first :: second :: others))) c
        - (15 # 100)
        < MealCategorizer.fitness_of
            (MealCategorizer._evaluate_category_fitness
               (MealCategorizer._analyze_meal_nutrition (first :: second :: others)))
            (MealCategorizer.recommended_category result))%Q) /\
    (1 # 10 <= MealCategorizer.confidence result <= 1)%Q.
Proof.
  unfold MealCategorizer.determine_scientific_category. cbv zeta.
  destruct (selection_near_top
              (first :: second :: others)
              (MealCategorizer._analyze_meal_nutrition (first :: second :: others)))
    as (recommended & s & Hsel & Hin & Hall).
  destruct (MealCategorizer._resolve_category_conflicts _ _)
    as [resolution|]; [|discriminate].
  rewrite Hsel. eexists. split; [reflexivity|].
  cbn [MealCategorizer.recommended_category MealCategorizer.confidence].
  split.
  - intros c. rewrite (fitness_of_In _ _ _ Hin).
    apply (Hall (c, _)). apply fitness_of_present.
  - apply scientific_confidence_range.
Qed.

(** ** The category of a meal *)

Lemma assign_missing_category (food : Food) :
  is_Some (FoodModel.category (fst (MealModel.assign_missing food))).
Proof.
  unfold MealModel.assign_missing.
  destruct (FoodModel.category food) eqn:E;
    [cbn [fst]; rewrite E; eexists; reflexivity|].
  destruct (FoodModel.food_group_id food) as [group|]; [|eexists; reflexivity].
  destruct (group =? 0); eexists; reflexivity.
Qed.

Lemma assign_missing_nothing (foods : list Food) :
  List.filter (fun food => match FoodModel.category food with
                           | None => true
                           | Some _ => false
                           end) foods = [] ->
  List.map (fun food => fst (MealModel.assign_missing food)) foods = foods.
Proof.
  induction foods as [|food foods IH]; cbn [List.filter List.map]; [reflexivity|].
  unfold MealModel.assign_missing at 1.
  destruct (FoodModel.category food); [|discriminate].
  intros H. rewrite (IH H). reflexivity.
Qed.

(** What [_determine_category] assigns: the categorizer is run on the
    foods after the missing categories were filled in, and it returns. *)
Lemma determine_category_result (m : Meal) :
  exists result,
    MealCategorizer.determine_scientific_category
      (List.map (fun food => fst (MealModel.assign_missing food)) (MealModel.foods m))
    = Some result /\
    (1 # 10 <= MealCategorizer.confidence result <= 1)%Q /\
    MealModel.category (MealModel._determine_category m)
    = Some (MealCategorizer.recommended_category result) /\
    MealModel.category_confidence (MealModel._determine_category m)
    = MealCategorizer.confidence result /\
    MealModel.category_analysis (MealModel._determine_category m)
    = MealModel.scientific_categorization result.
Proof.
  destruct (determine_succeeds
              (List.map (fun food => fst (MealModel.assign_missing food))
                        (MealModel.foods m))) as (result & Hr & Hc).
  { apply Forall_map. apply List.Forall_forall. intros food _.
    apply assign_missing_category. }
  exists result. split; [exact Hr|]. split; [exact Hc|].
  unfold MealModel._determine_category. cbv zeta.
  destruct (List.filter _ (MealModel.foods m)) as [|missing others] eqn:Ef.
  - rewrite (assign_missing_nothing _ Ef) in Hr. rewrite Hr.
    repeat split; reflexivity.
  - unfold MealModel._assign_missing_food_categories.
    cbn [MealModel.foods MealModel.add_warnings MealModel.set_foods].
    rewrite List.map_map. rewrite Hr. repeat split; reflexivity.
Qed.

Lemma validate_provided_result (assigned : Category) (m : Meal) :
  MealModel.category (MealModel._validate_provided_category assigned m)
  = Some assigned /\
  (1 # 10 <= MealModel.category_confidence
               (MealModel._validate_provided_category assigned m) <= 1)%Q /\
  MealModel.category_confidence (MealModel._validate_provided_category assigned m)
  = match MealCategorizer.determine_scientific_category (MealModel.foods m) with
    | Some result => MealCategorizer.confidence result
    | None => 5 # 10
    end.
Proof.
  unfold MealModel._validate_provided_category.
  destruct (MealCategorizer.determine_scientific_category (MealModel.foods m))
    as [result|] eqn:Er; [|cbn; repeat split; try reflexivity; lra].
  assert (Hc : (1 # 10 <= MealCategorizer.confidence result <= 1)%Q).
  { revert Er. unfold MealCategorizer.determine_scientific_category.
    destruct (MealModel.foods m) as [|first [|second others]].
    - intros H. injection H as <-. cbn. lra.
    - unfold MealCategorizer._analyze_single_food.
      destruct (FoodModel.category first); [|discriminate].
      intros H. injection H as <-. cbn. lra.
    - cbv zeta.
      destruct (MealCategorizer._resolve_category_conflicts _ _); [|discriminate].
      destruct (MealCategorizer._select_scientifically_optimal_category _ _);
        [|discriminate].
      intros H. injection H as <-. cbn [MealCategorizer.confidence].
      apply scientific_confidence_range. }
  cbv zeta. destruct (Qltb _ _); cbn; repeat split; try reflexivity; lra.
Qed.

Lemma new_category_fields (first : Food) (others : list Food) (c : option Category) :
  MealModel.category (MealModel.new (first :: others) c)
  = MealModel.category
      match c with
      | Some assigned =>
          MealModel._validate_provided_category
            assigned
            (MealModel._validate_foods
               {| MealModel.foods := first :: others; MealModel.category := c;
                  MealModel.category_analysis := MealModel.no_analysis;
                  MealModel.category_confidence := 0;
                  MealModel.category_warnings := [];
                  MealModel.nutritional_context := None;
                  MealModel.total_weight := None; MealModel.values := None |})
      | None =>
          MealModel._determine_category
            (MealModel._validate_foods
               {| MealModel.foods := first :: others; MealModel.category := c;
                  MealModel.category_analysis := MealModel.no_analysis;
                  MealModel.category_confidence := 0;
                  MealModel.category_warnings := [];
                  MealModel.nutritional_context := None;
                  MealModel.total_weight := None; MealModel.values := None |})
      end /\
  MealModel.category_confidence (MealModel.new (first :: others) c)
  = MealModel.category_confidence
      match c with
      | Some assigned =>
          MealModel._validate_provided_category
            assigned
            (MealModel._validate_foods
               {| MealModel.foods := first :: others; MealModel.category := c;
                  MealModel.category_analysis := MealModel.no_analysis;
                  MealModel.category_confidence := 0;
                  MealModel.category_warnings := [];
                  MealModel.nutritional_context := None;
                  MealModel.total_weight := None; MealModel.values := None |})
      | None =>
          MealModel._determine_category
            (MealModel._validate_foods
               {| MealModel.foods := first :: others; MealModel.category := c;
                  MealModel.category_analysis := MealModel.no_analysis;
                  MealModel.category_confidence := 0;
                  MealModel.category_warnings := [];
                  MealModel.nutritional_context := None;
                  MealModel.total_weight := None; MealModel.values := None |})
      end.
Proof.
  unfold MealModel.new. rewrite post_init_steps by discriminate.
  match goal with
  | |- context [MealModel._validate_final_categorization ?x] =>
      pose proof (validate_final_fields x) as H; cbv zeta in H;
      destruct H as (_ & -> & _ & -> & _)
  end.
  match goal with
  | |- context [MealModel._calculate_nutritional_values ?x] =>
      pose proof (calculate_values_fields x) as H; cbv zeta in H;
      destruct H as (_ & -> & _ & -> & _)
  end.
  destruct c; split; reflexivity.
Qed.

(** X20.  The category of a meal with foods.  A category given to the
    constructor is kept, with a confidence between 0.1 and 1.  Without
    one, the meal gets the category that the categorizer recommends for
    the foods after their missing categories were filled in; the
    categorizer always returns then, so the error fallback is never taken
    and the confidence is between 0.1 and 1 again.  A meal of one food
    takes the category of that food with confidence 1.  For an empty list
    of foods a given category is replaced by FOOD. *)
Theorem meal_category_assignment
  (first : Food) (others : list Food) (assigned : Category) :
  MealModel.category (MealModel.new (first :: others) (Some assigned))
  = Some assigned /\
  (1 # 10 <= MealModel.category_confidence
               (MealModel.new (first :: others) (Some assigned)) <= 1)%Q /\
  (exists result,
     MealCategorizer.determine_scientific_category
       (List.map (fun food => fst (MealModel.assign_missing food)) (first :: others))
     = Some result /\
     MealModel.category (MealModel.new (first :: others) None)
     = Some (MealCategorizer.recommended_category result) /\
     MealModel.category_confidence (MealModel.new (first :: others) None)
     = MealCategorizer.confidence result /\
     MealModel.category_analysis (MealModel.new (first :: others) None)
     <> MealModel.error_fallback /\
     (1 # 10 <= MealCategorizer.confidence result <= 1)%Q) /\
  MealModel.category (MealModel.new [first] None)
  = FoodModel.category (fst (MealModel.assign_missing first)) /\
  MealModel.category_confidence (MealModel.new [first] None) = 1%Q /\
  MealModel.category (MealModel.new [] (Some assigned)) = Some FOOD.
Proof.
  split; [|split; [|split; [|split; [|split]]]].
  - destruct (new_category_fields first others (Some assigned)) as [-> _].
    apply validate_provided_result.
  - destruct (new_category_fields first others (Some assigned)) as [_ ->].
    apply validate_provided_result.
  - destruct (new_category_fields first others None) as [-> ->].
    match goal with
    | |- context [MealModel._determine_category ?x] =>
        destruct (determine_category_result x) as (result & Hr & Hc & H1 & H2 & H3)
    end.
    cbn [MealModel.foods MealModel._validate_foods MealModel.add_warnings] in Hr.
    exists result. split; [exact Hr|]. split; [exact H1|]. split; [exact H2|].
    split; [|exact Hc].
    unfold MealModel.new. rewrite post_init_steps by discriminate.
    match goal with
    | |- context [MealModel._validate_final_categorization ?x] =>
        pose proof (validate_final_fields x) as H; cbv zeta in H;
        destruct H as (_ & _ & -> & _)
    end.
    match goal with
    | |- context [MealModel._calculate_nutritional_values ?x] =>
        pose proof (calculate_values_fields x) as H; cbv zeta in H;
        destruct H as (_ & _ & -> & _)
    end.
    cbn [MealModel.category MealModel._validate_foods MealModel.add_warnings].
    rewrite H3. discriminate.
  - destruct (new_category_fields first [] None) as [-> _].
    match goal with
    | |- context [MealModel._determine_category ?x] =>
        destruct (determine_category_result x) as (result & Hr & _ & -> & _)
    end.
    cbn [MealModel.foods MealModel._validate_foods MealModel.add_warnings
         List.map MealCategorizer.determine_scientific_category] in Hr.
    unfold MealCategorizer._analyze_single_food in Hr.
    destruct (FoodModel.category (fst (MealModel.assign_missing first)));
      [|discriminate].
    injection Hr as <-. reflexivity.
  - destruct (new_category_fields first [] None) as [_ ->].
    match goal with
    | |- context [MealModel._determine_category ?x] =>
        destruct (determine_category_result x) as (result & Hr & _ & _ & -> & _)
    end.
    cbn [MealModel.foods MealModel._validate_foods MealModel.add_warnings
         List.map MealCategorizer.determine_scientific_category] in Hr.
    unfold MealCategorizer._analyze_single_food in Hr.
    destruct (FoodModel.category (fst (MealModel.assign_missing first)));
      [|discriminate].
    injection Hr as <-. reflexivity.
  - reflexivity.
Qed.

(** ** The view *)

Lemma check_serving_sizes_spec (i : nat) (serving_sizes : list Q) :
  match Views.check_serving_sizes i serving_sizes with
  | None => Forall (fun s => (0 < s <= 2000)%Q) serving_sizes
  | Some e =>
      exists k s,
        serving_sizes !! k = Some s /\
        Forall (fun s => (0 < s <= 2000)%Q) (take k serving_sizes) /\
        ((s <= 0)%Q /\ e = Views.not_positive (i + k + 1)
         \/ (2000 < s)%Q /\ e = Views.too_large (i + k + 1))
  end.
Proof.
  revert i. induction serving_sizes as [|s rest IH]; intros i;
    cbn [Views.check_serving_sizes]; [constructor|].
  destruct (Qle_bool s 0) eqn:E0.
  { apply Qle_bool_iff in E0. exists 0%nat, s.
    split; [reflexivity|]. split; [constructor|].
    left. split; [exact E0|]. f_equal. lia. }
  destruct (Qltb 2000 s) eqn:E1.
  { apply Qltb_lt in E1. exists 0%nat, s.
    split; [reflexivity|]. split; [constructor|].
    right. split; [exact E1|]. f_equal. lia. }
  assert (Hs : (0 < s <= 2000)%Q).
  { apply Qltb_ge in E1. split; [|exact E1].
    apply Qnot_le_lt. intros H. apply Qle_bool_iff in H. congruence. }
  specialize (IH (S i)).
  destruct (Views.check_serving_sizes (S i) rest) as [e|].
  - destruct IH as (k & s' & Hk & Hall & He).
    exists (S k), s'. split; [exact Hk|].
    split; [cbn [take]; constructor; assumption|].
    replace (i + S k + 1)%nat with (S i + k + 1)%nat by lia. exact He.
  - constructor; assumption.
Qed.

(** X21.  The input check of the view accepts exactly the requests with
    between 1 and 20 food ids, as many serving sizes, and every serving
    size above 0 and at most 2000.  When a serving size is reported, it is
    the first one out of that range, named by its position counted from
    1, and a size that is not positive is reported as such even when a
    later one is too large. *)
Theorem view_input_validation (food_ids : list Z) (serving_sizes : list Q) :
  (Views._validate_hsr_input food_ids serving_sizes = None
   <-> (1 <= length food_ids <= 20)%nat
       /\ length serving_sizes = length food_ids
       /\ Forall (fun s => (0 < s <= 2000)%Q) serving_sizes) /\
  (forall position,
     Views._validate_hsr_input food_ids serving_sizes
     = Some (Views.not_positive position)
     \/ Views._validate_hsr_input food_ids serving_sizes
        = Some (Views.too_large position) ->
     exists k s,
       position = (k + 1)%nat /\ serving_sizes !! k = Some s /\
       Forall (fun s => (0 < s <= 2000)%Q) (take k serving_sizes) /\
       (if Qle_bool s 0
        then Views._validate_hsr_input food_ids serving_sizes
             = Some (Views.not_positive position)
        else (2000 < s)%Q
             /\ Views._validate_hsr_input food_ids serving_sizes
                = Some (Views.too_large position))).
Proof.
  unfold Views._validate_hsr_input.
  destruct food_ids as [|food_id food_ids].
  { split; [split; [discriminate|cbn [length]; lia]|].
    intros position [H|H]; discriminate. }
  destruct serving_sizes as [|serving_size serving_sizes].
  { split; [split; [discriminate|cbn [length]; lia]|].
    intros position [H|H]; discriminate. }
  set (ids := food_id :: food_ids). set (sizes := serving_size :: serving_sizes).
  assert (Hids : (1 <= length ids)%nat) by (unfold ids; cbn [length]; lia).
  pose proof (check_serving_sizes_spec 0 sizes) as Hcheck.
  destruct (Nat.eqb_spec (length ids) (length sizes)) as [Hlen|Hlen]; cbn [negb].
  2:{ split; [split; [discriminate|lia]|].
      intros position [H|H]; discriminate. }
  destruct (Nat.ltb_spec 20 (length ids)) as [Hmany|Hfew].
  { split; [split; [discriminate|lia]|].
    intros position [H|H]; discriminate. }
  destruct (Views.check_serving_sizes 0 sizes) as [e|].
  - destruct Hcheck as (k & s & Hk & Hall & He).
    split.
    + split; [discriminate|]. intros (_ & _ & Hok).
      rewrite Forall_lookup in Hok. specialize (Hok k s Hk). cbv beta in Hok.
      destruct He as [[He _]|[He _]]; lra.
    + intros position Hp. exists k, s.
      destruct He as [[Hs ->]|[Hs ->]];
        (destruct Hp as [Hp|Hp]; [|try discriminate]);
        try discriminate; injection Hp as <-;
        (split; [reflexivity|]); (split; [exact Hk|]); (split; [exact Hall|]).
      * apply Qle_bool_iff in Hs. rewrite Hs. reflexivity.
      * destruct (Qle_bool s 0) eqn:E; [apply Qle_bool_iff in E; lra|].
        split; [exact Hs|reflexivity].
  - split; [|intros position [H|H]; discriminate].
    split; [intros _; repeat split; [lia|lia|lia|exact Hcheck]|reflexivity].
Qed.

Lemma determine_raises (foods : list Food) :
  MealCategorizer.determine_scientific_category foods = None
  <-> exists food, foods = [food] /\ FoodModel.category food = None.
Proof.
  unfold MealCategorizer.determine_scientific_category.
  destruct foods as [|first [|second others]].
  - split; [discriminate|]. intros (food & H & _). discriminate.
  - unfold MealCategorizer._analyze_single_food.
    destruct (FoodModel.category first) eqn:E.
    + split; [discriminate|]. intros (food & H & Hc). congruence.
    + split; [|reflexivity]. intros _. exists first. auto.
  - cbv zeta.
    destruct (selection_near_top
                (first :: second :: others)
                (MealCategorizer._analyze_meal_nutrition (first :: second :: others)))
      as (recommended & s & Hsel & _).
    destruct (MealCategorizer._resolve_category_conflicts _ _); [|discriminate].
    rewrite Hsel. split; [discriminate|]. intros (food & H & _). discriminate.
Qed.

(** X22.  The computation of the view on the loaded foods, up to the
    result of the calculator.  It fails only on an empty list of foods
    and on a single food without a category.  Otherwise the result is
    computed for the category that the categorizer recommends for the
    foods as loaded, which is the category of the meal and of the result;
    when every food has a category, the meal is the constructed meal
    itself, the assignment of the category changing nothing. *)
Theorem view_computation (foods : list Food) (analysis_level : string) :
  (Views.calculate_hsr foods analysis_level = None
   <-> foods = [] \/ exists food, foods = [food] /\ FoodModel.category food = None) /\
  (forall categorization meal result,
     Views.calculate_hsr foods analysis_level = Some (categorization, meal, result) ->
     MealCategorizer.determine_scientific_category foods = Some categorization /\
     MealModel.category meal
     = Some (MealCategorizer.recommended_category categorization) /\
     result_category result
     = Some (MealCategorizer.recommended_category categorization) /\
     (Forall (fun food => is_Some (FoodModel.category food)) foods ->
      meal = MealModel.new foods None)).
Proof.
  unfold Views.calculate_hsr.
  pose proof (determine_raises foods) as Hraise.
  destruct (MealCategorizer.determine_scientific_category foods)
    as [categorization|] eqn:Ed.
  2:{ split; [|discriminate]. split; [|reflexivity].
      intros _. right. apply Hraise. reflexivity. }
  cbv zeta.
  set (m := Views.set_meal_category _ (MealModel.new foods None)).
  set (cfg := Some _).
  destruct foods as [|first others].
  { split; [split; [intros _; left; reflexivity|reflexivity]|discriminate]. }
  destruct (new_nonempty_attributes (first :: others) None ltac:(discriminate))
    as [Hv Hw].
  destruct (init_succeeds m cfg Hv Hw) as [self Hs].
  destruct (init_well_formed _ _ _ Hs) as [Hwf Hm].
  destruct (succeeds_calculate_hsr self Hwf) as [result Hr].
  rewrite Hs, Hr.
  split.
  - split; [discriminate|]. intros [H|(food & H & Hc)]; [discriminate|].
    destruct Hraise as [_ Hraise]. discriminate Hraise. eauto.
  - intros categorization' meal result' H. injection H as <- <- <-.
    apply calculate_hsr_parts in Hr as (_ & _ & _ & _ & Hcat & _).
    rewrite Hm in Hcat.
    split; [reflexivity|]. split; [reflexivity|]. split; [exact Hcat|].
    intros Hall. subst m.
    destruct (new_category_fields first others None) as [Hc _].
    match type of Hc with
    | context [MealModel._determine_category ?x] =>
        destruct (determine_category_result x) as (r & Hdet & _ & Hc' & _)
    end.
    cbn [MealModel.foods MealModel._validate_foods MealModel.add_warnings] in Hdet.
    rewrite assign_missing_nothing in Hdet.
    + rewrite Ed in Hdet. injection Hdet as <-.
      rewrite Hc' in Hc.
      destruct (MealModel.new (first :: others) None).
      cbn [MealModel.category] in Hc. rewrite Hc. reflexivity.
    + clear - Hall. induction Hall as [|food l [c Hf] _ IH];
        cbn [List.filter]; [reflexivity|]. rewrite Hf. exact IH.
Qed.

(** ** Insights into the categorization *)

(** The keys read by the insights are keys of no nutritional context. *)
Lemma context_without_insight_keys (m : Meal) :
  MealModel.context_get m "is_high_protein" = None /\
  MealModel.context_get m "is_high_fat" = None /\
  MealModel.context_get m "is_liquid_dominant" = None /\
  MealModel.context_get m "complexity_score" = None.
Proof.
  unfold MealModel.context_get.
  destruct (MealModel.nutritional_context m) as [[nutrition|name category size]|];
    repeat split; reflexivity.
Qed.

Lemma new_category_analysis (first : Food) (others : list Food) (c : option Category) :
  MealModel.analysis_reason
    (MealModel.category_analysis (MealModel.new (first :: others) c))
  = match c with
    | None => Some "scientific_categorization"%string
    | Some _ =>
        match MealCategorizer.determine_scientific_category (first :: others) with
        | Some _ => Some "user_provided"%string
        | None => None
        end
    end.
Proof.
  unfold MealModel.new. rewrite post_init_steps by discriminate.
  match goal with
  | |- context [MealModel._validate_final_categorization ?x] =>
      pose proof (validate_final_fields x) as H; cbv zeta in H;
      destruct H as (_ & _ & -> & _)
  end.
  match goal with
  | |- context [MealModel._calculate_nutritional_values ?x] =>
      pose proof (calculate_values_fields x) as H; cbv zeta in H;
      destruct H as (_ & _ & -> & _)
  end.
  cbn [MealModel.category MealModel._validate_foods MealModel.add_warnings].
  destruct c as [assigned|].
  - unfold MealModel._validate_provided_category.
    cbn [MealModel.foods MealModel._validate_foods MealModel.add_warnings].
    destruct (MealCategorizer.determine_scientific_category (first :: others));
      [|reflexivity].
    cbv zeta. destruct (Qltb _ _); reflexivity.
  - match goal with
    | |- context [MealModel._determine_category ?x] =>
        destruct (determine_category_result x) as (r & _ & _ & _ & _ & ->)
    end.
    reflexivity.
Qed.

(** X23.  The insights into the categorization of a constructed meal.
    They are always returned, and several of their entries are constant:
    no primary factor is ever identified, no alternative category is ever
    suggested, no complexity score is found and the complexity level is
    always low, because the keys and the method these entries rely on do
    not exist.  The method reported is empty_meal for an empty meal,
    scientific_categorization when no category was given, and
    user_provided when one was given, or unknown when the categorizer
    failed on it.  The recommendations are, in this order, the review of
    the categorizations below a confidence of 0.6, the verification of the
    input with more than three warnings, and the review of a category
    with an inconsistent nutritional profile. *)
Theorem categorization_insights_of_a_meal (fs : list Food) (c : option Category) :
  exists insights,
    MealModel.get_categorization_insights (MealModel.new fs c) = Some insights /\
    MealModel.primary_factors insights = [] /\
    MealModel.potential_alternatives insights = [] /\
    MealModel.complexity_score (MealModel.complexity_assessment insights) = None /\
    MealModel.complexity_level (MealModel.complexity_assessment insights)
    = "low"%string /\
    MealModel.categorization_method insights
    = match fs, c with
      | [], _ => "empty_meal"
      | _ :: _, None => "scientific_categorization"
      | _ :: _, Some _ =>
          match MealCategorizer.determine_scientific_category fs with
          | Some _ => "user_provided"
          | None => "unknown"
          end
      end%string /\
    MealModel.insights_recommendations insights
    = (if Qltb (MealModel.category_confidence (MealModel.new fs c)) (6 # 10)
       then ["Consider reviewing food categorizations for accuracy"%string]
       else [])
      ++ (if (3 <? length (MealModel.category_warnings (MealModel.new fs c)))%nat
          then ["Multiple validation warnings - verify input data"%string]
          else [])
      ++ (if String.eqb (MealModel._assess_nutritional_consistency
                           (MealModel.new fs c)) "inconsistent"
          then ["Nutritional profile doesn't align with category - review categorization"%string]
          else []).
Proof.
  set (m := MealModel.new fs c).
  destruct (context_without_insight_keys m) as (H1 & H2 & H3 & H4).
  unfold MealModel.get_categorization_insights, MealModel._assess_complexity,
    MealModel._generate_categorization_recommendations,
    MealModel.context_exceeds.
  rewrite H4. cbv zeta.
  change (Qltb (8 # 10) 0) with false. change (Qltb (5 # 10) 0) with false.
  eexists. split; [reflexivity|].
  cbn [MealModel.primary_factors MealModel.potential_alternatives
       MealModel.complexity_assessment MealModel.complexity_score
       MealModel.complexity_level MealModel.categorization_method
       MealModel.insights_recommendations].
  split; [|split; [|split; [|split; [|split]]]].
  - unfold MealModel._identify_primary_factors. rewrite H1, H2, H3.
    cbn [MealModel.truthy].
    destruct (MealModel.category_analysis m); reflexivity.
  - unfold MealModel._suggest_alternative_categories.
    destruct (Qltb _ _); reflexivity.
  - reflexivity.
  - reflexivity.
  - subst m. destruct fs as [|first others]; [reflexivity|].
    rewrite new_category_analysis.
    destruct c; [|reflexivity].
    destruct (MealCategorizer.determine_scientific_category _); reflexivity.
  - destruct (Qltb _ _); destruct (_ <? _)%nat; destruct (String.eqb _ _);
      reflexivity.
Qed.

(** ** The category summary of a meal *)

Lemma tally_food_keys
  (cat : string) (food : Food) (d : list (string * MealModel.CategoryTally)) :
  List.map fst (MealModel.tally_food cat food d)
  = if existsb (fun k => String.eqb k cat) (List.map fst d)
    then List.map fst d else List.map fst d ++ [cat].
Proof.
  induction d as [|[k t] d IH]; cbn [MealModel.tally_food List.map existsb fst];
    [reflexivity|].
  destruct (String.eqb k cat) eqn:E; cbn [orb List.map fst]; [reflexivity|].
  rewrite IH. destruct (existsb _ _); reflexivity.
Qed.

Lemma tally_food_sums
  (cat : string) (food : Food) (d : list (string * MealModel.CategoryTally)) :
  fold_right Z.add 0
    (List.map (fun e => MealModel.tally_count (snd e)) (MealModel.tally_food cat food d))
  = fold_right Z.add 0 (List.map (fun e => MealModel.tally_count (snd e)) d) + 1 /\
  (Qsum (List.map (fun e => MealModel.tally_weight (snd e))
                  (MealModel.tally_food cat food d))
   == Qsum (List.map (fun e => MealModel.tally_weight (snd e)) d)
      + FoodModel.serving_size food)%Q /\
  (Forall (fun e => MealModel.tally_count (snd e)
                    = Z.of_nat (length (MealModel.tally_foods (snd e)))) d ->
   Forall (fun e => MealModel.tally_count (snd e)
                    = Z.of_nat (length (MealModel.tally_foods (snd e))))
          (MealModel.tally_food cat food d)).
Proof.
  induction d as [|[k t] d (IH1 & IH2 & IH3)];
    cbn [MealModel.tally_food List.map fold_right snd].
  - split; [reflexivity|]. split; [rewrite !Qsum_cons; unfold Qsum; cbn; ring|].
    intros _. constructor; [|constructor]. reflexivity.
  - destruct (String.eqb k cat); cbn [List.map fold_right snd
                                      MealModel.tally_count MealModel.tally_weight].
    + split; [lia|]. split; [rewrite !Qsum_cons; ring|].
      intros H. apply List.Forall_cons_iff in H as [Ht Hd].
      constructor; [|exact Hd].
      cbn [snd MealModel.tally_count MealModel.tally_foods] in *.
      rewrite length_app. cbn [length]. lia.
    + split; [lia|]. split; [rewrite !Qsum_cons, IH2; ring|].
      intros H. apply List.Forall_cons_iff in H as [Ht Hd].
      constructor; [exact Ht|apply IH3, Hd].
Qed.

Lemma existsb_eqb_In (cat : string) (keys : list string) :
  existsb (fun k => String.eqb k cat) keys = true <-> In cat keys.
Proof.
  rewrite List.existsb_exists. split.
  - intros (k & Hk & E). apply String.eqb_eq in E. subst k. exact Hk.
  - intros H. exists cat. split; [exact H|apply String.eqb_refl].
Qed.

(** The tally after the first loop, in terms of the foods. *)
Lemma tally_foods_spec (fs : list Food) (d : list (string * MealModel.CategoryTally)) :
  let d' := fold_left (fun d food =>
                         MealModel.tally_food (MealModel.food_category_key food) food d)
                      fs d in
  (List.NoDup (List.map fst d) -> List.NoDup (List.map fst d')) /\
  (forall k, In k (List.map fst d')
             <-> In k (List.map fst d)
                 \/ In k (List.map MealModel.food_category_key fs)) /\
  fold_right Z.add 0 (List.map (fun e => MealModel.tally_count (snd e)) d')
  = fold_right Z.add 0 (List.map (fun e => MealModel.tally_count (snd e)) d)
    + Z.of_nat (length fs) /\
  (Qsum (List.map (fun e => MealModel.tally_weight (snd e)) d')
   == Qsum (List.map (fun e => MealModel.tally_weight (snd e)) d)
      + Qsum (List.map FoodModel.serving_size fs))%Q /\
  (Forall (fun e => MealModel.tally_count (snd e)
                    = Z.of_nat (length (MealModel.tally_foods (snd e)))) d ->
   Forall (fun e => MealModel.tally_count (snd e)
                    = Z.of_nat (length (MealModel.tally_foods (snd e)))) d').
Proof.
  cbv zeta. revert d. induction fs as [|food fs IH]; intros d; cbn [fold_left].
  - split; [tauto|]. split; [cbn; tauto|]. split; [cbn [length]; lia|].
    split; [unfold Qsum at 3; cbn; ring|tauto].
  - destruct (IH (MealModel.tally_food (MealModel.food_category_key food) food d))
      as (H1 & H2 & H3 & H4 & H5).
    destruct (tally_food_sums (MealModel.food_category_key food) food d)
      as (S1 & S2 & S3).
    pose proof (tally_food_keys (MealModel.food_category_key food) food d) as Hk.
    split; [|split; [|split; [|split]]].
    + intros Hnd. apply H1. rewrite Hk.
      destruct (existsb _ _) eqn:E; [exact Hnd|].
      apply List.NoDup_app; [exact Hnd|constructor; [intros []|constructor]|].
      intros k Hkd [<-|[]]. apply existsb_eqb_In in Hkd. congruence.
    + intros k. rewrite H2, Hk. cbn [List.map In].
      destruct (existsb _ _) eqn:E.
      * apply existsb_eqb_In in E. intuition congruence.
      * rewrite List.in_app_iff. cbn [In]. intuition congruence.
    + rewrite H3, S1. cbn [length]. lia.
    + rewrite H4, S2. cbn [List.map]. rewrite Qsum_cons. ring.
    + intros H. apply H5, S3, H.
Qed.

Lemma two_keys (keys : list string) :
  List.NoDup keys ->
  ((1 < length keys)%nat
   <-> exists k1 k2, In k1 keys /\ In k2 keys /\ k1 <> k2).
Proof.
  intros Hnd. split.
  - destruct keys as [|k1 [|k2 keys]]; cbn [length]; try lia. intros _.
    exists k1, k2. split; [left; reflexivity|].
    split; [right; left; reflexivity|].
    apply List.NoDup_cons_iff in Hnd as [Hn _]. intros ->. apply Hn.
    left. reflexivity.
  - intros (k1 & k2 & H1 & H2 & Hne).
    destruct keys as [|a [|b keys]]; cbn [length]; try lia.
    + destruct H1.
    + destruct H1 as [<-|[]]. destruct H2 as [<-|[]]. congruence.
Qed.

Lemma summary_categories_map
  (w : Q) (f : MealModel.CategoryData -> Z) (g : MealModel.CategoryTally -> Z)
  (d : list (string * MealModel.CategoryTally)) :
  (forall t, f (MealModel.category_data w t) = g t) ->
  List.map (fun e => f (snd e))
           (List.map (fun '(cat, t) => (cat, MealModel.category_data w t)) d)
  = List.map (fun e => g (snd e)) d.
Proof.
  intros H. rewrite List.map_map. apply List.map_ext.
  intros [cat t]. cbn [snd]. apply H.
Qed.


(** ** Warnings and the nutritional consistency *)

Lemma concat_imap_Forall {A B : Type} (P : B -> Prop) (f : nat -> A -> list B)
      (l : list A) :
  (forall i x, Forall P (f i x)) -> Forall P (List.concat (imap f l)).
Proof.
  revert f. induction l as [|x l IH]; intros f Hf; cbn [imap List.concat].
  - constructor.
  - apply Forall_app. split; [apply Hf|]. apply IH. intros i y. apply Hf.
Qed.

Lemma validate_foods_usual (m : Meal) :
  Forall (fun w => unusual_profile w = false) (MealModel.category_warnings m) ->
  Forall (fun w => unusual_profile w = false)
         (MealModel.category_warnings (MealModel._validate_foods m)).
Proof.
  intros H. unfold MealModel._validate_foods. cbn [MealModel.category_warnings
                                                    MealModel.add_warnings].
  apply Forall_app. split; [exact H|]. apply concat_imap_Forall.
  intros i food. unfold MealModel.food_issues.
  destruct (Qle_bool _ 0); destruct (decide _); destruct (FoodModel.category food);
    repeat constructor.
Qed.

Lemma determine_category_usual (m : Meal) :
  Forall (fun w => unusual_profile w = false) (MealModel.category_warnings m) ->
  Forall (fun w => unusual_profile w = false)
         (MealModel.category_warnings (MealModel._determine_category m)).
Proof.
  intros H. unfold MealModel._determine_category. cbv zeta.
  set (m1 := match List.filter _ (MealModel.foods m) with
             | [] => m
             | _ :: _ => _
             end).
  assert (H1 : Forall (fun w => unusual_profile w = false)
                      (MealModel.category_warnings m1)).
  { subst m1. destruct (List.filter _ (MealModel.foods m)); [exact H|].
    unfold MealModel._assign_missing_food_categories.
    cbn [MealModel.category_warnings MealModel.add_warnings MealModel.set_foods
         MealModel.foods].
    apply Forall_app. split.
    - apply Forall_app. split; [exact H|repeat constructor].
    - induction (MealModel.foods m) as [|food fs IH]; cbn [List.map List.concat];
        [constructor|].
      apply Forall_app. split; [|exact IH].
      unfold MealModel.assign_missing.
      destruct (FoodModel.category food); [constructor|].
      destruct (FoodModel.food_group_id food) as [group|];
        [destruct (group =? 0)|]; repeat constructor. }
  destruct (MealCategorizer.determine_scientific_category _);
    cbn [MealModel.category_warnings MealModel.set_categorization
         MealModel.add_warnings]; [exact H1|].
  apply Forall_app. split; [exact H1|repeat constructor].
Qed.

Lemma validate_provided_usual (assigned : Category) (m : Meal) :
  Forall (fun w => unusual_profile w = false) (MealModel.category_warnings m) ->
  Forall (fun w => unusual_profile w = false)
         (MealModel.category_warnings
            (MealModel._validate_provided_category assigned m)).
Proof.
  intros H. unfold MealModel._validate_provided_category.
  destruct (MealCategorizer.determine_scientific_category _) as [result|].
  - cbv zeta. destruct (Qltb _ _); destruct (Category_eqb _ _);
      cbn [MealModel.category_warnings MealModel.set_categorization
           MealModel.add_warnings];
      repeat (apply Forall_app; split); try exact H; repeat constructor.
  - cbn [MealModel.category_warnings MealModel.set_categorization
         MealModel.add_warnings].
    apply Forall_app. split; [exact H|repeat constructor].
Qed.

Lemma calculate_values_usual (m : Meal) :
  Forall (fun w => unusual_profile w = false) (MealModel.category_warnings m) ->
  Forall (fun w => unusual_profile w = false)
         (MealModel.category_warnings (MealModel._calculate_nutritional_values m)).
Proof.
  intros H. unfold MealModel._calculate_nutritional_values. cbv zeta.
  destruct (Qeq_bool _ 0).
  - cbn. apply Forall_app. split; [exact H|repeat constructor].
  - unfold MealModel._validate_nutritional_values. cbv zeta.
    cbn [MealModel.category_warnings MealModel.add_warnings MealModel.set_values
         MealModel.set_total_weight].
    apply Forall_app. split; [exact H|].
    apply Forall_app. split.
    + repeat (apply Forall_app; split);
        match goal with
        | |- Forall _ (if ?b then _ else _) => destruct b; repeat constructor
        end.
    + apply List.Forall_forall. intros w Hw. apply List.in_map_iff in Hw.
      destruct Hw as ([name value] & <- & _). reflexivity.
Qed.

(** X25.  The nutritional consistency reported for a meal with foods
    agrees with the warnings of its construction: it is never unknown,
    and it is inconsistent exactly when the construction warned that the
    profile is unusual for a beverage, for cheese or for oils and
    spreads.  For a meal without foods it is consistent. *)
Theorem consistency_matches_warnings
  (first : Food) (others : list Food) (c : option Category) :
  In (MealModel._assess_nutritional_consistency (MealModel.new (first :: others) c))
     ["consistent"; "inconsistent"]%string /\
  (MealModel._assess_nutritional_consistency (MealModel.new (first :: others) c)
   = "inconsistent"%string
   <-> existsb unusual_profile
         (MealModel.category_warnings (MealModel.new (first :: others) c)) = true) /\
  MealModel._assess_nutritional_consistency (MealModel.new [] c)
  = "consistent"%string.
Proof.
  split; [|split; [|reflexivity]].
  - destruct (new_values (first :: others) c ltac:(discriminate)) as [_ Hv].
    unfold MealModel._assess_nutritional_consistency. rewrite Hv.
    destruct (MealModel.category _) as [[]|];
      repeat match goal with
             | |- context [if ?b then _ else _] => destruct b
             end; cbn; auto.
  - unfold MealModel.new. rewrite post_init_steps by discriminate.
    match goal with
    | |- context [MealModel._validate_final_categorization ?x] => set (m1 := x)
    end.
    assert (Husual : Forall (fun w => unusual_profile w = false)
                            (MealModel.category_warnings m1)).
    { subst m1. apply calculate_values_usual.
      cbn [MealModel.category MealModel._validate_foods MealModel.add_warnings].
      destruct c as [assigned|];
        [apply validate_provided_usual|apply determine_category_usual];
        apply validate_foods_usual; constructor. }
    assert (Hpre : existsb unusual_profile (MealModel.category_warnings m1) = false).
    { clear - Husual. induction Husual as [|w l Hw _ IH]; [reflexivity|].
      cbn [existsb]. rewrite Hw, IH. reflexivity. }
    pose proof (validate_final_fields m1) as Hf. cbv zeta in Hf.
    destruct Hf as (_ & Hcat & _ & _ & _ & _ & Hval).
    unfold MealModel._assess_nutritional_consistency. rewrite Hcat, Hval.
    unfold MealModel._validate_final_categorization.
    destruct (MealModel.values m1) as [v|] eqn:Ev.
    2:{ exfalso. subst m1.
        match type of Ev with
        | MealModel.values (MealModel._calculate_nutritional_values ?x) = None =>
            pose proof (calculate_values_fields x) as Hc; cbv zeta in Hc;
            destruct Hc as (_ & _ & _ & _ & _ & _ & Hc)
        end.
        congruence. }
    destruct (MealModel.category m1) as [category|] eqn:Ec.
    2:{ rewrite Hpre. split; discriminate. }
    cbv zeta. cbn [MealModel.category_warnings MealModel.add_warnings].
    rewrite !List.existsb_app, Hpre. cbn [orb].
    destruct category;
      repeat match goal with
             | |- context [if ?b then _ else _] => destruct b
             end; cbn; split; congruence.
Qed.

(** ** Priority recommendations *)

Lemma filter_priority_In (p : string) (recommendations : list HealthInsight)
      (r : HealthInsight) :
  In r (List.filter (fun r => String.eqb (priority r) p) recommendations)
  <-> In r recommendations /\ priority r = p.
Proof. rewrite List.filter_In, String.eqb_eq. reflexivity. Qed.

(** X26.  The priority recommendations.  For a limit of [n] items they
    are the first [n] of the high-priority recommendations followed by the
    medium-priority ones, each in the order of the result: at most [n]
    items, no low-priority item, and no medium-priority item while a
    high-priority one is left out.  For a negative limit [-n] they are the
    high-priority recommendations without the last [n]. *)
Theorem priority_recommendations_prefix
  (recommendations : list HealthInsight) (n : nat) :
  get_priority_recommendations recommendations (Z.of_nat n)
  = take n (List.filter (fun r => String.eqb (priority r) "high") recommendations
            ++ List.filter (fun r => String.eqb (priority r) "medium")
                           recommendations) /\
  (length (get_priority_recommendations recommendations (Z.of_nat n)) <= n)%nat /\
  (forall r,
     In r (get_priority_recommendations recommendations (Z.of_nat n)) ->
     In r recommendations
     /\ (priority r = "high"%string \/ priority r = "medium"%string)) /\
  (forall r,
     In r (get_priority_recommendations recommendations (Z.of_nat n)) ->
     priority r = "medium"%string ->
     forall r', In r' recommendations -> priority r' = "high"%string ->
                In r' (get_priority_recommendations recommendations (Z.of_nat n))) /\
  get_priority_recommendations recommendations (- Z.of_nat (S n))
  = take (length (List.filter (fun r => String.eqb (priority r) "high")
                              recommendations) - S n)
         (List.filter (fun r => String.eqb (priority r) "high") recommendations).
Proof.
  set (high := List.filter (fun r => String.eqb (priority r) "high") recommendations).
  set (medium := List.filter (fun r => String.eqb (priority r) "medium")
                             recommendations).
  assert (E : get_priority_recommendations recommendations (Z.of_nat n)
              = take n (high ++ medium)).
  { unfold get_priority_recommendations, py_prefix. cbv zeta. fold high medium.
    destruct (Z.leb_spec 0 (Z.of_nat n)) as [_|]; [|lia].
    rewrite Nat2Z.id, length_take.
    destruct (Z.ltb_spec (Z.of_nat (n `min` length high)) (Z.of_nat n)) as [Hlt|Hge].
    - assert (Hlen : (length high < n)%nat) by lia.
      destruct (Z.leb_spec 0 (Z.of_nat n - Z.of_nat (n `min` length high)))
        as [_|]; [|lia].
      rewrite take_app_ge by lia. rewrite (take_ge high) by lia.
      f_equal. f_equal. lia.
    - rewrite take_app_le by lia. reflexivity. }
  split; [exact E|]. rewrite E.
  split; [rewrite length_take; lia|].
  split; [|split].
  - intros r Hr. apply list_elem_of_In, elem_of_take in Hr as (i & Hr & _).
    apply list_elem_of_lookup_2, list_elem_of_In, List.in_app_iff in Hr.
    destruct Hr as [Hr|Hr]; apply filter_priority_In in Hr; tauto.
  - intros r Hr Hmedium r' Hr' Hhigh.
    assert (Hin : In r' high) by (apply filter_priority_In; auto).
    destruct (Nat.le_gt_cases (length high) n) as [Hle|Hgt].
    + rewrite take_app_ge by exact Hle. apply List.in_app_iff. left. exact Hin.
    + exfalso. rewrite take_app_le in Hr by lia.
      apply list_elem_of_In, elem_of_take in Hr as (i & Hr & _).
      apply list_elem_of_lookup_2, list_elem_of_In, filter_priority_In in Hr.
      destruct Hr as [_ Hr]. congruence.
  - unfold get_priority_recommendations, py_prefix. cbv zeta. fold high medium.
    destruct (Z.leb_spec 0 (- Z.of_nat (S n))) as [|_]; [lia|].
    replace (Z.to_nat (- - Z.of_nat (S n))) with (S n) by lia.
    destruct (Z.ltb_spec (Z.of_nat (length (take (length high - S n) high)))
                         (- Z.of_nat (S n))) as [|_]; [lia|reflexivity].
Qed.

(** ** The mapping of [main.py] *)

(** X27.  The mapping of food groups that [main.py] uses agrees with the
    table of the mapper on every food group, and its branch for cheese is
    never reached.  The category the mapper assigns to a food differs
    from it only when the name of the food has one of the keywords. *)
Theorem main_mapping_agrees (food_group_id : Z) (food_name : string) :
  Main.map_food_group_to_category food_group_id
  = dict_get FoodGroupMapper.FOOD_GROUP_MAPPINGS food_group_id FOOD /\
  Main.map_food_group_to_category food_group_id <> CHEESE /\
  (FoodGroupMapper.get_category food_group_id food_name
   <> Main.map_food_group_to_category food_group_id ->
   existsb (FoodGroupMapper._contains_keyword (Text.lower food_name))
     [ FoodGroupMapper.CHEESE_KEYWORDS; FoodGroupMapper.DAIRY_BEVERAGE_KEYWORDS;
       FoodGroupMapper.BEVERAGE_KEYWORDS; FoodGroupMapper.OIL_SPREAD_KEYWORDS ]
   = true).
Proof.
  assert (E : Main.map_food_group_to_category food_group_id
              = dict_get FoodGroupMapper.FOOD_GROUP_MAPPINGS food_group_id FOOD).
  { unfold Main.map_food_group_to_category,
      FoodGroupMapper.FOOD_GROUP_MAPPINGS.
    cbn [dict_get existsb orb].
    repeat match goal with
           | |- context [?k =? ?n] => destruct (Z.eqb_spec k n); try lia
           end; reflexivity. }
  split; [exact E|]. split.
  - rewrite E. pose proof (base_category_groups food_group_id) as H.
    destruct (dict_get _ _ _); try discriminate. destruct H.
  - rewrite E. unfold FoodGroupMapper.get_category. cbv zeta. cbn [existsb].
    destruct (FoodGroupMapper._contains_keyword _ FoodGroupMapper.CHEESE_KEYWORDS);
      destruct (FoodGroupMapper._contains_keyword
                  _ FoodGroupMapper.DAIRY_BEVERAGE_KEYWORDS);
      destruct (FoodGroupMapper._contains_keyword
                  _ FoodGroupMapper.BEVERAGE_KEYWORDS);
      destruct (FoodGroupMapper._contains_keyword
                  _ FoodGroupMapper.OIL_SPREAD_KEYWORDS);
      cbn [orb]; try reflexivity.
    rewrite !andb_false_r. congruence.
Qed.

(** ** The fitness of a category *)

Lemma Qle_bool_false (a b : Q) : Qle_bool a b = false -> (b < a)%Q.
Proof.
  intros H. apply Qnot_le_lt. intros Hle. apply Qle_bool_iff in Hle. congruence.
Qed.

Lemma Qmax_sub_range (w d : Q) :
  (0 <= w)%Q -> (0 <= d)%Q -> (0 <= Qmax 0 (w - d) <= w)%Q.
Proof.
  intros Hw Hd. unfold Qmax. destruct (Qltb 0 (w - d)) eqn:E.
  - apply Qltb_lt in E. lra.
  - lra.
Qed.

Ltac Qbool :=
  repeat match goal with
         | H : (_ && _) = true |- _ => apply andb_true_iff in H as [? ?]
         | H : Qle_bool _ _ = true |- _ => apply Qle_bool_iff in H
         | H : Qle_bool _ _ = false |- _ => apply Qle_bool_false in H
         | H : Qltb _ _ = true |- _ => apply Qltb_lt in H
         | H : Qltb _ _ = false |- _ => apply Qltb_ge in H
         end.

Ltac Qdivc :=
  unfold Qdiv in *;
  change (/ 10)%Q with (1 # 10)%Q in *; change (/ 20)%Q with (1 # 20)%Q in *;
  change (/ 2)%Q with (1 # 2)%Q in *; change (/ 3)%Q with (1 # 3)%Q in *.

(** One range criterion of the fitness: full marks inside the range,
    fewer outside, never less than none. *)
Lemma range_score (lo hi v w below above : Q) :
  (0 <= w)%Q ->
  ((v < lo)%Q -> (0 <= below)%Q) ->
  ((hi < v)%Q -> (0 <= above)%Q) ->
  forall s,
    (s <= (if Qle_bool lo v && Qle_bool v hi then s + w
           else if Qltb v lo then s + Qmax 0 (w - below)
           else s + Qmax 0 (w - above))
     <= s + w)%Q.
Proof.
  intros Hw Hb Ha s.
  destruct (Qle_bool lo v) eqn:E1; destruct (Qle_bool v hi) eqn:E2;
    cbn [andb]; try lra;
    destruct (Qltb v lo) eqn:E3; Qbool;
    first [ pose proof (Qmax_sub_range w below Hw (Hb ltac:(lra))); lra
          | pose proof (Qmax_sub_range w above Hw (Ha ltac:(lra))); lra
          | lra ].
Qed.

Lemma fitness_score_range
  (category : Category) (profile : MealCategorizer.Profile)
  (nutrition : MealCategorizer.Nutrition) :
  (0 <= MealCategorizer.liquid_percentage nutrition)%Q ->
  (forall lmin, MealCategorizer.liquid_percentage_min profile = Some lmin ->
                (0 < lmin)%Q) ->
  (0 <= MealCategorizer.category_fitness_score category profile nutrition <= 1)%Q.
Proof.
  intros Hliq Hmin. unfold MealCategorizer.category_fitness_score.
  destruct (MealCategorizer.expected_energy_range profile) as [emin emax].
  destruct (MealCategorizer.expected_protein_range profile) as [pmin pmax].
  destruct (MealCategorizer.expected_fat_range profile) as [fmin fmax].
  cbv zeta.
  match goal with
  | |- context [if ?c then (0 + 20)%Q else ?r] =>
      set (s1 := if c then (0 + 20)%Q else r)
  end.
  assert (H1 : (0 <= s1 <= 0 + 20)%Q).
  { unfold s1. apply range_score; [lra|intros; Qdivc; lra|intros; Qdivc; lra]. }
  clearbody s1.
  match goal with
  | |- context [if ?c then (s1 + 15)%Q else ?r] =>
      set (s2 := if c then (s1 + 15)%Q else r)
  end.
  assert (H2 : (s1 <= s2 <= s1 + 15)%Q).
  { unfold s2. apply range_score; [lra|intros; Qdivc; lra|intros; Qdivc; lra]. }
  clearbody s2.
  match goal with
  | |- context [if ?c then (s2 + 15)%Q else ?r] =>
      set (s3 := if c then (s2 + 15)%Q else r)
  end.
  assert (H3 : (s2 <= s3 <= s2 + 15)%Q).
  { unfold s3. apply range_score; [lra|intros; Qdivc; lra|intros; Qdivc; lra]. }
  clearbody s3.
  match goal with
  | |- context [match MealCategorizer.liquid_percentage_min profile with
                | Some lmin => @?a lmin
                | None => ?b
                end] =>
      set (s4 := match MealCategorizer.liquid_percentage_min profile with
                 | Some lmin => a lmin
                 | None => b
                 end)
  end.
  assert (H4 : (s3 <= s4 <= s3 + 25)%Q).
  { unfold s4.
    destruct (MealCategorizer.liquid_percentage_min profile) as [lmin|] eqn:El.
    - specialize (Hmin lmin eq_refl).
      destruct (Qle_bool lmin _) eqn:E; [lra|]. Qbool.
      pose proof (Qdiv_unit_range
                    (MealCategorizer.liquid_percentage nutrition) lmin
                    ltac:(lra) ltac:(lra)) as Hd.
      set (x := (MealCategorizer.liquid_percentage nutrition / lmin)%Q) in *.
      clearbody x. lra.
    - destruct (MealCategorizer.liquid_percentage_max profile) as [lmax|]; [|lra].
      destruct (Qle_bool _ lmax) eqn:E; [lra|]. Qbool.
      match goal with
      | |- context [Qmax 0 (?w - ?d)] =>
          pose proof (Qmax_sub_range w d ltac:(lra) ltac:(lra))
      end. lra. }
  clearbody s4.
  match goal with
  | |- context [if ?c then (s4 + 15)%Q else ?r] =>
      set (s5 := if c then (s4 + 15)%Q else r)
  end.
  assert (H5 : (s4 <= s5 <= s4 + 15)%Q).
  { unfold s5.
    repeat match goal with
           | |- context [if ?b then _ else _] => destruct b
           end; lra. }
  clearbody s5.
  match goal with
  | |- context [if ?bonus then (s5 + 10)%Q else s5] => destruct bonus
  end;
    match goal with
    | |- context [Qltb 0 ?m] =>
        assert (E : Qltb 0 m = true) by reflexivity; rewrite E
    end;
    (split; [apply Qle_shift_div_l|apply Qle_shift_div_r]); lra.
Qed.

Lemma liquid_weight_nonneg (foods : list Food) (acc : Q) :
  Forall (fun food => (0 <= FoodModel.serving_size food)%Q) foods ->
  (0 <= acc)%Q ->
  (0 <= fold_left
          (fun liquid_weight food =>
             let food_name := Text.lower (FoodModel.food_name food) in
             if Text.any_in ["juice"; "drink"; "beverage"; "milk"; "water"] food_name
             then (liquid_weight + FoodModel.serving_size food)%Q
             else if Text.contains "soup" food_name
             then (liquid_weight + FoodModel.serving_size food * (7 # 10))%Q
             else liquid_weight)
          foods acc)%Q.
Proof.
  intros Hf. revert acc. induction Hf as [|food foods Hs _ IH]; intros acc Hacc;
    cbn [fold_left]; [exact Hacc|].
  apply IH. cbv zeta.
  destruct (Text.any_in _ _); [lra|]. destruct (Text.contains _ _); lra.
Qed.

(** X28.  The fitness scores are normalized.  For foods without negative
    serving sizes the liquid percentage of the nutrition analysis is not
    negative, and the fitness of each of the six categories lies between
    0 and 1. *)
Theorem category_fitness_normalized (foods : list Food)
  (Hserving : Forall (fun food => (0 <= FoodModel.serving_size food)%Q) foods) :
  (0 <= MealCategorizer.liquid_percentage
          (MealCategorizer._analyze_meal_nutrition foods))%Q /\
  List.map fst (MealCategorizer._evaluate_category_fitness
                  (MealCategorizer._analyze_meal_nutrition foods))
  = [BEVERAGE; DAIRY_BEVERAGE; FOOD; DAIRY_FOOD; CHEESE; OILS_AND_SPREADS] /\
  Forall (fun entry => (0 <= snd entry <= 1)%Q)
         (MealCategorizer._evaluate_category_fitness
            (MealCategorizer._analyze_meal_nutrition foods)).
Proof.
  assert (Hliq : (0 <= MealCategorizer.liquid_percentage
                         (MealCategorizer._analyze_meal_nutrition foods))%Q).
  { unfold MealCategorizer._analyze_meal_nutrition. cbv zeta.
    destruct (Qeq_bool _ 0) eqn:E; [cbn; lra|].
    cbn [MealCategorizer.liquid_percentage].
    unfold MealCategorizer._calculate_liquid_percentage. cbv zeta. rewrite E.
    pose proof (liquid_weight_nonneg foods 0 Hserving ltac:(lra)) as Hl.
    cbv zeta in Hl.
    assert (Hw : (0 <= Qsum (List.map FoodModel.serving_size foods))%Q).
    { apply Qsum_nonneg. apply Forall_map. exact Hserving. }
    assert (Hpos : (0 < Qsum (List.map FoodModel.serving_size foods))%Q).
    { apply Qle_lteq in Hw as [Hw|Hw]; [exact Hw|].
      exfalso. symmetry in Hw. apply Qeq_bool_iff in Hw. congruence. }
    apply Qle_shift_div_l; [exact Hpos|]. lra. }
  split; [exact Hliq|]. split; [reflexivity|].
  unfold MealCategorizer._evaluate_category_fitness,
    MealCategorizer.CATEGORY_NUTRITIONAL_PROFILES.
  cbn [List.map].
  repeat (apply List.Forall_cons;
          [cbn [snd]; apply fitness_score_range;
           [exact Hliq
           |cbn [MealCategorizer.liquid_percentage_min]; intros lmin Hl;
            first [discriminate Hl | injection Hl as <-; reflexivity]]|]).
  apply List.Forall_nil.
Qed.

Lemma category_fitness_normalized_witness :
  (0 <= MealCategorizer.liquid_percentage
          (MealCategorizer._analyze_meal_nutrition protein_drinks))%Q /\
  List.map fst (MealCategorizer._evaluate_category_fitness
                  (MealCategorizer._analyze_meal_nutrition protein_drinks))
  = [BEVERAGE; DAIRY_BEVERAGE; FOOD; DAIRY_FOOD; CHEESE; OILS_AND_SPREADS] /\
  Forall (fun entry => (0 <= snd entry <= 1)%Q)
         (MealCategorizer._evaluate_category_fitness
            (MealCategorizer._analyze_meal_nutrition protein_drinks)).
Proof.
  apply (category_fitness_normalized protein_drinks).
  repeat (apply List.Forall_cons; [vm_compute; discriminate|]).
  apply List.Forall_nil.
Defined.

(** ** Alternative categories *)

Lemma insert_alternative_spec
  (x : Category * Q * string) (l : list (Category * Q * string)) :
  (forall y, In y (MealCategorizer.insert_alternative x l) <-> y = x \/ In y l) /\
  length (MealCategorizer.insert_alternative x l) = S (length l) /\
  (StronglySorted (fun a b => (snd (fst b) <= snd (fst a))%Q) l ->
   StronglySorted (fun a b => (snd (fst b) <= snd (fst a))%Q)
                  (MealCategorizer.insert_alternative x l)).
Proof.
  induction l as [|z l (IH1 & IH2 & IH3)];
    cbn [MealCategorizer.insert_alternative In length].
  - split; [intuition congruence|]. split; [reflexivity|].
    intros _. constructor; constructor.
  - destruct (Qltb (snd (fst z)) (snd (fst x))) eqn:E; cbn [In length].
    + split; [intuition congruence|]. split; [reflexivity|].
      intros Hs. apply Qltb_lt in E. constructor; [exact Hs|].
      apply StronglySorted_inv in Hs as [_ Hz].
      constructor; [lra|].
      eapply Forall_impl; [exact Hz|]. intros b Hb. cbv beta in *. lra.
    + split; [intros y; rewrite IH1; intuition congruence|].
      split; [rewrite IH2; reflexivity|].
      intros Hs. apply Qltb_ge in E.
      apply StronglySorted_inv in Hs as [Hl Hz].
      constructor; [apply IH3, Hl|].
      apply List.Forall_forall. intros b Hb. apply IH1 in Hb.
      destruct Hb as [->|Hb]; [exact E|].
      rewrite List.Forall_forall in Hz. apply Hz, Hb.
Qed.

Lemma sorted_alternatives_spec (items : list (Category * Q * string)) :
  (forall y, In y (MealCategorizer.sorted_alternatives items) <-> In y items) /\
  length (MealCategorizer.sorted_alternatives items) = length items /\
  StronglySorted (fun a b => (snd (fst b) <= snd (fst a))%Q)
                 (MealCategorizer.sorted_alternatives items).
Proof.
  unfold MealCategorizer.sorted_alternatives.
  assert (G : forall acc,
             StronglySorted (fun a b => (snd (fst b) <= snd (fst a))%Q) acc ->
             (forall y,
                In y (fold_left (fun acc x => MealCategorizer.insert_alternative x acc)
                                items acc)
                <-> In y items \/ In y acc) /\
             length (fold_left (fun acc x => MealCategorizer.insert_alternative x acc)
                               items acc)
             = (length items + length acc)%nat /\
             StronglySorted (fun a b => (snd (fst b) <= snd (fst a))%Q)
               (fold_left (fun acc x => MealCategorizer.insert_alternative x acc)
                          items acc)).
  { induction items as [|x items IH]; intros acc Hacc; cbn [fold_left In length].
    - split; [tauto|]. split; [reflexivity|exact Hacc].
    - destruct (insert_alternative_spec x acc) as (I1 & I2 & I3).
      destruct (IH _ (I3 Hacc)) as (G1 & G2 & G3).
      split; [intros y; rewrite G1, I1; intuition congruence|].
      split; [rewrite G2, I2; lia|exact G3]. }
  destruct (G [] ltac:(constructor)) as (G1 & G2 & G3).
  split; [intros y; rewrite G1; cbn [In]; tauto|].
  split; [rewrite G2; cbn [length]; lia|exact G3].
Qed.

(** X29.  The alternative categories offered with a recommendation are
    exactly the other categories whose fitness is at least 0.5, each
    once, ordered by descending fitness; there are at most five. *)
Theorem scientific_alternatives
  (recommended : Category) (nutrition : MealCategorizer.Nutrition) :
  (forall category score,
     (exists text,
        In (category, score, text)
           (MealCategorizer._identify_scientific_alternatives
              recommended (MealCategorizer._evaluate_category_fitness nutrition)))
     <-> category <> recommended
         /\ score = MealCategorizer.fitness_of
                      (MealCategorizer._evaluate_category_fitness nutrition) category
         /\ (5 # 10 <= score)%Q) /\
  List.NoDup
    (List.map (fun a => fst (fst a))
       (MealCategorizer._identify_scientific_alternatives
          recommended (MealCategorizer._evaluate_category_fitness nutrition))) /\
  StronglySorted (fun a b => (snd (fst b) <= snd (fst a))%Q)
    (MealCategorizer._identify_scientific_alternatives
       recommended (MealCategorizer._evaluate_category_fitness nutrition)) /\
  (length (MealCategorizer._identify_scientific_alternatives
             recommended (MealCategorizer._evaluate_category_fitness nutrition))
   <= 5)%nat.
Proof.
  unfold MealCategorizer._identify_scientific_alternatives. cbv zeta.
  set (cf := MealCategorizer._evaluate_category_fitness nutrition).
  set (alternatives := flat_map _ cf).
  destruct (sorted_alternatives_spec alternatives) as (S1 & S2 & S3).
  assert (Hin : forall category score,
             (exists text, In (category, score, text) alternatives)
             <-> category <> recommended
                 /\ score = MealCategorizer.fitness_of cf category
                 /\ (5 # 10 <= score)%Q).
  { intros category score. split.
    - intros (text & H). subst alternatives. apply List.in_flat_map in H.
      destruct H as ([c s] & Hcf & H).
      destruct (negb (Category_eqb c recommended) && Qle_bool (5 # 10) s) eqn:E;
        [|destruct H].
      cbv zeta in H. destruct H as [H|[]]. injection H as -> -> _.
      apply andb_true_iff in E as [E1 E2]. apply negb_true_iff in E1.
      split; [intros ->; rewrite Category_eqb_refl in E1; discriminate|].
      split; [symmetry; apply fitness_of_In; exact Hcf|].
      apply Qle_bool_iff. exact E2.
    - intros (Hne & -> & Hs). eexists. subst alternatives.
      apply List.in_flat_map.
      exists (category, MealCategorizer.fitness_of cf category).
      split; [apply fitness_of_present|].
      assert (E1 : Category_eqb category recommended = false).
      { destruct (Category_eqb category recommended) eqn:E; [|reflexivity].
        apply Category_eqb_eq in E. contradiction. }
      apply Qle_bool_iff in Hs. rewrite E1, Hs. cbn [negb andb]. cbv zeta.
      left. reflexivity. }
  assert (Hshape : List.NoDup (List.map (fun a => fst (fst a)) alternatives)
                   /\ (length alternatives <= 5)%nat).
  { subst alternatives cf.
    unfold MealCategorizer._evaluate_category_fitness,
      MealCategorizer.CATEGORY_NUTRITIONAL_PROFILES.
    cbn [List.map flat_map]. cbv zeta.
    destruct recommended; cbn [Category_eqb negb andb app];
      repeat match goal with
             | |- context [Qle_bool ?a ?b] => destruct (Qle_bool a b)
             end;
      cbn [app List.map fst length];
      (split; [repeat (constructor; [cbn [In]; intuition discriminate|]);
               constructor
              |lia]). }
  destruct Hshape as [Hnd Hlen].
  split; [|split; [|split]].
  - intros category score. rewrite <- Hin. split; intros (text & H); exists text;
      apply S1; exact H.
  - clear - Hnd S1 S2.
    set (sorted := MealCategorizer.sorted_alternatives alternatives) in *.
    apply (List.NoDup_map_inv (fun a => fst (fst a))) in Hnd as Hnd0.
    assert (Hp : Permutation alternatives sorted).
    { apply NoDup_Permutation_bis.
      - exact Hnd0.
      - rewrite S2. lia.
      - intros x Hx. apply S1. exact Hx. }
    eapply Permutation_NoDup; [apply Permutation_map; exact Hp|exact Hnd].
  - exact S3.
  - rewrite S2. exact Hlen.
Qed.

(** ** The score as a function of the nutritional values *)

Lemma points_mono (t : list pyfloat) (v1 v2 : Q) :
  (v1 <= v2)%Q ->
  _get_points_by_thresholds (Fin v1) t <= _get_points_by_thresholds (Fin v2) t.
Proof.
  intros Hv. destruct t as [|t0 t]; [reflexivity|].
  unfold _get_points_by_thresholds.
  destruct (feq t0 PosInf); [lia|].
  unfold bisect.bisect_left.
  assert (Hfle : fle (Fin v1) (Fin v2) = true) by (apply Qle_bool_iff; exact Hv).
  pose proof (loop_mono (t0 :: t) (Fin v1) (Fin v2) (length (t0 :: t)) 0%nat
                (length (t0 :: t)) Hfle ltac:(lia)).
  lia.
Qed.

Lemma stars_antitone (score1 score2 : Z) :
  score1 <= score2 ->
  (_convert_to_star_rating score2 <= _convert_to_star_rating score1)%Q.
Proof.
  intros H. unfold _convert_to_star_rating.
  repeat match goal with
         | |- context [?a <=? ?b] => destruct (Z.leb_spec a b)
         end;
    try lia; Qclosed.
Qed.

(** The points and adjustments of a calculator on a meal with the values
    [v]. *)
Lemma components_with_values
  (self self' : Self) (v : MealModel.NutritionalValues) (cs : HSRComponentScore) :
  Qeq_bool (satiety_index (nutritional_context self)) 0 = false ->
  _calculate_components (with_values v self) = Some (cs, self') ->
  energy_points cs
  = _get_points_by_thresholds
      (Fin (MealModel.energy_kilocalories v
            / satiety_index (nutritional_context self)))
      (List.map of_int (energy_density (thresholds self))) /\
  saturated_fat_points cs
  = _get_points_by_thresholds
      (Fin (MealModel.fatty_acids_saturated_total v))
      (List.map of_int (saturated_fat (thresholds self))) /\
  sodium_points cs
  = _get_points_by_thresholds
      (Fin (MealModel.sodium v)) (List.map of_int (sodium (thresholds self))) /\
  protein_points cs
  = _get_points_by_thresholds
      (Fin (MealModel.protein v * protein_quality_score (nutritional_context self)))
      (List.map of_int (protein (thresholds self))) /\
  fiber_points cs
  = match MealModel.category (meal self) with
    | Some BEVERAGE | Some DAIRY_BEVERAGE => 0
    | _ => _get_points_by_thresholds
             (Fin (MealModel.fibre_total_dietary v)) (fiber (thresholds self))
    end /\
  fvnl_points cs
  = _get_points_by_thresholds
      (Fin (MealModel.fvnl_percent v * fvnl_naturalness (nutritional_context self)))
      (List.map of_int (fvnl (thresholds self))) /\
  _calculate_satiety_adjustment self = Some (satiety_adjustment cs, self) /\
  _calculate_processing_penalty self = Some (processing_penalty cs, self) /\
  _calculate_naturalness_bonus self = Some (naturalness_bonus cs, self).
Proof.
  intros Hsat H.
  assert (Hv : MealModel.values (meal (with_values v self)) = Some v)
    by reflexivity.
  apply components_parts in H
    as (_ & He & Hsf & Hso & Hp & Hfi & Hfv & Hsa & Hpp & Hnb & _).
  split; [|split; [|split; [|split; [|split; [|split; [|split; [|split]]]]]]].
  - unfold _get_energy_points in He. revert He. run_method Hv.
    cbn [nutritional_context with_values thresholds]. rewrite Hsat.
    run_method Hv. cbn [thresholds with_values].
    intros He. injection He as <-. reflexivity.
  - unfold _get_saturated_fat_points in Hsf. revert Hsf. run_method Hv.
    intros Hsf. injection Hsf as <-. reflexivity.
  - unfold _get_sodium_points in Hso. revert Hso. run_method Hv.
    intros Hso. injection Hso as <-. reflexivity.
  - unfold _get_protein_points in Hp. revert Hp. run_method Hv.
    intros Hp. injection Hp as <-. reflexivity.
  - unfold _get_fiber_points in Hfi. rewrite bind_gets in Hfi.
    cbn [meal with_values MealModel.category MealModel.set_values] in Hfi.
    destruct (MealModel.category (meal self)) as [[]|];
      try (revert Hfi; run_method Hv; intros Hfi; injection Hfi as <-; reflexivity);
      injection Hfi as <-; reflexivity.
  - unfold _get_fvnl_points in Hfv. revert Hfv. run_method Hv.
    intros Hfv. injection Hfv as <-. reflexivity.
  - revert Hsa. unfold _calculate_satiety_adjustment. rewrite !bind_gets.
    cbn [config with_values nutritional_context].
    destruct (negb _); [|rewrite !bind_gets]; unfold ret;
      intros Hsa; injection Hsa as <-; reflexivity.
  - revert Hpp. unfold _calculate_processing_penalty. rewrite !bind_gets.
    cbn [config with_values nutritional_context].
    destruct (negb _); [|rewrite !bind_gets]; unfold ret;
      intros Hpp; injection Hpp as <-; reflexivity.
  - revert Hnb. unfold _calculate_naturalness_bonus. cbv zeta.
    rewrite !bind_gets. unfold ret.
    cbn [with_values nutritional_context sugar_analysis].
    intros Hnb. injection Hnb as <-. reflexivity.
Qed.

(** X30.  The score of a calculator is monotone in the nutritional values
    of its meal.  With the context, the thresholds and the sugar analysis
    of the calculator unchanged, a positive satiety index and protein
    quality and naturalness factors that are not negative, a meal with no
    less energy, saturated fat and sodium and no more protein, fiber and
    fruit and vegetable content has no fewer baseline points, no more
    modifying points, no lower final score and no more stars. *)
Theorem score_monotone_in_values
  (self self1 self2 : Self) (v1 v2 : MealModel.NutritionalValues)
  (cs1 cs2 : HSRComponentScore)
  (Hsatiety : (0 < satiety_index (nutritional_context self))%Q)
  (Hquality : (0 <= protein_quality_score (nutritional_context self))%Q)
  (Hnaturalness : (0 <= fvnl_naturalness (nutritional_context self))%Q)
  (Henergy : (MealModel.energy_kilocalories v1 <= MealModel.energy_kilocalories v2)%Q)
  (Hfat : (MealModel.fatty_acids_saturated_total v1
           <= MealModel.fatty_acids_saturated_total v2)%Q)
  (Hsodium : (MealModel.sodium v1 <= MealModel.sodium v2)%Q)
  (Hprotein : (MealModel.protein v2 <= MealModel.protein v1)%Q)
  (Hfiber : (MealModel.fibre_total_dietary v2 <= MealModel.fibre_total_dietary v1)%Q)
  (Hfvnl : (MealModel.fvnl_percent v2 <= MealModel.fvnl_percent v1)%Q)
  (Hfirst : _calculate_components (with_values v1 self) = Some (cs1, self1))
  (Hsecond : _calculate_components (with_values v2 self) = Some (cs2, self2)) :
  baseline_points cs1 <= baseline_points cs2 /\
  modifying_points cs2 <= modifying_points cs1 /\
  final_score cs1 <= final_score cs2 /\
  (star_rating cs2 <= star_rating cs1)%Q.
Proof.
  assert (Hsat : Qeq_bool (satiety_index (nutritional_context self)) 0 = false)
    by (apply Qeq_bool_false_pos; exact Hsatiety).
  destruct (components_with_values _ _ _ _ Hsat Hfirst)
    as (E1 & F1 & S1 & P1 & Fi1 & V1 & A1 & Pn1 & N1).
  destruct (components_with_values _ _ _ _ Hsat Hsecond)
    as (E2 & F2 & S2 & P2 & Fi2 & V2 & A2 & Pn2 & N2).
  destruct (components_inv _ _ _ Hfirst) as (Sn1 & Sa1 & Sp1 & B1 & M1 & Fs1 & St1).
  destruct (components_inv _ _ _ Hsecond) as (Sn2 & Sa2 & Sp2 & B2 & M2 & Fs2 & St2).
  cbn [with_values sugar_analysis thresholds] in Sn1, Sn2, Sa1, Sa2.
  assert (Hsugar : sugar_points cs1 = sugar_points cs2)
    by (rewrite Sp1, Sp2, Sn1, Sn2, Sa1, Sa2; reflexivity).
  assert (Hadj : satiety_adjustment cs1 = satiety_adjustment cs2
                 /\ processing_penalty cs1 = processing_penalty cs2
                 /\ naturalness_bonus cs1 = naturalness_bonus cs2).
  { rewrite A1 in A2. rewrite Pn1 in Pn2. rewrite N1 in N2.
    injection A2 as A2. injection Pn2 as Pn2. injection N2 as N2. auto. }
  destruct Hadj as (Ha & Hp & Hn).
  assert (He : energy_points cs1 <= energy_points cs2).
  { rewrite E1, E2. apply points_mono.
    assert (Hi : (0 < / satiety_index (nutritional_context self))%Q)
      by (apply Qinv_lt_0_compat; exact Hsatiety).
    unfold Qdiv. apply Qmult_le_compat_r; [exact Henergy|lra]. }
  assert (Hf : saturated_fat_points cs1 <= saturated_fat_points cs2)
    by (rewrite F1, F2; apply points_mono; exact Hfat).
  assert (Hs : sodium_points cs1 <= sodium_points cs2)
    by (rewrite S1, S2; apply points_mono; exact Hsodium).
  assert (Hpr : protein_points cs2 <= protein_points cs1).
  { rewrite P1, P2. apply points_mono.
    apply Qmult_le_compat_r; [exact Hprotein|exact Hquality]. }
  assert (Hfi : fiber_points cs2 <= fiber_points cs1).
  { rewrite Fi1, Fi2.
    destruct (MealModel.category (meal self)) as [[]|];
      first [lia | apply points_mono; exact Hfiber]. }
  assert (Hfv : fvnl_points cs2 <= fvnl_points cs1).
  { rewrite V1, V2. apply points_mono.
    apply Qmult_le_compat_r; [exact Hfvnl|exact Hnaturalness]. }
  assert (Hb : baseline_points cs1 <= baseline_points cs2) by lia.
  assert (Hm : modifying_points cs2 <= modifying_points cs1) by lia.
  assert (Hscore : final_score cs1 <= final_score cs2).
  { rewrite Fs1, Fs2, Ha, Hp, Hn.
    apply Z.max_le_compat_l. apply py_int_mono.
    assert (Hbase : (inject_Z (Z.max 0 (baseline_points cs1 - modifying_points cs1))
                     <= inject_Z (Z.max 0 (baseline_points cs2
                                           - modifying_points cs2)))%Q)
      by (rewrite <- Zle_Qle; lia).
    lra. }
  split; [exact Hb|]. split; [exact Hm|]. split; [exact Hscore|].
  rewrite St1, St2. apply stars_antitone. exact Hscore.
Qed.

Lemma score_monotone_in_values_witness :
  exists cs1 cs2,
    _calculate_components (with_values (example_values 70) example_calculator)
    = Some (cs1, with_values (example_values 70) example_calculator) /\
    _calculate_components (with_values (example_values 900) example_calculator)
    = Some (cs2, with_values (example_values 900) example_calculator) /\
    baseline_points cs1 <= baseline_points cs2 /\
    modifying_points cs2 <= modifying_points cs1 /\
    final_score cs1 <= final_score cs2 /\
    (star_rating cs2 <= star_rating cs1)%Q.
Proof.
  assert (Hwf : forall sodium,
             well_formed (with_values (example_values sodium) example_calculator)).
  { intros sodium. split; [eexists; reflexivity|].
    split; [|reflexivity].
    apply (new_nonempty_attributes [chicken_breast] None). discriminate. }
  destruct (succeeds_components _ (Hwf 70%Q)) as [cs1 H1].
  destruct (succeeds_components _ (Hwf 900%Q)) as [cs2 H2].
  exists cs1, cs2. split; [exact H1|]. split; [exact H2|].
  apply (score_monotone_in_values
           example_calculator
           (with_values (example_values 70) example_calculator)
           (with_values (example_values 900) example_calculator)
           (example_values 70) (example_values 900) cs1 cs2);
    first [exact H1 | exact H2 | cbn; lra].
Defined.
